(** * pstore: the RAM-backed persistent log store of linux-6.1.20

    A shallow embedding of
      - fs/pstore/ram_core.c  (the persistent ring-buffer zone and its ECC),
      - fs/pstore/ram.c       (the ramoops backend: zone carving, writes,
                               reads and erasure),
      - fs/pstore/platform.c  (backend registration and the crash dump hook,
                               the console frontend),
      - fs/pstore/ftrace.c, fs/pstore/inode.c, fs/pstore/pmsg.c and
        include/linux/pstore.h (function-trace records, the pmsg device),
    followed by the properties proved about them.

    Conventions of the embedding.
      - C integers are [Z]; every conversion between [int], [unsigned int]
        and [size_t] that the sources perform is written out with [to_int],
        [to_uint] and [to_size_t].
      - A byte ([uint8_t], [char]) is a [Z] in 0..255; a C buffer is the list
        of its bytes, a pointer into a buffer is the list of bytes at and
        after it, so [p += k] is [zdrop k p].
      - A function whose C body contains a [while] loop takes a [fuel]
        argument and returns [option]: [None] means that the loop did not
        finish within the fuel, or that the C code would dereference NULL
        (a missing [rs_decoder], [psinfo] or callback), index a zone
        array out of its bounds, write past the end of an allocated block
        or divide by zero.
      - In platform.c and in [ramoops_pstore_read], [kmalloc] is a function
        of the environment: it hands out the block as the allocator leaves
        it (the bytes are whatever the memory held) or NULL.  Elsewhere
        allocations are taken to succeed, as said at the functions
        concerned.
      - Spin locks and interrupt flags are not represented in the zone
        operations: the embedding is the sequential behaviour of one caller.
*)

From Stdlib Require Import ZArith Lia Bool String Ascii Sorted.
From stdpp Require Import base list strings pretty.

Local Open Scope Z_scope.

(* ------------------------------------------------------------------ *)
(** ** Machine integers *)

Definition INT_MAX : Z := 2147483647.

(** Conversion to [unsigned int] (32 bits). *)
Definition to_uint (x : Z) : Z := x mod 2 ^ 32.

(** Conversion to [int] (32 bits, two's complement). *)
Definition to_int (x : Z) : Z := (x + 2 ^ 31) mod 2 ^ 32 - 2 ^ 31.

(** Conversion to [size_t] / [unsigned long] / [phys_addr_t] (64 bits). *)
Definition to_size_t (x : Z) : Z := x mod 2 ^ 64.

(** errno values (include/uapi/asm-generic/errno-base.h). *)
Definition EPERM : Z := 1.
Definition ENOMEM : Z := 12.
Definition EFAULT : Z := 14.
Definition EBUSY : Z := 16.
Definition EINVAL : Z := 22.
Definition ENOSPC : Z := 28.

(* ------------------------------------------------------------------ *)
(** ** Buffers *)

Definition zlen {A} (l : list A) : Z := Z.of_nat (length l).
Definition ztake {A} (n : Z) (l : list A) : list A := take (Z.to_nat n) l.
Definition zdrop {A} (n : Z) (l : list A) : list A := drop (Z.to_nat n) l.

(** [memcpy(dst + off, src, n)]: the first [n] bytes of [src] overwrite
    [dst] from offset [off].  Bytes that would land past the end of [dst]
    are not represented. *)
Definition memcpy_at (dst : list Z) (off : Z) (src : list Z) (n : Z) : list Z :=
  list_inserts (Z.to_nat off) (ztake n src) dst.

(** The four bytes of a 32-bit word, least significant first. *)
Definition le32 (x : Z) : list Z :=
  [x mod 256; (x / 256) mod 256; (x / 65536) mod 256; (x / 16777216) mod 256].

Definition of_le32 (l : list Z) : Z :=
  match l with
  | b0 :: b1 :: b2 :: b3 :: _ => b0 + 256 * b1 + 65536 * b2 + 16777216 * b3
  | _ => 0
  end.

Notation "'do' x <- m ; k" :=
  (match m with Some x => k | None => None end)
  (at level 10, x name, m at level 100, k at level 200).

(* ------------------------------------------------------------------ *)
(** ** ram_core.c: the zone *)

(** [struct persistent_ram_ecc_info] (four [int] fields); the scratch array
    [par] is local to each encode/decode call in the embedding. *)
Record persistent_ram_ecc_info := mk_ecc_info {
  block_size : Z;
  ecc_size : Z;
  symsize : Z;
  poly : Z
}.

(** [struct rs_control] of lib/reed_solomon, seen through the two entry
    points ram_core.c calls.  [encode_rs8 data par] returns the parity
    symbols; [decode_rs8 data par] returns the number of corrected symbols
    (negative when uncorrectable) and the data after in-place correction. *)
Record rs_control := mk_rs_control {
  encode_rs8 : list Z -> list Z -> list Z;
  decode_rs8 : list Z -> list Z -> Z * list Z
}.

(** [struct persistent_ram_buffer]: the header and the flexible array
    [data], which spans the data area and the parity area behind it. *)
Record persistent_ram_buffer := mk_buffer {
  b_sig : Z;
  b_start : Z;
  b_size : Z;
  b_data : list Z
}.

(** [struct persistent_ram_zone].  [prz_par_buffer] and [prz_par_header]
    are offsets into [b_data]. *)
Record persistent_ram_zone := mk_zone {
  prz_paddr : Z;
  prz_size : Z;
  prz_label : string;
  prz_type : Z;
  prz_flags : Z;
  prz_buffer : persistent_ram_buffer;
  prz_buffer_size : Z;
  prz_par_buffer : Z;
  prz_par_header : Z;
  prz_rs_decoder : option rs_control;
  prz_corrected_bytes : Z;
  prz_bad_blocks : Z;
  prz_ecc_info : persistent_ram_ecc_info;
  prz_old_log : option (list Z);
  prz_old_log_size : Z
}.

Definition set_buffer (prz : persistent_ram_zone) (b : persistent_ram_buffer) :=
  mk_zone (prz_paddr prz) (prz_size prz) (prz_label prz) (prz_type prz)
    (prz_flags prz) b (prz_buffer_size prz) (prz_par_buffer prz)
    (prz_par_header prz) (prz_rs_decoder prz) (prz_corrected_bytes prz)
    (prz_bad_blocks prz) (prz_ecc_info prz) (prz_old_log prz)
    (prz_old_log_size prz).

Definition set_start (prz : persistent_ram_zone) (v : Z) :=
  let b := prz_buffer prz in
  set_buffer prz (mk_buffer (b_sig b) v (b_size b) (b_data b)).

Definition set_size (prz : persistent_ram_zone) (v : Z) :=
  let b := prz_buffer prz in
  set_buffer prz (mk_buffer (b_sig b) (b_start b) v (b_data b)).

Definition set_sig (prz : persistent_ram_zone) (v : Z) :=
  let b := prz_buffer prz in
  set_buffer prz (mk_buffer v (b_start b) (b_size b) (b_data b)).

Definition set_data (prz : persistent_ram_zone) (d : list Z) :=
  let b := prz_buffer prz in
  set_buffer prz (mk_buffer (b_sig b) (b_start b) (b_size b) d).

Definition set_old (prz : persistent_ram_zone) (l : option (list Z)) (n : Z) :=
  mk_zone (prz_paddr prz) (prz_size prz) (prz_label prz) (prz_type prz)
    (prz_flags prz) (prz_buffer prz) (prz_buffer_size prz) (prz_par_buffer prz)
    (prz_par_header prz) (prz_rs_decoder prz) (prz_corrected_bytes prz)
    (prz_bad_blocks prz) (prz_ecc_info prz) l n.

Definition set_counters (prz : persistent_ram_zone) (corrected bad : Z) :=
  mk_zone (prz_paddr prz) (prz_size prz) (prz_label prz) (prz_type prz)
    (prz_flags prz) (prz_buffer prz) (prz_buffer_size prz) (prz_par_buffer prz)
    (prz_par_header prz) (prz_rs_decoder prz) corrected bad
    (prz_ecc_info prz) (prz_old_log prz) (prz_old_log_size prz).

Definition set_type (prz : persistent_ram_zone) (t : Z) :=
  mk_zone (prz_paddr prz) (prz_size prz) (prz_label prz) t
    (prz_flags prz) (prz_buffer prz) (prz_buffer_size prz) (prz_par_buffer prz)
    (prz_par_header prz) (prz_rs_decoder prz) (prz_corrected_bytes prz)
    (prz_bad_blocks prz) (prz_ecc_info prz) (prz_old_log prz)
    (prz_old_log_size prz).

(** [sizeof(struct persistent_ram_buffer)]: three 32-bit words. *)
Definition sizeof_buffer : Z := 12.

Definition PERSISTENT_RAM_SIG : Z := 0x43474244.

(** [buffer_size(prz)]: [atomic_read] yields an [int], returned as [size_t]. *)
Definition buffer_size (prz : persistent_ram_zone) : Z :=
  to_size_t (b_size (prz_buffer prz)).

(** [buffer_start(prz)]. *)
Definition buffer_start (prz : persistent_ram_zone) : Z :=
  to_size_t (b_start (prz_buffer prz)).

(** The loop [while (new >= prz->buffer_size) new -= prz->buffer_size] of
    [buffer_start_add]; [new] is an [int] compared and subtracted as
    [size_t]. *)
Fixpoint start_wrap (fuel : nat) (new bs : Z) : option Z :=
  if bs <=? to_size_t new then
    match fuel with
    | O => None
    | S f => start_wrap f (to_int (to_size_t (to_size_t new - bs))) bs
    end
  else Some new.

(** [buffer_start_add]: increase and wrap the start pointer, returning the
    old value. *)
Definition buffer_start_add (fuel : nat) (prz : persistent_ram_zone) (a : Z)
  : option (persistent_ram_zone * Z) :=
  let old := b_start (prz_buffer prz) in
  let new := to_int (to_size_t (to_size_t old + a)) in
  do new' <- start_wrap fuel new (prz_buffer_size prz);
  Some (set_start prz new', to_size_t old).

(** [buffer_size_add]: increase the size counter until it hits the max
    size. *)
Definition buffer_size_add (prz : persistent_ram_zone) (a : Z)
  : persistent_ram_zone :=
  let old := to_size_t (b_size (prz_buffer prz)) in
  if old =? prz_buffer_size prz then prz
  else
    let new := to_size_t (old + a) in
    let new := if prz_buffer_size prz <? new then prz_buffer_size prz else new in
    set_size prz (to_int new).

(** [persistent_ram_encode_rs8]: the parity bytes of [len] bytes of [data].
    The C function stores them through its [ecc] argument; here they are
    returned and the caller stores them. *)
Definition persistent_ram_encode_rs8 (prz : persistent_ram_zone)
    (data : list Z) (len : Z) : option (list Z) :=
  do rs <- prz_rs_decoder prz;
  let n := ecc_size (prz_ecc_info prz) in
  let par := encode_rs8 rs (ztake len data) (replicate (Z.to_nat n) 0) in
  Some (map (fun p => p mod 256) (ztake n par)).

(** [persistent_ram_decode_rs8]: number of errors and corrected data. *)
Definition persistent_ram_decode_rs8 (prz : persistent_ram_zone)
    (data : list Z) (len : Z) (ecc : list Z) : option (Z * list Z) :=
  do rs <- prz_rs_decoder prz;
  let n := ecc_size (prz_ecc_info prz) in
  Some (decode_rs8 rs (ztake len data) (ztake n ecc)).

(** The [do ... while] loop of [persistent_ram_update_ecc]; [block] and
    [par] are offsets into [b_data], [lim] is [start + count]. *)
Fixpoint update_ecc_loop (fuel : nat) (prz : persistent_ram_zone)
    (block par size lim : Z) : option persistent_ram_zone :=
  match fuel with
  | O => None
  | S f =>
    let ecc_block_size := block_size (prz_ecc_info prz) in
    let ecc_sz := ecc_size (prz_ecc_info prz) in
    let buffer_end := prz_buffer_size prz in
    let size :=
      if buffer_end <? block + ecc_block_size then to_int (buffer_end - block)
      else size in
    let data := b_data (prz_buffer prz) in
    do ecc <- persistent_ram_encode_rs8 prz (zdrop block data) (to_size_t size);
    let prz' := set_data prz (memcpy_at data par ecc ecc_sz) in
    let block := block + ecc_block_size in
    let par := par + ecc_sz in
    if block <? lim then update_ecc_loop f prz' block par size lim
    else Some prz'
  end.

(** [persistent_ram_update_ecc]. *)
Definition persistent_ram_update_ecc (fuel : nat) (prz : persistent_ram_zone)
    (start count : Z) : option persistent_ram_zone :=
  let ecc_block_size := block_size (prz_ecc_info prz) in
  let ecc_sz := ecc_size (prz_ecc_info prz) in
  if ecc_sz =? 0 then Some prz
  else
    let block := Z.land start (to_uint (Z.lnot (ecc_block_size - 1))) in
    let par := prz_par_buffer prz
               + to_uint (start / to_uint ecc_block_size * to_uint ecc_sz) in
    update_ecc_loop fuel prz block par ecc_block_size (start + count).

(** The header as the bytes [persistent_ram_update_header_ecc] encodes. *)
Definition header_bytes (b : persistent_ram_buffer) : list Z :=
  le32 (b_sig b) ++ le32 (b_start b) ++ le32 (b_size b).

(** [persistent_ram_update_header_ecc]. *)
Definition persistent_ram_update_header_ecc (prz : persistent_ram_zone)
  : option persistent_ram_zone :=
  if ecc_size (prz_ecc_info prz) =? 0 then Some prz
  else
    do ecc <- persistent_ram_encode_rs8 prz (header_bytes (prz_buffer prz))
                sizeof_buffer;
    Some (set_data prz (memcpy_at (b_data (prz_buffer prz))
                          (prz_par_header prz) ecc
                          (ecc_size (prz_ecc_info prz)))).

(** [persistent_ram_update]: [memcpy_toio] then the ECC of the touched
    blocks; [start] and [count] are [unsigned int] parameters. *)
Definition persistent_ram_update (fuel : nat) (prz : persistent_ram_zone)
    (s : list Z) (start count : Z) : option persistent_ram_zone :=
  let prz' := set_data prz (memcpy_at (b_data (prz_buffer prz)) start s count) in
  persistent_ram_update_ecc fuel prz' start count.

(** [persistent_ram_write]: [s] is the source pointer, [count] the
    [unsigned int] byte count.  Returns the zone and the return value.
    A count above [INT_MAX] makes [c] negative, and the C code then moves
    [s] backwards, out of the caller's buffer; here the source is then
    empty. *)
Definition persistent_ram_write (fuel : nat) (prz : persistent_ram_zone)
    (s : list Z) (count : Z) : option (persistent_ram_zone * Z) :=
  let c := to_int count in
  let '(s, c) :=
    if prz_buffer_size prz <? to_size_t c
    then (zdrop (to_size_t (to_size_t c - prz_buffer_size prz)) s,
          to_int (prz_buffer_size prz))
    else (s, c) in
  let prz := buffer_size_add prz (to_size_t c) in
  do r <- buffer_start_add fuel prz (to_size_t c);
  let '(prz, start) := r in
  let rem := to_int (to_size_t (prz_buffer_size prz - start)) in
  do r2 <-
    (if rem <? c then
       do prz1 <- persistent_ram_update fuel prz s (to_uint start) (to_uint rem);
       Some (prz1, zdrop rem s, to_int (c - rem), 0)
     else Some (prz, s, c, start));
  let '(prz, s, c, start) := r2 in
  do prz <- persistent_ram_update fuel prz s (to_uint start) (to_uint c);
  do prz <- persistent_ram_update_header_ecc prz;
  Some (prz, to_int count).

(** [persistent_ram_update_user]: as [persistent_ram_update], the bytes
    coming through [copy_from_user].  A user byte is [None] where the
    access faults; bytes are copied up to the first fault, the rest of the
    destination range is zeroed and the result is [-EFAULT]. *)
Fixpoint user_prefix (s : list (option Z)) : list Z :=
  match s with
  | Some b :: s' => b :: user_prefix s'
  | _ => []
  end.

Definition copy_from_user (dst : list Z) (off : Z) (s : list (option Z))
    (n : Z) : list Z * Z :=
  let got := user_prefix (ztake n s) in
  let uncopied := n - zlen got in
  (memcpy_at dst off (got ++ replicate (Z.to_nat uncopied) 0) n, uncopied).

Definition persistent_ram_update_user (fuel : nat) (prz : persistent_ram_zone)
    (s : list (option Z)) (start count : Z)
  : option (persistent_ram_zone * Z) :=
  let '(d, uncopied) :=
    copy_from_user (b_data (prz_buffer prz)) start s count in
  let ret := if uncopied =? 0 then 0 else - EFAULT in
  do prz' <- persistent_ram_update_ecc fuel (set_data prz d) start count;
  Some (prz', ret).

(** [persistent_ram_write_user]. *)
Definition persistent_ram_write_user (fuel : nat) (prz : persistent_ram_zone)
    (s : list (option Z)) (count : Z) : option (persistent_ram_zone * Z) :=
  let c := to_int count in
  let '(s, c) :=
    if prz_buffer_size prz <? to_size_t c
    then (zdrop (to_size_t (to_size_t c - prz_buffer_size prz)) s,
          to_int (prz_buffer_size prz))
    else (s, c) in
  let prz := buffer_size_add prz (to_size_t c) in
  do r <- buffer_start_add fuel prz (to_size_t c);
  let '(prz, start) := r in
  let rem := to_int (to_size_t (prz_buffer_size prz - start)) in
  do r2 <-
    (if rem <? c then
       do r1 <- persistent_ram_update_user fuel prz s (to_uint start) (to_uint rem);
       Some (fst r1, snd r1, zdrop rem s, to_int (c - rem), 0)
     else Some (prz, 0, s, c, start));
  let '(prz, ret, s, c, start) := r2 in
  do r3 <-
    (if ret =? 0 then
       persistent_ram_update_user fuel prz s (to_uint start) (to_uint c)
     else Some (prz, ret));
  let '(prz, ret) := r3 in
  do prz <- persistent_ram_update_header_ecc prz;
  Some (prz, if ret =? 0 then to_int count else ret).

(** The [while] loop of [persistent_ram_ecc_old]: decode every block of the
    live data, counting corrected bytes and uncorrectable blocks. *)
Fixpoint ecc_old_loop (fuel : nat) (prz : persistent_ram_zone)
    (block par : Z) : option persistent_ram_zone :=
  if block <? buffer_size prz then
    match fuel with
    | O => None
    | S f =>
      let bsz := block_size (prz_ecc_info prz) in
      let size :=
        if prz_buffer_size prz <? block + bsz
        then to_int (prz_buffer_size prz - block) else bsz in
      let data := b_data (prz_buffer prz) in
      do r <- persistent_ram_decode_rs8 prz (zdrop block data)
                (to_size_t size) (zdrop par data);
      let '(numerr, fixed) := r in
      let prz := set_data prz (memcpy_at data block fixed (to_size_t size)) in
      let prz :=
        if 0 <? numerr then
          set_counters prz (to_int (prz_corrected_bytes prz + numerr))
            (prz_bad_blocks prz)
        else if numerr <? 0 then
          set_counters prz (prz_corrected_bytes prz)
            (to_int (prz_bad_blocks prz + 1))
        else prz in
      ecc_old_loop f prz (block + bsz) (par + ecc_size (prz_ecc_info prz))
    end
  else Some prz.

(** [persistent_ram_ecc_old]. *)
Definition persistent_ram_ecc_old (fuel : nat) (prz : persistent_ram_zone)
  : option persistent_ram_zone :=
  if ecc_size (prz_ecc_info prz) =? 0 then Some prz
  else ecc_old_loop fuel prz 0 (prz_par_buffer prz).

(** The bytes [persistent_ram_save_old] copies out: from [start] to the end
    of the valid bytes, then from the beginning of the data up to [start]. *)
Definition logical_contents (prz : persistent_ram_zone) : list Z :=
  let size := buffer_size prz in
  let start := buffer_start prz in
  let data := b_data (prz_buffer prz) in
  ztake (to_size_t (size - start)) (zdrop start data) ++ ztake start data.

(** [persistent_ram_save_old].  [kmalloc] is taken to succeed and to return
    a zeroed block; the two [memcpy_fromio] calls then fill it.  When
    [old_log] is already allocated its block is reused as it is, whatever
    its length: the two copies then write [size] bytes through it, which
    has no result when the block is shorter. *)
Definition persistent_ram_save_old (fuel : nat) (prz : persistent_ram_zone)
  : option persistent_ram_zone :=
  let size := buffer_size prz in
  let start := buffer_start prz in
  if size =? 0 then Some prz
  else
    do prz <-
      (match prz_old_log prz with
       | None =>
         do prz <- persistent_ram_ecc_old fuel prz;
         Some (set_old prz (Some (replicate (Z.to_nat size) 0))
                 (prz_old_log_size prz))
       | Some _ => Some prz
       end);
    match prz_old_log prz with
    | None => Some prz
    | Some log =>
      if zlen log <? size then None
      else
        let data := b_data (prz_buffer prz) in
        let log :=
          memcpy_at log 0 (zdrop start data) (to_size_t (size - start)) in
        let log := memcpy_at log (size - start) data start in
        Some (set_old prz (Some log) size)
    end.

Definition persistent_ram_old_size (prz : persistent_ram_zone) : Z :=
  prz_old_log_size prz.

Definition persistent_ram_old (prz : persistent_ram_zone) : option (list Z) :=
  prz_old_log prz.

(** [persistent_ram_free_old]. *)
Definition persistent_ram_free_old (prz : persistent_ram_zone)
  : persistent_ram_zone :=
  set_old prz None 0.

(** [persistent_ram_zap]. *)
Definition persistent_ram_zap (prz : persistent_ram_zone)
  : option persistent_ram_zone :=
  persistent_ram_update_header_ecc (set_size (set_start prz 0) 0).

(** What ram_core.c obtains from the rest of the kernel when a zone is
    set up: [init_rs symsize gfpoly fcr prim nroots] of lib/reed_solomon
    (NULL is [None]), and the mapping made by [persistent_ram_vmap] or
    [persistent_ram_iomap]: [ram_map start size memtype] is the [size]
    bytes found at physical address [start], or [None] when the region
    cannot be mapped.  [kzalloc], [kmalloc_array] and [kstrdup] are taken
    to succeed. *)
Record ram_env := mk_ram_env {
  init_rs : Z -> Z -> Z -> Z -> Z -> option rs_control;
  ram_map : Z -> Z -> Z -> option (list Z)
}.

(** [x ?: y]. *)
Definition elvis (x y : Z) : Z := if x =? 0 then y else x.

(** [DIV_ROUND_UP(n, d)] on [size_t] operands. *)
Definition DIV_ROUND_UP (n d : Z) : Z := to_size_t (to_size_t (n + d) - 1) / d.

Definition set_ecc_info (prz : persistent_ram_zone)
    (e : persistent_ram_ecc_info) :=
  mk_zone (prz_paddr prz) (prz_size prz) (prz_label prz) (prz_type prz)
    (prz_flags prz) (prz_buffer prz) (prz_buffer_size prz) (prz_par_buffer prz)
    (prz_par_header prz) (prz_rs_decoder prz) (prz_corrected_bytes prz)
    (prz_bad_blocks prz) e (prz_old_log prz) (prz_old_log_size prz).

Definition set_layout (prz : persistent_ram_zone) (bs par_buf par_hdr : Z) :=
  mk_zone (prz_paddr prz) (prz_size prz) (prz_label prz) (prz_type prz)
    (prz_flags prz) (prz_buffer prz) bs par_buf par_hdr
    (prz_rs_decoder prz) (prz_corrected_bytes prz)
    (prz_bad_blocks prz) (prz_ecc_info prz) (prz_old_log prz)
    (prz_old_log_size prz).

Definition set_rs_decoder (prz : persistent_ram_zone) (rs : option rs_control) :=
  mk_zone (prz_paddr prz) (prz_size prz) (prz_label prz) (prz_type prz)
    (prz_flags prz) (prz_buffer prz) (prz_buffer_size prz) (prz_par_buffer prz)
    (prz_par_header prz) rs (prz_corrected_bytes prz)
    (prz_bad_blocks prz) (prz_ecc_info prz) (prz_old_log prz)
    (prz_old_log_size prz).

(** The header read back from its twelve bytes. *)
Definition header_of_bytes (h : list Z) (data : list Z) : persistent_ram_buffer :=
  mk_buffer (of_le32 h) (to_int (of_le32 (drop 4 h)))
    (to_int (of_le32 (drop 8 h))) data.

(** The configuration [persistent_ram_init_ecc] stores: the request with
    its defaults filled in. *)
Definition ecc_defaults (ei : persistent_ram_ecc_info) : persistent_ram_ecc_info :=
  mk_ecc_info (elvis (block_size ei) 128) (elvis (ecc_size ei) 16)
    (elvis (symsize ei) 8) (elvis (poly ei) 0x11d).

(** The locals [ecc_blocks] and [ecc_total] of [persistent_ram_init_ecc]
    for a zone of [bs] usable bytes: [int] and [size_t]. *)
Definition ecc_blocks_of (bs : Z) (info : persistent_ram_ecc_info) : Z :=
  to_int (DIV_ROUND_UP (to_size_t (bs - to_size_t (ecc_size info)))
            (to_size_t (to_int (block_size info + ecc_size info)))).

Definition ecc_total_of (bs : Z) (info : persistent_ram_ecc_info) : Z :=
  to_size_t (to_int (to_int (ecc_blocks_of bs info + 1) * ecc_size info)).

(** [persistent_ram_init_ecc]: the zone after the call and the return
    value.  [ecc_info] is the pointer argument, [None] for NULL. *)
Definition persistent_ram_init_ecc (env : ram_env) (prz : persistent_ram_zone)
    (ecc_info : option persistent_ram_ecc_info)
  : option (persistent_ram_zone * Z) :=
  match ecc_info with
  | None => Some (prz, 0)
  | Some ei =>
    if ecc_size ei =? 0 then Some (prz, 0)
    else
      let info := ecc_defaults ei in
      let prz := set_ecc_info prz info in
      let ecc_blocks := ecc_blocks_of (prz_buffer_size prz) info in
      let ecc_total := ecc_total_of (prz_buffer_size prz) info in
      if prz_buffer_size prz <=? ecc_total then Some (prz, - EINVAL)
      else
        let bs := to_size_t (prz_buffer_size prz - ecc_total) in
        let prz := set_layout prz bs bs
                     (bs + to_int (ecc_blocks * ecc_size info)) in
        match init_rs env (symsize info) (poly info) 0 1 (ecc_size info) with
        | None => Some (prz, - EINVAL)
        | Some rs =>
          let prz := set_rs_decoder prz (Some rs) in
          let prz := set_counters prz 0 0 in
          let b := prz_buffer prz in
          do r <- persistent_ram_decode_rs8 prz (header_bytes b) sizeof_buffer
                    (zdrop (prz_par_header prz) (b_data b));
          let '(numerr, fixed) := r in
          let prz := set_buffer prz
                       (header_of_bytes
                          (list_inserts 0 fixed (header_bytes b)) (b_data b)) in
          let prz :=
            if 0 <? numerr then
              set_counters prz (to_int (prz_corrected_bytes prz + numerr))
                (prz_bad_blocks prz)
            else if numerr <? 0 then
              set_counters prz (prz_corrected_bytes prz)
                (to_int (prz_bad_blocks prz + 1))
            else prz in
          Some (prz, 0)
        end
  end.

(** Zone flags of include/linux/pstore_ram.h. *)
Definition PRZ_FLAG_NO_LOCK : Z := 1.
Definition PRZ_FLAG_ZAP_OLD : Z := 2.

(** [persistent_ram_post_init]. *)
Definition persistent_ram_post_init (env : ram_env) (fuel : nat)
    (prz : persistent_ram_zone) (sig : Z)
    (ecc_info : option persistent_ram_ecc_info)
  : option (persistent_ram_zone * Z) :=
  let zap := negb (Z.land (prz_flags prz) PRZ_FLAG_ZAP_OLD =? 0) in
  do r <- persistent_ram_init_ecc env prz ecc_info;
  let '(prz, ret) := r in
  if negb (ret =? 0) then Some (prz, ret)
  else
    let sig := Z.lxor sig PERSISTENT_RAM_SIG in
    if b_sig (prz_buffer prz) =? sig then
      if buffer_size prz =? 0 then Some (prz, 0)
      else
        do r <-
          (if (prz_buffer_size prz <? buffer_size prz)
              || (buffer_size prz <? buffer_start prz)
           then Some (prz, true)
           else do prz <- persistent_ram_save_old fuel prz; Some (prz, zap));
        let '(prz, zap) := r in
        if zap then do prz <- persistent_ram_zap prz; Some (prz, 0)
        else Some (prz, 0)
    else
      do prz <- persistent_ram_zap (set_sig prz sig);
      Some (prz, 0).

(** [persistent_ram_buffer_map]. *)
Definition persistent_ram_buffer_map (env : ram_env) (start size : Z)
    (prz : persistent_ram_zone) (memtype : Z) : persistent_ram_zone * Z :=
  let prz :=
    mk_zone start size (prz_label prz) (prz_type prz)
      (prz_flags prz) (prz_buffer prz) (prz_buffer_size prz)
      (prz_par_buffer prz) (prz_par_header prz) (prz_rs_decoder prz)
      (prz_corrected_bytes prz) (prz_bad_blocks prz) (prz_ecc_info prz)
      (prz_old_log prz) (prz_old_log_size prz) in
  match ram_map env start size memtype with
  | None => (prz, - ENOMEM)
  | Some bytes =>
    let prz := set_buffer prz
                 (header_of_bytes (take 12 bytes) (drop 12 bytes)) in
    (set_layout prz (to_size_t (size - sizeof_buffer))
       (prz_par_buffer prz) (prz_par_header prz), 0)
  end.

(** [persistent_ram_new]: [inr prz] for the new zone, [inl err] for
    [ERR_PTR(err)], after [persistent_ram_free] has released the zone. *)
Definition persistent_ram_new (env : ram_env) (fuel : nat) (start size sig : Z)
    (ecc_info : option persistent_ram_ecc_info) (memtype flags : Z)
    (label : string) : option (Z + persistent_ram_zone) :=
  let prz :=
    mk_zone 0 0 label 0 flags (mk_buffer 0 0 0 []) 0 0 0 None 0 0
      (mk_ecc_info 0 0 0 0) None 0 in
  let '(prz, ret) := persistent_ram_buffer_map env start size prz memtype in
  if negb (ret =? 0) then Some (inl ret)
  else
    do r <- persistent_ram_post_init env fuel prz sig ecc_info;
    let '(prz, ret) := r in
    if negb (ret =? 0) then Some (inl ret) else Some (inr prz).

(* ------------------------------------------------------------------ *)
(** ** ram.c: the ramoops backend *)

(** [enum pstore_type_id] (include/linux/pstore.h). *)
Definition PSTORE_TYPE_DMESG : Z := 0.
Definition PSTORE_TYPE_MCE : Z := 1.
Definition PSTORE_TYPE_CONSOLE : Z := 2.
Definition PSTORE_TYPE_FTRACE : Z := 3.
Definition PSTORE_TYPE_PMSG : Z := 7.
Definition PSTORE_TYPE_MAX : Z := 9.

(** [pstore_type_names] of platform.c. *)
Definition pstore_type_names : list string :=
  ["dmesg"; "mce"; "console"; "ftrace"; "rtas"; "powerpc-ofw";
   "powerpc-common"; "pmsg"; "powerpc-opal"]%string.

(** The [for] loop of [pstore_name_to_type]. *)
Fixpoint name_to_type_from (i : Z) (names : list string) (name : string) : Z :=
  match names with
  | [] => PSTORE_TYPE_MAX
  | n :: rest =>
    if String.eqb n name then i else name_to_type_from (i + 1) rest name
  end.

Definition pstore_name_to_type (name : string) : Z :=
  name_to_type_from 0 pstore_type_names name.

(** [struct pstore_record]; [rec_buf] is the kernel buffer [buf] points
    to, [None] for NULL.  The back pointer [psi] is passed alongside where
    it is needed. *)
Record pstore_record := mk_record {
  rec_type : Z;
  rec_id : Z;
  rec_time_sec : Z;
  rec_time_nsec : Z;
  rec_buf : option (list Z);
  rec_size : Z;
  rec_ecc_notice_size : Z;
  rec_count : Z;
  rec_reason : Z;
  rec_part : Z;
  rec_compressed : bool
}.

(** The bytes behind [record->buf]. *)
Definition rec_bytes (record : pstore_record) : list Z :=
  default [] (rec_buf record).

(** [struct ramoops_context], without the embedded [struct pstore_info].
    A NULL zone pointer or zone array is [None]. *)
Record ramoops_context := mk_cxt {
  cxt_dprzs : option (list persistent_ram_zone);
  cxt_cprz : option persistent_ram_zone;
  cxt_fprzs : option (list persistent_ram_zone);
  cxt_mprz : option persistent_ram_zone;
  cxt_phys_addr : Z;
  cxt_size : Z;
  cxt_memtype : Z;
  cxt_record_size : Z;
  cxt_console_size : Z;
  cxt_ftrace_size : Z;
  cxt_pmsg_size : Z;
  cxt_flags : Z;
  cxt_ecc_info : persistent_ram_ecc_info;
  cxt_max_dump_cnt : Z;
  cxt_dump_write_cnt : Z;
  cxt_dump_read_cnt : Z;
  cxt_console_read_cnt : Z;
  cxt_max_ftrace_cnt : Z;
  cxt_ftrace_read_cnt : Z;
  cxt_pmsg_read_cnt : Z
}.

Definition set_dprzs (c : ramoops_context)
    (d : option (list persistent_ram_zone)) (write_cnt : Z) :=
  mk_cxt d (cxt_cprz c) (cxt_fprzs c) (cxt_mprz c) (cxt_phys_addr c)
    (cxt_size c) (cxt_memtype c) (cxt_record_size c) (cxt_console_size c)
    (cxt_ftrace_size c) (cxt_pmsg_size c) (cxt_flags c) (cxt_ecc_info c)
    (cxt_max_dump_cnt c) write_cnt (cxt_dump_read_cnt c)
    (cxt_console_read_cnt c) (cxt_max_ftrace_cnt c) (cxt_ftrace_read_cnt c)
    (cxt_pmsg_read_cnt c).

Definition set_cprz (c : ramoops_context) (z : option persistent_ram_zone) :=
  mk_cxt (cxt_dprzs c) z (cxt_fprzs c) (cxt_mprz c) (cxt_phys_addr c)
    (cxt_size c) (cxt_memtype c) (cxt_record_size c) (cxt_console_size c)
    (cxt_ftrace_size c) (cxt_pmsg_size c) (cxt_flags c) (cxt_ecc_info c)
    (cxt_max_dump_cnt c) (cxt_dump_write_cnt c) (cxt_dump_read_cnt c)
    (cxt_console_read_cnt c) (cxt_max_ftrace_cnt c) (cxt_ftrace_read_cnt c)
    (cxt_pmsg_read_cnt c).

Definition set_fprzs (c : ramoops_context)
    (f : option (list persistent_ram_zone)) :=
  mk_cxt (cxt_dprzs c) (cxt_cprz c) f (cxt_mprz c) (cxt_phys_addr c)
    (cxt_size c) (cxt_memtype c) (cxt_record_size c) (cxt_console_size c)
    (cxt_ftrace_size c) (cxt_pmsg_size c) (cxt_flags c) (cxt_ecc_info c)
    (cxt_max_dump_cnt c) (cxt_dump_write_cnt c) (cxt_dump_read_cnt c)
    (cxt_console_read_cnt c) (cxt_max_ftrace_cnt c) (cxt_ftrace_read_cnt c)
    (cxt_pmsg_read_cnt c).

Definition set_mprz (c : ramoops_context) (z : option persistent_ram_zone) :=
  mk_cxt (cxt_dprzs c) (cxt_cprz c) (cxt_fprzs c) z (cxt_phys_addr c)
    (cxt_size c) (cxt_memtype c) (cxt_record_size c) (cxt_console_size c)
    (cxt_ftrace_size c) (cxt_pmsg_size c) (cxt_flags c) (cxt_ecc_info c)
    (cxt_max_dump_cnt c) (cxt_dump_write_cnt c) (cxt_dump_read_cnt c)
    (cxt_console_read_cnt c) (cxt_max_ftrace_cnt c) (cxt_ftrace_read_cnt c)
    (cxt_pmsg_read_cnt c).

(** Context flag of include/linux/pstore_ram.h. *)
Definition RAMOOPS_FLAG_FTRACE_PER_CPU : Z := 1.

Definition bytes_of_string (s : string) : list Z :=
  map (fun a => Z.of_N (N_of_ascii a)) (list_ascii_of_string s).

Definition newline : string := String (ascii_of_nat 10) EmptyString.

(** [%06lu]: decimal, zero padded to width six. *)
Definition pad06 (x : Z) : string :=
  let d := pretty (to_size_t x) in
  string_of_list_ascii (replicate (6 - String.length d) "0"%char) +:+ d.

(** The text [ramoops_write_kmsg_hdr] formats:
    ["====%lld.%06lu-%c\n"]. *)
Definition kmsg_hdr_text (record : pstore_record) : string :=
  "====" +:+ pretty (rec_time_sec record) +:+ "." +:+
  pad06 (Z.quot (rec_time_nsec record) 1000) +:+ "-" +:+
  (if rec_compressed record then "C" else "D") +:+ newline.

(** [ramoops_write_kmsg_hdr]: [scnprintf] into [char hdr[36]] keeps at most
    35 characters and returns how many it kept. *)
Definition ramoops_write_kmsg_hdr (fuel : nat) (prz : persistent_ram_zone)
    (record : pstore_record) : option (persistent_ram_zone * Z) :=
  let hdr := take 35 (bytes_of_string (kmsg_hdr_text record)) in
  let len := zlen hdr in
  do r <- persistent_ram_write fuel prz hdr (to_uint len);
  Some (fst r, len).

(** [ramoops_pstore_write]; [cpu] is [smp_processor_id()].  Indexing a zone
    array out of its bounds has no result, and neither has the final
    [% cxt->max_dump_cnt] when [max_dump_cnt] is 0. *)
Definition ramoops_pstore_write (fuel : nat) (cpu : Z) (cxt : ramoops_context)
    (record : pstore_record) : option (ramoops_context * Z) :=
  if rec_type record =? PSTORE_TYPE_CONSOLE then
    match cxt_cprz cxt with
    | None => Some (cxt, - ENOMEM)
    | Some prz =>
      do r <- persistent_ram_write fuel prz (rec_bytes record)
                (to_uint (rec_size record));
      Some (set_cprz cxt (Some (fst r)), 0)
    end
  else if rec_type record =? PSTORE_TYPE_FTRACE then
    match cxt_fprzs cxt with
    | None => Some (cxt, - ENOMEM)
    | Some przs =>
      let zonenum :=
        if negb (Z.land (cxt_flags cxt) RAMOOPS_FLAG_FTRACE_PER_CPU =? 0)
        then cpu else 0 in
      do prz <- przs !! Z.to_nat zonenum;
      do r <- persistent_ram_write fuel prz (rec_bytes record)
                (to_uint (rec_size record));
      Some (set_fprzs cxt (Some (<[Z.to_nat zonenum := fst r]> przs)), 0)
    end
  else if rec_type record =? PSTORE_TYPE_PMSG then Some (cxt, - EINVAL)
  else if negb (rec_type record =? PSTORE_TYPE_DMESG) then Some (cxt, - EINVAL)
  else if negb (rec_part record =? 1) then Some (cxt, - ENOSPC)
  else
    match cxt_dprzs cxt with
    | None => Some (cxt, - ENOSPC)
    | Some przs =>
      let i := Z.to_nat (cxt_dump_write_cnt cxt) in
      do prz <- przs !! i;
      do prz <- persistent_ram_zap prz;
      do r <- ramoops_write_kmsg_hdr fuel prz record;
      let '(prz, hlen) := r in
      if hlen =? 0 then
        Some (set_dprzs cxt (Some (<[i := prz]> przs)) (cxt_dump_write_cnt cxt),
              - ENOMEM)
      else
        let size := to_size_t (rec_size record) in
        let size :=
          if prz_buffer_size prz <? to_size_t (size + hlen)
          then to_size_t (prz_buffer_size prz - hlen) else size in
        do r <- persistent_ram_write fuel prz (rec_bytes record) (to_uint size);
        if cxt_max_dump_cnt cxt =? 0 then None
        else
          Some (set_dprzs cxt (Some (<[i := fst r]> przs))
                  (to_uint (cxt_dump_write_cnt cxt + 1) mod cxt_max_dump_cnt cxt),
                0)
    end.

(** [ramoops_pstore_write_user]. *)
Definition ramoops_pstore_write_user (fuel : nat) (cxt : ramoops_context)
    (record : pstore_record) (buf : list (option Z))
  : option (ramoops_context * Z) :=
  if rec_type record =? PSTORE_TYPE_PMSG then
    match cxt_mprz cxt with
    | None => Some (cxt, - ENOMEM)
    | Some prz =>
      do r <- persistent_ram_write_user fuel prz buf (to_uint (rec_size record));
      Some (set_mprz cxt (Some (fst r)), snd r)
    end
  else Some (cxt, - EINVAL).

(** The labels [kasprintf] builds in [ramoops_init_przs]. *)
Definition przs_label (name : string) (i cnt : Z) : string :=
  if cnt =? 1 then "ramoops:" +:+ name
  else "ramoops:" +:+ name +:+ "(" +:+ pretty i +:+ "/" +:+
       pretty (to_int (cnt - 1)) +:+ ")".

(** The [for] loop of [ramoops_init_przs]: [n] zones remain to be made,
    [acc] holds the zones made so far.  An error frees them and is
    returned with the cursor where it stood. *)
Fixpoint init_przs_loop (env : ram_env) (fuel : nat) (name : string)
    (cxt : ramoops_context) (n : nat) (i cnt zone_sz sig flags paddr : Z)
    (acc : list persistent_ram_zone)
  : option (Z + list persistent_ram_zone) * Z :=
  match n with
  | O => (Some (inr acc), paddr)
  | S n' =>
    match persistent_ram_new env fuel paddr zone_sz sig (Some (cxt_ecc_info cxt))
            (cxt_memtype cxt) flags (przs_label name i cnt) with
    | None => (None, paddr)
    | Some (inl err) => (Some (inl err), paddr)
    | Some (inr prz) =>
      init_przs_loop env fuel name cxt n' (i + 1) cnt zone_sz sig flags
        (to_size_t (paddr + zone_sz))
        (acc ++ [set_type prz (pstore_name_to_type name)])
    end
  end.

(** Result of [ramoops_init_przs]: the return value and the three
    locations it writes through ([*przs], [*paddr], [*cnt]). *)
Record init_przs_result := mk_init_przs_result {
  ipr_ret : Z;
  ipr_przs : option (list persistent_ram_zone);
  ipr_paddr : Z;
  ipr_cnt : Z
}.

(** [ramoops_init_przs].  [przs], [paddr] and [cnt] are the values found
    behind the pointer arguments on entry. *)
Definition ramoops_init_przs (env : ram_env) (fuel : nat) (name : string)
    (cxt : ramoops_context) (przs : option (list persistent_ram_zone))
    (paddr mem_sz record_size cnt sig flags : Z) : option init_przs_result :=
  if (mem_sz =? 0) || (record_size =? 0) then
    Some (mk_init_przs_result 0 przs paddr 0)
  else
    let sized :=
      if record_size <? 0 then
        if cnt =? 0 then inl 0
        else
          let rs := mem_sz / cnt in
          if rs =? 0 then inl (- ENOMEM) else inr (rs, cnt)
      else
        let cnt := to_uint (mem_sz / to_size_t record_size) in
        if cnt =? 0 then inl (- ENOMEM) else inr (record_size, cnt) in
    match sized with
    | inl 0 => Some (mk_init_przs_result 0 przs paddr cnt)
    | inl err => Some (mk_init_przs_result err przs paddr 0)
    | inr (record_size, cnt) =>
      if cxt_size cxt
         <? to_size_t (to_size_t (paddr + mem_sz) - cxt_phys_addr cxt)
      then Some (mk_init_przs_result (- ENOMEM) przs paddr 0)
      else
        let zone_sz := mem_sz / cnt in
        if zone_sz =? 0 then Some (mk_init_przs_result (- ENOMEM) przs paddr 0)
        else
          match init_przs_loop env fuel name cxt (Z.to_nat cnt) 0 cnt zone_sz
                  sig flags paddr [] with
          | (None, _) => None
          | (Some (inl err), paddr') =>
            Some (mk_init_przs_result err przs paddr' 0)
          | (Some (inr prz_ar), paddr') =>
            Some (mk_init_przs_result 0 (Some prz_ar) paddr' cnt)
          end
    end.

(** Result of [ramoops_init_prz]: return value, [*prz] and [*paddr]. *)
Record init_prz_result := mk_init_prz_result {
  ip_ret : Z;
  ip_prz : option persistent_ram_zone;
  ip_paddr : Z
}.

(** [ramoops_init_prz].  On failure [*prz] holds an error pointer, which
    is [None] here. *)
Definition ramoops_init_prz (env : ram_env) (fuel : nat) (name : string)
    (cxt : ramoops_context) (prz : option persistent_ram_zone)
    (paddr sz sig : Z) : option init_prz_result :=
  if sz =? 0 then Some (mk_init_prz_result 0 prz paddr)
  else if cxt_size cxt <? to_size_t (to_size_t (paddr + sz) - cxt_phys_addr cxt)
  then Some (mk_init_prz_result (- ENOMEM) prz paddr)
  else
    do r <- persistent_ram_new env fuel paddr sz sig (Some (cxt_ecc_info cxt))
              (cxt_memtype cxt) PRZ_FLAG_ZAP_OLD ("ramoops:" +:+ name);
    match r with
    | inl err => Some (mk_init_prz_result err None paddr)
    | inr z =>
      Some (mk_init_prz_result 0 (Some (set_type z (pstore_name_to_type name)))
              (to_size_t (paddr + sz)))
    end.

(* ------------------------------------------------------------------ *)
(** ** platform.c: the backend registry and the crash dump hook *)

(** [enum kmsg_dump_reason] (include/linux/kmsg_dump.h). *)
Definition KMSG_DUMP_UNDEF : Z := 0.
Definition KMSG_DUMP_PANIC : Z := 1.
Definition KMSG_DUMP_OOPS : Z := 2.
Definition KMSG_DUMP_EMERG : Z := 3.
Definition KMSG_DUMP_SHUTDOWN : Z := 4.

(** Frontend flags (include/linux/pstore.h). *)
Definition PSTORE_FLAGS_DMESG : Z := 1.
Definition PSTORE_FLAGS_CONSOLE : Z := 2.
Definition PSTORE_FLAGS_FTRACE : Z := 4.
Definition PSTORE_FLAGS_PMSG : Z := 8.

(** [struct pstore_info] for a backend whose private [data] has type [D].
    A NULL callback is [None]; [psi_buf_lock] is [true] while [buf_lock] is
    held. *)
Record pstore_info (D : Type) := mk_psi {
  psi_name : string;
  psi_buf_lock : bool;
  psi_buf : list Z;
  psi_bufsize : Z;
  psi_flags : Z;
  psi_max_reason : Z;
  psi_data : D;
  psi_open : option (D -> D * Z);
  psi_close : option (D -> D * Z);
  psi_read : option (D -> D * Z * pstore_record);
  psi_write : option (pstore_record -> D -> option (D * Z));
  psi_write_user :
    option (pstore_record -> list (option Z) -> D -> option (D * Z));
  psi_erase : option (pstore_record -> D -> D * Z)
}.

Arguments mk_psi {D}.
Arguments psi_name {D}.
Arguments psi_buf_lock {D}.
Arguments psi_buf {D}.
Arguments psi_bufsize {D}.
Arguments psi_flags {D}.
Arguments psi_max_reason {D}.
Arguments psi_data {D}.
Arguments psi_open {D}.
Arguments psi_close {D}.
Arguments psi_read {D}.
Arguments psi_write {D}.
Arguments psi_write_user {D}.
Arguments psi_erase {D}.

(** [struct pstore_zbackend]. *)
Record pstore_zbackend := mk_zbackend {
  zbufsize : Z -> Z;
  zb_name : string
}.

(** The file-scope variables of platform.c.  [tfm] holds the name of the
    allocated compression transform. *)
Record pstore_state (D : Type) := mk_state {
  psinfo : option (pstore_info D);
  backend : option string;
  tfm : option string;
  big_oops_buf : option (list Z);
  big_oops_buf_sz : Z;
  kmsg_bytes : Z;
  oopscount : Z;
  pstore_new_entry : Z;
  pstore_update_ms : Z;
  zbackend : option pstore_zbackend;
  dumper_max_reason : Z
}.

Arguments mk_state {D}.
Arguments psinfo {D}.
Arguments backend {D}.
Arguments tfm {D}.
Arguments big_oops_buf {D}.
Arguments big_oops_buf_sz {D}.
Arguments kmsg_bytes {D}.
Arguments oopscount {D}.
Arguments pstore_new_entry {D}.
Arguments pstore_update_ms {D}.
Arguments zbackend {D}.
Arguments dumper_max_reason {D}.

(** What platform.c does to the rest of the kernel, in program order:
    messages printed and calls into other subsystems. *)
Inductive pstore_event :=
| EvWarn (msg : string)
| EvErr (msg : string)
| EvInfo (msg : string)
| EvGetRecords (quiet : Z)
| EvRegisterKmsg
| EvRegisterConsole (name : string)
| EvRegisterFtrace
| EvRegisterPmsg
| EvModTimer (ms : Z)
| EvBackendWrite (record : pstore_record) (ret : Z).

(** What platform.c obtains from the rest of the kernel. *)
Record kernel_env := mk_kernel_env {
  CONFIG_PSTORE_COMPRESS : bool;
  crypto_has_comp : string -> bool;
  crypto_alloc_comp : string -> bool;
  (** [crypto_comp_compress in outlen]: status and output bytes. *)
  crypto_comp_compress : list Z -> Z -> Z * list Z;
  in_nmi : bool;
  kmsg_dump_reason_str : Z -> string;
  (** the position of a [struct kmsg_dump_iter] in the kernel log *)
  kmsg_iter : Type;
  kmsg_dump_rewind : kmsg_iter;
  (** [kmsg_dump_get_buffer iter syslog size]: new position, result, text *)
  kmsg_dump_get_buffer : kmsg_iter -> bool -> Z -> kmsg_iter * bool * list Z;
  ktime_get_real_fast_ns : Z;
  (** [kmalloc size]: the block handed out, [None] for NULL *)
  kmalloc : Z -> option (list Z)
}.

Definition set_psinfo {D} (st : pstore_state D) (p : option (pstore_info D)) :=
  mk_state p (backend st) (tfm st) (big_oops_buf st) (big_oops_buf_sz st)
    (kmsg_bytes st) (oopscount st) (pstore_new_entry st) (pstore_update_ms st)
    (zbackend st) (dumper_max_reason st).

Definition set_backend {D} (st : pstore_state D) (b : option string) :=
  mk_state (psinfo st) b (tfm st) (big_oops_buf st) (big_oops_buf_sz st)
    (kmsg_bytes st) (oopscount st) (pstore_new_entry st) (pstore_update_ms st)
    (zbackend st) (dumper_max_reason st).

Definition set_compression {D} (st : pstore_state D) (t : option string)
    (buf : option (list Z)) (sz : Z) :=
  mk_state (psinfo st) (backend st) t buf sz
    (kmsg_bytes st) (oopscount st) (pstore_new_entry st) (pstore_update_ms st)
    (zbackend st) (dumper_max_reason st).

Definition set_oopscount {D} (st : pstore_state D) (n : Z) :=
  mk_state (psinfo st) (backend st) (tfm st) (big_oops_buf st)
    (big_oops_buf_sz st) (kmsg_bytes st) n (pstore_new_entry st)
    (pstore_update_ms st) (zbackend st) (dumper_max_reason st).

Definition set_new_entry {D} (st : pstore_state D) (n : Z) :=
  mk_state (psinfo st) (backend st) (tfm st) (big_oops_buf st)
    (big_oops_buf_sz st) (kmsg_bytes st) (oopscount st) n
    (pstore_update_ms st) (zbackend st) (dumper_max_reason st).

Definition set_big_oops_buf {D} (st : pstore_state D) (b : option (list Z)) :=
  mk_state (psinfo st) (backend st) (tfm st) b
    (big_oops_buf_sz st) (kmsg_bytes st) (oopscount st) (pstore_new_entry st)
    (pstore_update_ms st) (zbackend st) (dumper_max_reason st).

Definition set_dumper_max_reason {D} (st : pstore_state D) (r : Z) :=
  mk_state (psinfo st) (backend st) (tfm st) (big_oops_buf st)
    (big_oops_buf_sz st) (kmsg_bytes st) (oopscount st) (pstore_new_entry st)
    (pstore_update_ms st) (zbackend st) r.

Definition psi_set_lock {D} (p : pstore_info D) (l : bool) :=
  mk_psi (psi_name p) l (psi_buf p) (psi_bufsize p) (psi_flags p)
    (psi_max_reason p) (psi_data p) (psi_open p) (psi_close p) (psi_read p)
    (psi_write p) (psi_write_user p) (psi_erase p).

Definition psi_set_buf {D} (p : pstore_info D) (b : list Z) :=
  mk_psi (psi_name p) (psi_buf_lock p) b (psi_bufsize p) (psi_flags p)
    (psi_max_reason p) (psi_data p) (psi_open p) (psi_close p) (psi_read p)
    (psi_write p) (psi_write_user p) (psi_erase p).

Definition psi_set_data {D} (p : pstore_info D) (d : D) :=
  mk_psi (psi_name p) (psi_buf_lock p) (psi_buf p) (psi_bufsize p) (psi_flags p)
    (psi_max_reason p) d (psi_open p) (psi_close p) (psi_read p)
    (psi_write p) (psi_write_user p) (psi_erase p).

Definition psi_set_write_user {D} (p : pstore_info D)
    (w : option (pstore_record -> list (option Z) -> D -> option (D * Z))) :=
  mk_psi (psi_name p) (psi_buf_lock p) (psi_buf p) (psi_bufsize p) (psi_flags p)
    (psi_max_reason p) (psi_data p) (psi_open p) (psi_close p) (psi_read p)
    (psi_write p) w (psi_erase p).

(** [!p] for a pointer [p]. *)
Definition is_null {A} (p : option A) : bool :=
  match p with None => true | Some _ => false end.

(** [pstore_timer_kick]. *)
Definition pstore_timer_kick {D} (st : pstore_state D) : list pstore_event :=
  if pstore_update_ms st <? 0 then [] else [EvModTimer (pstore_update_ms st)].

(** [pstore_cannot_block_path]. *)
Definition pstore_cannot_block_path (env : kernel_env) (reason : Z) : bool :=
  if in_nmi env then true
  else if reason =? KMSG_DUMP_PANIC then true
  else if reason =? KMSG_DUMP_EMERG then true
  else false.

(** [pstore_compress]: the return value and the bytes left in [out]. *)
Definition pstore_compress (env : kernel_env) (inp : list Z)
    (inlen outlen : Z) : Z * list Z :=
  if negb (CONFIG_PSTORE_COMPRESS env) then (- EINVAL, [])
  else
    let '(ret, out) := crypto_comp_compress env (ztake inlen inp) outlen in
    if negb (ret =? 0) then (ret, out) else (to_int (zlen out), out).

(** [allocate_buf_for_compression]. *)
Definition allocate_buf_for_compression {D} (env : kernel_env)
    (st : pstore_state D) : pstore_state D * list pstore_event :=
  match zbackend st with
  | None => (st, [])
  | Some zb =>
    if negb (CONFIG_PSTORE_COMPRESS env) then (st, [])
    else
      match psinfo st, tfm st with
      | Some psi, None =>
        if negb (crypto_has_comp env (zb_name zb)) then
          (st, [EvErr ("Unknown compression: " +:+ zb_name zb)])
        else
          let size := to_int (zbufsize zb (psi_bufsize psi)) in
          if size <=? 0 then
            (st, [EvErr ("Invalid compression size for " +:+ zb_name zb
                         +:+ ": " +:+ pretty size)])
          else
            match kmalloc env size with
            | None =>
              (st, [EvErr ("Failed " +:+ pretty size
                           +:+ " byte compression buffer allocation for: "
                           +:+ zb_name zb)])
            | Some buf =>
              if negb (crypto_alloc_comp env (zb_name zb)) then
                (st, [EvErr ("crypto_alloc_comp failed: " +:+ zb_name zb)])
              else
                (set_compression st (Some (zb_name zb)) (Some buf) size,
                 [EvInfo ("Using crash dump compression: " +:+ zb_name zb)])
            end
      | _, _ => (st, [])
      end
  end.

(** [copy_kmsg_to_buffer]: the new contents of [psinfo->buf] and the
    length. *)
Definition copy_kmsg_to_buffer (buf big : list Z) (bufsize hsize len : Z)
  : list Z * Z :=
  let total_len := to_size_t (to_size_t hsize + len) in
  if bufsize <? total_len then
    let diff := to_size_t (to_size_t (total_len - bufsize) + to_size_t hsize) in
    let buf := memcpy_at buf 0 big (to_size_t hsize) in
    let buf := memcpy_at buf hsize (zdrop diff big)
                 (to_size_t (bufsize - to_size_t hsize)) in
    (buf, bufsize)
  else (memcpy_at buf 0 big total_len, total_len).

(** [pstore_write_user_compat], for a backend with the given [write]
    callback: [memdup_user] copies the user bytes or fails with
    [-EFAULT]. *)
Definition pstore_write_user_compat {D}
    (write : option (pstore_record -> D -> option (D * Z)))
    (record : pstore_record) (buf : list (option Z)) (d : D)
  : option (D * Z) :=
  match rec_buf record with
  | Some _ => Some (d, - EINVAL)
  | None =>
    let got := user_prefix (ztake (rec_size record) buf) in
    if negb (zlen got =? rec_size record) then Some (d, - EFAULT)
    else
      do w <- write;
      do r <- w (mk_record (rec_type record) (rec_id record)
                   (rec_time_sec record) (rec_time_nsec record) (Some got)
                   (rec_size record) (rec_ecc_notice_size record)
                   (rec_count record) (rec_reason record) (rec_part record)
                   (rec_compressed record)) d;
      let '(d, ret) := r in
      Some (d, if to_int ret <? 0 then ret else rec_size record)
  end.

(** [pstore_register]: the file-scope state after the call, what it did to
    the rest of the kernel, and the return value. *)
Definition pstore_register {D} (env : kernel_env) (st : pstore_state D)
    (psi : pstore_info D) : pstore_state D * list pstore_event * Z :=
  if match backend st with
     | Some b => negb (String.eqb b (psi_name psi))
     | None => false
     end
  then (st, [EvWarn ("ignoring unexpected backend '" +:+ psi_name psi +:+ "'")],
        - EPERM)
  else if psi_flags psi =? 0 then
    (st, [EvWarn ("backend '" +:+ psi_name psi
                  +:+ "' must support at least one frontend")], - EINVAL)
  else if is_null (psi_read psi) || is_null (psi_write psi) then
    (st, [EvWarn ("backend '" +:+ psi_name psi
                  +:+ "' must implement read() and write()")], - EINVAL)
  else
    match psinfo st with
    | Some cur =>
      (st, [EvWarn ("backend '" +:+ psi_name cur +:+ "' already loaded: ignoring '"
                    +:+ psi_name psi +:+ "'")], - EBUSY)
    | None =>
      let psi :=
        match psi_write_user psi with
        | None =>
          psi_set_write_user psi (Some (pstore_write_user_compat (psi_write psi)))
        | Some _ => psi
        end in
      let psi := psi_set_lock psi false in
      let st := set_psinfo st (Some psi) in
      let dmesg := negb (Z.land (psi_flags psi) PSTORE_FLAGS_DMESG =? 0) in
      let '(st, ev1) :=
        if dmesg then allocate_buf_for_compression env st else (st, []) in
      let ev2 := [EvGetRecords 0] in
      let '(st, ev3) :=
        if dmesg then (set_dumper_max_reason st (psi_max_reason psi),
                       [EvRegisterKmsg])
        else (st, []) in
      let ev4 :=
        if negb (Z.land (psi_flags psi) PSTORE_FLAGS_CONSOLE =? 0)
        then [EvRegisterConsole (psi_name psi)] else [] in
      let ev5 :=
        if negb (Z.land (psi_flags psi) PSTORE_FLAGS_FTRACE =? 0)
        then [EvRegisterFtrace] else [] in
      let ev6 :=
        if negb (Z.land (psi_flags psi) PSTORE_FLAGS_PMSG =? 0)
        then [EvRegisterPmsg] else [] in
      let ev7 := pstore_timer_kick st in
      let st := set_backend st (Some (psi_name psi)) in
      (st,
       ev1 ++ ev2 ++ ev3 ++ ev4 ++ ev5 ++ ev6 ++ ev7
       ++ [EvInfo ("Registered " +:+ psi_name psi
                   +:+ " as persistent store backend")],
       0)
    end.

(** [pstore_record_init] followed by the assignments at the head of the
    loop of [pstore_dump]. *)
Definition dump_record (env : kernel_env) (count reason part : Z)
    (buf : list Z) (size : Z) (compressed : bool) : pstore_record :=
  let ns := ktime_get_real_fast_ns env in
  mk_record PSTORE_TYPE_DMESG 0 (ns / 1000000000) (ns mod 1000000000)
    (Some buf) size 0 count reason part compressed.

(** The text [snprintf] formats in [pstore_dump]: ["%s#%d Part%u\n"]. *)
Definition dump_header_text (why : string) (count part : Z) : string :=
  why +:+ "#" +:+ pretty count +:+ " Part" +:+ pretty part +:+ newline.

(** Store the staging buffer back where [dst] points: [big_oops_buf] when
    it exists, [psinfo->buf] otherwise. *)
Definition store_dst {D} (st : pstore_state D) (psi : pstore_info D)
    (dst : list Z) : pstore_state D * pstore_info D :=
  match big_oops_buf st with
  | Some _ => (set_big_oops_buf st (Some dst), psi)
  | None =>
    let psi := psi_set_buf psi dst in
    (set_psinfo st (Some psi), psi)
  end.

(** The [while (total < kmsg_bytes)] loop of [pstore_dump]. *)
Fixpoint dump_loop {D} (env : kernel_env) (fuel : nat) (st : pstore_state D)
    (iter : kmsg_iter env) (reason : Z) (why : string) (total part : Z)
    (ev : list pstore_event) : option (pstore_state D * list pstore_event) :=
  if total <? kmsg_bytes st then
    match fuel with
    | O => None
    | S f =>
      do psi <- psinfo st;
      let '(dst, dst_size) :=
        match big_oops_buf st with
        | Some b => (b, big_oops_buf_sz st)
        | None => (psi_buf psi, psi_bufsize psi)
        end in
      let text := bytes_of_string (dump_header_text why (oopscount st) part) in
      let header_size := to_int (zlen text) in
      let dst :=
        if dst_size =? 0 then dst
        else list_inserts 0 (ztake (dst_size - 1) text ++ [0]) dst in
      let dst_size := to_size_t (dst_size - to_size_t header_size) in
      let '(iter, ok, chunk) := kmsg_dump_get_buffer env iter true dst_size in
      if negb ok then Some (fst (store_dst st psi dst), ev)
      else
        let dump_size := zlen chunk in
        let dst := memcpy_at dst header_size chunk dump_size in
        let '(st, psi) := store_dst st psi dst in
        let '(psi, size, compressed) :=
          match big_oops_buf st with
          | Some big =>
            let '(zipped_len, out) :=
              pstore_compress env big
                (to_uint (to_size_t header_size + dump_size))
                (to_uint (psi_bufsize psi)) in
            let psi := psi_set_buf psi (list_inserts 0 out (psi_buf psi)) in
            if 0 <? zipped_len then (psi, zipped_len, true)
            else
              let '(buf, len) :=
                copy_kmsg_to_buffer (psi_buf psi) big (psi_bufsize psi)
                  header_size dump_size in
              (psi_set_buf psi buf, len, false)
          | None => (psi, to_size_t (to_size_t header_size + dump_size), false)
          end in
        let record :=
          dump_record env (oopscount st) reason part (psi_buf psi) size
            compressed in
        do w <- psi_write psi;
        do r <- w record (psi_data psi);
        let '(d, ret) := r in
        let st := set_psinfo st (Some (psi_set_data psi d)) in
        let '(st, kick) :=
          if (ret =? 0) && (reason =? KMSG_DUMP_OOPS)
          then (set_new_entry st 1, pstore_timer_kick st)
          else (st, []) in
        dump_loop env f st iter reason why (to_size_t (total + size))
          (to_uint (part + 1)) (ev ++ [EvBackendWrite record ret] ++ kick)
    end
  else Some (st, ev).

(** How a call of [pstore_dump] ends: it returns, or it is still inside
    [spin_lock_irqsave] waiting for a [buf_lock] that another context
    holds. *)
Inductive dump_outcome (D : Type) :=
| DumpReturned (st : pstore_state D) (ev : list pstore_event)
| DumpSpinning.

Arguments DumpReturned {D}.
Arguments DumpSpinning {D}.

(** The body of [pstore_dump] once [buf_lock] has been taken. *)
Definition dump_locked {D} (env : kernel_env) (fuel : nat)
    (st : pstore_state D) (psi : pstore_info D) (reason : Z)
  : option (dump_outcome D) :=
  let why := kmsg_dump_reason_str env reason in
  let st := set_psinfo st (Some (psi_set_lock psi true)) in
  let st := set_oopscount st (to_int (oopscount st + 1)) in
  do r <- dump_loop env fuel st (kmsg_dump_rewind env) reason why 0 1 [];
  let '(st, ev) := r in
  do psi <- psinfo st;
  Some (DumpReturned (set_psinfo st (Some (psi_set_lock psi false))) ev).

(** [pstore_dump]. *)
Definition pstore_dump {D} (env : kernel_env) (fuel : nat)
    (st : pstore_state D) (reason : Z) : option (dump_outcome D) :=
  let why := kmsg_dump_reason_str env reason in
  do psi <- psinfo st;
  if pstore_cannot_block_path env reason then
    if psi_buf_lock psi then
      Some (DumpReturned st
              [EvErr ("dump skipped in " +:+ (if in_nmi env then "NMI" else why)
                      +:+ " path because of concurrent dump")])
    else dump_locked env fuel st psi reason
  else
    if psi_buf_lock psi then Some DumpSpinning
    else dump_locked env fuel st psi reason.

(* ------------------------------------------------------------------ *)
(** ** include/linux/pstore.h: ftrace records *)

(** [struct pstore_ftrace_record]: two [unsigned long] and one [u64], 64
    bits each.  The embedding takes the configuration in which
    [PSTORE_CPU_IN_IP] is not defined (every 64-bit build): the CPU number
    lives in the low byte of [ts]. *)
Record pstore_ftrace_record := mk_frec {
  frec_ip : Z;
  frec_parent_ip : Z;
  frec_ts : Z
}.

Definition TS_CPU_SHIFT : Z := 8.

(** [BIT(TS_CPU_SHIFT) - 1]. *)
Definition TS_CPU_MASK : Z := Z.shiftl 1 TS_CPU_SHIFT - 1.

(** [pstore_ftrace_encode_cpu]: [rec->ts &= ~(TS_CPU_MASK); rec->ts |= cpu]. *)
Definition pstore_ftrace_encode_cpu (rec : pstore_ftrace_record) (cpu : Z)
  : pstore_ftrace_record :=
  let ts := Z.land (frec_ts rec) (to_size_t (Z.lnot TS_CPU_MASK)) in
  mk_frec (frec_ip rec) (frec_parent_ip rec) (Z.lor ts cpu).

(** [pstore_ftrace_decode_cpu]; the result is an [unsigned int]. *)
Definition pstore_ftrace_decode_cpu (rec : pstore_ftrace_record) : Z :=
  to_uint (Z.land (frec_ts rec) TS_CPU_MASK).

(** [pstore_ftrace_read_timestamp]. *)
Definition pstore_ftrace_read_timestamp (rec : pstore_ftrace_record) : Z :=
  Z.shiftr (frec_ts rec) TS_CPU_SHIFT.

(** [pstore_ftrace_write_timestamp]. *)
Definition pstore_ftrace_write_timestamp (rec : pstore_ftrace_record) (val : Z)
  : pstore_ftrace_record :=
  mk_frec (frec_ip rec) (frec_parent_ip rec)
    (Z.lor (Z.land (frec_ts rec) TS_CPU_MASK)
       (to_size_t (Z.shiftl val TS_CPU_SHIFT))).

(** Conversion to [loff_t] / [ssize_t] (64 bits, two's complement). *)
Definition to_long (x : Z) : Z := (x + 2 ^ 63) mod 2 ^ 64 - 2 ^ 63.

(** [sizeof(struct pstore_ftrace_record)], [REC_SIZE] in inode.c. *)
Definition REC_SIZE : Z := 24.

(** The eight bytes of a 64-bit word, least significant first. *)
Definition le64 (x : Z) : list Z :=
  le32 (x mod 2 ^ 32) ++ le32 (x / 2 ^ 32).

Definition of_le64 (l : list Z) : Z :=
  of_le32 l + 2 ^ 32 * of_le32 (drop 4 l).

(** A record as the bytes of the struct, and the struct read at a byte
    offset of a buffer, as the casts of ftrace.c and inode.c do. *)
Definition frec_bytes (rec : pstore_ftrace_record) : list Z :=
  le64 (frec_ip rec) ++ le64 (frec_parent_ip rec) ++ le64 (frec_ts rec).

Definition frec_at (buf : list Z) (off : Z) : pstore_ftrace_record :=
  let b := zdrop off buf in
  mk_frec (of_le64 b) (of_le64 (drop 8 b)) (of_le64 (drop 16 b)).

(* ------------------------------------------------------------------ *)
(** ** ftrace.c *)

(** What ftrace.c obtains from the rest of the kernel at a traced call:
    [oops_in_progress], the result of [ftrace_test_recursion_trylock] and
    [raw_smp_processor_id()]. *)
Record ftrace_env := mk_ftrace_env {
  oops_in_progress : bool;
  ftrace_test_recursion_trylock : Z -> Z -> Z;
  raw_smp_processor_id : Z
}.

(** The [struct pstore_record] that [pstore_ftrace_call] builds around
    [rec]. *)
Definition ftrace_record (rec : pstore_ftrace_record) : pstore_record :=
  mk_record PSTORE_TYPE_FTRACE 0 0 0 (Some (frec_bytes rec)) REC_SIZE 0 0 0 0
    false.

(** [pstore_ftrace_call]: the file-scope state of platform.c and the
    counter [pstore_ftrace_stamp] after the call.  The value [write]
    returns is dropped, as in the source. *)
Definition pstore_ftrace_call {D} (fenv : ftrace_env) (st : pstore_state D)
    (stamp : Z) (ip parent_ip : Z) : option (pstore_state D * Z) :=
  if oops_in_progress fenv then Some (st, stamp)
  else if ftrace_test_recursion_trylock fenv ip parent_ip <? 0
  then Some (st, stamp)
  else
    let rec := mk_frec ip parent_ip 0 in
    let rec := pstore_ftrace_write_timestamp rec stamp in
    let stamp := to_size_t (stamp + 1) in
    let rec := pstore_ftrace_encode_cpu rec (raw_smp_processor_id fenv) in
    do psi <- psinfo st;
    do w <- psi_write psi;
    do r <- w (ftrace_record rec) (psi_data psi);
    Some (set_psinfo st (Some (psi_set_data psi (fst r))), stamp).

(** The first loop of [pstore_ftrace_combine_log]: while both logs have
    records left, move the one with the smaller time stamp ([drec] first
    only when strictly smaller).  [drec] and [srec] are the logs from their
    first whole record on. *)
Fixpoint combine_both (fuel : nat) (drec srec merged : list Z)
    (dest_size src_size dest_idx src_idx merged_idx : Z)
  : option (list Z * Z * Z * Z * Z * Z) :=
  if (0 <? dest_size) && (0 <? src_size) then
    match fuel with
    | O => None
    | S f =>
      if pstore_ftrace_read_timestamp (frec_at drec (dest_idx * REC_SIZE))
         <? pstore_ftrace_read_timestamp (frec_at srec (src_idx * REC_SIZE))
      then
        combine_both f drec srec
          (memcpy_at merged (merged_idx * REC_SIZE)
             (zdrop (dest_idx * REC_SIZE) drec) REC_SIZE)
          (to_size_t (dest_size - REC_SIZE)) src_size
          (to_size_t (dest_idx + 1)) src_idx (to_size_t (merged_idx + 1))
      else
        combine_both f drec srec
          (memcpy_at merged (merged_idx * REC_SIZE)
             (zdrop (src_idx * REC_SIZE) srec) REC_SIZE)
          dest_size (to_size_t (src_size - REC_SIZE))
          dest_idx (to_size_t (src_idx + 1)) (to_size_t (merged_idx + 1))
    end
  else Some (merged, dest_size, src_size, dest_idx, src_idx, merged_idx).

(** The second and third loops: move what is left of one log. *)
Fixpoint combine_rest (fuel : nat) (rec merged : list Z)
    (size idx merged_idx : Z) : option (list Z * Z) :=
  if 0 <? size then
    match fuel with
    | O => None
    | S f =>
      combine_rest f rec
        (memcpy_at merged (merged_idx * REC_SIZE)
           (zdrop (idx * REC_SIZE) rec) REC_SIZE)
        (to_size_t (size - REC_SIZE)) (to_size_t (idx + 1))
        (to_size_t (merged_idx + 1))
    end
  else Some (merged, merged_idx).

(** A log pointer advanced to its first whole record.  A NULL log
    ([None]) is read only if its size announces a record, which has no
    result. *)
Definition first_record (log : option (list Z)) (off size : Z)
  : option (list Z) :=
  match log with
  | Some l => Some (zdrop off l)
  | None => if 0 <? size then None else Some []
  end.

(** [pstore_ftrace_combine_log]: the values left in [*dest_log] and
    [*dest_log_size], and the return value.  [kmalloc] is taken to
    succeed. *)
Definition pstore_ftrace_combine_log (fuel : nat) (dest_log : option (list Z))
    (dest_log_size : Z) (src_log : option (list Z)) (src_log_size : Z)
  : option (option (list Z) * Z * Z) :=
  let dest_off := dest_log_size mod REC_SIZE in
  let dest_size := to_size_t (dest_log_size - dest_off) in
  let src_off := src_log_size mod REC_SIZE in
  let src_size := to_size_t (src_log_size - src_off) in
  let total := to_size_t (dest_size + src_size) in
  let merged_buf := replicate (Z.to_nat total) 0 in
  do drec <- first_record dest_log dest_off dest_size;
  do srec <- first_record src_log src_off src_size;
  do r <- combine_both fuel drec srec merged_buf dest_size src_size 0 0 0;
  let '(merged, dest_size, src_size, dest_idx, src_idx, merged_idx) := r in
  do r <- combine_rest fuel drec merged dest_size dest_idx merged_idx;
  let '(merged, merged_idx) := r in
  do r <- combine_rest fuel srec merged src_size src_idx merged_idx;
  let '(merged, merged_idx) := r in
  Some (Some merged, total, 0).

(* ------------------------------------------------------------------ *)
(** ** inode.c: reading an ftrace record file *)

(** [pstore_ftrace_seq_start]: the offset stored in the iterator, [None]
    for NULL.  [kzalloc] is taken to succeed. *)
Definition pstore_ftrace_seq_start (total_size pos : Z) : option Z :=
  let off := total_size mod REC_SIZE in
  let off := to_size_t (off + to_size_t (to_size_t pos * REC_SIZE)) in
  if total_size <? to_size_t (off + REC_SIZE) then None else Some off.

(** [pstore_ftrace_seq_next]: the iterator (NULL is [None]) and [*pos]. *)
Definition pstore_ftrace_seq_next (total_size off pos : Z) : option Z * Z :=
  let pos := to_long (pos + 1) in
  let off := to_size_t (off + REC_SIZE) in
  (if total_size <? to_size_t (off + REC_SIZE) then None else Some off, pos).

(* ------------------------------------------------------------------ *)
(** ** ram_core.c: the ECC notice *)

(** What [snprintf(str, len, ...)] stores for the formatted [text]: at
    most [len - 1] characters and the terminating NUL, nothing when [len]
    is 0. *)
Definition snprintf_out (text : list Z) (len : Z) : list Z :=
  if len =? 0 then [] else ztake (len - 1) text ++ [0].

(** The text [persistent_ram_ecc_string] formats. *)
Definition ecc_notice_text (prz : persistent_ram_zone) : string :=
  if negb (prz_corrected_bytes prz =? 0) || negb (prz_bad_blocks prz =? 0)
  then newline +:+ "ECC: " +:+ pretty (prz_corrected_bytes prz)
       +:+ " Corrected bytes, " +:+ pretty (prz_bad_blocks prz)
       +:+ " unrecoverable blocks" +:+ newline
  else newline +:+ "ECC: No errors detected" +:+ newline.

(** [persistent_ram_ecc_string]: the return value and the bytes stored
    through [str]. *)
Definition persistent_ram_ecc_string (prz : persistent_ram_zone) (len : Z)
  : Z * list Z :=
  if ecc_size (prz_ecc_info prz) =? 0 then (0, [])
  else
    let text := bytes_of_string (ecc_notice_text prz) in
    (zlen text, snprintf_out text len).

(* ------------------------------------------------------------------ *)
(** ** ram.c: reading and erasing records *)

Definition set_read_cnts (c : ramoops_context) (dump console ftrace pmsg : Z) :=
  mk_cxt (cxt_dprzs c) (cxt_cprz c) (cxt_fprzs c) (cxt_mprz c) (cxt_phys_addr c)
    (cxt_size c) (cxt_memtype c) (cxt_record_size c) (cxt_console_size c)
    (cxt_ftrace_size c) (cxt_pmsg_size c) (cxt_flags c) (cxt_ecc_info c)
    (cxt_max_dump_cnt c) (cxt_dump_write_cnt c) dump console
    (cxt_max_ftrace_cnt c) ftrace pmsg.

Definition rec_set_time (r : pstore_record) (sec nsec : Z) (compressed : bool) :=
  mk_record (rec_type r) (rec_id r) sec nsec (rec_buf r) (rec_size r)
    (rec_ecc_notice_size r) (rec_count r) (rec_reason r) (rec_part r)
    compressed.

Definition rec_set_type_id (r : pstore_record) (type id : Z) :=
  mk_record type id (rec_time_sec r) (rec_time_nsec r) (rec_buf r) (rec_size r)
    (rec_ecc_notice_size r) (rec_count r) (rec_reason r) (rec_part r)
    (rec_compressed r).

Definition rec_set_buf (r : pstore_record) (buf : option (list Z))
    (ecc_notice_size : Z) :=
  mk_record (rec_type r) (rec_id r) (rec_time_sec r) (rec_time_nsec r) buf
    (rec_size r) ecc_notice_size (rec_count r) (rec_reason r) (rec_part r)
    (rec_compressed r).

(** [ramoops_pstore_open]. *)
Definition ramoops_pstore_open (cxt : ramoops_context) : ramoops_context * Z :=
  (set_read_cnts cxt 0 0 0 0, 0).

(** [przs[id]] for an [int] index: no result outside the array. *)
Definition prz_at (przs : list persistent_ram_zone) (id : Z)
  : option persistent_ram_zone :=
  if id <? 0 then None else przs !! Z.to_nat id.

(** The part of [ramoops_get_next_prz] behind the two NULL tests: the zone
    after the call, whether the zone is returned (rather than NULL), and
    the record. *)
Definition next_prz (fuel : nat) (prz : persistent_ram_zone) (id : Z)
    (record : pstore_record)
  : option (persistent_ram_zone * bool * pstore_record) :=
  do prz <-
    (if prz_type prz =? PSTORE_TYPE_DMESG then persistent_ram_save_old fuel prz
     else Some prz);
  if persistent_ram_old_size prz =? 0 then Some (prz, false, record)
  else Some (prz, true, rec_set_type_id record (prz_type prz) (to_size_t id)).

(** [ramoops_get_next_prz] on a zone array: the array after the call, the
    zone returned ([None] for NULL) and the record. *)
Definition ramoops_get_next_prz (fuel : nat)
    (przs : option (list persistent_ram_zone)) (id : Z)
    (record : pstore_record)
  : option (option (list persistent_ram_zone) * option persistent_ram_zone
            * pstore_record) :=
  match przs with
  | None => Some (None, None, record)
  | Some l =>
    do prz <- prz_at l id;
    do r <- next_prz fuel prz id record;
    let '(prz, found, record) := r in
    Some (Some (<[Z.to_nat id := prz]> l),
          if found then Some prz else None, record)
  end.

(** [ramoops_get_next_prz(&cxt->cprz, 0, record)] and the like: the array
    is the single pointer field, which may be NULL. *)
Definition ramoops_get_next_single (fuel : nat)
    (prz : option persistent_ram_zone) (record : pstore_record)
  : option (option persistent_ram_zone * option persistent_ram_zone
            * pstore_record) :=
  match prz with
  | None => Some (None, None, record)
  | Some prz =>
    do r <- next_prz fuel prz 0 record;
    let '(prz, found, record) := r in
    Some (Some prz, if found then Some prz else None, record)
  end.

(** What [ramoops_read_kmsg_hdr] obtains from [sscanf] of lib/vsprintf.c
    for its two formats, applied to the bytes of the old log:
    ["====%lld.%lu-%c\n%n"] gives seconds, the second number, the type
    character and the length consumed when all three conversions are made;
    ["====%lld.%lu\n%n"] gives seconds, the second number and the length
    when both are made.  [ram_kmalloc n] is what [ramoops_pstore_read]
    obtains from [kmalloc] for the record buffer: the block of [n] bytes
    as the allocator leaves it, or [None] for NULL. *)
Record hdr_env := mk_hdr_env {
  sscanf_hdr_typed : list Z -> option (Z * Z * Z * Z);
  sscanf_hdr_plain : list Z -> option (Z * Z * Z);
  ram_kmalloc : Z -> option (list Z)
}.

(** [ramoops_read_kmsg_hdr]: the header length returned, and what is
    stored through [time] and [compressed]. *)
Definition ramoops_read_kmsg_hdr (henv : hdr_env) (buffer : list Z)
  : Z * Z * Z * bool :=
  match sscanf_hdr_typed henv buffer with
  | Some (sec, nsec, data_type, header_length) =>
    (header_length, sec, to_long (nsec * 1000), data_type =? 67)
  | None =>
    match sscanf_hdr_plain henv buffer with
    | Some (sec, nsec, header_length) =>
      (header_length, sec, to_long (nsec * 1000), false)
    | None => (0, 0, 0, false)
    end
  end.

(** [prz_ok]. *)
Definition prz_ok (prz : option persistent_ram_zone) : bool :=
  match prz with
  | None => false
  | Some z =>
    negb (to_size_t (persistent_ram_old_size z
                     + fst (persistent_ram_ecc_string z 0)) =? 0)
  end.

Definition set_dump_zone (c : ramoops_context) (i : Z)
    (z : persistent_ram_zone) : ramoops_context :=
  set_dprzs c (option_map (fun l => <[Z.to_nat i := z]> l) (cxt_dprzs c))
    (cxt_dump_write_cnt c).

(** The [while] loop of [ramoops_pstore_read] that looks for the next
    dmesg zone with a valid header; [n] bounds its iterations.  The local
    [prz] is carried as the zone it points to. *)
Fixpoint read_dmesg_loop (henv : hdr_env) (fuel n : nat)
    (cxt : ramoops_context) (record : pstore_record)
    (prz : option persistent_ram_zone) (header_length : Z)
  : option (ramoops_context * pstore_record * option persistent_ram_zone * Z) :=
  if (cxt_dump_read_cnt cxt <? cxt_max_dump_cnt cxt) && is_null prz then
    match n with
    | O => None
    | S n' =>
      let id := to_int (cxt_dump_read_cnt cxt) in
      let cxt :=
        set_read_cnts cxt (to_uint (cxt_dump_read_cnt cxt + 1))
          (cxt_console_read_cnt cxt) (cxt_ftrace_read_cnt cxt)
          (cxt_pmsg_read_cnt cxt) in
      do r <- ramoops_get_next_prz fuel (cxt_dprzs cxt) id record;
      let '(dprzs, prz, record) := r in
      let cxt := set_dprzs cxt dprzs (cxt_dump_write_cnt cxt) in
      if negb (prz_ok prz) then
        read_dmesg_loop henv fuel n' cxt record prz header_length
      else
        do z <- prz;
        do old <- persistent_ram_old z;
        let '(header_length, sec, nsec, compressed) :=
          ramoops_read_kmsg_hdr henv old in
        let record := rec_set_time record sec nsec compressed in
        if header_length =? 0 then
          do z <- persistent_ram_zap (persistent_ram_free_old z);
          read_dmesg_loop henv fuel n' (set_dump_zone cxt id z) record None
            header_length
        else read_dmesg_loop henv fuel n' cxt record prz header_length
    end
  else Some (cxt, record, prz, header_length).

(** The zone [kzalloc] returns for [tmp_prz]. *)
Definition zeroed_zone : persistent_ram_zone :=
  mk_zone 0 0 "" 0 0 (mk_buffer 0 0 0 []) 0 0 0 None 0 0
    (mk_ecc_info 0 0 0 0) None 0.

(** The [while] loop of [ramoops_pstore_read] that combines the per-CPU
    ftrace zones into [tmp_prz]; the last component is [size], non-zero
    when the loop is left through [goto out]. *)
Fixpoint read_ftrace_loop (fuel n : nat) (cxt : ramoops_context)
    (record : pstore_record) (tmp_prz : persistent_ram_zone)
  : option (ramoops_context * pstore_record * persistent_ram_zone * Z) :=
  if cxt_ftrace_read_cnt cxt <? cxt_max_ftrace_cnt cxt then
    match n with
    | O => None
    | S n' =>
      let id := to_int (cxt_ftrace_read_cnt cxt) in
      let cxt :=
        set_read_cnts cxt (cxt_dump_read_cnt cxt) (cxt_console_read_cnt cxt)
          (to_uint (cxt_ftrace_read_cnt cxt + 1)) (cxt_pmsg_read_cnt cxt) in
      do r <- ramoops_get_next_prz fuel (cxt_fprzs cxt) id record;
      let '(fprzs, prz_next, record) := r in
      let cxt := set_fprzs cxt fprzs in
      if negb (prz_ok prz_next) then read_ftrace_loop fuel n' cxt record tmp_prz
      else
        do zn <- prz_next;
        let tmp_prz := set_ecc_info tmp_prz (prz_ecc_info zn) in
        let tmp_prz :=
          set_counters tmp_prz
            (to_int (prz_corrected_bytes tmp_prz + prz_corrected_bytes zn))
            (to_int (prz_bad_blocks tmp_prz + prz_bad_blocks zn)) in
        do r <- pstore_ftrace_combine_log fuel (prz_old_log tmp_prz)
                  (prz_old_log_size tmp_prz) (prz_old_log zn)
                  (prz_old_log_size zn);
        let '(log, log_size, size) := r in
        let tmp_prz := set_old tmp_prz log log_size in
        if negb (size =? 0) then Some (cxt, record, tmp_prz, size)
        else read_ftrace_loop fuel n' cxt record tmp_prz
    end
  else Some (cxt, record, tmp_prz, 0).

(** [ramoops_pstore_read]: the context after the call, the return value
    and the record.  [kzalloc] of [tmp_prz] is taken to succeed; the record
    buffer is the block [kmalloc] hands out, of which only the bytes the
    [memcpy] and [persistent_ram_ecc_string] store are written.  A copy of
    a negative number of bytes, from in front of the old log or past the
    end of the block has no result. *)
Definition ramoops_pstore_read (henv : hdr_env) (fuel : nat)
    (cxt : ramoops_context) (record : pstore_record)
  : option (ramoops_context * Z * pstore_record) :=
  let record := rec_set_time record 0 0 false in
  do r <- read_dmesg_loop henv fuel fuel cxt record None 0;
  let '(cxt, record, prz, header_length) := r in
  do r <-
    (if negb (prz_ok prz) then
       let first := cxt_console_read_cnt cxt =? 0 in
       let cxt :=
         set_read_cnts cxt (cxt_dump_read_cnt cxt)
           (to_uint (cxt_console_read_cnt cxt + 1)) (cxt_ftrace_read_cnt cxt)
           (cxt_pmsg_read_cnt cxt) in
       if first then
         do r <- ramoops_get_next_single fuel (cxt_cprz cxt) record;
         let '(cprz, prz, record) := r in
         Some (set_cprz cxt cprz, record, prz)
       else Some (cxt, record, prz)
     else Some (cxt, record, prz));
  let '(cxt, record, prz) := r in
  do r <-
    (if negb (prz_ok prz) then
       let first := cxt_pmsg_read_cnt cxt =? 0 in
       let cxt :=
         set_read_cnts cxt (cxt_dump_read_cnt cxt) (cxt_console_read_cnt cxt)
           (cxt_ftrace_read_cnt cxt) (to_uint (cxt_pmsg_read_cnt cxt + 1)) in
       if first then
         do r <- ramoops_get_next_single fuel (cxt_mprz cxt) record;
         let '(mprz, prz, record) := r in
         Some (set_mprz cxt mprz, record, prz)
       else Some (cxt, record, prz)
     else Some (cxt, record, prz));
  let '(cxt, record, prz) := r in
  do r <-
    (if negb (prz_ok prz) then
       if Z.land (cxt_flags cxt) RAMOOPS_FLAG_FTRACE_PER_CPU =? 0 then
         let first := cxt_ftrace_read_cnt cxt =? 0 in
         let cxt :=
           set_read_cnts cxt (cxt_dump_read_cnt cxt) (cxt_console_read_cnt cxt)
             (to_uint (cxt_ftrace_read_cnt cxt + 1)) (cxt_pmsg_read_cnt cxt) in
         if first then
           do r <- ramoops_get_next_prz fuel (cxt_fprzs cxt) 0 record;
           let '(fprzs, prz, record) := r in
           Some (set_fprzs cxt fprzs, record, prz, 0)
         else
           do r <- read_ftrace_loop fuel fuel cxt record zeroed_zone;
           let '(cxt, record, tmp_prz, size) := r in
           if negb (size =? 0) then Some (cxt, record, Some tmp_prz, size)
           else Some (cxt, rec_set_type_id record (rec_type record) 0,
                      Some tmp_prz, 0)
       else
         do r <- read_ftrace_loop fuel fuel cxt record zeroed_zone;
         let '(cxt, record, tmp_prz, size) := r in
         if negb (size =? 0) then Some (cxt, record, Some tmp_prz, size)
         else Some (cxt, rec_set_type_id record (rec_type record) 0,
                    Some tmp_prz, 0)
     else Some (cxt, record, prz, 0));
  let '(cxt, record, prz, size) := r in
  if negb (size =? 0) then Some (cxt, size, record)
  else if negb (prz_ok prz) then Some (cxt, 0, record)
  else
    do z <- prz;
    let size := to_long (persistent_ram_old_size z - to_size_t header_length) in
    let notice := fst (persistent_ram_ecc_string z 0) in
    let record := rec_set_buf record (rec_buf record) notice in
    let bytes := to_size_t (size + notice + 1) in
    match ram_kmalloc henv bytes with
    | None => Some (cxt, - ENOMEM, rec_set_buf record None notice)
    | Some buf =>
      if (size <? 0) || (header_length <? 0) || (zlen buf <? bytes) then None
      else
        do src <- first_record (persistent_ram_old z) header_length size;
        let buf := memcpy_at buf 0 src size in
        let buf :=
          list_inserts (Z.to_nat size)
            (snd (persistent_ram_ecc_string z (to_size_t (notice + 1)))) buf in
        Some (cxt, size, rec_set_buf record (Some buf) notice)
    end.

(** [ramoops_pstore_erase]: the context after the call and the return
    value. *)
Definition ramoops_pstore_erase (cxt : ramoops_context)
    (record : pstore_record) : option (ramoops_context * Z) :=
  let erase (prz : persistent_ram_zone) :=
    persistent_ram_zap (persistent_ram_free_old prz) in
  if rec_type record =? PSTORE_TYPE_DMESG then
    if cxt_max_dump_cnt cxt <=? rec_id record then Some (cxt, - EINVAL)
    else
      do przs <- cxt_dprzs cxt;
      do prz <- przs !! Z.to_nat (rec_id record);
      do prz <- erase prz;
      Some (set_dprzs cxt (Some (<[Z.to_nat (rec_id record) := prz]> przs))
              (cxt_dump_write_cnt cxt), 0)
  else if rec_type record =? PSTORE_TYPE_CONSOLE then
    do prz <- cxt_cprz cxt;
    do prz <- erase prz;
    Some (set_cprz cxt (Some prz), 0)
  else if rec_type record =? PSTORE_TYPE_FTRACE then
    if cxt_max_ftrace_cnt cxt <=? rec_id record then Some (cxt, - EINVAL)
    else
      do przs <- cxt_fprzs cxt;
      do prz <- przs !! Z.to_nat (rec_id record);
      do prz <- erase prz;
      Some (set_fprzs cxt (Some (<[Z.to_nat (rec_id record) := prz]> przs)), 0)
  else if rec_type record =? PSTORE_TYPE_PMSG then
    do prz <- cxt_mprz cxt;
    do prz <- erase prz;
    Some (set_mprz cxt (Some prz), 0)
  else Some (cxt, - EINVAL).

(* ------------------------------------------------------------------ *)
(** ** platform.c: type names, the frontends and unregistration *)

(** [pstore_type_to_name]; [type] is compared as the unsigned value of the
    enum. *)
Definition pstore_type_to_name (type : Z) : string :=
  if PSTORE_TYPE_MAX <=? to_uint type then "unknown"%string
  else default ""%string (pstore_type_names !! Z.to_nat (to_uint type)).

(** [zbufsize_deflate]: the [switch] on [size], then [(size * 100) / cmpr]
    in [size_t], returned as [int]. *)
Definition zbufsize_deflate (size : Z) : Z :=
  let cmpr :=
    if (1000 <=? size) && (size <=? 2000) then 56
    else if (2001 <=? size) && (size <=? 3000) then 54
    else if (3001 <=? size) && (size <=? 3999) then 52
    else if (4000 <=? size) && (size <=? 10000) then 45
    else 60 in
  to_int (to_size_t (size * 100) / cmpr).

(** The entry of [zbackends] for deflate. *)
Definition deflate_zbackend : pstore_zbackend :=
  mk_zbackend zbufsize_deflate "deflate".

(** [free_buf_for_compression]. *)
Definition free_buf_for_compression {D} (env : kernel_env)
    (st : pstore_state D) : pstore_state D :=
  let t :=
    if CONFIG_PSTORE_COMPRESS env && negb (is_null (tfm st)) then None
    else tfm st in
  set_compression st t None 0.

(** [pstore_record_init] followed by the assignments of
    [pstore_console_write]. *)
Definition console_record (env : kernel_env) (s : list Z) (c : Z)
  : pstore_record :=
  let ns := ktime_get_real_fast_ns env in
  mk_record PSTORE_TYPE_CONSOLE 0 (ns / 1000000000) (ns mod 1000000000)
    (Some s) c 0 0 0 0 false.

(** [pstore_console_write]: the file-scope state after the call.  The
    value [write] returns is dropped, as in the source. *)
Definition pstore_console_write {D} (env : kernel_env) (st : pstore_state D)
    (s : list Z) (c : Z) : option (pstore_state D) :=
  if c =? 0 then Some st
  else
    do psi <- psinfo st;
    do w <- psi_write psi;
    do r <- w (console_record env s c) (psi_data psi);
    Some (set_psinfo st (Some (psi_set_data psi (fst r)))).

(** What [pstore_unregister] does to the rest of the kernel, in program
    order. *)
Inductive unregister_event :=
| UnWarn
| UnUnregisterPmsg
| UnUnregisterFtrace
| UnUnregisterConsole
| UnUnregisterKmsg
| UnDelTimerSync
| UnFlushWork
| UnPutBackendRecords.

(** The pointer handed to [pstore_unregister]: NULL, the pointer held in
    [psinfo], or a pointer to some other [struct pstore_info]. *)
Inductive psi_pointer := PsiNull | PsiRegistered | PsiOther.

(** [pstore_unregister].  With [psinfo] NULL every non-NULL argument
    differs from it. *)
Definition pstore_unregister {D} (env : kernel_env) (st : pstore_state D)
    (psi : psi_pointer) : pstore_state D * list unregister_event :=
  match psi, psinfo st with
  | PsiNull, _ => (st, [])
  | PsiRegistered, Some p =>
    let ev1 :=
      if negb (Z.land (psi_flags p) PSTORE_FLAGS_PMSG =? 0)
      then [UnUnregisterPmsg] else [] in
    let ev2 :=
      if negb (Z.land (psi_flags p) PSTORE_FLAGS_FTRACE =? 0)
      then [UnUnregisterFtrace] else [] in
    let ev3 :=
      if negb (Z.land (psi_flags p) PSTORE_FLAGS_CONSOLE =? 0)
      then [UnUnregisterConsole] else [] in
    let ev4 :=
      if negb (Z.land (psi_flags p) PSTORE_FLAGS_DMESG =? 0)
      then [UnUnregisterKmsg] else [] in
    let st := free_buf_for_compression env st in
    let st := set_psinfo st None in
    let st := set_backend st None in
    (st,
     ev1 ++ ev2 ++ ev3 ++ ev4
     ++ [UnDelTimerSync; UnFlushWork; UnPutBackendRecords])
  | _, _ => (st, [UnWarn])
  end.

(* ------------------------------------------------------------------ *)
(** ** pmsg.c *)

(** [pstore_record_init] followed by the assignments of [write_pmsg]. *)
Definition pmsg_record (env : kernel_env) (count : Z) : pstore_record :=
  let ns := ktime_get_real_fast_ns env in
  mk_record PSTORE_TYPE_PMSG 0 (ns / 1000000000) (ns mod 1000000000)
    None (to_long count) 0 0 0 0 false.

(** [write_pmsg]: the file-scope state after the call and the return
    value.  [access_ok] is the result of [access_ok(buf, count)]; [count]
    is a [size_t]. *)
Definition write_pmsg {D} (env : kernel_env) (access_ok : bool)
    (st : pstore_state D) (buf : list (option Z)) (count : Z)
  : option (pstore_state D * Z) :=
  if count =? 0 then Some (st, 0)
  else if negb access_ok then Some (st, - EFAULT)
  else
    do psi <- psinfo st;
    do w <- psi_write_user psi;
    do r <- w (pmsg_record env count) buf (psi_data psi);
    let ret := to_int (snd r) in
    Some (set_psinfo st (Some (psi_set_data psi (fst r))),
          if negb (ret =? 0) then ret else to_long count).

(* ------------------------------------------------------------------ *)
(** * Specification vocabulary *)

(** ** Lists read as rings *)

(** The last [n] elements. *)
Definition lastn {A} (n : nat) (l : list A) : list A := drop (length l - n) l.

(** The list read circularly from position [s]. *)
Definition rot {A} (s : nat) (l : list A) : list A := drop s l ++ take s l.

(** Writing [q] at [s], wrapping once at the end of [l], as the two
    [persistent_ram_update] calls of [persistent_ram_write] do. *)
Definition ring_store {A} (s : nat) (q l : list A) : list A :=
  if (length l - s <? length q)%nat
  then list_inserts 0 (drop (length l - s) q)
         (list_inserts s (take (length l - s) q) l)
  else list_inserts s q l.

(** ** Well-formed zones *)

(** ECC is off, or set up as [persistent_ram_init_ecc] leaves it: a decoder,
    positive block and parity sizes, parity placed behind the data. *)
Definition ecc_ok (z : persistent_ram_zone) : Prop :=
  ecc_size (prz_ecc_info z) = 0 \/
  (0 < ecc_size (prz_ecc_info z) /\ 0 < block_size (prz_ecc_info z) /\
   prz_buffer_size z <= prz_par_buffer z /\
   prz_buffer_size z <= prz_par_header z /\
   is_Some (prz_rs_decoder z)).

(** The data area is mapped and its size fits the [int] cursors. *)
Definition zone_wf (z : persistent_ram_zone) : Prop :=
  0 < prz_buffer_size z <= INT_MAX /\
  prz_buffer_size z <= zlen (b_data (prz_buffer z)) /\
  - 2 ^ 31 <= b_start (prz_buffer z) < 2 ^ 31 /\
  - 2 ^ 31 <= b_size (prz_buffer z) < 2 ^ 31 /\
  ecc_ok z.

(** The cursor invariants of the zone. *)
Definition cursor_inv (z : persistent_ram_zone) : Prop :=
  buffer_start z < prz_buffer_size z /\ buffer_size z <= prz_buffer_size z.

(** ** Vocabulary for [persistent_ram_write] *)

(** The byte count [persistent_ram_write] works with after its
    truncation step, and the source pointer after it. *)
Definition eff_len (bs count : Z) : Z :=
  if bs <? to_size_t (to_int count) then to_int bs else to_int count.

Definition eff_src {A} (bs : Z) (s : list A) (count : Z) : list A :=
  if bs <? to_size_t (to_int count)
  then zdrop (to_size_t (to_size_t (to_int count) - bs)) s else s.

(** The ring seen from the cursor: the data area read circularly from
    [start]. *)
Definition ring (z : persistent_ram_zone) : list Z :=
  rot (Z.to_nat (b_start (prz_buffer z)))
    (ztake (prz_buffer_size z) (b_data (prz_buffer z))).

(** [persistent_ram_write] called once per payload, in order. *)
Fixpoint persistent_ram_write_all (fuel : nat) (z : persistent_ram_zone)
    (ps : list (list Z)) : option persistent_ram_zone :=
  match ps with
  | [] => Some z
  | p :: ps' =>
    match persistent_ram_write fuel z p (zlen p) with
    | Some (z', _) => persistent_ram_write_all fuel z' ps'
    | None => None
    end
  end.

(** ** Concrete zones for the examples *)

(** A toy codec: every parity symbol is the xor of the data; decoding
    reports no error. *)
Definition xor_rs : rs_control :=
  mk_rs_control
    (fun data par => map (fun _ => foldr Z.lxor 0 data) par)
    (fun data _ => (0, data)).

(** An empty zone of [bs] usable bytes, ECC off. *)
Definition empty_zone (bs : Z) : persistent_ram_zone :=
  mk_zone 0 (bs + sizeof_buffer) "ramoops:test" 0 0
    (mk_buffer PERSISTENT_RAM_SIG 0 0 (replicate (Z.to_nat bs) 0))
    bs 0 0 None 0 0 (mk_ecc_info 0 0 0 0) None 0.

(** An empty zone of 8 usable bytes with one parity byte per block of 4:
    two block parities at offsets 8 and 9, the header parity at 10. *)
Definition ecc_zone : persistent_ram_zone :=
  mk_zone 0 23 "ramoops:test" 0 0
    (mk_buffer PERSISTENT_RAM_SIG 0 0 (replicate 11 0))
    8 8 10 (Some xor_rs) 0 0 (mk_ecc_info 4 1 8 0x11d) None 0.

(** The bytes 1, 2, ..., n. *)
Definition count_up (n : nat) : list Z := map Z.of_nat (seq 1 n).

(** A full 4-byte zone, snapshotted, then one more byte appended. *)
Definition full_zone : persistent_ram_zone :=
  mk_zone 0 16 "ramoops:test" 0 0
    (mk_buffer PERSISTENT_RAM_SIG 0 4 [1; 2; 3; 4])
    4 0 0 None 0 0 (mk_ecc_info 0 0 0 0) None 0.

(** The ECC zone after a write of 5 bytes: first snapshot, then a second
    call that changes nothing. *)
Definition ecc_zone_5 : persistent_ram_zone :=
  match persistent_ram_write 20 ecc_zone [1; 2; 3; 4; 5] 5 with
  | Some (z, _) => z
  | None => ecc_zone
  end.



(** A zone that still holds a two-byte snapshot. *)
Definition kept_snapshot_zone : persistent_ram_zone :=
  mk_zone 0 16 "ramoops:test" 0 0
    (mk_buffer PERSISTENT_RAM_SIG 2 2 [1; 2; 0; 0])
    4 0 0 None 0 0 (mk_ecc_info 0 0 0 0) (Some [1; 2]) 2.


(** ** Vocabulary for zone set-up *)

(** A machine whose RAM reads as zeros everywhere and whose Reed-Solomon
    library hands out the toy codec. *)
Definition zero_env : ram_env :=
  mk_ram_env (fun _ _ _ _ _ => Some xor_rs)
    (fun _ size _ => Some (replicate (Z.to_nat size) 0)).

(** A ramoops context over the region of [size] bytes at [base], with the
    given ECC request and flags and no zones yet. *)
Definition blank_cxt (base size : Z) (ei : persistent_ram_ecc_info)
    (flags : Z) : ramoops_context :=
  mk_cxt None None None None base size 0 0 0 0 0 flags ei 0 0 0 0 0 0 0.

(** The physical bytes a zone occupies: from [prz_paddr], [prz_size] of
    them. *)
Definition zone_within (base size : Z) (z : persistent_ram_zone) : Prop :=
  base <= prz_paddr z /\ prz_paddr z + prz_size z <= base + size.

Definition zones_apart (z1 z2 : persistent_ram_zone) : Prop :=
  prz_paddr z1 + prz_size z1 <= prz_paddr z2 \/
  prz_paddr z2 + prz_size z2 <= prz_paddr z1.

(** Every zone lies before the next one in the list. *)
Fixpoint zones_consecutive (next : Z) (l : list persistent_ram_zone) : Prop :=
  match l with
  | [] => True
  | z :: l' =>
    prz_paddr z = next /\ zones_consecutive (next + prz_size z) l'
  end.

(** Where a zone lies and that its ECC is off. *)
Definition placed (start size : Z) (z : persistent_ram_zone) : Prop :=
  prz_paddr z = start /\ prz_size z = size /\ ecc_size (prz_ecc_info z) = 0.

(** No two zones of the list share a byte. *)
Fixpoint zones_disjoint (l : list persistent_ram_zone) : Prop :=
  match l with
  | [] => True
  | z :: l' => Forall (zones_apart z) l' /\ zones_disjoint l'
  end.

(** The address just behind zones laid end to end from [next]. *)
Fixpoint zones_consecutive_end (next : Z) (l : list persistent_ram_zone) : Z :=
  match l with
  | [] => next
  | z :: l' => zones_consecutive_end (next + prz_size z) l'
  end.

(** ** Vocabulary for the registry *)

(** A backend with no private data that accepts and drops every record. *)
Definition null_backend (name : string) (flags : Z) : pstore_info unit :=
  mk_psi name false (replicate 64 0) 64 flags 0 tt
    None None
    (Some (fun d => (d, 0, mk_record 0 0 0 0 None 0 0 0 0 0 false)))
    (Some (fun _ d => Some (d, 0)))
    None None.

(** platform.c before any backend has registered. *)
Definition initial_state : pstore_state unit :=
  mk_state None None None None 0 10240 0 0 (-1) None 0.

(** A kernel without compression, outside NMI, with an empty log; its
    allocator hands out zeroed blocks. *)
Definition quiet_env : kernel_env :=
  mk_kernel_env false (fun _ => false) (fun _ => false)
    (fun _ _ => (- EINVAL, [])) false
    (fun r => if r =? KMSG_DUMP_PANIC then "Panic"%string
              else if r =? KMSG_DUMP_OOPS then "Oops"%string
              else "Unknown"%string)
    unit tt (fun it _ _ => (it, false, [])) 0
    (fun n => Some (replicate (Z.to_nat n) 0)).

(** The state once "ramoops" has registered. *)
Definition ramoops_registered : pstore_state unit :=
  fst (fst (pstore_register quiet_env initial_state
              (null_backend "ramoops" PSTORE_FLAGS_DMESG))).

(** The status [pstore_register] returns when it rejects [psi] while a
    backend is active. *)
Definition rejection_status {D} (st : pstore_state D) (psi : pstore_info D) : Z :=
  if match backend st with
     | Some b => negb (String.eqb b (psi_name psi))
     | None => false
     end
  then - EPERM
  else if psi_flags psi =? 0 then - EINVAL
  else if is_null (psi_read psi) || is_null (psi_write psi) then - EINVAL
  else - EBUSY.







(** A context with one dmesg zone, and the second part of a crash dump. *)
Definition one_dmesg_cxt : ramoops_context :=
  mk_cxt (Some [empty_zone 32]) None None None 0 44 0 44 0 0 0 0
    (mk_ecc_info 0 0 0 0) 1 0 0 0 0 0 0.

Definition part_two : pstore_record :=
  mk_record PSTORE_TYPE_DMESG 0 0 0 (Some [79; 111; 112; 115]) 4 0 1
    KMSG_DUMP_OOPS 2 false.


(** The ramoops backend over the context [cxt], on CPU 0. *)
Definition ramoops_psi (cxt : ramoops_context) : pstore_info ramoops_context :=
  mk_psi "ramoops" false (replicate 32 0) 32 PSTORE_FLAGS_DMESG KMSG_DUMP_OOPS
    cxt None None None
    (Some (fun record c => ramoops_pstore_write 64 0 c record))
    (Some (fun record buf c => ramoops_pstore_write_user 64 c record buf))
    None.

(** A kernel whose log hands out the text "log" twice and then ends. *)
Definition log_env : kernel_env :=
  mk_kernel_env false (fun _ => false) (fun _ => false)
    (fun _ _ => (- EINVAL, [])) false
    (fun r => if r =? KMSG_DUMP_PANIC then "Panic"%string
              else if r =? KMSG_DUMP_OOPS then "Oops"%string
              else "Unknown"%string)
    nat 2%nat
    (fun it _ size =>
       match it with
       | O => (O, false, [])
       | S k => (k, true, ztake size [108; 111; 103])
       end)
    0
    (fun n => Some (replicate (Z.to_nat n) 0)).

(** platform.c with the ramoops backend over [one_dmesg_cxt] active. *)
Definition ramoops_active : pstore_state ramoops_context :=
  mk_state (Some (ramoops_psi one_dmesg_cxt)) (Some "ramoops"%string)
    None None 0 10240 0 0 (-1) None KMSG_DUMP_OOPS.

(** ** Vocabulary for ftrace logs *)

(** The first [n] records of a buffer, 24 bytes each. *)
Fixpoint chunks (n : nat) (l : list Z) : list (list Z) :=
  match n with
  | O => []
  | S k => take 24 l :: chunks k (drop 24 l)
  end.

(** The whole records of a log of [size] bytes: a log that is not a
    multiple of the record size has lost the head of its oldest record,
    so the records are counted from the end. *)
Definition ftrace_records (log : list Z) (size : Z) : list (list Z) :=
  chunks (Z.to_nat (size / REC_SIZE)) (zdrop (size mod REC_SIZE) log).

(** The time stamp of a record given by its bytes. *)
Definition record_ts (c : list Z) : Z :=
  pstore_ftrace_read_timestamp (frec_at c 0).

(** Merging two lists of records by time stamp; on equal stamps the
    record of the second list goes first. *)
Fixpoint merge_records (a : list (list Z)) : list (list Z) -> list (list Z) :=
  fix merge_b (b : list (list Z)) : list (list Z) :=
    match a, b with
    | [], _ => b
    | _, [] => a
    | x :: a', y :: b' =>
      if record_ts x <? record_ts y then x :: merge_records a' b
      else y :: merge_b b'
    end.

(** A list of records in the order of their time stamps. *)
Definition stamps_sorted (a : list (list Z)) : Prop :=
  Sorted Z.le (map record_ts a).

(** Every record of a list has its 24 bytes. *)
Definition whole (A : list (list Z)) : Prop :=
  Forall (fun c => length c = 24%nat) A.

(** A backend with no private data that accepts and drops every record,
    active for ftrace. *)
Definition ftrace_state : pstore_state unit :=
  mk_state (Some (null_backend "ramoops" PSTORE_FLAGS_FTRACE))
    (Some "ramoops"%string) None None 0 10240 0 0 (-1) None 0.

(** A traced call on CPU 3, outside an oops. *)
Definition cpu3_env : ftrace_env := mk_ftrace_env false (fun _ _ => 0) 3.

(** The bytes of a record that carries only the time stamp [t]. *)
Definition stamped (t : Z) : list Z :=
  frec_bytes (pstore_ftrace_write_timestamp (mk_frec 0 0 0) t).

(** Two per-CPU logs: one that lost the head of its oldest record, with
    stamps 1 and 4, and one with stamps 2 and 3. *)
Definition cpu0_log : list Z := [7] ++ stamped 1 ++ stamped 4.
Definition cpu1_log : list Z := stamped 2 ++ stamped 3.

(** ** Vocabulary for a zone across a reboot *)

(** The bytes a zone occupies in RAM: the header, then the data area. *)
Definition zone_image (z : persistent_ram_zone) : list Z :=
  header_bytes (prz_buffer z) ++ b_data (prz_buffer z).

(** The header and data [persistent_ram_buffer_map] finds in the mapped
    bytes. *)
Definition found_buffer (bytes : list Z) : persistent_ram_buffer :=
  header_of_bytes (take 12 bytes) (drop 12 bytes).

(** A zone as [persistent_ram_zap] leaves it on first use: empty, with the
    cursors at 0; then written to.  Until such a zone is full its start
    cursor equals its size. *)
Definition grown_from_empty (z : persistent_ram_zone) : Prop :=
  b_size (prz_buffer z) < prz_buffer_size z ->
  b_start (prz_buffer z) = b_size (prz_buffer z).

(** A region of 112 bytes whose header carries the right signature, size 0
    and start 5000. *)
Definition stale_start_bytes : list Z :=
  le32 PERSISTENT_RAM_SIG ++ le32 5000 ++ le32 0 ++ replicate 100 0.

(** A machine whose RAM holds [bytes] wherever it is mapped. *)
Definition ram_holding (bytes : list Z) : ram_env :=
  mk_ram_env (fun _ _ _ _ _ => None) (fun _ _ _ => Some bytes).

(** ** Vocabulary for records in the ramoops zones *)

(** The bytes [ramoops_write_kmsg_hdr] writes in front of a record. *)
Definition kmsg_hdr_bytes (record : pstore_record) : list Z :=
  take 35 (bytes_of_string (kmsg_hdr_text record)).

(** A context whose only zones are the dmesg zones [zones], ECC off. *)
Definition dmesg_cxt (zones : list persistent_ram_zone) : ramoops_context :=
  mk_cxt (Some zones) None None None 0 0 0 0 0 0 0 0 (mk_ecc_info 0 0 0 0)
    (zlen zones) 0 0 0 0 0 0.

(** The first part of an oops dump with the given text, taken at time 0. *)
Definition oops_record (payload : list Z) : pstore_record :=
  mk_record PSTORE_TYPE_DMESG 0 0 0 (Some payload) (zlen payload) 0 1
    KMSG_DUMP_OOPS 1 false.

(** A zone together with the snapshot [persistent_ram_save_old] takes of
    it. *)
Definition with_snapshot (z : persistent_ram_zone) : persistent_ram_zone :=
  set_old z (Some (logical_contents z)) (buffer_size z).

(** A zone that holds bytes nobody has snapshotted yet, ECC off: the
    cursors are in range, at least one byte is valid and [old_log] is
    NULL. *)
Definition unread_zone (z : persistent_ram_zone) : Prop :=
  ecc_size (prz_ecc_info z) = 0 /\ prz_old_log z = None /\
  0 <= b_start (prz_buffer z) <= b_size (prz_buffer z) /\
  0 < b_size (prz_buffer z) <= prz_buffer_size z /\
  prz_buffer_size z <= INT_MAX /\
  prz_buffer_size z <= zlen (b_data (prz_buffer z)).

(** The read cursors after the dmesg zone at [dump_read_cnt] was taken. *)
Definition dump_read_advanced (cxt : ramoops_context) : ramoops_context :=
  set_read_cnts cxt (to_uint (cxt_dump_read_cnt cxt + 1))
    (cxt_console_read_cnt cxt) (cxt_ftrace_read_cnt cxt)
    (cxt_pmsg_read_cnt cxt).

(** What is left of the block [blk] that [kmalloc] handed out once
    [text] has been copied to its front: the bytes of [text], then the
    bytes of the block that nothing has written. *)
Definition text_in_block (text blk : list Z) : list Z :=
  text ++ zdrop (zlen text) blk.

(** The record [ramoops_pstore_read] fills in for the dmesg zone [id]
    whose text [sscanf] splits into a header of [hl] bytes, giving the time
    [sec].[usec] and the type character [t], and the rest; ECC is off and
    [blk] is the block [kmalloc] handed out for the buffer. *)
Definition dmesg_record_read (record : pstore_record) (id sec usec t hl : Z)
    (contents blk : list Z) : pstore_record :=
  mk_record PSTORE_TYPE_DMESG id sec (to_long (usec * 1000))
    (Some (text_in_block (zdrop hl contents) blk)) (rec_size record) 0
    (rec_count record) (rec_reason record) (rec_part record) (t =? 67).

(** A record as [pstore_get_backend_records] hands it to [read]: every
    field zero. *)
Definition blank_record : pstore_record :=
  mk_record 0 0 0 0 None 0 0 0 0 0 false.

(** A reader of decimal headers for the examples: ["===="], digits, a dot,
    digits; for the typed form a dash and one character; then any white
    space.  It reports the two numbers, the character and how many bytes
    it went over. *)
Fixpoint scan_digits (l : list Z) (acc : Z) (n : Z) : Z * Z * list Z :=
  match l with
  | c :: r =>
    if (48 <=? c) && (c <=? 57) then scan_digits r (10 * acc + (c - 48)) (n + 1)
    else (acc, n, l)
  | [] => (acc, n, l)
  end.

Fixpoint skip_spaces (l : list Z) (n : Z) : Z :=
  match l with
  | c :: r =>
    if (c =? 32) || ((9 <=? c) && (c <=? 13)) then skip_spaces r (n + 1) else n
  | [] => n
  end.

Definition scan_hdr (typed : bool) (l : list Z) : option (Z * Z * Z * Z) :=
  match l with
  | 61 :: 61 :: 61 :: 61 :: r =>
    let '(sec, n1, r) := scan_digits r 0 0 in
    match r with
    | 46 :: r =>
      let '(usec, n2, r) := scan_digits r 0 0 in
      if (n1 =? 0) || (n2 =? 0) then None
      else if typed then
        match r with
        | 45 :: c :: r => Some (sec, usec, c, skip_spaces r (n1 + n2 + 7))
        | _ => None
        end
      else Some (sec, usec, 0, skip_spaces r (n1 + n2 + 5))
    | _ => None
    end
  | _ => None
  end.

(** Blocks as an allocator with poisoning hands them out: every byte
    0x6b. *)
Definition poisoned_block (n : Z) : option (list Z) :=
  Some (replicate (Z.to_nat n) 107).

Definition decimal_hdr_env : hdr_env :=
  mk_hdr_env (scan_hdr true)
    (fun l => option_map (fun r => (r.1.1.1, r.1.1.2, r.2)) (scan_hdr false l))
    poisoned_block.

(** A zone after [persistent_ram_free_old] and [persistent_ram_zap], ECC
    off: no snapshot, both cursors 0, the data bytes as they were. *)
Definition wiped (z : persistent_ram_zone) : persistent_ram_zone :=
  set_size (set_start (set_old z None 0) 0) 0.

(** A reader that finds no header in any text. *)
Definition no_hdr_env : hdr_env :=
  mk_hdr_env (fun _ => None) (fun _ => None) poisoned_block.

(** An 8-byte zone holding the four bytes "Oops" and no header. *)
Definition headerless_zone : persistent_ram_zone :=
  mk_zone 0 20 "ramoops:dmesg" 0 0
    (mk_buffer PERSISTENT_RAM_SIG 4 4 [79; 111; 112; 115; 0; 0; 0; 0])
    8 0 0 None 0 0 (mk_ecc_info 0 0 0 0) None 0.

(** A context with a console zone and a pmsg zone of 8 bytes each, and
    platform.c with the ramoops backend over a context active. *)
Definition console_pmsg_cxt : ramoops_context :=
  mk_cxt None (Some (empty_zone 8)) None (Some (empty_zone 8)) 0 40 0 0 20 0 20
    0 (mk_ecc_info 0 0 0 0) 0 0 0 0 0 0 0.

Definition ramoops_over (cxt : ramoops_context)
  : pstore_state ramoops_context :=
  mk_state (Some (ramoops_psi cxt)) (Some "ramoops"%string) None None 0 10240
    0 0 (-1) None KMSG_DUMP_OOPS.

(** A context with one 48-byte ftrace zone for each of two CPUs. *)
Definition two_ftrace_cxt : ramoops_context :=
  mk_cxt None None (Some [empty_zone 48; empty_zone 48]) None 0 120 0 0 0 120 0
    RAMOOPS_FLAG_FTRACE_PER_CPU (mk_ecc_info 0 0 0 0) 0 0 0 0 2 0 0.

(** ** Vocabulary for the events of a dump *)

(** The backend writes among [ev] are the parts [part], [part + 1], ... of
    dump number [count] taken for [reason], each a DMESG record; the only
    other events are timer kicks. *)
Fixpoint dump_events_from (count reason part : Z) (ev : list pstore_event)
  : Prop :=
  match ev with
  | [] => True
  | EvBackendWrite r _ :: rest =>
    rec_type r = PSTORE_TYPE_DMESG /\ rec_count r = count /\
    rec_reason r = reason /\ rec_part r = part /\
    dump_events_from count reason (to_uint (part + 1)) rest
  | EvModTimer _ :: rest => dump_events_from count reason part rest
  | _ :: _ => False
  end.

(** ** Vocabulary for reading per-CPU ftrace zones *)

(** The whole records in the old log of a zone. *)
Definition zone_records (z : persistent_ram_zone) : list (list Z) :=
  ftrace_records (default [] (prz_old_log z)) (prz_old_log_size z).

(** An ftrace zone after boot, ECC off: its old log holds [old_log_size]
    bytes (none when [old_log] is NULL). *)
Definition ftrace_zone (z : persistent_ram_zone) : Prop :=
  prz_type z = PSTORE_TYPE_FTRACE /\ ecc_size (prz_ecc_info z) = 0 /\
  zlen (default [] (prz_old_log z)) = prz_old_log_size z /\
  prz_old_log_size z <= INT_MAX.

(** The records of the zones merged one zone after the other, as the
    loop of [ramoops_pstore_read] does. *)
Definition merged_records (zs : list persistent_ram_zone) : list (list Z) :=
  foldl (fun M z => merge_records M (zone_records z)) [] zs.

(** The zone [tmp_prz] of [ramoops_pstore_read] holds the records [M]
    merged so far: its old log is their bytes, or still NULL when there
    are none. *)
Definition holds_records (M : list (list Z)) (tmp : persistent_ram_zone)
  : Prop :=
  prz_old_log_size tmp = 24 * zlen M /\
  default [] (prz_old_log tmp) = concat M /\ whole M /\
  ecc_size (prz_ecc_info tmp) = 0.

(** An ftrace zone of 64 bytes whose old log is [log], and a context with
    one such zone for each of two CPUs, holding [cpu0_log] and
    [cpu1_log]. *)
Definition ftrace_zone_with (log : list Z) : persistent_ram_zone :=
  mk_zone 0 76 "ramoops:ftrace" PSTORE_TYPE_FTRACE 0
    (mk_buffer PERSISTENT_RAM_SIG 0 0 (replicate 64 0))
    64 0 0 None 0 0 (mk_ecc_info 0 0 0 0) (Some log) (zlen log).

Definition two_cpu_traces : ramoops_context :=
  mk_cxt None None
    (Some [ftrace_zone_with cpu0_log; ftrace_zone_with cpu1_log]) None
    0 152 0 0 0 152 0 RAMOOPS_FLAG_FTRACE_PER_CPU (mk_ecc_info 0 0 0 0)
    0 0 0 0 2 0 0.

(** The ECC notice [ramoops_pstore_read] puts behind the text of a
    record: nothing when ECC is off. *)
Definition ecc_notice (z : persistent_ram_zone) : list Z :=
  if ecc_size (prz_ecc_info z) =? 0 then []
  else bytes_of_string (ecc_notice_text z).

(** What [persistent_ram_ecc_string] stores through [str] when it is
    given room for the notice and a NUL: nothing when ECC is off. *)
Definition notice_stored (z : persistent_ram_zone) : list Z :=
  if ecc_size (prz_ecc_info z) =? 0 then [] else ecc_notice z ++ [0].

(** A console zone with ECC on that came up with the old log "hi" and
    three corrected bytes, and a context that has only this zone. *)
Definition console_zone_ecc : persistent_ram_zone :=
  mk_zone 0 23 "ramoops:console" PSTORE_TYPE_CONSOLE 0
    (mk_buffer PERSISTENT_RAM_SIG 0 0 (replicate 11 0))
    8 8 10 (Some xor_rs) 3 0 (mk_ecc_info 4 1 8 0x11d) (Some [104; 105]) 2.

Definition console_ecc_cxt : ramoops_context :=
  mk_cxt None (Some console_zone_ecc) None None 0 23 0 0 23 0 0 0
    (mk_ecc_info 4 1 8 0x11d) 0 0 0 0 0 0 0.

(** A kernel like [quiet_env] with compression built in and deflate
    available, whose allocator hands out blocks of bytes 0x6b, and
    platform.c with deflate chosen and a backend whose
    buffer has 4096 bytes. *)
Definition deflate_env : kernel_env :=
  mk_kernel_env true (fun _ => true) (fun _ => true)
    (fun _ _ => (- EINVAL, [])) false (fun _ => "Oops"%string)
    unit tt (fun it _ _ => (it, false, [])) 0
    poisoned_block.

Definition deflate_psi : pstore_info unit :=
  mk_psi "ramoops" false (replicate 4096 0) 4096 PSTORE_FLAGS_DMESG
    KMSG_DUMP_OOPS tt None None None None None None.

Definition deflate_state : pstore_state unit :=
  mk_state (Some deflate_psi) (Some "ramoops"%string) None None 0 10240 0 0
    (-1) (Some deflate_zbackend) KMSG_DUMP_OOPS.

(* ------------------------------------------------------------------ *)
(** * Properties *)

(** ** Facts about the integer conversions *)

Lemma to_size_t_small (x : Z) : 0 <= x < 2 ^ 64 -> to_size_t x = x.
Proof. intros H. unfold to_size_t. apply Z.mod_small. exact H. Qed.

Lemma to_uint_small (x : Z) : 0 <= x < 2 ^ 32 -> to_uint x = x.
Proof. intros H. unfold to_uint. apply Z.mod_small. exact H. Qed.

Lemma to_int_small (x : Z) : - 2 ^ 31 <= x < 2 ^ 31 -> to_int x = x.
Proof. intros H. unfold to_int. rewrite Z.mod_small; lia. Qed.

(** An [int] sum that overflowed reads as a negative number. *)
Lemma to_int_high (x : Z) : 2 ^ 31 <= x < 2 ^ 32 -> to_int x = x - 2 ^ 32.
Proof.
  intros H. unfold to_int.
  replace (x + 2 ^ 31) with (x - 2 ^ 31 + 1 * 2 ^ 32) by lia.
  rewrite Z.mod_add by lia. rewrite Z.mod_small; lia.
Qed.

Lemma to_size_t_neg (x : Z) : - 2 ^ 63 <= x < 0 -> to_size_t x = x + 2 ^ 64.
Proof.
  intros H. unfold to_size_t.
  replace x with (x + 2 ^ 64 + (-1) * 2 ^ 64) at 1 by lia.
  rewrite Z.mod_add by lia. apply Z.mod_small. lia.
Qed.

(** ** Facts about lists used as rings *)

Section ring.
Context {A : Type}.
Implicit Types l q : list A.

Lemma lastn_ge n l : (length l <= n)%nat -> lastn n l = l.
Proof. intros H. unfold lastn. replace (length l - n)%nat with 0%nat by lia. apply drop_0. Qed.

Lemma length_lastn n l : length (lastn n l) = Nat.min n (length l).
Proof. unfold lastn. rewrite length_drop. lia. Qed.

Lemma lastn_app_r n l q : (n <= length q)%nat -> lastn n (l ++ q) = lastn n q.
Proof.
  intros H. unfold lastn. rewrite length_app.
  rewrite drop_app. rewrite drop_ge by lia. simpl. f_equal. lia.
Qed.

Lemma lastn_app_lastn_l n l q : lastn n (lastn n l ++ q) = lastn n (l ++ q).
Proof.
  unfold lastn. rewrite !length_app, length_drop.
  rewrite !drop_app, drop_drop, length_drop.
  destruct (decide (length l <= n)%nat).
  - replace (length l - n)%nat with 0%nat by lia. rewrite Nat.add_0_l. rewrite !Nat.sub_0_r. done.
  - f_equal; [f_equal; lia|f_equal; lia].
Qed.

Lemma lastn_app_lastn_r n l q : lastn n (l ++ lastn n q) = lastn n (l ++ q).
Proof.
  unfold lastn. rewrite !length_app, length_drop.
  rewrite !drop_app, drop_drop.
  destruct (decide (length q <= n)%nat).
  - replace (length q - n)%nat with 0%nat by lia. rewrite !Nat.sub_0_r. done.
  - rewrite (drop_ge l) by lia. rewrite (drop_ge l (length l + length q - n)) by lia.
    f_equal. f_equal. lia.
Qed.

Lemma rot_0 l : rot 0 l = l.
Proof. unfold rot. rewrite drop_0, take_0. apply app_nil_r. Qed.

Lemma rot_full l : rot (length l) l = l.
Proof. unfold rot. rewrite drop_all, take_ge by lia. done. Qed.

Lemma length_rot s l : length (rot s l) = length l.
Proof. unfold rot. rewrite length_app, length_drop, length_take. lia. Qed.

(** Overwriting a segment that fits. *)
Lemma list_inserts_splice l q (s : nat) :
  (s + length q <= length l)%nat ->
  list_inserts s q l = take s l ++ q ++ drop (s + length q) l.
Proof.
  intros H.
  rewrite <- (take_drop s l) at 1.
  rewrite <- (take_drop (length q) (drop s l)) at 1.
  rewrite drop_drop.
  replace s with (length (take s l) + 0)%nat at 1 by (rewrite length_take; lia).
  rewrite list_inserts_app_r. f_equal.
  apply list_inserts_0_r. rewrite length_take, length_drop. lia.
Qed.

(** Writing [q] at [s] without wrapping advances the ring by [q]. *)
Lemma seg_write l q (s : nat) :
  (s + length q <= length l)%nat ->
  rot (s + length q) (list_inserts s q l) = lastn (length l) (rot s l ++ q).
Proof.
  intros H. rewrite list_inserts_splice by done.
  unfold rot, lastn.
  rewrite !length_app, length_drop, length_take.
  replace (length l - s + Nat.min s (length l) + length q - length l)%nat
    with (length q) by lia.
  assert (Hs : length (take s l) = s) by (rewrite length_take; lia).
  rewrite (app_assoc (take s l) q).
  rewrite drop_app_length' by (rewrite length_app; lia).
  rewrite take_app_length' by (rewrite length_app; lia).
  rewrite <- !app_assoc.
  rewrite drop_app_le by (rewrite length_drop; lia).
  rewrite drop_drop. done.
Qed.

End ring.

Section ring2.
Context {A : Type}.
Implicit Types l q : list A.

Lemma ring_write l q (s : nat) :
  (s < length l)%nat -> (length q <= length l)%nat ->
  rot ((s + length q) mod length l) (ring_store s q l)
  = lastn (length l) (rot s l ++ q).
Proof.
  intros Hs Hq. unfold ring_store.
  destruct (Nat.ltb_spec (length l - s) (length q)) as [Hw|Hw].
  - set (q1 := take (length l - s) q). set (q2 := drop (length l - s) q).
    assert (Hq1 : length q1 = (length l - s)%nat)
      by (unfold q1; rewrite length_take; lia).
    assert (Hq2 : length q2 = (length q - (length l - s))%nat)
      by (unfold q2; rewrite length_drop; lia).
    set (l1 := list_inserts s q1 l).
    assert (Hl1 : length l1 = length l) by (unfold l1; apply length_inserts).
    assert (H1 : l1 = lastn (length l) (rot s l ++ q1)).
    { rewrite <- seg_write by lia. rewrite Hq1.
      replace (s + (length l - s))%nat with (length l1) by lia.
      fold l1. symmetry. apply rot_full. }
    replace ((s + length q) mod length l)%nat with (0 + length q2)%nat.
    2:{ rewrite Hq2.
        replace (s + length q)%nat
          with ((length q - (length l - s)) + 1 * length l)%nat by lia.
        rewrite Nat.Div0.mod_add. rewrite Nat.mod_small; lia. }
    rewrite seg_write by lia. rewrite rot_0, Hl1, H1.
    rewrite lastn_app_lastn_l. rewrite <- app_assoc.
    unfold q1, q2. rewrite take_drop. done.
  - destruct (decide (s + length q = length l)%nat) as [He|He].
    + rewrite He, Nat.Div0.mod_same. rewrite rot_0.
      rewrite <- seg_write by lia. rewrite He.
      rewrite <- (length_inserts l s q) at 1. symmetry. apply rot_full.
    + rewrite Nat.mod_small by lia. apply seg_write. lia.
Qed.

Lemma length_ring_store s q l : length (ring_store s q l) = length l.
Proof. unfold ring_store. case_match; rewrite ?length_inserts; done. Qed.

Lemma take_list_inserts_ge (n i : nat) q l :
  (n <= i)%nat -> take n (list_inserts i q l) = take n l.
Proof.
  revert i. induction q as [|y q IH]; intros i Hi; simpl; [done|].
  rewrite take_insert_ge by lia. apply IH. lia.
Qed.

Lemma take_list_inserts_le (n i : nat) q l :
  (i + length q <= n)%nat ->
  take n (list_inserts i q l) = list_inserts i q (take n l).
Proof.
  revert i. induction q as [|y q IH]; intros i Hi; simpl in *; [done|].
  rewrite take_insert_lt by lia. f_equal. apply IH. lia.
Qed.

End ring2.

Arguments to_int : simpl never.
Arguments to_uint : simpl never.
Arguments to_size_t : simpl never.

Lemma cursor_inv_range z :
  zone_wf z -> cursor_inv z ->
  0 <= b_start (prz_buffer z) < prz_buffer_size z /\
  0 <= b_size (prz_buffer z) <= prz_buffer_size z.
Proof.
  intros (Hbs & _ & Hs & Hz & _) [H1 H2]. unfold buffer_start, buffer_size in *.
  unfold INT_MAX in *.
  destruct (Z_lt_le_dec (b_start (prz_buffer z)) 0).
  { rewrite to_size_t_neg in H1 by lia. lia. }
  destruct (Z_lt_le_dec (b_size (prz_buffer z)) 0).
  { rewrite to_size_t_neg in H2 by lia. lia. }
  rewrite to_size_t_small in H1 by lia. rewrite to_size_t_small in H2 by lia.
  lia.
Qed.

Lemma range_cursor_inv z :
  prz_buffer_size z <= INT_MAX ->
  0 <= b_start (prz_buffer z) < prz_buffer_size z ->
  0 <= b_size (prz_buffer z) <= prz_buffer_size z ->
  cursor_inv z.
Proof.
  unfold INT_MAX. intros Hbs H1 H2. unfold cursor_inv, buffer_start, buffer_size.
  rewrite !to_size_t_small by lia. lia.
Qed.

(** ** The cursor functions *)

Lemma start_wrap_spec (fuel : nat) (old a bs : Z) :
  0 < bs <= INT_MAX -> 0 <= old < bs -> 0 <= a <= bs -> (1 <= fuel)%nat ->
  start_wrap fuel (to_int (to_size_t (to_size_t old + a))) bs
  = Some ((old + a) mod bs).
Proof.
  unfold INT_MAX. intros Hbs Hold Ha Hf.
  destruct fuel as [|f]; [lia|].
  rewrite (to_size_t_small old) by lia.
  rewrite (to_size_t_small (old + a)) by lia.
  assert (Hmod : (old + a) mod bs
                 = if bs <=? old + a then old + a - bs else old + a).
  { destruct (Z.leb_spec bs (old + a)).
    - symmetry. apply (Z.mod_unique_pos _ _ 1). lia. lia.
    - apply Z.mod_small. lia. }
  assert (Hdone : forall g v, 0 <= v < bs -> start_wrap g v bs = Some v).
  { intros g v Hv. destruct g; simpl; rewrite (to_size_t_small v) by lia;
      destruct (Z.leb_spec bs v); try lia; done. }
  destruct (Z_lt_le_dec (old + a) (2 ^ 31)) as [Hlo|Hhi].
  - rewrite (to_int_small (old + a)) by lia.
    simpl. rewrite (to_size_t_small (old + a)) by lia.
    rewrite Hmod. destruct (Z.leb_spec bs (old + a)).
    + rewrite (to_size_t_small (old + a - bs)) by lia.
      rewrite to_int_small by lia. apply Hdone. lia.
    + done.
  - rewrite (to_int_high (old + a)) by lia.
    simpl. rewrite (to_size_t_neg (old + a - 2 ^ 32)) by lia.
    destruct (Z.leb_spec bs (old + a - 2 ^ 32 + 2 ^ 64)); [|lia].
    rewrite (to_size_t_small (old + a - 2 ^ 32 + 2 ^ 64 - bs)) by lia.
    replace (to_int (old + a - 2 ^ 32 + 2 ^ 64 - bs)) with (old + a - bs).
    2:{ unfold to_int.
        replace (old + a - 2 ^ 32 + 2 ^ 64 - bs + 2 ^ 31)
          with (old + a - bs + 2 ^ 31 + (2 ^ 32 - 1) * 2 ^ 32) by lia.
        rewrite Z.mod_add by lia. rewrite Z.mod_small; lia. }
    rewrite Hmod. destruct (Z.leb_spec bs (old + a)); [|lia].
    apply Hdone. lia.
Qed.

Lemma buffer_start_add_spec (fuel : nat) z (a : Z) :
  0 < prz_buffer_size z <= INT_MAX ->
  0 <= b_start (prz_buffer z) < prz_buffer_size z ->
  0 <= a <= prz_buffer_size z -> (1 <= fuel)%nat ->
  buffer_start_add fuel z (to_size_t a)
  = Some (set_start z ((b_start (prz_buffer z) + a) mod prz_buffer_size z),
          b_start (prz_buffer z)).
Proof.
  unfold INT_MAX. intros Hbs Hs Ha Hf. unfold buffer_start_add.
  rewrite (to_size_t_small a) by lia.
  rewrite start_wrap_spec by (unfold INT_MAX; lia).
  rewrite (to_size_t_small (b_start _)) by lia. done.
Qed.

Lemma set_size_same z : set_size z (b_size (prz_buffer z)) = z.
Proof. destruct z as [? ? ? ? ? [] ? ? ? ? ? ? ? ? ?]. done. Qed.

Lemma buffer_size_add_spec z (a : Z) :
  0 < prz_buffer_size z <= INT_MAX ->
  0 <= b_size (prz_buffer z) <= prz_buffer_size z ->
  0 <= a <= prz_buffer_size z ->
  buffer_size_add z (to_size_t a)
  = set_size z (Z.min (b_size (prz_buffer z) + a) (prz_buffer_size z)).
Proof.
  unfold INT_MAX. intros Hbs Hs Ha. unfold buffer_size_add.
  rewrite (to_size_t_small a) by lia.
  rewrite (to_size_t_small (b_size _)) by lia.
  destruct (Z.eqb_spec (b_size (prz_buffer z)) (prz_buffer_size z)) as [He|Hne].
  - rewrite Z.min_r by lia. rewrite <- He. symmetry. apply set_size_same.
  - rewrite (to_size_t_small (_ + a)) by lia.
    destruct (Z.ltb_spec (prz_buffer_size z) (b_size (prz_buffer z) + a)).
    + rewrite Z.min_r by lia. rewrite to_int_small by lia. done.
    + rewrite Z.min_l by lia. rewrite to_int_small by lia. done.
Qed.

(** ** ECC updates leave the data area alone *)

Lemma ecc_ok_set_data z d : ecc_ok (set_data z d) <-> ecc_ok z.
Proof. done. Qed.

Lemma encode_is_Some z data len :
  is_Some (prz_rs_decoder z) -> is_Some (persistent_ram_encode_rs8 z data len).
Proof. intros [rs Hrs]. unfold persistent_ram_encode_rs8. rewrite Hrs. eauto. Qed.

Lemma ztake_memcpy_at_ge (n off cnt : Z) (dst src : list Z) :
  0 <= n <= off -> ztake n (memcpy_at dst off src cnt) = ztake n dst.
Proof.
  intros H. unfold ztake, memcpy_at. apply take_list_inserts_ge. lia.
Qed.

Lemma length_memcpy_at (off cnt : Z) (dst src : list Z) :
  length (memcpy_at dst off src cnt) = length dst.
Proof. unfold memcpy_at. apply length_inserts. Qed.

Lemma update_ecc_loop_spec (fuel : nat) :
  forall z block par size lim,
  0 <= ecc_size (prz_ecc_info z) -> 0 < block_size (prz_ecc_info z) ->
  is_Some (prz_rs_decoder z) ->
  0 <= prz_buffer_size z <= par ->
  (Z.to_nat (lim - block) < fuel)%nat ->
  exists d,
    update_ecc_loop fuel z block par size lim = Some (set_data z d) /\
    length d = length (b_data (prz_buffer z)) /\
    ztake (prz_buffer_size z) d
    = ztake (prz_buffer_size z) (b_data (prz_buffer z)).
Proof.
  induction fuel as [|f IH]; intros z block par size lim He Hb Hrs Hpar Hf; [lia|].
  simpl.
  destruct (encode_is_Some z
              (zdrop block (b_data (prz_buffer z)))
              (to_size_t
                 (if prz_buffer_size z <? block + block_size (prz_ecc_info z)
                  then to_int (prz_buffer_size z - block) else size)) Hrs)
    as [ecc Hecc].
  rewrite Hecc.
  set (d1 := memcpy_at (b_data (prz_buffer z)) par ecc (ecc_size (prz_ecc_info z))).
  assert (Hd1 : length d1 = length (b_data (prz_buffer z)))
    by apply length_memcpy_at.
  assert (Ht1 : ztake (prz_buffer_size z) d1
                = ztake (prz_buffer_size z) (b_data (prz_buffer z)))
    by (apply ztake_memcpy_at_ge; lia).
  destruct (Z.ltb_spec (block + block_size (prz_ecc_info z)) lim).
  - destruct (IH (set_data z d1) (block + block_size (prz_ecc_info z))
                (par + ecc_size (prz_ecc_info z))
                (if prz_buffer_size z <? block + block_size (prz_ecc_info z)
                 then to_int (prz_buffer_size z - block) else size) lim)
      as (d & Hr & Hl & Ht); simpl; try done; try lia.
    exists d. split; [exact Hr|]. simpl in Hl, Ht. split; congruence.
  - exists d1. done.
Qed.

Lemma update_ecc_spec (fuel : nat) z start count :
  ecc_ok z -> 0 <= prz_buffer_size z -> 0 <= start -> 0 <= count ->
  (Z.to_nat (start + count) < fuel)%nat ->
  exists d,
    persistent_ram_update_ecc fuel z start count = Some (set_data z d) /\
    length d = length (b_data (prz_buffer z)) /\
    ztake (prz_buffer_size z) d
    = ztake (prz_buffer_size z) (b_data (prz_buffer z)).
Proof.
  intros Hecc Hbs Hs Hc Hf. unfold persistent_ram_update_ecc.
  destruct (Z.eqb_spec (ecc_size (prz_ecc_info z)) 0) as [He|He].
  - exists (b_data (prz_buffer z)). split; [|done].
    f_equal. destruct z as [? ? ? ? ? [] ? ? ? ? ? ? ? ? ?]. done.
  - destruct Hecc as [?|(H1 & H2 & H3 & H4 & H5)]; [done|].
    apply update_ecc_loop_spec; try done; try lia.
    + split; [lia|].
      assert (0 <= to_uint (start / to_uint (block_size (prz_ecc_info z))
                            * to_uint (ecc_size (prz_ecc_info z))))
        by (unfold to_uint; apply Z.mod_pos_bound; lia).
      lia.
    + assert (0 <= Z.land start
                     (to_uint (Z.lnot (block_size (prz_ecc_info z) - 1)))).
      { apply Z.land_nonneg. left. lia. }
      lia.
Qed.

Lemma update_header_ecc_spec z :
  ecc_ok z -> 0 <= prz_buffer_size z ->
  exists d,
    persistent_ram_update_header_ecc z = Some (set_data z d) /\
    length d = length (b_data (prz_buffer z)) /\
    ztake (prz_buffer_size z) d
    = ztake (prz_buffer_size z) (b_data (prz_buffer z)).
Proof.
  intros Hecc Hbs. unfold persistent_ram_update_header_ecc.
  destruct (Z.eqb_spec (ecc_size (prz_ecc_info z)) 0) as [He|He].
  - exists (b_data (prz_buffer z)). split; [|done].
    f_equal. destruct z as [? ? ? ? ? [] ? ? ? ? ? ? ? ? ?]. done.
  - destruct Hecc as [?|(H1 & H2 & H3 & H4 & H5)]; [done|].
    destruct (encode_is_Some z (header_bytes (prz_buffer z)) sizeof_buffer H5)
      as [ecc Hecc].
    rewrite Hecc. eexists. split; [done|]. split.
    + apply length_memcpy_at.
    + apply ztake_memcpy_at_ge. lia.
Qed.

(** [persistent_ram_update] stores [count] bytes of [s] at [start] and
    touches nothing else below [prz_buffer_size]. *)
Lemma persistent_ram_update_spec (fuel : nat) z (s : list Z) start count :
  ecc_ok z -> 0 <= start -> 0 <= count ->
  start + count <= prz_buffer_size z <= INT_MAX ->
  (Z.to_nat (start + count) < fuel)%nat ->
  exists d,
    persistent_ram_update fuel z s (to_uint start) (to_uint count)
    = Some (set_data z d) /\
    length d = length (b_data (prz_buffer z)) /\
    ztake (prz_buffer_size z) d
    = list_inserts (Z.to_nat start) (ztake count s)
        (ztake (prz_buffer_size z) (b_data (prz_buffer z))).
Proof.
  unfold INT_MAX. intros Hecc Hs Hc Hb Hf. unfold persistent_ram_update.
  rewrite (to_uint_small start), (to_uint_small count) by lia.
  destruct (update_ecc_spec fuel
              (set_data z (memcpy_at (b_data (prz_buffer z)) start s count))
              start count) as (d & Hr & Hl & Ht); try done; simpl; try lia.
  exists d. split; [exact Hr|]. simpl in Hl, Ht.
  split.
  - rewrite Hl. apply length_memcpy_at.
  - rewrite Ht. unfold ztake at 1, memcpy_at.
    apply take_list_inserts_le. unfold ztake. rewrite length_take. lia.
Qed.

(** ** [persistent_ram_write] *)

Lemma eff_len_range bs count :
  0 < bs <= INT_MAX -> 0 <= count < 2 ^ 32 -> 0 <= eff_len bs count <= bs.
Proof.
  unfold INT_MAX, eff_len. intros Hbs Hc.
  destruct (Z_lt_le_dec count (2 ^ 31)).
  - rewrite (to_int_small count) by lia. rewrite (to_size_t_small count) by lia.
    destruct (Z.ltb_spec bs count); [rewrite to_int_small by lia|]; lia.
  - rewrite (to_int_high count) by lia. rewrite to_size_t_neg by lia.
    destruct (Z.ltb_spec bs (count - 2 ^ 32 + 2 ^ 64)); [|lia].
    rewrite to_int_small by lia. lia.
Qed.

Lemma eff_len_payload bs count :
  0 < bs <= INT_MAX -> 0 <= count <= INT_MAX -> eff_len bs count = Z.min count bs.
Proof.
  unfold INT_MAX, eff_len. intros Hbs Hc.
  rewrite (to_int_small count) by lia. rewrite (to_size_t_small count) by lia.
  destruct (Z.ltb_spec bs count); [rewrite to_int_small by lia|]; lia.
Qed.

Lemma eff_src_payload {A} bs (s : list A) :
  0 < bs <= INT_MAX -> zlen s <= INT_MAX ->
  eff_src bs s (zlen s) = drop (length s - Z.to_nat bs) s.
Proof.
  unfold INT_MAX, eff_src, zlen. intros Hbs Hc.
  rewrite (to_int_small (Z.of_nat _)) by lia.
  rewrite (to_size_t_small (Z.of_nat _)) by lia.
  destruct (Z.ltb_spec bs (Z.of_nat (length s))).
  - rewrite to_size_t_small by lia. unfold zdrop. f_equal. lia.
  - replace (length s - Z.to_nat bs)%nat with 0%nat by lia. done.
Qed.

(** What one [persistent_ram_write] does to a well-formed zone. *)
Lemma persistent_ram_write_steps (fuel : nat) z (s : list Z) (count : Z) :
  zone_wf z -> cursor_inv z -> 0 <= count < 2 ^ 32 ->
  (Z.to_nat (2 * prz_buffer_size z) < fuel)%nat ->
  let bs := prz_buffer_size z in
  let c := eff_len bs count in
  exists d,
    persistent_ram_write fuel z s count
    = Some (set_data
              (set_start
                 (set_size z (Z.min (b_size (prz_buffer z) + c) bs))
                 ((b_start (prz_buffer z) + c) mod bs)) d,
            to_int count) /\
    length d = length (b_data (prz_buffer z)) /\
    ztake bs d
    = ring_store (Z.to_nat (b_start (prz_buffer z)))
        (ztake c (eff_src bs s count))
        (ztake bs (b_data (prz_buffer z))).
Proof.
  intros Hwf Hinv Hcount Hfuel bs c.
  destruct (cursor_inv_range z Hwf Hinv) as [Hst Hsz].
  destruct Hwf as (Hbs & Hlen & _ & _ & Hecc).
  assert (Hc : 0 <= c <= bs) by (apply eff_len_range; done).
  unfold INT_MAX in Hbs. fold bs in Hbs, Hlen, Hst, Hsz, Hfuel.
  unfold persistent_ram_write.
  change (if prz_buffer_size z <? to_size_t (to_int count)
          then (zdrop (to_size_t (to_size_t (to_int count) - prz_buffer_size z)) s,
                to_int (prz_buffer_size z))
          else (s, to_int count))
    with (if bs <? to_size_t (to_int count)
          then (zdrop (to_size_t (to_size_t (to_int count) - bs)) s, to_int bs)
          else (s, to_int count)).
  replace (if bs <? to_size_t (to_int count)
           then (zdrop (to_size_t (to_size_t (to_int count) - bs)) s, to_int bs)
           else (s, to_int count))
    with (eff_src bs s count, c)
    by (unfold c, eff_len, eff_src; destruct (bs <? to_size_t (to_int count)); done).
  set (src := eff_src bs s count).
  rewrite buffer_size_add_spec by (unfold INT_MAX; fold bs; lia).
  fold bs.
  set (z1 := set_size z (Z.min (b_size (prz_buffer z) + c) bs)).
  rewrite (buffer_start_add_spec fuel z1 c)
    by (unfold z1, INT_MAX; simpl; fold bs; lia).
  change (prz_buffer_size z1) with bs.
  change (b_start (prz_buffer z1)) with (b_start (prz_buffer z)).
  set (st := b_start (prz_buffer z)) in *.
  set (z2 := set_start z1 ((st + c) mod bs)).
  cbv beta iota.
  change (prz_buffer_size z2) with bs.
  rewrite (to_size_t_small (bs - st)) by lia.
  rewrite (to_int_small (bs - st)) by lia.
  assert (Hdata2 : b_data (prz_buffer z2) = b_data (prz_buffer z)) by done.
  assert (Hecc2 : ecc_ok z2) by exact Hecc.
  unfold ring_store.
  assert (Hlt : length (ztake bs (b_data (prz_buffer z))) = Z.to_nat bs).
  { unfold ztake. rewrite length_take. unfold zlen in Hlen. lia. }
  rewrite Hlt.
  destruct (Z.ltb_spec (bs - st) c) as [Hwrap|Hfit].
  - (* the write wraps: two updates *)
    destruct (persistent_ram_update_spec fuel z2 src st (bs - st))
      as (d1 & Hr1 & Hl1 & Ht1); try done; try lia.
    { change (prz_buffer_size z2) with bs. unfold INT_MAX. lia. }
    rewrite Hr1. cbv beta iota.
    rewrite (to_int_small (c - (bs - st))) by lia.
    set (z3 := set_data z2 d1).
    destruct (persistent_ram_update_spec fuel z3 (zdrop (bs - st) src) 0
                (c - (bs - st)))
      as (d2 & Hr2 & Hl2 & Ht2); try done; try lia.
    { change (prz_buffer_size z3) with bs. unfold INT_MAX. lia. }
    rewrite Hr2.
    destruct (update_header_ecc_spec (set_data z3 d2))
      as (d3 & Hr3 & Hl3 & Ht3); try done.
    { change (prz_buffer_size (set_data z3 d2)) with bs. lia. }
    rewrite Hr3. exists d3. split; [done|].
    simpl in Hl1, Hl2, Hl3, Ht1, Ht2, Ht3. fold bs in Ht1, Ht2, Ht3. fold st in Ht1.
    split; [congruence|].
    rewrite Ht3, Ht2, Ht1.
    assert (Hlsrc : (Z.to_nat (bs - st) < length (ztake c src))%nat
                    \/ (length (ztake c src) <= Z.to_nat (bs - st))%nat) by lia.
    destruct (Nat.ltb_spec (Z.to_nat bs - Z.to_nat st) (length (ztake c src)))
      as [Hn|Hn].
    + unfold ztake, zdrop. change (Z.to_nat 0) with 0%nat.
      replace (Z.to_nat (bs - st)) with (Z.to_nat bs - Z.to_nat st)%nat by lia.
      rewrite !take_take, take_drop_commute.
      rewrite !Nat.min_l by lia.
      replace (Z.to_nat bs - Z.to_nat st + Z.to_nat (c - (bs - st)))%nat
        with (Z.to_nat c) by lia.
      done.
    + (* the source is shorter than the count: nothing is left to wrap *)
      unfold ztake in Hn. rewrite length_take in Hn.
      assert (Hshort : (length src <= Z.to_nat bs - Z.to_nat st)%nat) by lia.
      unfold ztake, zdrop. change (Z.to_nat 0) with 0%nat.
      rewrite (drop_ge src) by lia. rewrite take_nil. simpl.
      rewrite (take_ge src (Z.to_nat c)) by lia.
      rewrite (take_ge src) by lia. done.
  - (* the write fits: one update *)
    destruct (persistent_ram_update_spec fuel z2 src st c)
      as (d1 & Hr1 & Hl1 & Ht1); try done; try lia.
    { change (prz_buffer_size z2) with bs. unfold INT_MAX. lia. }
    rewrite Hr1.
    destruct (update_header_ecc_spec (set_data z2 d1))
      as (d3 & Hr3 & Hl3 & Ht3); try done.
    { change (prz_buffer_size (set_data z2 d1)) with bs. lia. }
    rewrite Hr3. exists d3. split; [done|].
    simpl in Hl1, Hl3, Ht1, Ht3. fold bs in Ht1, Ht3. fold st in Ht1.
    split; [congruence|].
    rewrite Ht3, Ht1.
    destruct (Nat.ltb_spec (Z.to_nat bs - Z.to_nat st) (length (ztake c src)))
      as [Hn|Hn]; [|done].
    unfold ztake in Hn. rewrite length_take in Hn. lia.
Qed.

Lemma zone_wf_cursors z st sz d :
  zone_wf z -> - 2 ^ 31 <= st < 2 ^ 31 -> - 2 ^ 31 <= sz < 2 ^ 31 ->
  length d = length (b_data (prz_buffer z)) ->
  zone_wf (set_data (set_start (set_size z sz) st) d).
Proof.
  intros (Hbs & Hlen & _ & _ & Hecc) Hst Hsz Hd.
  unfold zone_wf. simpl. unfold zlen in *. rewrite Hd. done.
Qed.

(** One append of a payload: the cursors saturate and wrap, and the ring
    keeps the most recent bytes. *)
Lemma persistent_ram_write_payload (fuel : nat) z (p : list Z) :
  zone_wf z -> cursor_inv z -> zlen p <= INT_MAX ->
  (Z.to_nat (2 * prz_buffer_size z) < fuel)%nat ->
  let bs := prz_buffer_size z in
  exists z',
    persistent_ram_write fuel z p (zlen p) = Some (z', zlen p) /\
    zone_wf z' /\ cursor_inv z' /\
    prz_buffer_size z' = bs /\
    b_size (prz_buffer z') = Z.min (b_size (prz_buffer z) + zlen p) bs /\
    b_start (prz_buffer z')
    = (b_start (prz_buffer z) + Z.min (zlen p) bs) mod bs /\
    ring z' = lastn (Z.to_nat bs) (ring z ++ p).
Proof.
  intros Hwf Hinv Hp Hfuel bs.
  assert (Hp0 : 0 <= zlen p) by (unfold zlen; lia).
  destruct (persistent_ram_write_steps fuel z p (zlen p) Hwf Hinv)
    as (d & Hr & Hl & Ht); [unfold INT_MAX in *; lia|done|].
  destruct (cursor_inv_range z Hwf Hinv) as [Hst Hsz].
  pose proof Hwf as (Hbs & Hlen & _ & _ & Hecc).
  fold bs in Hr, Ht, Hbs, Hlen, Hst, Hsz.
  rewrite eff_len_payload in Hr, Ht by done. fold bs in Hr, Ht.
  rewrite eff_src_payload in Ht by done.
  rewrite (to_int_small (zlen p)) in Hr by (unfold INT_MAX in *; lia).
  set (c := Z.min (zlen p) bs) in *.
  assert (Hc : 0 <= c <= bs /\ c <= zlen p) by (unfold c, INT_MAX in *; lia).
  assert (Hmod : 0 <= (b_start (prz_buffer z) + c) mod bs < bs)
    by (apply Z.mod_pos_bound; lia).
  eexists. split; [exact Hr|].
  unfold INT_MAX in *.
  split; [apply zone_wf_cursors; try done; lia|].
  split; [apply range_cursor_inv; simpl; fold bs; unfold INT_MAX; lia|].
  split; [done|]. split; [simpl; lia|]. split; [done|].
  unfold ring. simpl. fold bs. rewrite Ht.
  set (L := ztake bs (b_data (prz_buffer z))).
  set (q := drop (length p - Z.to_nat bs) p).
  assert (HL : length L = Z.to_nat bs).
  { unfold L, ztake. rewrite length_take. unfold zlen in Hlen. lia. }
  assert (Hq : length q = Z.to_nat c).
  { unfold q. rewrite length_drop. unfold c, zlen. lia. }
  unfold ztake at 1. rewrite (take_ge q) by lia.
  replace (Z.to_nat ((b_start (prz_buffer z) + c) mod bs))
    with ((Z.to_nat (b_start (prz_buffer z)) + length q) mod length L)%nat.
  2:{ rewrite HL, Hq. apply Nat2Z.inj. rewrite Nat2Z.inj_mod.
      rewrite Nat2Z.inj_add.
      rewrite (Z2Nat.id c) by lia.
      rewrite (Z2Nat.id bs) by lia.
      rewrite (Z2Nat.id (b_start (prz_buffer z))) by lia.
      rewrite Z2Nat.id by apply Hmod. done. }
  rewrite ring_write by lia.
  rewrite HL. fold (lastn (Z.to_nat bs) p). apply lastn_app_lastn_r.
Qed.

(** A full zone's logical contents are its ring. *)
Lemma logical_contents_full z :
  zone_wf z -> cursor_inv z ->
  b_size (prz_buffer z) = prz_buffer_size z ->
  logical_contents z = ring z.
Proof.
  intros Hwf Hinv Hfull.
  destruct (cursor_inv_range z Hwf Hinv) as [Hst Hsz].
  destruct Hwf as (Hbs & Hlen & _ & _ & _). unfold INT_MAX in *.
  unfold logical_contents, ring, rot, buffer_size, buffer_start.
  rewrite Hfull.
  rewrite (to_size_t_small (prz_buffer_size z)) by lia.
  rewrite (to_size_t_small (b_start (prz_buffer z))) by lia.
  rewrite to_size_t_small by lia.
  unfold ztake, zdrop. rewrite take_take, take_drop_commute.
  rewrite Nat.min_l by lia. do 3 f_equal. lia.
Qed.

(** ** Sequences of appends *)


(** ** [persistent_ram_write_user] and [persistent_ram_zap] *)

Lemma persistent_ram_update_user_spec (fuel : nat) z (s : list (option Z))
    start count :
  ecc_ok z -> 0 <= start -> 0 <= count ->
  start + count <= prz_buffer_size z <= INT_MAX ->
  (Z.to_nat (start + count) < fuel)%nat ->
  exists d ret,
    persistent_ram_update_user fuel z s (to_uint start) (to_uint count)
    = Some (set_data z d, ret) /\
    length d = length (b_data (prz_buffer z)).
Proof.
  unfold INT_MAX. intros Hecc Hs Hc Hb Hf. unfold persistent_ram_update_user.
  rewrite (to_uint_small start), (to_uint_small count) by lia.
  unfold copy_from_user.
  set (d0 := memcpy_at _ _ _ _).
  destruct (update_ecc_spec fuel (set_data z d0) start count)
    as (d & Hr & Hl & Ht); try done; simpl; try lia.
  rewrite Hr. eexists d, _. split; [done|].
  simpl in Hl. rewrite Hl. apply length_memcpy_at.
Qed.


Lemma persistent_ram_zap_spec z :
  zone_wf z ->
  exists d,
    persistent_ram_zap z = Some (set_data (set_size (set_start z 0) 0) d) /\
    length d = length (b_data (prz_buffer z)) /\
    ztake (prz_buffer_size z) d
    = ztake (prz_buffer_size z) (b_data (prz_buffer z)).
Proof.
  intros (Hbs & Hlen & _ & _ & Hecc). unfold persistent_ram_zap.
  destruct (update_header_ecc_spec (set_size (set_start z 0) 0))
    as (d & Hr & Hl & Ht); try done.
  { simpl. lia. }
  exists d. done.
Qed.

Lemma zone_wf_cursors' z st sz d :
  zone_wf z -> - 2 ^ 31 <= st < 2 ^ 31 -> - 2 ^ 31 <= sz < 2 ^ 31 ->
  length d = length (b_data (prz_buffer z)) ->
  zone_wf (set_data (set_size (set_start z st) sz) d).
Proof.
  intros (Hbs & Hlen & _ & _ & Hecc) Hst Hsz Hd.
  unfold zone_wf. simpl. unfold zlen in *. rewrite Hd. done.
Qed.

Lemma empty_zone_wf bs : 0 < bs <= INT_MAX -> zone_wf (empty_zone bs).
Proof.
  intros H. unfold zone_wf, empty_zone, zlen. simpl.
  rewrite length_replicate. unfold ecc_ok. simpl. lia.
Qed.

Lemma empty_zone_inv bs : 0 < bs <= INT_MAX -> cursor_inv (empty_zone bs).
Proof. intros H. apply range_cursor_inv; simpl; lia. Qed.

Lemma ecc_zone_wf : zone_wf ecc_zone.
Proof.
  unfold zone_wf, ecc_zone, zlen, INT_MAX. simpl.
  repeat split; try lia. right. simpl. repeat split; try lia. eauto.
Qed.

Lemma ecc_zone_inv : cursor_inv ecc_zone.
Proof. apply range_cursor_inv; unfold INT_MAX; simpl; lia. Qed.

(** ** C1 *)






(** The model evaluated on the examples. *)
Example write_all_ecc_zone :
  option_map logical_contents
    (persistent_ram_write_all 20 ecc_zone
       [[1; 2; 3; 4; 5]; [6; 7; 8; 9; 10; 11]])
  = Some [4; 5; 6; 7; 8; 9; 10; 11].
Proof. vm_compute. reflexivity. Qed.

Example write_100_into_64 :
  option_map (fun r => (buffer_start (fst r), buffer_size (fst r),
                        logical_contents (fst r), snd r))
    (persistent_ram_write 1 (empty_zone 64) (count_up 100) 100)
  = Some (0, 64, drop 36 (count_up 100), 100).
Proof. vm_compute. reflexivity. Qed.

(** ** C2 *)

(** C2, as stated, fails: after 100 bytes are appended to an empty zone of
    64 usable bytes the start offset is 0, not 36.  [persistent_ram_write]
    first cuts the count down to the usable size and then advances the
    cursor by the 64 bytes it stores. *)
Lemma append_100_to_64_start_is_not_36 :
  ~ (exists z' r,
       persistent_ram_write 1 (empty_zone 64) (count_up 100) 100 = Some (z', r) /\
       logical_contents z' = drop 36 (count_up 100) /\
       buffer_size z' = 64 /\ buffer_start z' = 36).
Proof.
  intros (z' & r & Hw & _ & _ & Hst).
  assert (Hs : option_map (fun x => buffer_start (fst x))
                 (persistent_ram_write 1 (empty_zone 64) (count_up 100) 100)
               = Some 0) by (vm_compute; reflexivity).
  rewrite Hw in Hs. simpl in Hs. congruence.
Qed.

(** C2, amended.  Appending 100 bytes to an empty zone whose usable size is
    64 bytes retains exactly the last 64 bytes of the input; afterwards the
    valid length is 64 and the start offset is 0. *)
Theorem append_100_to_64 (fuel : nat) (z : persistent_ram_zone) (p : list Z) :
  zone_wf z -> prz_buffer_size z = 64 ->
  b_start (prz_buffer z) = 0 -> b_size (prz_buffer z) = 0 ->
  zlen p = 100 -> (128 < fuel)%nat ->
  exists z',
    persistent_ram_write fuel z p 100 = Some (z', 100) /\
    logical_contents z' = drop 36 p /\
    buffer_size z' = 64 /\ buffer_start z' = 0.
Proof.
  intros Hwf Hbs Hst Hsz Hp Hfuel.
  assert (Hinv : cursor_inv z).
  { apply range_cursor_inv; rewrite ?Hbs, ?Hst, ?Hsz; unfold INT_MAX; lia. }
  destruct (persistent_ram_write_payload fuel z p Hwf Hinv)
    as (z' & Hr & Hwf' & Hinv' & Hbs' & Hsz' & Hst' & Hring').
  { rewrite Hp. unfold INT_MAX. lia. }
  { rewrite Hbs. lia. }
  rewrite Hp, Hbs, ?Hst, ?Hsz in *.
  change (Z.min (0 + 100) 64) with 64 in Hsz'.
  change ((0 + Z.min 100 64) mod 64) with 0 in Hst'.
  exists z'. split; [exact Hr|]. split.
  - rewrite logical_contents_full by (try done; lia).
    rewrite Hring'. rewrite lastn_app_r by (unfold zlen in Hp; lia).
    unfold lastn. f_equal. unfold zlen in Hp. lia.
  - unfold buffer_size, buffer_start. rewrite Hsz', Hst'. done.
Qed.

Lemma append_100_to_64_witness :
  exists z',
    persistent_ram_write 129 (empty_zone 64) (count_up 100) 100 = Some (z', 100) /\
    logical_contents z' = drop 36 (count_up 100) /\
    buffer_size z' = 64 /\ buffer_start z' = 0.
Proof.
  apply (append_100_to_64 129 (empty_zone 64) (count_up 100)).
  - apply empty_zone_wf. unfold INT_MAX. lia.
  - reflexivity.
  - reflexivity.
  - reflexivity.
  - reflexivity.
  - lia.
Defined.

(** ** C3 *)






(** ** Snapshots *)

Lemma decode_is_Some z data len ecc :
  is_Some (prz_rs_decoder z) ->
  is_Some (persistent_ram_decode_rs8 z data len ecc).
Proof. intros [rs Hrs]. unfold persistent_ram_decode_rs8. rewrite Hrs. eauto. Qed.

Lemma ecc_old_loop_spec (fuel : nat) :
  forall z block par,
  0 < block_size (prz_ecc_info z) -> is_Some (prz_rs_decoder z) ->
  (Z.to_nat (buffer_size z - block) < fuel)%nat ->
  exists d cb bb,
    ecc_old_loop fuel z block par = Some (set_counters (set_data z d) cb bb) /\
    length d = length (b_data (prz_buffer z)).
Proof.
  induction fuel as [|f IH]; intros z block par Hb Hrs Hf; [lia|].
  simpl.
  destruct (Z.ltb_spec block (buffer_size z)) as [Hlt|Hge].
  2:{ exists (b_data (prz_buffer z)), (prz_corrected_bytes z), (prz_bad_blocks z).
      split; [|done]. f_equal.
      destruct z as [? ? ? ? ? [] ? ? ? ? ? ? ? ? ?]. done. }
  set (sz := if prz_buffer_size z <? block + block_size (prz_ecc_info z)
             then to_int (prz_buffer_size z - block)
             else block_size (prz_ecc_info z)).
  destruct (decode_is_Some z (zdrop block (b_data (prz_buffer z)))
              (to_size_t sz) (zdrop par (b_data (prz_buffer z))) Hrs)
    as [[numerr fixed] Hdec].
  rewrite Hdec.
  set (d1 := memcpy_at (b_data (prz_buffer z)) block fixed (to_size_t sz)).
  assert (Hd1 : length d1 = length (b_data (prz_buffer z)))
    by apply length_memcpy_at.
  set (z1 := if 0 <? numerr then _ else _).
  assert (Hz1 : exists cb bb, z1 = set_counters (set_data z d1) cb bb).
  { unfold z1. destruct (0 <? numerr); [eauto|].
    destruct (numerr <? 0); [eauto|].
    exists (prz_corrected_bytes z), (prz_bad_blocks z). done. }
  destruct Hz1 as (cb & bb & ->).
  destruct (IH (set_counters (set_data z d1) cb bb)
              (block + block_size (prz_ecc_info z))
              (par + ecc_size (prz_ecc_info z)))
    as (d & cb' & bb' & Hr & Hl); try done.
  { change (buffer_size (set_counters (set_data z d1) cb bb))
      with (buffer_size z). lia. }
  exists d, cb', bb'. split; [exact Hr|]. simpl in Hl. congruence.
Qed.

Lemma persistent_ram_ecc_old_spec (fuel : nat) z :
  zone_wf z -> cursor_inv z ->
  (Z.to_nat (prz_buffer_size z) < fuel)%nat ->
  exists d cb bb,
    persistent_ram_ecc_old fuel z = Some (set_counters (set_data z d) cb bb) /\
    length d = length (b_data (prz_buffer z)).
Proof.
  intros Hwf Hinv Hf. unfold persistent_ram_ecc_old.
  destruct Hinv as [_ Hsz].
  destruct Hwf as (Hbs & _ & _ & _ & Hecc).
  destruct (Z.eqb_spec (ecc_size (prz_ecc_info z)) 0) as [He|He].
  - exists (b_data (prz_buffer z)), (prz_corrected_bytes z), (prz_bad_blocks z).
    split; [|done]. f_equal.
    destruct z as [? ? ? ? ? [] ? ? ? ? ? ? ? ? ?]. done.
  - destruct Hecc as [?|(H1 & H2 & H3 & H4 & H5)]; [done|].
    apply ecc_old_loop_spec; try done.
    assert (0 <= buffer_size z) by (unfold buffer_size, to_size_t; apply Z.mod_pos_bound; lia).
    lia.
Qed.

(** The two [memcpy_fromio] calls of [persistent_ram_save_old] fill a
    buffer of the right length completely. *)
Lemma snapshot_copy (log a b : list Z) (n1 n2 : Z) :
  0 <= n1 -> 0 <= n2 -> length log = Z.to_nat (n1 + n2) ->
  (Z.to_nat n1 <= length a)%nat -> (Z.to_nat n2 <= length b)%nat ->
  memcpy_at (memcpy_at log 0 a n1) n1 b n2 = ztake n1 a ++ ztake n2 b.
Proof.
  intros H1 H2 Hlog Ha Hb. unfold memcpy_at. change (Z.to_nat 0) with 0%nat.
  assert (Hla : length (ztake n1 a) = Z.to_nat n1)
    by (unfold ztake; rewrite length_take; lia).
  assert (Hlb : length (ztake n2 b) = Z.to_nat n2)
    by (unfold ztake; rewrite length_take; lia).
  assert (E1 : list_inserts 0 (ztake n1 a) log
               = ztake n1 a ++ drop (Z.to_nat n1) log).
  { rewrite <- (take_drop (Z.to_nat n1) log) at 1.
    apply list_inserts_0_r. rewrite length_take. lia. }
  rewrite E1.
  pose proof (list_inserts_app_r (ztake n2 b) (ztake n1 a)
                (drop (Z.to_nat n1) log) 0) as E2.
  rewrite Nat.add_0_r, Hla in E2. rewrite E2. f_equal.
  rewrite <- (app_nil_r (drop _ log)).
  rewrite list_inserts_0_r by (rewrite length_drop; lia). apply app_nil_r.
Qed.

(** [persistent_ram_save_old] on a zone that already holds a snapshot whose
    buffer has the length of the valid data: the current logical contents
    are copied over it. *)
Lemma save_old_recopy (fuel : nat) z (log : list Z) :
  zone_wf z -> cursor_inv z ->
  b_start (prz_buffer z) <= b_size (prz_buffer z) ->
  b_size (prz_buffer z) <> 0 ->
  prz_old_log z = Some log -> zlen log = buffer_size z ->
  persistent_ram_save_old fuel z
  = Some (set_old z (Some (logical_contents z)) (buffer_size z)).
Proof.
  intros Hwf Hinv Hle Hne Hlog Hlen.
  destruct (cursor_inv_range z Hwf Hinv) as [Hst Hsz].
  destruct Hwf as (Hbs & Hdlen & _ & _ & _). unfold INT_MAX in Hbs.
  unfold persistent_ram_save_old, logical_contents.
  unfold buffer_size, buffer_start in *.
  rewrite (to_size_t_small (b_size _)) in * by lia.
  rewrite (to_size_t_small (b_start _)) in * by lia.
  rewrite (to_size_t_small (_ - _)) by lia.
  destruct (Z.eqb_spec (b_size (prz_buffer z)) 0); [done|].
  rewrite Hlog. rewrite Hlog.
  destruct (Z.ltb_spec (zlen log) (b_size (prz_buffer z))); [lia|].
  do 2 f_equal. f_equal.
  unfold zlen in *.
  apply snapshot_copy; try lia.
  - unfold zdrop. rewrite length_drop. lia.
Qed.

Lemma logical_contents_length z :
  zone_wf z -> cursor_inv z ->
  b_start (prz_buffer z) <= b_size (prz_buffer z) ->
  zlen (logical_contents z) = buffer_size z.
Proof.
  intros Hwf Hinv Hle.
  destruct (cursor_inv_range z Hwf Hinv) as [Hst Hsz].
  destruct Hwf as (Hbs & Hdlen & _ & _ & _). unfold INT_MAX in Hbs.
  unfold logical_contents, buffer_size, buffer_start, zlen in *.
  rewrite (to_size_t_small (b_size _)) by lia.
  rewrite (to_size_t_small (b_start _)) by lia.
  rewrite (to_size_t_small (_ - _)) by lia.
  unfold ztake, zdrop. rewrite length_app, !length_take, length_drop. lia.
Qed.

(** The first snapshot of a zone. *)
Lemma save_old_first (fuel : nat) z :
  zone_wf z -> cursor_inv z ->
  b_start (prz_buffer z) <= b_size (prz_buffer z) ->
  b_size (prz_buffer z) <> 0 -> prz_old_log z = None ->
  (Z.to_nat (prz_buffer_size z) < fuel)%nat ->
  exists d cb bb,
    let z1 := set_counters (set_data z d) cb bb in
    persistent_ram_save_old fuel z
    = Some (set_old z1 (Some (logical_contents z1)) (buffer_size z)) /\
    length d = length (b_data (prz_buffer z)).
Proof.
  intros Hwf Hinv Hle Hne Hnone Hf.
  destruct (persistent_ram_ecc_old_spec fuel z Hwf Hinv Hf)
    as (d & cb & bb & Hr & Hl).
  exists d, cb, bb. intros z1. split; [|exact Hl].
  destruct (cursor_inv_range z Hwf Hinv) as [Hst Hsz].
  pose proof Hwf as (Hbs & Hdlen & Hi1 & Hi2 & Hecc). unfold INT_MAX in Hbs.
  unfold persistent_ram_save_old.
  assert (Hbsz : buffer_size z = b_size (prz_buffer z))
    by (unfold buffer_size; apply to_size_t_small; lia).
  assert (Hbst : buffer_start z = b_start (prz_buffer z))
    by (unfold buffer_start; apply to_size_t_small; lia).
  rewrite Hbsz, Hbst.
  destruct (Z.eqb_spec (b_size (prz_buffer z)) 0); [done|].
  rewrite Hnone, Hr. cbv beta iota. simpl prz_old_log. cbv beta iota.
  destruct (Z.ltb_spec (zlen (replicate (Z.to_nat (b_size (prz_buffer z))) 0))
              (b_size (prz_buffer z))) as [Hshort|_];
    [unfold zlen in Hshort; rewrite length_replicate in Hshort; lia|].
  do 2 f_equal. f_equal.
  unfold logical_contents, buffer_size, buffer_start. simpl.
  rewrite (to_size_t_small (b_size _)) by lia.
  rewrite (to_size_t_small (b_start _)) by lia.
  rewrite (to_size_t_small (_ - _)) by lia.
  unfold zlen in *.
  apply snapshot_copy; try lia.
  - rewrite length_replicate. lia.
  - unfold zdrop. rewrite length_drop. lia.
Qed.

(** ** C4 *)

(** C4, as stated, fails: with a snapshot in place, a later
    [persistent_ram_save_old] is not a no-op once the zone has been
    appended to.  The snapshot of the full zone [1;2;3;4] is [1;2;3;4];
    after appending the byte 5 the next call rewrites it to [2;3;4;5]. *)
Lemma save_old_after_append_rewrites_snapshot :
  exists z1 z2 z3,
    persistent_ram_save_old 9 full_zone = Some z1 /\
    persistent_ram_old z1 = Some [1; 2; 3; 4] /\
    persistent_ram_write 9 z1 [5] 1 = Some (z2, 1) /\
    persistent_ram_old z2 = Some [1; 2; 3; 4] /\
    persistent_ram_save_old 9 z2 = Some z3 /\
    persistent_ram_old z3 = Some [2; 3; 4; 5] /\
    z3 <> z2.
Proof.
  eexists _, _, _.
  split; [vm_compute; reflexivity|].
  split; [reflexivity|].
  split; [vm_compute; reflexivity|].
  split; [reflexivity|].
  split; [vm_compute; reflexivity|].
  split; [reflexivity|].
  intros H. apply (f_equal prz_old_log) in H. simpl in H. congruence.
Qed.

Lemma zone_wf_snapshot z d cb bb l n :
  zone_wf z -> length d = length (b_data (prz_buffer z)) ->
  zone_wf (set_old (set_counters (set_data z d) cb bb) l n).
Proof.
  intros (Hbs & Hlen & H1 & H2 & Hecc) Hd.
  unfold zone_wf. simpl. unfold zlen in *. rewrite Hd. done.
Qed.

(** C4, amended.  The first [persistent_ram_save_old] on a non-empty zone
    without a snapshot stores the logical contents and their length.  A
    further call while the zone is unchanged is a no-op: the zone, the
    snapshot buffer, its contents and its recorded size stay as they are.
    A further call after appends that left the valid length unchanged
    copies the current logical contents into the existing snapshot (only
    the ECC pass and the allocation are skipped).
    [persistent_ram_free_old] discards the snapshot. *)
Theorem save_old_idempotent_while_unchanged (fuel : nat)
    (z : persistent_ram_zone) :
  zone_wf z -> cursor_inv z ->
  b_start (prz_buffer z) <= b_size (prz_buffer z) ->
  b_size (prz_buffer z) <> 0 -> prz_old_log z = None ->
  (Z.to_nat (prz_buffer_size z) < fuel)%nat ->
  exists z1,
    persistent_ram_save_old fuel z = Some z1 /\
    persistent_ram_old z1 = Some (logical_contents z1) /\
    persistent_ram_old_size z1 = buffer_size z1 /\
    (forall fuel', persistent_ram_save_old fuel' z1 = Some z1) /\
    (forall fuel' z2,
       zone_wf z2 -> cursor_inv z2 ->
       b_start (prz_buffer z2) <= b_size (prz_buffer z2) ->
       prz_old_log z2 = prz_old_log z1 -> buffer_size z2 = buffer_size z1 ->
       persistent_ram_save_old fuel' z2
       = Some (set_old z2 (Some (logical_contents z2)) (buffer_size z2))) /\
    persistent_ram_old (persistent_ram_free_old z1) = None /\
    persistent_ram_old_size (persistent_ram_free_old z1) = 0.
Proof.
  intros Hwf Hinv Hle Hne Hnone Hf.
  destruct (save_old_first fuel z Hwf Hinv Hle Hne Hnone Hf)
    as (d & cb & bb & Hr & Hl).
  cbv zeta in Hr.
  set (z1' := set_counters (set_data z d) cb bb) in *.
  set (z1 := set_old z1' (Some (logical_contents z1')) (buffer_size z)) in *.
  assert (Hwf1 : zone_wf z1) by (apply zone_wf_snapshot; done).
  assert (Hinv1 : cursor_inv z1) by exact Hinv.
  assert (Hlen1 : zlen (logical_contents z1) = buffer_size z1)
    by (apply logical_contents_length; done).
  assert (Hrecopy : forall fuel' z2,
       zone_wf z2 -> cursor_inv z2 ->
       b_start (prz_buffer z2) <= b_size (prz_buffer z2) ->
       prz_old_log z2 = prz_old_log z1 -> buffer_size z2 = buffer_size z1 ->
       persistent_ram_save_old fuel' z2
       = Some (set_old z2 (Some (logical_contents z2)) (buffer_size z2))).
  { intros fuel' z2 Hwf2 Hinv2 Hle2 Hlog2 Hsz2.
    apply (save_old_recopy fuel' z2 (logical_contents z1)); try done.
    - destruct (cursor_inv_range z2 Hwf2 Hinv2) as [_ Hs2].
      destruct (cursor_inv_range z Hwf Hinv) as [_ Hs].
      destruct Hwf as (Hbs & _). destruct Hwf2 as (Hbs2 & _).
      unfold INT_MAX in *.
      change (buffer_size z1) with (buffer_size z) in Hsz2.
      unfold buffer_size in Hsz2.
      rewrite !to_size_t_small in Hsz2 by lia. lia.
    - rewrite Hsz2. exact Hlen1. }
  exists z1. split; [exact Hr|]. split; [done|]. split; [done|].
  split; [|split; [exact Hrecopy|done]].
  intros fuel'. rewrite (Hrecopy fuel' z1) by done. done.
Qed.

Lemma ecc_zone_5_wf : zone_wf ecc_zone_5.
Proof.
  unfold zone_wf, zlen, INT_MAX. vm_compute.
  repeat split; try congruence. right. repeat split; try congruence. eauto.
Qed.

Lemma save_old_idempotent_while_unchanged_witness :
  exists z1,
    persistent_ram_save_old 20 ecc_zone_5 = Some z1 /\
    persistent_ram_old z1 = Some [1; 2; 3; 4; 5] /\
    persistent_ram_save_old 20 z1 = Some z1.
Proof.
  destruct (save_old_idempotent_while_unchanged 20 ecc_zone_5 ecc_zone_5_wf)
    as (z1 & Hr & Hold & _ & Hidem & _).
  - apply range_cursor_inv; vm_compute; repeat split; congruence.
  - vm_compute. congruence.
  - vm_compute. congruence.
  - reflexivity.
  - vm_compute. lia.
  - exists z1. split; [exact Hr|]. split; [|apply Hidem].
    rewrite Hold. f_equal.
    assert (Hc : option_map logical_contents
                   (persistent_ram_save_old 20 ecc_zone_5)
                 = Some [1; 2; 3; 4; 5]) by (vm_compute; reflexivity).
    rewrite Hr in Hc. simpl in Hc. congruence.
Defined.

(** ** C5 *)

Lemma list_inserts_idemp {A} (k : list A) :
  forall (i : nat) (l : list A),
  list_inserts i k (list_inserts i k l) = list_inserts i k l.
Proof.
  induction k as [|y k IH]; intros i l; simpl; [done|].
  rewrite <- list_insert_inserts_lt by lia.
  rewrite IH. apply list_insert_insert_eq.
Qed.

Lemma update_header_ecc_idemp z z1 :
  persistent_ram_update_header_ecc z = Some z1 ->
  persistent_ram_update_header_ecc z1 = Some z1.
Proof.
  unfold persistent_ram_update_header_ecc.
  destruct (Z.eqb_spec (ecc_size (prz_ecc_info z)) 0) as [He|He].
  - intros [= <-]. rewrite He. done.
  - destruct (persistent_ram_encode_rs8 z (header_bytes (prz_buffer z))
                sizeof_buffer) as [ecc|] eqn:Hecc; [|done].
    intros [= <-]. simpl.
    destruct (Z.eqb_spec (ecc_size (prz_ecc_info z)) 0); [done|].
    change (persistent_ram_encode_rs8 (set_data z _) _ sizeof_buffer)
      with (persistent_ram_encode_rs8 z (header_bytes (prz_buffer z))
              sizeof_buffer).
    rewrite Hecc. unfold set_data. simpl. do 3 f_equal.
    unfold memcpy_at. apply list_inserts_idemp.
Qed.

(** C5, as stated, fails on a zone that holds a snapshot:
    [persistent_ram_zap] does not touch the snapshot and
    [persistent_ram_save_old] returns at once on an empty zone, so the old
    data and the old size are still there. *)
Lemma zap_then_save_old_keeps_snapshot :
  exists z1 z2,
    persistent_ram_zap kept_snapshot_zone = Some z1 /\
    persistent_ram_save_old 9 z1 = Some z2 /\
    persistent_ram_old z2 = Some [1; 2] /\
    persistent_ram_old_size z2 = 2.
Proof.
  eexists _, _. split; [vm_compute; reflexivity|].
  split; [vm_compute; reflexivity|]. split; reflexivity.
Qed.

(** C5, amended.  [persistent_ram_zap] sets both cursors to 0 and
    recomputes the header parity; calling it again changes nothing.
    [persistent_ram_save_old] after it is a no-op, so the snapshot is what
    it was before the reset: on a zone that held no snapshot there is no
    old data and the old size is 0. *)
Theorem zap_idempotent (z : persistent_ram_zone) :
  zone_wf z ->
  exists z1,
    persistent_ram_zap z = Some z1 /\
    b_start (prz_buffer z1) = 0 /\ b_size (prz_buffer z1) = 0 /\
    persistent_ram_update_header_ecc z1 = Some z1 /\
    persistent_ram_zap z1 = Some z1 /\
    (forall fuel, persistent_ram_save_old fuel z1 = Some z1) /\
    persistent_ram_old z1 = persistent_ram_old z /\
    persistent_ram_old_size z1 = persistent_ram_old_size z /\
    (persistent_ram_old z = None -> persistent_ram_old_size z = 0 ->
     forall fuel,
     exists z2,
       persistent_ram_save_old fuel z1 = Some z2 /\
       persistent_ram_old z2 = None /\ persistent_ram_old_size z2 = 0).
Proof.
  intros Hwf.
  destruct (persistent_ram_zap_spec z Hwf) as (d & Hr & Hl & _).
  set (z1 := set_data (set_size (set_start z 0) 0) d) in *.
  assert (Hhdr : persistent_ram_update_header_ecc z1 = Some z1)
    by (apply (update_header_ecc_idemp _ _ Hr)).
  assert (Hsave : forall fuel, persistent_ram_save_old fuel z1 = Some z1)
    by (intros fuel; reflexivity).
  exists z1. split; [exact Hr|]. split; [done|]. split; [done|].
  split; [exact Hhdr|]. split; [exact Hhdr|]. split; [exact Hsave|].
  split; [done|]. split; [done|].
  intros Hnone Hsz fuel. exists z1. split; [apply Hsave|]. done.
Qed.

Lemma zap_idempotent_witness :
  exists z1,
    persistent_ram_zap ecc_zone_5 = Some z1 /\
    persistent_ram_zap z1 = Some z1 /\
    persistent_ram_save_old 20 z1 = Some z1 /\
    persistent_ram_old z1 = None.
Proof.
  destruct (zap_idempotent ecc_zone_5 ecc_zone_5_wf)
    as (z1 & Hr & _ & _ & _ & Hz & Hs & Hold & _).
  exists z1. split; [exact Hr|]. split; [exact Hz|]. split; [apply Hs|].
  rewrite Hold. reflexivity.
Defined.

(** ** C6 *)

Lemma init_ecc_too_large (env : ram_env) (prz : persistent_ram_zone)
    (ei : persistent_ram_ecc_info) :
  ecc_size ei <> 0 ->
  prz_buffer_size prz <= ecc_total_of (prz_buffer_size prz) (ecc_defaults ei) ->
  persistent_ram_init_ecc env prz (Some ei)
  = Some (set_ecc_info prz (ecc_defaults ei), - EINVAL).
Proof.
  intros Hne Htot. unfold persistent_ram_init_ecc.
  destruct (Z.eqb_spec (ecc_size ei) 0); [done|].
  cbv zeta.
  change (prz_buffer_size (set_ecc_info prz (ecc_defaults ei)))
    with (prz_buffer_size prz).
  destruct (Z.leb_spec (prz_buffer_size prz)
              (ecc_total_of (prz_buffer_size prz) (ecc_defaults ei)))
    as [_|Hlt]; [done|lia].
Qed.

(** A parity size that reaches the usable size is always too large. *)
Lemma ecc_total_of_ge (bs : Z) (ei : persistent_ram_ecc_info) :
  0 < bs <= ecc_size ei -> ecc_size ei < 2 ^ 30 ->
  0 <= block_size ei <= 2 ^ 30 ->
  bs <= ecc_total_of bs (ecc_defaults ei).
Proof.
  intros Hbs He Hb.
  unfold ecc_total_of, ecc_blocks_of, ecc_defaults, elvis, DIV_ROUND_UP.
  cbn [ecc_size block_size].
  destruct (Z.eqb_spec (ecc_size ei) 0) as [?|_]; [lia|].
  set (b := if block_size ei =? 0 then 128 else block_size ei).
  assert (Hb' : 0 < b <= 2 ^ 30)
    by (unfold b; destruct (Z.eqb_spec (block_size ei) 0); lia).
  set (e := ecc_size ei) in *.
  rewrite (to_size_t_small e) by lia.
  rewrite (to_int_small (b + e)) by lia.
  rewrite (to_size_t_small (b + e)) by lia.
  assert (Hq : to_size_t (to_size_t (to_size_t (bs - e) + (b + e)) - 1)
               / (b + e) = 0).
  { destruct (Z.eq_dec bs e) as [->|Hne].
    - rewrite Z.sub_diag. rewrite (to_size_t_small 0) by lia.
      rewrite (to_size_t_small (0 + (b + e))) by lia.
      rewrite to_size_t_small by lia. apply Z.div_small. lia.
    - rewrite (to_size_t_neg (bs - e)) by lia.
      replace (to_size_t (bs - e + 2 ^ 64 + (b + e))) with (bs + b).
      2:{ unfold to_size_t. apply (Z.mod_unique_pos _ _ 1); lia. }
      rewrite to_size_t_small by lia. apply Z.div_small. lia. }
  rewrite Hq. rewrite (to_int_small 0) by lia.
  rewrite (to_int_small (0 + 1)) by lia.
  rewrite (to_int_small (_ * e)) by lia.
  rewrite to_size_t_small by lia. lia.
Qed.

(** C6, as stated, fails: with 64 usable bytes and 64 parity bytes
    requested, [persistent_ram_init_ecc] fails, and the zone is not kept
    without ECC: [persistent_ram_new] returns the error and
    [ramoops_init_prz] passes it on with no zone. *)
Lemma ecc_too_large_gives_no_zone :
  persistent_ram_new zero_env 9 4096 76 0 (Some (mk_ecc_info 0 64 0 0)) 0
    PRZ_FLAG_ZAP_OLD "ramoops:console" = Some (inl (- EINVAL)) /\
  ramoops_init_prz zero_env 9 "console"
    (blank_cxt 4096 76 (mk_ecc_info 0 64 0 0) 0) None 4096 76 0
  = Some (mk_init_prz_result (- EINVAL) None 4096) /\
  ~ (exists z,
       persistent_ram_new zero_env 9 4096 76 0 (Some (mk_ecc_info 0 64 0 0)) 0
         PRZ_FLAG_ZAP_OLD "ramoops:console" = Some (inr z) /\
       ecc_size (prz_ecc_info z) = 0).
Proof.
  assert (H : persistent_ram_new zero_env 9 4096 76 0
                (Some (mk_ecc_info 0 64 0 0)) 0 PRZ_FLAG_ZAP_OLD
                "ramoops:console" = Some (inl (- EINVAL)))
    by (vm_compute; reflexivity).
  split; [exact H|]. split; [vm_compute; reflexivity|].
  intros (z & Hz & _). rewrite H in Hz. discriminate.
Qed.

(** C6, amended.  When the parity bytes computed for the request reach the
    usable size of the mapped zone, [persistent_ram_init_ecc] fails with
    [-EINVAL] and the zone is not created: [persistent_ram_new] returns
    that error, and [ramoops_init_prz] returns it to the probe with no zone
    and an unmoved address cursor.  This is the case in particular when the
    requested parity size alone is at least the usable size. *)
Theorem ecc_too_large_fails_zone (env : ram_env) (fuel : nat)
    (start size sig memtype flags : Z) (ei : persistent_ram_ecc_info)
    (label : string) (bytes : list Z) :
  ram_map env start size memtype = Some bytes ->
  ecc_size ei <> 0 ->
  let bs := to_size_t (size - sizeof_buffer) in
  (bs <= ecc_total_of bs (ecc_defaults ei) \/
   (0 < bs <= ecc_size ei /\ ecc_size ei < 2 ^ 30 /\
    0 <= block_size ei <= 2 ^ 30)) ->
  (exists prz prz',
     persistent_ram_buffer_map env start size
       (mk_zone 0 0 label 0 flags (mk_buffer 0 0 0 []) 0 0 0 None 0 0
          (mk_ecc_info 0 0 0 0) None 0) memtype = (prz, 0) /\
     persistent_ram_init_ecc env prz (Some ei) = Some (prz', - EINVAL)) /\
  persistent_ram_new env fuel start size sig (Some ei) memtype flags label
  = Some (inl (- EINVAL)) /\
  (forall name cxt prz0,
     cxt_ecc_info cxt = ei -> cxt_memtype cxt = memtype ->
     flags = PRZ_FLAG_ZAP_OLD -> label = "ramoops:" +:+ name ->
     size <> 0 ->
     to_size_t (to_size_t (start + size) - cxt_phys_addr cxt) <= cxt_size cxt ->
     ramoops_init_prz env fuel name cxt prz0 start size sig
     = Some (mk_init_prz_result (- EINVAL) None start)).
Proof.
  intros Hmap Hne bs Hcond.
  assert (Htot : bs <= ecc_total_of bs (ecc_defaults ei)).
  { destruct Hcond as [H|(H1 & H2 & H3)]; [exact H|].
    apply ecc_total_of_ge; done. }
  assert (Hnew : persistent_ram_new env fuel start size sig (Some ei) memtype
                   flags label = Some (inl (- EINVAL))).
  { unfold persistent_ram_new, persistent_ram_buffer_map. rewrite Hmap.
    cbv beta iota. change (negb (0 =? 0)) with false. cbv iota.
    unfold persistent_ram_post_init.
    set (prz := set_layout _ _ _ _).
    rewrite (init_ecc_too_large env prz ei Hne) by exact Htot.
    cbv beta iota. change (negb (- EINVAL =? 0)) with true.
    cbv iota. change (negb (- EINVAL =? 0)) with true. done. }
  split; [|split; [exact Hnew|]].
  - unfold persistent_ram_buffer_map. rewrite Hmap.
    set (prz := set_layout _ _ _ _).
    exists prz, (set_ecc_info prz (ecc_defaults ei)). split; [done|].
    apply init_ecc_too_large; [exact Hne|exact Htot].
  - intros name cxt prz0 Hei Hmt Hfl Hlab Hsz Hfit.
    unfold ramoops_init_prz.
    destruct (Z.eqb_spec size 0); [done|].
    destruct (Z.ltb_spec (cxt_size cxt)
                (to_size_t (to_size_t (start + size) - cxt_phys_addr cxt)));
      [lia|].
    rewrite Hei, Hmt, <- Hfl, <- Hlab, Hnew. done.
Qed.

Lemma ecc_too_large_fails_zone_witness :
  persistent_ram_new zero_env 9 4096 76 0 (Some (mk_ecc_info 0 64 0 0)) 0
    PRZ_FLAG_ZAP_OLD "ramoops:console" = Some (inl (- EINVAL)).
Proof.
  apply (ecc_too_large_fails_zone zero_env 9 4096 76 0 0 PRZ_FLAG_ZAP_OLD
           (mk_ecc_info 0 64 0 0) "ramoops:console" (replicate 76 0)).
  - reflexivity.
  - simpl. lia.
  - right. vm_compute. repeat split; congruence.
Defined.

(** ** Zone creation without ECC *)

Lemma zap_no_ecc z :
  ecc_size (prz_ecc_info z) = 0 ->
  persistent_ram_zap z = Some (set_size (set_start z 0) 0).
Proof.
  intros He. unfold persistent_ram_zap, persistent_ram_update_header_ecc.
  change (ecc_size (prz_ecc_info (set_size (set_start z 0) 0)))
    with (ecc_size (prz_ecc_info z)).
  rewrite He. done.
Qed.

Lemma save_old_no_ecc (fuel : nat) z start size :
  placed start size z -> prz_old_log z = None ->
  exists z', persistent_ram_save_old fuel z = Some z' /\ placed start size z'.
Proof.
  intros Hp Hlog. pose proof Hp as (H1 & H2 & H3).
  unfold persistent_ram_save_old.
  destruct (buffer_size z =? 0); [eauto|].
  rewrite Hlog.
  unfold persistent_ram_ecc_old. rewrite H3.
  change (0 =? 0) with true. cbv iota beta.
  cbn [prz_old_log set_old].
  assert (Hn : 0 <= buffer_size z)
    by (unfold buffer_size, to_size_t; apply Z.mod_pos_bound; lia).
  destruct (Z.ltb_spec (zlen (replicate (Z.to_nat (buffer_size z)) 0))
              (buffer_size z)) as [Hshort|_];
    [unfold zlen in Hshort; rewrite length_replicate in Hshort; lia|].
  eexists. split; [done|]. done.
Qed.

Lemma persistent_ram_new_no_ecc (env : ram_env) (fuel : nat)
    (start size sig memtype flags : Z) (ei : persistent_ram_ecc_info)
    (label : string) :
  is_Some (ram_map env start size memtype) -> ecc_size ei = 0 ->
  exists z,
    persistent_ram_new env fuel start size sig (Some ei) memtype flags label
    = Some (inr z) /\ placed start size z.
Proof.
  intros [bytes Hmap] He.
  unfold persistent_ram_new, persistent_ram_buffer_map. rewrite Hmap.
  cbv beta iota. change (negb (0 =? 0)) with false. cbv iota.
  set (prz := set_layout _ _ _ _).
  assert (Hp : placed start size prz) by done.
  unfold persistent_ram_post_init, persistent_ram_init_ecc. rewrite He.
  change (0 =? 0) with true. cbv beta iota.
  change (negb true) with false. cbv iota.
  assert (Hzap : forall z, placed start size z ->
            exists z', persistent_ram_zap z = Some z' /\ placed start size z').
  { intros z (H1 & H2 & H3). rewrite zap_no_ecc by done.
    eexists. split; [done|]. done. }
  destruct (b_sig (prz_buffer prz) =? Z.lxor sig PERSISTENT_RAM_SIG).
  - destruct (buffer_size prz =? 0); [eauto|].
    destruct ((prz_buffer_size prz <? buffer_size prz)
              || (buffer_size prz <? buffer_start prz)).
    + destruct (Hzap prz Hp) as (z' & Hz & Hp'). rewrite Hz. eauto.
    + destruct (save_old_no_ecc fuel prz start size Hp) as (z1 & Hs & Hp1);
        [done|].
      rewrite Hs.
      destruct (negb (Z.land (prz_flags prz) PRZ_FLAG_ZAP_OLD =? 0)).
      * destruct (Hzap z1 Hp1) as (z' & Hz & Hp'). rewrite Hz. eauto.
      * eauto.
  - destruct (Hzap (set_sig prz (Z.lxor sig PERSISTENT_RAM_SIG)))
      as (z' & Hz & Hp'); [done|].
    rewrite Hz. eauto.
Qed.

Lemma init_przs_loop_no_ecc (env : ram_env) (fuel : nat) (name : string)
    (cxt : ramoops_context) (cnt zone_sz sig flags : Z) (n : nat) :
  forall (i paddr : Z) (acc : list persistent_ram_zone),
  (forall s sz, is_Some (ram_map env s sz (cxt_memtype cxt))) ->
  ecc_size (cxt_ecc_info cxt) = 0 ->
  0 <= paddr -> 0 <= zone_sz -> paddr + Z.of_nat n * zone_sz < 2 ^ 64 ->
  exists zs,
    init_przs_loop env fuel name cxt n i cnt zone_sz sig flags paddr acc
    = (Some (inr (acc ++ zs)), paddr + Z.of_nat n * zone_sz) /\
    length zs = n /\ zones_consecutive paddr zs /\
    Forall (fun z => prz_size z = zone_sz) zs.
Proof.
  induction n as [|n IH]; intros i paddr acc Hmap He Hp Hz Hfit.
  - exists []. simpl. rewrite app_nil_r, Z.add_0_r. done.
  - cbn [init_przs_loop].
    assert (Hprod : 0 <= Z.of_nat n * zone_sz)
      by (apply Z.mul_nonneg_nonneg; lia).
    rewrite Nat2Z.inj_succ in *.
    replace (Z.succ (Z.of_nat n) * zone_sz)
      with (zone_sz + Z.of_nat n * zone_sz) in * by ring.
    destruct (persistent_ram_new_no_ecc env fuel paddr zone_sz sig
                (cxt_memtype cxt) flags (cxt_ecc_info cxt)
                (przs_label name i cnt) (Hmap _ _) He)
      as (z & Hnew & Hpa & Hsz & _).
    rewrite Hnew.
    assert (Hnext : 0 <= paddr + zone_sz < 2 ^ 64).
    { revert Hfit Hprod. generalize (Z.of_nat n * zone_sz). lia. }
    rewrite (to_size_t_small (paddr + zone_sz)) by exact Hnext.
    destruct (IH (i + 1) (paddr + zone_sz)
                (acc ++ [set_type z (pstore_name_to_type name)]))
      as (zs & Hr & Hl & Hc & Hs); try done; try lia.
    exists (set_type z (pstore_name_to_type name) :: zs).
    rewrite Hr. split.
    + rewrite <- app_assoc. simpl. f_equal. ring.
    + split; [simpl; lia|]. split.
      * simpl. rewrite Hsz. done.
      * constructor; done.
Qed.

Lemma zones_consecutive_end_ge (l : list persistent_ram_zone) :
  forall next,
  Forall (fun z => 0 <= prz_size z) l -> next <= zones_consecutive_end next l.
Proof.
  induction l as [|z l IH]; intros next Hs; simpl; [lia|].
  inversion Hs as [|? ? Hz Hs']; subst.
  specialize (IH (next + prz_size z) Hs'). lia.
Qed.

(** Zones laid end to end do not overlap and start at or after the first
    address. *)
Lemma zones_consecutive_disjoint (l : list persistent_ram_zone) :
  forall next,
  zones_consecutive next l -> Forall (fun z => 0 <= prz_size z) l ->
  zones_disjoint l /\
  Forall (fun z => next <= prz_paddr z) l /\
  (forall lim, zones_consecutive_end next l <= lim ->
               Forall (fun z => prz_paddr z + prz_size z <= lim) l).
Proof.
  induction l as [|z l IH]; intros next Hc Hs; simpl.
  - split; [done|]. split; [constructor|]. intros; constructor.
  - destruct Hc as [Hz Hc]. inversion Hs as [|? ? Hz0 Hs']; subst.
    destruct (IH _ Hc Hs') as (Hd & Hge & Hle).
    split; [split; [|exact Hd]|split].
    + eapply Forall_impl; [exact Hge|]. intros z' Hz'. simpl in Hz'. left. lia.
    + constructor; [lia|]. eapply Forall_impl; [exact Hge|].
      intros z' Hz'. simpl in Hz'. lia.
    + intros lim Hlim. constructor.
      * assert (H := zones_consecutive_end_ge l (prz_paddr z + prz_size z) Hs').
        lia.
      * apply Hle. exact Hlim.
Qed.

Lemma ramoops_init_prz_ok (env : ram_env) (fuel : nat) (name : string)
    (cxt : ramoops_context) (prz0 : option persistent_ram_zone)
    (paddr sz sig : Z) :
  (forall s n, is_Some (ram_map env s n (cxt_memtype cxt))) ->
  ecc_size (cxt_ecc_info cxt) = 0 ->
  0 <= cxt_phys_addr cxt <= paddr -> 0 < sz -> paddr + sz < 2 ^ 64 ->
  paddr + sz - cxt_phys_addr cxt <= cxt_size cxt ->
  exists z,
    ramoops_init_prz env fuel name cxt prz0 paddr sz sig
    = Some (mk_init_prz_result 0 (Some z) (paddr + sz)) /\
    prz_paddr z = paddr /\ prz_size z = sz.
Proof.
  intros Hmap He Hbase Hsz Hfit Hroom. unfold ramoops_init_prz.
  destruct (Z.eqb_spec sz 0); [lia|].
  rewrite (to_size_t_small (paddr + sz)) by lia.
  rewrite (to_size_t_small (paddr + sz - _)) by lia.
  destruct (Z.ltb_spec (cxt_size cxt) (paddr + sz - cxt_phys_addr cxt)); [lia|].
  destruct (persistent_ram_new_no_ecc env fuel paddr sz sig (cxt_memtype cxt)
              PRZ_FLAG_ZAP_OLD (cxt_ecc_info cxt) ("ramoops:" +:+ name)
              (Hmap _ _) He) as (z & Hnew & Hpa & Hs & _).
  rewrite Hnew. eexists. split; [done|]. done.
Qed.

Lemma ramoops_init_przs_by_count (env : ram_env) (fuel : nat) (name : string)
    (cxt : ramoops_context) (przs0 : option (list persistent_ram_zone))
    (paddr mem_sz record_size cnt sig flags : Z) :
  (forall s n, is_Some (ram_map env s n (cxt_memtype cxt))) ->
  ecc_size (cxt_ecc_info cxt) = 0 ->
  record_size < 0 -> 0 < cnt <= mem_sz ->
  0 <= cxt_phys_addr cxt <= paddr -> paddr + mem_sz < 2 ^ 64 ->
  paddr + mem_sz - cxt_phys_addr cxt <= cxt_size cxt ->
  exists zs,
    ramoops_init_przs env fuel name cxt przs0 paddr mem_sz record_size cnt
      sig flags
    = Some (mk_init_przs_result 0 (Some zs) (paddr + cnt * (mem_sz / cnt)) cnt) /\
    zlen zs = cnt /\ zones_consecutive paddr zs /\
    Forall (fun z => prz_size z = mem_sz / cnt) zs.
Proof.
  intros Hmap He Hrec Hcnt Hbase Hfit Hroom. unfold ramoops_init_przs.
  destruct (Z.eqb_spec mem_sz 0); [lia|].
  destruct (Z.eqb_spec record_size 0); [lia|]. cbv [orb].
  destruct (Z.ltb_spec record_size 0); [|lia].
  destruct (Z.eqb_spec cnt 0); [lia|].
  assert (Hq : 0 < mem_sz / cnt) by (apply Z.div_str_pos; lia).
  assert (Hmul : cnt * (mem_sz / cnt) <= mem_sz)
    by (apply Z.mul_div_le; lia).
  destruct (Z.eqb_spec (mem_sz / cnt) 0); [lia|].
  rewrite (to_size_t_small (paddr + mem_sz)) by lia.
  rewrite (to_size_t_small (paddr + mem_sz - _)) by lia.
  destruct (Z.ltb_spec (cxt_size cxt) (paddr + mem_sz - cxt_phys_addr cxt));
    [lia|].
  destruct (Z.eqb_spec (mem_sz / cnt) 0); [lia|].
  destruct (init_przs_loop_no_ecc env fuel name cxt cnt (mem_sz / cnt) sig flags
              (Z.to_nat cnt) 0 paddr [] Hmap He)
    as (zs & Hr & Hl & Hc & Hs); try lia.
  rewrite Hr. rewrite Z2Nat.id by lia. exists zs.
  split; [done|]. split; [unfold zlen; lia|]. done.
Qed.

(** ** C7 *)

(** C7.  Zone carving scenario.  In a region of 32768 bytes whose memory
    can be mapped and with ECC off, [ramoops_init_prz] for one zone of 8192
    bytes followed, as in [ramoops_probe], by [ramoops_init_przs] for 4
    zones out of a pool of 8192 bytes yields one zone of 8192 bytes and four
    zones of 2048 bytes.  They start at consecutive offsets 0, 8192, 10240,
    12288 and 14336 from the base, the address cursor ends at offset 16384,
    no two zones overlap and all lie within the region. *)
Theorem zone_carving_scenario (env : ram_env) (fuel : nat)
    (cxt : ramoops_context) (sig flags : Z) :
  (forall s n, is_Some (ram_map env s n (cxt_memtype cxt))) ->
  ecc_size (cxt_ecc_info cxt) = 0 ->
  cxt_size cxt = 32768 ->
  0 <= cxt_phys_addr cxt -> cxt_phys_addr cxt + 32768 <= 2 ^ 64 ->
  let base := cxt_phys_addr cxt in
  exists c f0 f1 f2 f3,
    ramoops_init_prz env fuel "console" cxt None base 8192 0
    = Some (mk_init_prz_result 0 (Some c) (base + 8192)) /\
    ramoops_init_przs env fuel "ftrace" cxt None (base + 8192) 8192 (-1) 4
      sig flags
    = Some (mk_init_przs_result 0 (Some [f0; f1; f2; f3]) (base + 16384) 4) /\
    prz_size c = 8192 /\
    Forall (fun z => prz_size z = 2048) [f0; f1; f2; f3] /\
    map prz_paddr [c; f0; f1; f2; f3]
    = [base; base + 8192; base + 10240; base + 12288; base + 14336] /\
    zones_disjoint [c; f0; f1; f2; f3] /\
    Forall (zone_within base 32768) [c; f0; f1; f2; f3].
Proof.
  intros Hmap He Hsize Hbase Hfit base.
  destruct (ramoops_init_prz_ok env fuel "console" cxt None base 8192 0 Hmap He)
    as (c & Hc & Hcp & Hcs); try (fold base; lia).
  destruct (ramoops_init_przs_by_count env fuel "ftrace" cxt None (base + 8192)
              8192 (-1) 4 sig flags Hmap He)
    as (zs & Hz & Hl & Hcons & Hsz); try (fold base; lia).
  change (8192 / 4) with 2048 in Hz, Hsz.
  replace (base + 8192 + 4 * 2048) with (base + 16384) in Hz by lia.
  destruct zs as [|f0 [|f1 [|f2 [|f3 [|? ?]]]]]; try (unfold zlen in Hl; simpl in Hl; lia).
  exists c, f0, f1, f2, f3.
  split; [exact Hc|]. split; [exact Hz|]. split; [exact Hcs|].
  split; [exact Hsz|].
  inversion Hsz as [|? ? H0 Hsz1]; subst.
  inversion Hsz1 as [|? ? H1 Hsz2]; subst.
  inversion Hsz2 as [|? ? H2 Hsz3]; subst.
  inversion Hsz3 as [|? ? H3 _]; subst.
  simpl in Hcons. destruct Hcons as (P0 & P1 & P2 & P3 & _).
  rewrite H0 in P1. rewrite H0, H1 in P2. rewrite H0, H1, H2 in P3.
  fold base in Hcp.
  split.
  { simpl. rewrite Hcp, P0, P1, P2, P3.
    replace (base + 8192 + 2048) with (base + 10240) by lia.
    replace (base + 10240 + 2048) with (base + 12288) by lia.
    replace (base + 12288 + 2048) with (base + 14336) by lia.
    reflexivity. }
  unfold zones_disjoint, zone_within, zones_apart.
  split.
  - repeat split; repeat constructor; lia.
  - repeat constructor; lia.
Qed.

(** The scenario on a machine whose RAM reads as zeros, with the region at
    physical address 0x1000000 and per-CPU ftrace zones. *)
Lemma zone_carving_scenario_witness :
  exists c f0 f1 f2 f3,
    ramoops_init_prz zero_env 9 "console"
      (blank_cxt 0x1000000 32768 (mk_ecc_info 0 0 0 0)
         RAMOOPS_FLAG_FTRACE_PER_CPU) None 0x1000000 8192 0
    = Some (mk_init_prz_result 0 (Some c) (0x1000000 + 8192)) /\
    ramoops_init_przs zero_env 9 "ftrace"
      (blank_cxt 0x1000000 32768 (mk_ecc_info 0 0 0 0)
         RAMOOPS_FLAG_FTRACE_PER_CPU) None (0x1000000 + 8192) 8192 (-1) 4
      393492 PRZ_FLAG_NO_LOCK
    = Some (mk_init_przs_result 0 (Some [f0; f1; f2; f3])
              (0x1000000 + 16384) 4) /\
    map prz_size [c; f0; f1; f2; f3] = [8192; 2048; 2048; 2048; 2048].
Proof.
  destruct (zone_carving_scenario zero_env 9
              (blank_cxt 0x1000000 32768 (mk_ecc_info 0 0 0 0)
                 RAMOOPS_FLAG_FTRACE_PER_CPU) 393492 PRZ_FLAG_NO_LOCK)
    as (c & f0 & f1 & f2 & f3 & H1 & H2 & H3 & H4 & _).
  - intros s n. simpl. eauto.
  - reflexivity.
  - reflexivity.
  - simpl. lia.
  - simpl. lia.
  - exists c, f0, f1, f2, f3. split; [exact H1|]. split; [exact H2|].
    inversion H4 as [|? ? E0 H5]; subst.
    inversion H5 as [|? ? E1 H6]; subst.
    inversion H6 as [|? ? E2 H7]; subst.
    inversion H7 as [|? ? E3 _]; subst.
    simpl. rewrite H3, E0, E1, E2, E3. reflexivity.
Defined.

(** The model evaluated on the same scenario. *)
Example carve_console_then_ftrace :
  let cxt := blank_cxt 0x1000000 32768 (mk_ecc_info 0 0 0 0)
               RAMOOPS_FLAG_FTRACE_PER_CPU in
  option_map (fun r => (ip_ret r, option_map prz_paddr (ip_prz r),
                        option_map prz_size (ip_prz r), ip_paddr r))
    (ramoops_init_prz zero_env 9 "console" cxt None 0x1000000 8192 0)
  = Some (0, Some 0x1000000, Some 8192, 0x1002000) /\
  option_map (fun r => (ipr_ret r,
                        option_map (map (fun z => (prz_paddr z, prz_size z,
                                                   prz_label z)))
                          (ipr_przs r),
                        ipr_paddr r, ipr_cnt r))
    (ramoops_init_przs zero_env 9 "ftrace" cxt None 0x1002000 8192 (-1) 4
       393492 PRZ_FLAG_NO_LOCK)
  = Some (0, Some [(0x1002000, 2048, "ramoops:ftrace(0/3)"%string);
                   (0x1002800, 2048, "ramoops:ftrace(1/3)"%string);
                   (0x1003000, 2048, "ramoops:ftrace(2/3)"%string);
                   (0x1003800, 2048, "ramoops:ftrace(3/3)"%string)],
          0x1004000, 4).
Proof. split; vm_compute; reflexivity. Qed.

(** ** C10 *)

(** C10.  For a crash-log (DMESG) record whose part number is not 1,
    [ramoops_pstore_write] returns [-ENOSPC] with the context, all its
    zones and cursors unchanged, whatever the fuel: it returns before any
    zone is zapped or written. *)
Theorem dmesg_later_parts_rejected (fuel : nat) (cpu : Z)
    (cxt : ramoops_context) (record : pstore_record) :
  rec_type record = PSTORE_TYPE_DMESG -> rec_part record <> 1 ->
  ramoops_pstore_write fuel cpu cxt record = Some (cxt, - ENOSPC).
Proof.
  intros Ht Hp. unfold ramoops_pstore_write. rewrite Ht.
  change (PSTORE_TYPE_DMESG =? PSTORE_TYPE_CONSOLE) with false.
  change (PSTORE_TYPE_DMESG =? PSTORE_TYPE_FTRACE) with false.
  change (PSTORE_TYPE_DMESG =? PSTORE_TYPE_PMSG) with false.
  change (PSTORE_TYPE_DMESG =? PSTORE_TYPE_DMESG) with true.
  cbv [negb].
  destruct (Z.eqb_spec (rec_part record) 1); [done|]. done.
Qed.

Lemma dmesg_later_parts_rejected_witness :
  ramoops_pstore_write 0 0 one_dmesg_cxt part_two
  = Some (one_dmesg_cxt, - ENOSPC).
Proof.
  apply (dmesg_later_parts_rejected 0 0 one_dmesg_cxt part_two).
  - reflexivity.
  - simpl. lia.
Defined.

(** The first part of the same dump is written: the zone holds the
    header ["====0.000000-D\n"] followed by the payload. *)
Example dmesg_first_part_written :
  option_map
    (fun r => (snd r,
               option_map (map (fun z => (buffer_start z, buffer_size z,
                                          logical_contents z)))
                 (cxt_dprzs (fst r)),
               cxt_dump_write_cnt (fst r)))
    (ramoops_pstore_write 1 0 one_dmesg_cxt
       (mk_record PSTORE_TYPE_DMESG 0 0 0 (Some [79; 111; 112; 115]) 4 0 1
          KMSG_DUMP_OOPS 1 false))
  = Some (0,
          Some [(19, 19,
                 [61; 61; 61; 61; 48; 46; 48; 48; 48; 48; 48; 48; 45; 68; 10;
                  79; 111; 112; 115])],
          0).
Proof. vm_compute. reflexivity. Qed.

(** ** C8 *)

(** C8, as stated, fails: with "ramoops" active, a second, well-formed
    backend of another name is rejected with [-EPERM], not [-EBUSY]:
    [pstore_register] recorded the first backend's name in [backend] and
    compares names before it looks at [psinfo]. *)
Lemma second_backend_other_name_not_busy :
  is_Some (psinfo ramoops_registered) /\
  snd (pstore_register quiet_env ramoops_registered
         (null_backend "efi" PSTORE_FLAGS_DMESG)) = - EPERM /\
  snd (pstore_register quiet_env ramoops_registered
         (null_backend "efi" PSTORE_FLAGS_DMESG)) <> - EBUSY.
Proof.
  split; [vm_compute; eauto|]. split; [vm_compute; reflexivity|].
  vm_compute. congruence.
Qed.

(** C8, amended.  While a backend is active [pstore_register] rejects
    every registration and leaves the file-scope state, the active backend
    included, unchanged.  The status is [-EPERM] when the new backend's
    name differs from the recorded backend name, otherwise [-EINVAL] when it
    declares no capability flag or lacks [read] or [write], and [-EBUSY]
    only when it passes these checks.  With or without an active backend,
    a backend with no capability flag, or lacking [read] or [write], is
    rejected with the state unchanged. *)
Theorem register_rejections {D : Type} (env : kernel_env)
    (st : pstore_state D) (psi : pstore_info D) :
  (is_Some (psinfo st) ->
   pstore_register env st psi
   = (st, snd (fst (pstore_register env st psi)), rejection_status st psi)) /\
  (is_Some (psinfo st) ->
   backend st = Some (psi_name psi) -> psi_flags psi <> 0 ->
   is_Some (psi_read psi) -> is_Some (psi_write psi) ->
   snd (pstore_register env st psi) = - EBUSY) /\
  (psi_flags psi = 0 \/ psi_read psi = None \/ psi_write psi = None ->
   fst (fst (pstore_register env st psi)) = st /\
   (snd (pstore_register env st psi) = - EINVAL \/
    snd (pstore_register env st psi) = - EPERM)).
Proof.
  split; [|split].
  - intros [cur Hcur]. unfold pstore_register, rejection_status.
    destruct (match backend st with
              | Some b => negb (String.eqb b (psi_name psi))
              | None => false
              end); [done|].
    destruct (psi_flags psi =? 0); [done|].
    destruct (is_null (psi_read psi) || is_null (psi_write psi)); [done|].
    rewrite Hcur. done.
  - intros [cur Hcur] Hb Hf [r Hr] [w Hw]. unfold pstore_register.
    rewrite Hb, String.eqb_refl. cbv [negb].
    destruct (Z.eqb_spec (psi_flags psi) 0); [done|].
    rewrite Hr, Hw, Hcur. done.
  - intros Hbad. unfold pstore_register.
    destruct (match backend st with
              | Some b => negb (String.eqb b (psi_name psi))
              | None => false
              end); [split; [done|right; done]|].
    destruct (Z.eqb_spec (psi_flags psi) 0); [split; [done|left; done]|].
    destruct Hbad as [?|[Hr|Hw]]; [done| |].
    + rewrite Hr. split; [done|left; done].
    + rewrite Hw. rewrite orb_true_r. split; [done|left; done].
Qed.

(** With "ramoops" active, "ramoops" registering again is busy, and the
    state does not change. *)
Lemma register_rejections_witness :
  pstore_register quiet_env ramoops_registered
    (null_backend "ramoops" PSTORE_FLAGS_DMESG)
  = (ramoops_registered,
     snd (fst (pstore_register quiet_env ramoops_registered
                 (null_backend "ramoops" PSTORE_FLAGS_DMESG))),
     - EBUSY).
Proof.
  destruct (register_rejections quiet_env ramoops_registered
              (null_backend "ramoops" PSTORE_FLAGS_DMESG)) as (H & _ & _).
  apply H. vm_compute. eauto.
Defined.

(** ** C9 *)






(** An oops captured through the ramoops backend: part 1 is stored, part 2
    is refused with [-ENOSPC], and the lock is free again afterwards. *)
Example dump_oops_through_ramoops :
  match pstore_dump log_env 5 ramoops_active KMSG_DUMP_OOPS with
  | Some (DumpReturned st ev) =>
    (map (fun e => match e with
                   | EvBackendWrite r ret => (rec_part r, rec_size r, ret)
                   | _ => (0, 0, 0)
                   end) ev,
     option_map psi_buf_lock (psinfo st),
     oopscount st,
     option_map (fun p => option_map (map logical_contents)
                            (cxt_dprzs (psi_data p))) (psinfo st))
    = ([(1, 16, 0); (2, 16, - ENOSPC)], Some false, 1,
       Some (Some [bytes_of_string ("====0.000000-D" +:+ newline
                                    +:+ "Oops#1 Part1" +:+ newline
                                    +:+ "log")]))
  | _ => False
  end.
Proof. vm_compute. reflexivity. Qed.

(* ------------------------------------------------------------------ *)
(** * Further properties of the code *)

(** ** ftrace records *)

Lemma TS_CPU_MASK_ones : TS_CPU_MASK = Z.ones 8.
Proof. reflexivity. Qed.

Lemma lnot_mask_bits (n : Z) :
  0 <= n ->
  Z.testbit (to_size_t (Z.lnot TS_CPU_MASK)) n = (8 <=? n) && (n <? 64).
Proof.
  intros Hn. unfold to_size_t.
  rewrite TS_CPU_MASK_ones.
  destruct (Z.ltb_spec n 64).
  - rewrite Z.mod_pow2_bits_low by lia.
    rewrite Z.lnot_spec by lia.
    destruct (Z.leb_spec 8 n).
    + rewrite Z.ones_spec_high by lia. reflexivity.
    + rewrite Z.ones_spec_low by lia. reflexivity.
  - rewrite Z.mod_pow2_bits_high by lia. rewrite andb_false_r. reflexivity.
Qed.

Lemma u64_bits_high (x n : Z) : 0 <= x < 2 ^ 64 -> 64 <= n -> Z.testbit x n = false.
Proof.
  intros Hx Hn.
  rewrite <- (Z.mod_small x (2 ^ 64)) by lia.
  apply Z.mod_pow2_bits_high. lia.
Qed.

Lemma decode_encode_cpu (rec : pstore_ftrace_record) (cpu : Z) :
  pstore_ftrace_decode_cpu (pstore_ftrace_encode_cpu rec cpu) = cpu mod 256.
Proof.
  unfold pstore_ftrace_decode_cpu, pstore_ftrace_encode_cpu. cbn [frec_ts].
  rewrite TS_CPU_MASK_ones, Z.land_ones by lia.
  change (2 ^ 8) with 256.
  rewrite to_uint_small
    by (pose proof (Z.mod_pos_bound
                      (Z.lor (Z.land (frec_ts rec)
                                (to_size_t (Z.lnot (Z.ones 8)))) cpu) 256); lia).
  change 256 with (2 ^ 8). rewrite <- !Z.land_ones by lia.
  apply Z.bits_inj'. intros n Hn.
  rewrite !Z.land_spec, Z.lor_spec, Z.land_spec.
  rewrite <- TS_CPU_MASK_ones at 1. rewrite lnot_mask_bits by lia.
  destruct (Z.ltb_spec n 8).
  - rewrite Z.ones_spec_low by lia.
    replace (8 <=? n) with false by (symmetry; apply Z.leb_gt; lia).
    cbn. rewrite andb_false_r. cbn. reflexivity.
  - rewrite Z.ones_spec_high by lia. rewrite !andb_false_r. reflexivity.
Qed.

Lemma read_timestamp_encode_cpu (rec : pstore_ftrace_record) (cpu : Z) :
  0 <= frec_ts rec < 2 ^ 64 -> 0 <= cpu ->
  pstore_ftrace_read_timestamp (pstore_ftrace_encode_cpu rec cpu)
  = Z.lor (pstore_ftrace_read_timestamp rec) (cpu / 256).
Proof.
  intros Hts Hcpu.
  unfold pstore_ftrace_read_timestamp, pstore_ftrace_encode_cpu.
  cbn [frec_ts]. unfold TS_CPU_SHIFT.
  change 256 with (2 ^ 8). rewrite <- (Z.shiftr_div_pow2 cpu 8) by lia.
  apply Z.bits_inj'. intros n Hn.
  rewrite Z.lor_spec, !Z.shiftr_spec, Z.lor_spec, Z.land_spec by lia.
  rewrite lnot_mask_bits by lia.
  replace (8 <=? n + 8) with true by (symmetry; apply Z.leb_le; lia).
  destruct (Z.ltb_spec (n + 8) 64).
  - cbn. rewrite andb_true_r. reflexivity.
  - rewrite (u64_bits_high (frec_ts rec)) by lia. reflexivity.
Qed.

(** X1.  the CPU number stored by [pstore_ftrace_encode_cpu] is read back by
    [pstore_ftrace_decode_cpu] in its low eight bits, and the time stamp
    is kept when the CPU number is below 256; the bits of a larger CPU
    number are or-ed into the time stamp. *)
Theorem ftrace_cpu_round_trip (rec : pstore_ftrace_record) (cpu : Z) :
  0 <= frec_ts rec < 2 ^ 64 -> 0 <= cpu < 2 ^ 32 ->
  pstore_ftrace_decode_cpu (pstore_ftrace_encode_cpu rec cpu) = cpu mod 256 /\
  pstore_ftrace_read_timestamp (pstore_ftrace_encode_cpu rec cpu)
  = Z.lor (pstore_ftrace_read_timestamp rec) (cpu / 256) /\
  (cpu < 256 ->
   pstore_ftrace_decode_cpu (pstore_ftrace_encode_cpu rec cpu) = cpu /\
   pstore_ftrace_read_timestamp (pstore_ftrace_encode_cpu rec cpu)
   = pstore_ftrace_read_timestamp rec).
Proof.
  intros Hts Hcpu.
  split; [apply decode_encode_cpu|].
  split; [apply read_timestamp_encode_cpu; lia|].
  intros Hsmall. split.
  - rewrite decode_encode_cpu. apply Z.mod_small. lia.
  - rewrite read_timestamp_encode_cpu by lia.
    rewrite Z.div_small by lia. apply Z.lor_0_r.
Qed.

Lemma ftrace_cpu_round_trip_witness :
  pstore_ftrace_decode_cpu (pstore_ftrace_encode_cpu (mk_frec 1 2 0x3ff) 5) = 5
  /\ pstore_ftrace_read_timestamp (pstore_ftrace_encode_cpu (mk_frec 1 2 0x3ff) 5)
     = 3.
Proof.
  pose proof (ftrace_cpu_round_trip (mk_frec 1 2 0x3ff) 5) as H.
  cbn [frec_ts] in H.
  destruct H as (_ & _ & H); [lia | lia |].
  destruct H as [H1 H2]; [lia|].
  split; [exact H1|]. rewrite H2. reflexivity.
Defined.

Lemma lor_u64 (a b : Z) :
  0 <= a < 2 ^ 64 -> 0 <= b < 2 ^ 64 -> 0 <= Z.lor a b < 2 ^ 64.
Proof.
  intros Ha Hb. split; [apply Z.lor_nonneg; lia|].
  destruct (Z.eq_dec (Z.lor a b) 0) as [->|Hne]; [lia|].
  assert (0 < Z.lor a b) by (pose proof (proj2 (Z.lor_nonneg a b)); lia).
  apply Z.log2_lt_pow2; [lia|].
  rewrite Z.log2_lor by lia.
  destruct (Z.eq_dec a 0) as [->|Ha0]; destruct (Z.eq_dec b 0) as [->|Hb0];
    cbn [Z.log2]; try lia.
  - assert (Z.log2 b < 64) by (apply Z.log2_lt_pow2; lia). lia.
  - assert (Z.log2 a < 64) by (apply Z.log2_lt_pow2; lia). lia.
  - assert (Z.log2 a < 64) by (apply Z.log2_lt_pow2; lia).
    assert (Z.log2 b < 64) by (apply Z.log2_lt_pow2; lia). lia.
Qed.

Lemma land_u64 (a b : Z) : 0 <= a < 2 ^ 64 -> 0 <= Z.land a b < 2 ^ 64.
Proof.
  intros Ha.
  assert (Hn : 0 <= Z.land a b) by (apply Z.land_nonneg; lia).
  split; [exact Hn|].
  destruct (Z.eq_dec (Z.land a b) 0) as [->|Hne]; [lia|].
  apply Z.log2_lt_pow2; [lia|].
  assert (Hbit : Z.testbit (Z.land a b) (Z.log2 (Z.land a b)) = true)
    by (apply Z.bit_log2; lia).
  rewrite Z.land_spec in Hbit. apply andb_true_iff in Hbit as [Hbit _].
  destruct (Z.lt_ge_cases (Z.log2 (Z.land a b)) 64) as [|Hge]; [lia|].
  rewrite (u64_bits_high a) in Hbit by lia. discriminate.
Qed.

Lemma shifted_stamp_bits (val n : Z) :
  0 <= n ->
  Z.testbit (to_size_t (Z.shiftl val TS_CPU_SHIFT)) n
  = (8 <=? n) && (n <? 64) && Z.testbit val (n - 8).
Proof.
  intros Hn. unfold to_size_t, TS_CPU_SHIFT.
  destruct (Z.ltb_spec n 64).
  - rewrite Z.mod_pow2_bits_low by lia.
    destruct (Z.leb_spec 8 n).
    + rewrite Z.shiftl_spec by lia. reflexivity.
    + rewrite Z.shiftl_spec_low by lia. reflexivity.
  - rewrite Z.mod_pow2_bits_high by lia. rewrite andb_false_r. reflexivity.
Qed.

Lemma read_write_timestamp (rec : pstore_ftrace_record) (val : Z) :
  pstore_ftrace_read_timestamp (pstore_ftrace_write_timestamp rec val)
  = val mod 2 ^ 56.
Proof.
  unfold pstore_ftrace_read_timestamp, pstore_ftrace_write_timestamp.
  cbn [frec_ts]. rewrite <- Z.land_ones by lia.
  apply Z.bits_inj'. intros n Hn.
  rewrite Z.shiftr_spec, Z.lor_spec, !Z.land_spec, shifted_stamp_bits
    by (unfold TS_CPU_SHIFT; lia).
  rewrite TS_CPU_MASK_ones. unfold TS_CPU_SHIFT.
  rewrite Z.ones_spec_high by lia. rewrite andb_false_r. cbn [orb].
  replace (n + 8 - 8) with n by lia.
  replace (8 <=? n + 8) with true by (symmetry; apply Z.leb_le; lia).
  cbn [andb].
  destruct (Z.ltb_spec (n + 8) 64).
  - rewrite Z.ones_spec_low by lia. rewrite andb_true_r. reflexivity.
  - rewrite Z.ones_spec_high by lia. rewrite andb_false_r. reflexivity.
Qed.

Lemma decode_cpu_write_timestamp (rec : pstore_ftrace_record) (val : Z) :
  pstore_ftrace_decode_cpu (pstore_ftrace_write_timestamp rec val)
  = pstore_ftrace_decode_cpu rec.
Proof.
  unfold pstore_ftrace_decode_cpu, pstore_ftrace_write_timestamp.
  cbn [frec_ts]. f_equal.
  apply Z.bits_inj'. intros n Hn.
  rewrite !Z.land_spec, Z.lor_spec, Z.land_spec, shifted_stamp_bits by lia.
  rewrite TS_CPU_MASK_ones.
  destruct (Z.ltb_spec n 8).
  - replace (8 <=? n) with false by (symmetry; apply Z.leb_gt; lia).
    cbn [andb]. rewrite orb_false_r, <- andb_assoc, andb_diag. reflexivity.
  - rewrite Z.ones_spec_high by lia. rewrite !andb_false_r. reflexivity.
Qed.

Lemma write_timestamp_range (rec : pstore_ftrace_record) (val : Z) :
  0 <= frec_ts (pstore_ftrace_write_timestamp rec val) < 2 ^ 64.
Proof.
  unfold pstore_ftrace_write_timestamp. cbn [frec_ts].
  apply lor_u64.
  - rewrite TS_CPU_MASK_ones, Z.land_ones by lia.
    pose proof (Z.mod_pos_bound (frec_ts rec) (2 ^ 8)). lia.
  - unfold to_size_t. apply Z.mod_pos_bound. lia.
Qed.

(** X2.  the time stamp stored by [pstore_ftrace_write_timestamp] is read
    back by [pstore_ftrace_read_timestamp] up to its low 56 bits (all of
    it when it is below 2^56), and the CPU number stored in the record is
    kept. *)
Theorem ftrace_timestamp_round_trip (rec : pstore_ftrace_record) (val : Z) :
  pstore_ftrace_read_timestamp (pstore_ftrace_write_timestamp rec val)
  = val mod 2 ^ 56 /\
  (0 <= val < 2 ^ 56 ->
   pstore_ftrace_read_timestamp (pstore_ftrace_write_timestamp rec val) = val)
  /\
  pstore_ftrace_decode_cpu (pstore_ftrace_write_timestamp rec val)
  = pstore_ftrace_decode_cpu rec.
Proof.
  split; [apply read_write_timestamp|]. split.
  - intros Hval. rewrite read_write_timestamp. apply Z.mod_small. lia.
  - apply decode_cpu_write_timestamp.
Qed.

Lemma ftrace_timestamp_round_trip_witness :
  pstore_ftrace_read_timestamp
    (pstore_ftrace_write_timestamp (mk_frec 1 2 7) 1000) = 1000.
Proof.
  apply (proj1 (proj2 (ftrace_timestamp_round_trip (mk_frec 1 2 7) 1000))).
  lia.
Defined.

Lemma of_le32_le32 (x : Z) (l : list Z) :
  0 <= x < 2 ^ 32 -> of_le32 (le32 x ++ l) = x.
Proof.
  intros Hx. unfold le32. cbn [app of_le32].
  change (2 ^ 32) with 4294967296 in Hx.
  Z.to_euclidean_division_equations. lia.
Qed.

Lemma length_le64 (x : Z) : length (le64 x) = 8%nat.
Proof. reflexivity. Qed.

Lemma of_le64_le64 (x : Z) (l : list Z) :
  0 <= x < 2 ^ 64 -> of_le64 (le64 x ++ l) = x.
Proof.
  intros Hx. unfold of_le64, le64.
  rewrite <- app_assoc.
  rewrite of_le32_le32 by (apply Z.mod_pos_bound; lia).
  change (drop 4 (le32 (x mod 2 ^ 32) ++ le32 (x / 2 ^ 32) ++ l))
    with (le32 (x / 2 ^ 32) ++ l).
  rewrite of_le32_le32.
  - pose proof (Z.div_mod x (2 ^ 32)). lia.
  - change (2 ^ 64) with (2 ^ 32 * 2 ^ 32) in Hx.
    split; [apply Z.div_pos; lia | apply Z.div_lt_upper_bound; lia].
Qed.

Lemma length_frec_bytes (r : pstore_ftrace_record) :
  length (frec_bytes r) = 24%nat.
Proof. reflexivity. Qed.

Lemma frec_at_frec_bytes (r : pstore_ftrace_record) (l : list Z) :
  0 <= frec_ip r < 2 ^ 64 -> 0 <= frec_parent_ip r < 2 ^ 64 ->
  0 <= frec_ts r < 2 ^ 64 ->
  frec_at (frec_bytes r ++ l) 0 = r.
Proof.
  intros H1 H2 H3. destruct r as [ip pip ts]. cbn [frec_ip frec_parent_ip frec_ts] in *.
  unfold frec_at, frec_bytes, zdrop.
  change (drop (Z.to_nat 0)) with (fun l : list Z => l). cbv beta.
  cbn [frec_ip frec_parent_ip frec_ts].
  rewrite <- !app_assoc.
  rewrite of_le64_le64 by lia.
  change (drop 8 (le64 ip ++ le64 pip ++ le64 ts ++ l))
    with (le64 pip ++ le64 ts ++ l).
  change (drop 16 (le64 ip ++ le64 pip ++ le64 ts ++ l))
    with (le64 ts ++ l).
  rewrite !of_le64_le64 by lia. reflexivity.
Qed.

(** X3.  outside an oops and with the recursion lock taken,
    [pstore_ftrace_call] hands the backend one 24-byte FTRACE record and
    advances the stamp by one; during an oops or when the recursion lock is
    refused it does nothing.  The record reads back as the two addresses,
    the CPU number modulo 256 and the low 56 bits of the stamp or-ed with
    the CPU number divided by 256: on a CPU numbered below 256 these are
    the CPU and the low 56 bits of the stamp, on a CPU numbered 256 or
    above the CPU read back is not the current one.  The CPU number is an
    [unsigned int]. *)
Theorem ftrace_call_record {D : Type} (fenv : ftrace_env)
    (st : pstore_state D) (psi : pstore_info D)
    (w : pstore_record -> D -> option (D * Z)) (stamp ip parent_ip : Z) :
  psinfo st = Some psi -> psi_write psi = Some w ->
  0 <= stamp < 2 ^ 64 -> 0 <= ip < 2 ^ 64 -> 0 <= parent_ip < 2 ^ 64 ->
  0 <= raw_smp_processor_id fenv < 2 ^ 32 ->
  (oops_in_progress fenv = true \/
   ftrace_test_recursion_trylock fenv ip parent_ip < 0 ->
   pstore_ftrace_call fenv st stamp ip parent_ip = Some (st, stamp)) /\
  (oops_in_progress fenv = false ->
   0 <= ftrace_test_recursion_trylock fenv ip parent_ip ->
   exists record,
     pstore_ftrace_call fenv st stamp ip parent_ip
     = match w record (psi_data psi) with
       | Some r => Some (set_psinfo st (Some (psi_set_data psi (fst r))),
                         (stamp + 1) mod 2 ^ 64)
       | None => None
       end /\
     rec_type record = PSTORE_TYPE_FTRACE /\ rec_size record = 24 /\
     zlen (rec_bytes record) = 24 /\
     let rec := frec_at (rec_bytes record) 0 in
     frec_ip rec = ip /\ frec_parent_ip rec = parent_ip /\
     pstore_ftrace_decode_cpu rec = raw_smp_processor_id fenv mod 256 /\
     pstore_ftrace_read_timestamp rec
     = Z.lor (stamp mod 2 ^ 56) (raw_smp_processor_id fenv / 256) /\
     (raw_smp_processor_id fenv < 256 ->
      pstore_ftrace_decode_cpu rec = raw_smp_processor_id fenv /\
      pstore_ftrace_read_timestamp rec = stamp mod 2 ^ 56) /\
     (256 <= raw_smp_processor_id fenv ->
      pstore_ftrace_decode_cpu rec <> raw_smp_processor_id fenv)).
Proof.
  intros Hpsi Hw Hstamp Hip Hpip Hcpu. split.
  - intros [Hoops | Hbit]; unfold pstore_ftrace_call.
    + rewrite Hoops. reflexivity.
    + destruct (oops_in_progress fenv); [reflexivity|].
      destruct (Z.ltb_spec (ftrace_test_recursion_trylock fenv ip parent_ip) 0);
        [reflexivity | lia].
  - intros Hoops Hbit.
    set (r0 := pstore_ftrace_write_timestamp (mk_frec ip parent_ip 0) stamp).
    set (r1 := pstore_ftrace_encode_cpu r0 (raw_smp_processor_id fenv)).
    pose proof (read_write_timestamp (mk_frec ip parent_ip 0) stamp) as Ht0.
    pose proof (write_timestamp_range (mk_frec ip parent_ip 0) stamp) as Hr0.
    fold r0 in Ht0, Hr0.
    pose proof (decode_encode_cpu r0 (raw_smp_processor_id fenv)) as Hc1.
    pose proof (read_timestamp_encode_cpu r0 (raw_smp_processor_id fenv) Hr0
                  ltac:(lia)) as Ht1.
    fold r1 in Hc1, Ht1. rewrite Ht0 in Ht1.
    assert (Hr1 : 0 <= frec_ts r1 < 2 ^ 64).
    { unfold r1, pstore_ftrace_encode_cpu. cbn [frec_ts].
      apply lor_u64; [|lia].
      apply land_u64; lia. }
    exists (ftrace_record r1). split; [|split; [|split; [|split]]].
    + unfold pstore_ftrace_call. rewrite Hoops.
      destruct (Z.ltb_spec (ftrace_test_recursion_trylock fenv ip parent_ip) 0);
        [lia|].
      fold r0. fold r1. rewrite Hpsi, Hw. unfold to_size_t.
      destruct (w (ftrace_record r1) (psi_data psi)); reflexivity.
    + reflexivity.
    + reflexivity.
    + reflexivity.
    + cbv zeta.
      assert (Hat : frec_at (rec_bytes (ftrace_record r1)) 0 = r1).
      { unfold ftrace_record, rec_bytes. cbn [rec_buf default].
        rewrite <- (app_nil_r (frec_bytes r1)).
        apply frec_at_frec_bytes; [| | exact Hr1]; unfold r1, r0; cbn; lia. }
      rewrite Hat.
      split; [reflexivity|]. split; [reflexivity|].
      split; [exact Hc1|]. split; [exact Ht1|]. split.
      * intros Hlow. rewrite Hc1, Ht1.
        rewrite Z.mod_small, Z.div_small, Z.lor_0_r by lia. done.
      * intros Hhigh. rewrite Hc1.
        pose proof (Z.mod_pos_bound (raw_smp_processor_id fenv) 256). lia.
Qed.

Lemma ftrace_call_record_witness :
  exists record st',
    pstore_ftrace_call cpu3_env ftrace_state 41 100 200 = Some (st', 42) /\
    pstore_ftrace_decode_cpu (frec_at (rec_bytes record) 0) = 3 /\
    pstore_ftrace_read_timestamp (frec_at (rec_bytes record) 0) = 41.
Proof.
  destruct (proj2 (ftrace_call_record cpu3_env ftrace_state
                     (null_backend "ramoops" PSTORE_FLAGS_FTRACE)
                     (fun _ d => Some (d, 0)) 41 100 200
                     eq_refl eq_refl ltac:(lia) ltac:(lia) ltac:(lia)
                     ltac:(cbn; lia)) eq_refl ltac:(cbn; lia))
    as (record & Hcall & _ & _ & _ & _ & _ & _ & _ & Hlow & _).
  destruct Hlow as [Hcpu Hts]; [cbn; lia|].
  exists record. eexists. split; [exact Hcall|].
  split; [exact Hcpu | exact Hts].
Defined.

(** ** Merging ftrace logs *)

Lemma length_concat_whole (A : list (list Z)) :
  whole A -> length (concat A) = (24 * length A)%nat.
Proof.
  induction 1 as [|c A Hc _ IH]; [reflexivity|].
  cbn [concat length]. rewrite length_app, IH, Hc. lia.
Qed.

Lemma chunks_spec (n : nat) :
  forall l, length l = (24 * n)%nat ->
  concat (chunks n l) = l /\ whole (chunks n l) /\ length (chunks n l) = n.
Proof.
  induction n as [|n IH]; intros l Hl.
  - destruct l; [|discriminate]. repeat split. constructor.
  - cbn [chunks]. destruct (IH (drop 24 l)) as (Hc & Hw & Hn).
    { rewrite length_drop. lia. }
    split; [|split].
    + cbn [concat]. rewrite Hc. apply take_drop.
    + constructor; [|exact Hw]. rewrite length_take. lia.
    + cbn [length]. rewrite Hn. reflexivity.
Qed.

Lemma ftrace_records_spec (log : list Z) (size : Z) :
  zlen log = size ->
  concat (ftrace_records log size) = zdrop (size mod REC_SIZE) log /\
  whole (ftrace_records log size) /\
  zlen (ftrace_records log size) = size / REC_SIZE.
Proof.
  intros Hlen. unfold ftrace_records, REC_SIZE in *. unfold zlen in *.
  assert (Hsz : 0 <= size) by lia.
  pose proof (Z.div_mod size 24 ltac:(lia)) as Hdm.
  pose proof (Z.mod_pos_bound size 24 ltac:(lia)) as Hm.
  assert (0 <= size / 24) by (apply Z.div_pos; lia).
  destruct (chunks_spec (Z.to_nat (size / 24)) (zdrop (size mod 24) log))
    as (Hc & Hw & Hn).
  { unfold zdrop. rewrite length_drop. lia. }
  split; [exact Hc|]. split; [exact Hw|]. rewrite Hn. lia.
Qed.

Lemma merge_records_nil_l (b : list (list Z)) : merge_records [] b = b.
Proof. destruct b; reflexivity. Qed.

Lemma merge_records_nil_r (a : list (list Z)) : merge_records a [] = a.
Proof. destruct a; reflexivity. Qed.

Lemma merge_records_cons (x y : list Z) (a b : list (list Z)) :
  merge_records (x :: a) (y :: b)
  = if record_ts x <? record_ts y then x :: merge_records a (y :: b)
    else y :: merge_records (x :: a) b.
Proof. reflexivity. Qed.

Lemma merge_records_perm (a : list (list Z)) :
  forall b, merge_records a b ≡ₚ a ++ b.
Proof.
  induction a as [|x a IHa]; intros b.
  - rewrite merge_records_nil_l. reflexivity.
  - induction b as [|y b IHb].
    + rewrite merge_records_nil_r, app_nil_r. reflexivity.
    + rewrite merge_records_cons.
      destruct (record_ts x <? record_ts y).
      * cbn [app]. rewrite IHa. reflexivity.
      * rewrite IHb. cbn [app]. rewrite (Permutation_middle (x :: a) b y).
        reflexivity.
Qed.

Lemma merge_records_whole (a b : list (list Z)) :
  whole a -> whole b -> whole (merge_records a b).
Proof.
  intros Ha Hb. unfold whole in *.
  rewrite merge_records_perm. apply Forall_app. split; assumption.
Qed.

Lemma merge_records_hd (a : list (list Z)) :
  forall b t,
  Forall (fun c => t <= record_ts c) a -> Forall (fun c => t <= record_ts c) b ->
  Forall (fun c => t <= record_ts c) (merge_records a b).
Proof.
  intros b t Ha Hb. rewrite merge_records_perm.
  apply Forall_app. split; assumption.
Qed.

Lemma sorted_stamps_inv (x : list Z) (a : list (list Z)) :
  stamps_sorted (x :: a) ->
  stamps_sorted a /\ Forall (fun c => record_ts x <= record_ts c) a.
Proof.
  unfold stamps_sorted. cbn [map]. intros H.
  apply Sorted_StronglySorted in H; [|intros ? ? ? ? ?; lia].
  apply StronglySorted_inv in H as [Hs Hall].
  split; [apply StronglySorted_Sorted, Hs|].
  rewrite Forall_map in Hall. exact Hall.
Qed.

Lemma sorted_stamps_cons (x : list Z) (a : list (list Z)) :
  stamps_sorted a -> Forall (fun c => record_ts x <= record_ts c) a ->
  stamps_sorted (x :: a).
Proof.
  unfold stamps_sorted. cbn [map]. intros Hs Hall.
  constructor; [exact Hs|].
  destruct a as [|y a]; cbn [map]; constructor.
  apply Forall_cons_1 in Hall as [Hy _]. exact Hy.
Qed.

Lemma merge_records_sorted (a : list (list Z)) :
  forall b, stamps_sorted a -> stamps_sorted b ->
  stamps_sorted (merge_records a b).
Proof.
  induction a as [|x a IHa]; intros b Ha Hb.
  - rewrite merge_records_nil_l. exact Hb.
  - induction b as [|y b IHb].
    + rewrite merge_records_nil_r. exact Ha.
    + rewrite merge_records_cons.
      apply sorted_stamps_inv in Ha as Ha'. destruct Ha' as [Hsa Hxa].
      apply sorted_stamps_inv in Hb as Hb'. destruct Hb' as [Hsb Hyb].
      destruct (Z.ltb_spec (record_ts x) (record_ts y)) as [Hlt|Hge].
      * apply sorted_stamps_cons; [apply IHa; assumption|].
        apply merge_records_hd; [exact Hxa|].
        constructor; [lia|].
        eapply Forall_impl; [exact Hyb|]. cbn. intros; lia.
      * apply sorted_stamps_cons; [apply IHb; assumption|].
        apply merge_records_hd; [|exact Hyb].
        constructor; [lia|].
        eapply Forall_impl; [exact Hxa|]. cbn. intros; lia.
Qed.

Lemma frec_at_prefix (x rest : list Z) :
  length x = 24%nat -> frec_at (x ++ rest) 0 = frec_at x 0.
Proof.
  intros Hx.
  do 24 (destruct x as [|? x]; [discriminate|]).
  destruct x; [|discriminate]. reflexivity.
Qed.

Lemma zdrop_records (done : list (list Z)) (l : list Z) :
  whole done ->
  zdrop (Z.of_nat (length done) * REC_SIZE) (concat done ++ l) = l.
Proof.
  intros Hw. unfold zdrop, REC_SIZE.
  replace (Z.to_nat (Z.of_nat (length done) * 24)) with (length (concat done))
    by (rewrite length_concat_whole by exact Hw; lia).
  apply drop_app_length.
Qed.

Lemma store_record (done : list (list Z)) (x src_rest pad : list Z) :
  whole done -> length x = 24%nat -> (24 <= length pad)%nat ->
  memcpy_at (concat done ++ pad) (Z.of_nat (length done) * REC_SIZE)
    (x ++ src_rest) REC_SIZE
  = concat (done ++ [x]) ++ drop 24 pad.
Proof.
  intros Hw Hx Hpad. unfold memcpy_at, ztake, REC_SIZE.
  replace (Z.to_nat (Z.of_nat (length done) * 24)) with (length (concat done))
    by (rewrite length_concat_whole by exact Hw; lia).
  change (Z.to_nat 24) with 24%nat.
  rewrite take_app_length' by (symmetry; exact Hx).
  rewrite list_inserts_splice by (rewrite length_app; lia).
  rewrite take_app_length.
  rewrite drop_app_ge by lia.
  replace (length (concat done) + length x - length (concat done))%nat
    with 24%nat by lia.
  rewrite concat_app. cbn [concat]. rewrite app_nil_r, <- app_assoc.
  reflexivity.
Qed.

Lemma combine_rest_spec (R' : list (list Z)) :
  forall (fuel : nat) (Rdone done : list (list Z)) (pad : list Z),
  whole Rdone -> whole R' -> whole done ->
  (24 * length R' <= length pad)%nat ->
  (length R' < fuel)%nat ->
  24 * Z.of_nat (length Rdone + length R') < 2 ^ 64 ->
  Z.of_nat (length done + length R') < 2 ^ 64 ->
  combine_rest fuel (concat (Rdone ++ R')) (concat done ++ pad)
    (24 * Z.of_nat (length R')) (Z.of_nat (length Rdone))
    (Z.of_nat (length done))
  = Some (concat (done ++ R') ++ drop (24 * length R') pad,
          Z.of_nat (length done + length R')).
Proof.
  induction R' as [|x R' IH]; intros fuel Rdone done pad HRd HR Hd Hpad Hfuel Hb1 Hb2.
  - destruct fuel; cbn; rewrite !app_nil_r, Nat.add_0_r; reflexivity.
  - destruct fuel as [|fuel]; [cbn in Hfuel; lia|].
    apply Forall_cons_1 in HR as [Hx HR].
    cbn [length] in *.
    cbn [combine_rest].
    replace (0 <? 24 * Z.of_nat (S (length R'))) with true
      by (symmetry; apply Z.ltb_lt; lia).
    rewrite concat_app. cbn [concat].
    rewrite zdrop_records by exact HRd.
    rewrite store_record by (try assumption; lia).
    rewrite !to_size_t_small by (unfold REC_SIZE; lia).
    replace (24 * Z.of_nat (S (length R')) - REC_SIZE)
      with (24 * Z.of_nat (length R')) by (unfold REC_SIZE; lia).
    replace (Z.of_nat (length Rdone) + 1)
      with (Z.of_nat (length (Rdone ++ [x])))
      by (rewrite length_app; cbn; lia).
    replace (Z.of_nat (length done) + 1)
      with (Z.of_nat (length (done ++ [x])))
      by (rewrite length_app; cbn; lia).
    replace (concat Rdone ++ x ++ concat R')
      with (concat ((Rdone ++ [x]) ++ R'))
      by (rewrite !concat_app; cbn [concat]; rewrite app_nil_r, <- app_assoc;
          reflexivity).
    rewrite IH.
    + rewrite drop_drop. rewrite <- app_assoc. cbn [app].
      rewrite length_app. cbn [length].
      replace (24 + 24 * length R')%nat with (24 * S (length R'))%nat by lia.
      replace (length done + 1 + length R')%nat
        with (length done + S (length R'))%nat by lia.
      reflexivity.
    + apply Forall_app; split; [exact HRd | constructor; [exact Hx | constructor]].
    + exact HR.
    + apply Forall_app; split; [exact Hd | constructor; [exact Hx | constructor]].
    + rewrite length_drop. lia.
    + lia.
    + rewrite length_app. cbn [length]. lia.
    + rewrite length_app. cbn [length]. lia.
Qed.

Lemma whole_snoc (A : list (list Z)) (x : list Z) :
  whole A -> length x = 24%nat -> whole (A ++ [x]).
Proof.
  intros HA Hx. apply Forall_app. split; [exact HA|].
  constructor; [exact Hx | constructor].
Qed.

Lemma concat_snoc_app (A B : list (list Z)) (x : list Z) :
  concat A ++ x ++ concat B = concat ((A ++ [x]) ++ B).
Proof.
  rewrite !concat_app. cbn [concat]. rewrite app_nil_r, <- app_assoc.
  reflexivity.
Qed.

Lemma combine_both_spec (n : nat) :
  forall (fuel : nat) (A' B' Adone Bdone done : list (list Z)) (pad : list Z),
  (length A' + length B' <= n)%nat ->
  whole Adone -> whole A' -> whole Bdone -> whole B' -> whole done ->
  (24 * (length A' + length B') <= length pad)%nat ->
  (length A' + length B' < fuel)%nat ->
  24 * Z.of_nat (length Adone + length A') < 2 ^ 64 ->
  24 * Z.of_nat (length Bdone + length B') < 2 ^ 64 ->
  Z.of_nat (length done + length A' + length B') < 2 ^ 64 ->
  exists A1 A2 B1 B2 done',
    combine_both fuel (concat (Adone ++ A')) (concat (Bdone ++ B'))
      (concat done ++ pad)
      (24 * Z.of_nat (length A')) (24 * Z.of_nat (length B'))
      (Z.of_nat (length Adone)) (Z.of_nat (length Bdone))
      (Z.of_nat (length done))
    = Some (concat done' ++ drop (24 * (length done' - length done)) pad,
            24 * Z.of_nat (length A2), 24 * Z.of_nat (length B2),
            Z.of_nat (length A1), Z.of_nat (length B1),
            Z.of_nat (length done')) /\
    A1 ++ A2 = Adone ++ A' /\ B1 ++ B2 = Bdone ++ B' /\
    whole A1 /\ whole A2 /\ whole B1 /\ whole B2 /\ whole done' /\
    (A2 = [] \/ B2 = []) /\
    done' ++ merge_records A2 B2 = done ++ merge_records A' B' /\
    (length done' + length A2 + length B2
     = length done + length A' + length B')%nat /\
    (length done <= length done')%nat.
Proof.
  induction n as [|n IH];
    intros fuel A' B' Adone Bdone done pad Hn HAd HA HBd HB Hd Hpad Hfuel
      Hb1 Hb2 Hb3.
  - destruct A'; [|cbn in Hn; lia]. destruct B'; [|cbn in Hn; lia].
    exists Adone, [], Bdone, [], done.
    split.
    { destruct fuel; cbn; rewrite Nat.sub_diag; reflexivity. }
    repeat split; first [assumption | (left; reflexivity) | rewrite app_nil_r; reflexivity | reflexivity | lia | constructor].
  - destruct A' as [|x A'].
    { exists Adone, [], Bdone, B', done.
      split.
      { destruct fuel; cbn; rewrite Nat.sub_diag; reflexivity. }
      repeat split; first [assumption | (left; reflexivity) | rewrite app_nil_r; reflexivity | reflexivity | lia | constructor]. }
    destruct B' as [|y B'].
    { exists Adone, (x :: A'), Bdone, [], done.
      split.
      { destruct fuel; cbn [combine_both length Nat2Z.inj_succ];
          replace (0 <? 24 * Z.of_nat 0) with false by reflexivity;
          rewrite andb_false_r, Nat.sub_diag; reflexivity. }
      repeat split; first [assumption | (right; reflexivity) | rewrite app_nil_r; reflexivity | reflexivity | lia | constructor]. }
    destruct fuel as [|fuel]; [cbn in Hfuel; lia|].
    apply Forall_cons_1 in HA as HA'. destruct HA' as [Hx HA'].
    apply Forall_cons_1 in HB as HB'. destruct HB' as [Hy HB'].
    cbn [length] in *.
    cbn [combine_both].
    replace (0 <? 24 * Z.of_nat (S (length A'))) with true
      by (symmetry; apply Z.ltb_lt; lia).
    replace (0 <? 24 * Z.of_nat (S (length B'))) with true
      by (symmetry; apply Z.ltb_lt; lia).
    cbn [andb].
    assert (HtsA : frec_at (concat (Adone ++ x :: A'))
                     (Z.of_nat (length Adone) * REC_SIZE) = frec_at x 0).
    { unfold frec_at at 1. rewrite concat_app. cbn [concat].
      rewrite zdrop_records by exact HAd.
      pose proof (frec_at_prefix x (concat A') Hx) as Hp.
      unfold frec_at in Hp. exact Hp. }
    assert (HtsB : frec_at (concat (Bdone ++ y :: B'))
                     (Z.of_nat (length Bdone) * REC_SIZE) = frec_at y 0).
    { unfold frec_at at 1. rewrite concat_app. cbn [concat].
      rewrite zdrop_records by exact HBd.
      pose proof (frec_at_prefix y (concat B') Hy) as Hp.
      unfold frec_at in Hp. exact Hp. }
    rewrite HtsA, HtsB. fold (record_ts x). fold (record_ts y).
    rewrite merge_records_cons.
    destruct (record_ts x <? record_ts y).
    + assert (Hz : zdrop (Z.of_nat (length Adone) * REC_SIZE)
                     (concat (Adone ++ x :: A')) = x ++ concat A').
      { rewrite concat_app. cbn [concat]. apply zdrop_records, HAd. }
      rewrite Hz.
      rewrite store_record by (try assumption; lia).
      rewrite !to_size_t_small by (unfold REC_SIZE; lia).
      replace (24 * Z.of_nat (S (length A')) - REC_SIZE)
        with (24 * Z.of_nat (length A')) by (unfold REC_SIZE; lia).
      replace (Z.of_nat (length Adone) + 1)
        with (Z.of_nat (length (Adone ++ [x])))
        by (rewrite length_app; cbn; lia).
      replace (Z.of_nat (length done) + 1)
        with (Z.of_nat (length (done ++ [x])))
        by (rewrite length_app; cbn; lia).
      replace (concat (Adone ++ x :: A')) with (concat ((Adone ++ [x]) ++ A'))
        by (rewrite <- app_assoc; reflexivity).
      replace (24 * Z.of_nat (S (length B')))
        with (24 * Z.of_nat (length (y :: B'))) by reflexivity.
      destruct (IH fuel A' (y :: B') (Adone ++ [x]) Bdone (done ++ [x])
                  (drop 24 pad))
        as (A1 & A2 & B1 & B2 & done' & Heq & HeA & HeB & HwA1 & HwA2 & HwB1
            & HwB2 & Hwd & Hemp & Hmerge & Hlen & Hle);
        try assumption; try (apply whole_snoc; assumption);
        try (rewrite ?length_app, ?length_drop; cbn [length]; lia).
      exists A1, A2, B1, B2, done'.
      rewrite length_app in Hlen, Hle. cbn [length] in Hlen, Hle.
      split.
      { rewrite Heq. rewrite drop_drop, length_app. cbn [length].
        replace (24 + 24 * (length done' - (length done + 1)))%nat
          with (24 * (length done' - length done))%nat by lia.
        reflexivity. }
      rewrite <- app_assoc in HeA, Hmerge. cbn [app] in HeA, Hmerge.
      repeat split; try assumption; lia.
    + assert (Hz : zdrop (Z.of_nat (length Bdone) * REC_SIZE)
                     (concat (Bdone ++ y :: B')) = y ++ concat B').
      { rewrite concat_app. cbn [concat]. apply zdrop_records, HBd. }
      rewrite Hz.
      rewrite store_record by (try assumption; lia).
      rewrite !to_size_t_small by (unfold REC_SIZE; lia).
      replace (24 * Z.of_nat (S (length B')) - REC_SIZE)
        with (24 * Z.of_nat (length B')) by (unfold REC_SIZE; lia).
      replace (Z.of_nat (length Bdone) + 1)
        with (Z.of_nat (length (Bdone ++ [y])))
        by (rewrite length_app; cbn; lia).
      replace (Z.of_nat (length done) + 1)
        with (Z.of_nat (length (done ++ [y])))
        by (rewrite length_app; cbn; lia).
      replace (concat (Bdone ++ y :: B')) with (concat ((Bdone ++ [y]) ++ B'))
        by (rewrite <- app_assoc; reflexivity).
      replace (24 * Z.of_nat (S (length A')))
        with (24 * Z.of_nat (length (x :: A'))) by reflexivity.
      destruct (IH fuel (x :: A') B' Adone (Bdone ++ [y]) (done ++ [y])
                  (drop 24 pad))
        as (A1 & A2 & B1 & B2 & done' & Heq & HeA & HeB & HwA1 & HwA2 & HwB1
            & HwB2 & Hwd & Hemp & Hmerge & Hlen & Hle);
        try assumption; try (apply whole_snoc; assumption);
        try (rewrite ?length_app, ?length_drop; cbn [length]; lia).
      exists A1, A2, B1, B2, done'.
      rewrite length_app in Hlen, Hle. cbn [length] in Hlen, Hle.
      split.
      { rewrite Heq. rewrite drop_drop, length_app. cbn [length].
        replace (24 + 24 * (length done' - (length done + 1)))%nat
          with (24 * (length done' - length done))%nat by lia.
        reflexivity. }
      rewrite <- app_assoc in HeB, Hmerge. cbn [app] in HeB, Hmerge.
      repeat split; try assumption; lia.
Qed.

Lemma chunks_concat (M : list (list Z)) :
  whole M -> chunks (length M) (concat M) = M.
Proof.
  induction 1 as [|c M Hc _ IH]; [reflexivity|].
  cbn [length chunks concat].
  rewrite take_app_length' by (symmetry; exact Hc).
  rewrite drop_app_length' by (symmetry; exact Hc).
  rewrite IH. reflexivity.
Qed.

Lemma ftrace_records_concat (M : list (list Z)) :
  whole M ->
  ftrace_records (concat M) (24 * Z.of_nat (length M)) = M.
Proof.
  intros HM. unfold ftrace_records, REC_SIZE.
  replace (24 * Z.of_nat (length M)) with (Z.of_nat (length M) * 24) by lia.
  rewrite Z.mod_mul, Z.div_mul by lia.
  rewrite Nat2Z.id. unfold zdrop. cbn [Z.to_nat drop].
  apply chunks_concat, HM.
Qed.

Lemma first_record_default (log : option (list Z)) (size : Z) :
  zlen (default [] log) = size ->
  first_record log (size mod REC_SIZE) (to_size_t (size - size mod REC_SIZE))
  = Some (concat (ftrace_records (default [] log) size)).
Proof.
  intros Hlen.
  destruct (ftrace_records_spec (default [] log) size Hlen) as (Hc & _ & _).
  rewrite Hc. destruct log as [l|]; [reflexivity|].
  cbn in Hlen. subst size. reflexivity.
Qed.

Lemma combine_log_spec (fuel : nat) (dest src : option (list Z))
    (dsize ssize : Z) :
  zlen (default [] dest) = dsize -> zlen (default [] src) = ssize ->
  dsize + ssize < 2 ^ 64 ->
  (Z.to_nat (dsize / REC_SIZE + ssize / REC_SIZE) < fuel)%nat ->
  let A := ftrace_records (default [] dest) dsize in
  let B := ftrace_records (default [] src) ssize in
  pstore_ftrace_combine_log fuel dest dsize src ssize
  = Some (Some (concat (merge_records A B)),
          REC_SIZE * (dsize / REC_SIZE + ssize / REC_SIZE), 0) /\
  whole A /\ whole B /\
  zlen A = dsize / REC_SIZE /\ zlen B = ssize / REC_SIZE.
Proof.
  intros Hd Hs Hsum Hfuel A B.
  destruct (ftrace_records_spec (default [] dest) dsize Hd) as (HcA & HwA & HnA).
  destruct (ftrace_records_spec (default [] src) ssize Hs) as (HcB & HwB & HnB).
  fold A in HcA, HwA, HnA. fold B in HcB, HwB, HnB.
  assert (Hd0 : 0 <= dsize) by (unfold zlen in Hd; lia).
  assert (Hs0 : 0 <= ssize) by (unfold zlen in Hs; lia).
  unfold REC_SIZE in *.
  pose proof (Z.div_mod dsize 24 ltac:(lia)) as Hdm.
  pose proof (Z.mod_pos_bound dsize 24 ltac:(lia)) as Hdb.
  pose proof (Z.div_mod ssize 24 ltac:(lia)) as Hsm.
  pose proof (Z.mod_pos_bound ssize 24 ltac:(lia)) as Hsb.
  unfold zlen in HnA, HnB.
  split; [|repeat split; assumption].
  unfold pstore_ftrace_combine_log.
  rewrite (first_record_default dest dsize Hd).
  rewrite (first_record_default src ssize Hs).
  fold A. fold B. unfold REC_SIZE.
  assert (Eds : to_size_t (dsize - dsize mod 24) = 24 * Z.of_nat (length A))
    by (rewrite to_size_t_small; lia).
  assert (Ess : to_size_t (ssize - ssize mod 24) = 24 * Z.of_nat (length B))
    by (rewrite to_size_t_small; lia).
  rewrite Eds, Ess.
  rewrite to_size_t_small by lia.
  set (pad := replicate (Z.to_nat (24 * Z.of_nat (length A)
                                   + 24 * Z.of_nat (length B))) 0).
  assert (Hpad : length pad = (24 * (length A + length B))%nat)
    by (unfold pad; rewrite length_replicate; lia).
  destruct (combine_both_spec (length A + length B) fuel A B [] [] [] pad)
    as (A1 & A2 & B1 & B2 & done' & Heq & HeA & HeB & HwA1 & HwA2 & HwB1
        & HwB2 & Hwd & Hemp & Hmerge & Hlen & Hle);
    try assumption; try constructor; cbn [length]; try lia.
  cbn [app concat length] in Heq, HeA, HeB, Hmerge, Hlen.
  change (Z.of_nat 0) with 0 in Heq.
  rewrite Heq. rewrite Nat.sub_0_r.
  rewrite <- HeA, <- HeB.
  rewrite combine_rest_spec; try assumption;
    try (rewrite ?length_drop, <- ?HeA, <- ?HeB, ?length_app in *; lia).
  cbv beta iota. rewrite drop_drop, <- (length_app done' A2).
  rewrite combine_rest_spec; try assumption.
  - rewrite HeA, HeB.
    rewrite (drop_ge (drop _ pad)) by (rewrite length_drop; lia).
    rewrite app_nil_r, <- Hmerge, <- app_assoc.
    replace (A2 ++ B2) with (merge_records A2 B2).
    + do 3 f_equal. lia.
    + destruct Hemp as [-> | ->].
      * rewrite merge_records_nil_l. reflexivity.
      * rewrite merge_records_nil_r, app_nil_r. reflexivity.
  - apply Forall_app. split; assumption.
  - rewrite length_drop. lia.
  - lia.
  - rewrite <- HeA, <- HeB, !length_app in *. lia.
  - rewrite <- HeA, <- HeB, !length_app in *. lia.
Qed.

(** X4.  [pstore_ftrace_combine_log] replaces the destination by a buffer
    that holds every whole record of both logs exactly once and nothing
    else: the leading bytes of a log whose size is not a multiple of the
    record size are dropped, the new size is the number of whole records
    times 24 and the result is 0.  A destination that is still NULL with
    size 0 counts as an empty log. *)
Theorem combine_log_keeps_every_record (fuel : nat) (dest src : option (list Z))
    (dsize ssize : Z) :
  zlen (default [] dest) = dsize -> zlen (default [] src) = ssize ->
  dsize + ssize < 2 ^ 64 ->
  (Z.to_nat (dsize / REC_SIZE + ssize / REC_SIZE) < fuel)%nat ->
  exists merged total,
    pstore_ftrace_combine_log fuel dest dsize src ssize
    = Some (Some merged, total, 0) /\
    total = REC_SIZE * (dsize / REC_SIZE + ssize / REC_SIZE) /\
    zlen merged = total /\
    ftrace_records merged total
    ≡ₚ ftrace_records (default [] dest) dsize
       ++ ftrace_records (default [] src) ssize.
Proof.
  intros Hd Hs Hsum Hfuel.
  destruct (combine_log_spec fuel dest src dsize ssize Hd Hs Hsum Hfuel)
    as (Heq & HwA & HwB & HnA & HnB).
  set (A := ftrace_records (default [] dest) dsize) in *.
  set (B := ftrace_records (default [] src) ssize) in *.
  assert (HwM : whole (merge_records A B)) by (apply merge_records_whole; assumption).
  assert (HlM : Z.of_nat (length (merge_records A B))
                = dsize / REC_SIZE + ssize / REC_SIZE).
  { rewrite merge_records_perm, length_app. unfold zlen in HnA, HnB. lia. }
  eexists _, _. split; [exact Heq|]. split; [reflexivity|]. split.
  - unfold zlen. rewrite length_concat_whole by exact HwM. unfold REC_SIZE in *. lia.
  - rewrite <- HlM. unfold REC_SIZE at 1.
    rewrite ftrace_records_concat by exact HwM.
    apply merge_records_perm.
Qed.

(** X5.  when the records of both logs are in the order of their time
    stamps, so are the records [pstore_ftrace_combine_log] leaves in the
    destination. *)
Theorem combine_log_sorted (fuel : nat) (dest src : option (list Z))
    (dsize ssize : Z) :
  zlen (default [] dest) = dsize -> zlen (default [] src) = ssize ->
  dsize + ssize < 2 ^ 64 ->
  (Z.to_nat (dsize / REC_SIZE + ssize / REC_SIZE) < fuel)%nat ->
  stamps_sorted (ftrace_records (default [] dest) dsize) ->
  stamps_sorted (ftrace_records (default [] src) ssize) ->
  exists merged total,
    pstore_ftrace_combine_log fuel dest dsize src ssize
    = Some (Some merged, total, 0) /\
    stamps_sorted (ftrace_records merged total).
Proof.
  intros Hd Hs Hsum Hfuel HsA HsB.
  destruct (combine_log_spec fuel dest src dsize ssize Hd Hs Hsum Hfuel)
    as (Heq & HwA & HwB & HnA & HnB).
  set (A := ftrace_records (default [] dest) dsize) in *.
  set (B := ftrace_records (default [] src) ssize) in *.
  assert (HwM : whole (merge_records A B)) by (apply merge_records_whole; assumption).
  assert (HlM : Z.of_nat (length (merge_records A B))
                = dsize / REC_SIZE + ssize / REC_SIZE).
  { rewrite merge_records_perm, length_app. unfold zlen in HnA, HnB. lia. }
  eexists _, _. split; [exact Heq|].
  rewrite <- HlM. unfold REC_SIZE at 1.
  rewrite ftrace_records_concat by exact HwM.
  apply merge_records_sorted; assumption.
Qed.

Lemma combine_log_keeps_every_record_witness :
  exists merged,
    pstore_ftrace_combine_log 5 (Some cpu0_log) 49 (Some cpu1_log) 48
    = Some (Some merged, 96, 0) /\
    ftrace_records merged 96 ≡ₚ [stamped 1; stamped 4; stamped 2; stamped 3].
Proof.
  destruct (combine_log_keeps_every_record 5 (Some cpu0_log) (Some cpu1_log)
              49 48 eq_refl eq_refl ltac:(lia) ltac:(vm_compute; lia))
    as (merged & total & Heq & Ht & _ & Hperm).
  exists merged. subst total. split; [exact Heq | exact Hperm].
Defined.

Lemma combine_log_sorted_witness :
  exists merged total,
    pstore_ftrace_combine_log 5 (Some cpu0_log) 49 (Some cpu1_log) 48
    = Some (Some merged, total, 0) /\
    stamps_sorted (ftrace_records merged total).
Proof.
  apply (combine_log_sorted 5 (Some cpu0_log) (Some cpu1_log) 49 48
           eq_refl eq_refl); [lia | vm_compute; lia | |];
    cbv; repeat constructor; discriminate.
Defined.

Example combine_two_cpu_logs :
  option_map (fun r => (option_map (fun m => map record_ts (ftrace_records m 96))
                          (fst (fst r)), snd (fst r), snd r))
    (pstore_ftrace_combine_log 5 (Some cpu0_log) 49 (Some cpu1_log) 48)
  = Some (Some [1; 2; 3; 4], 96, 0).
Proof. vm_compute. reflexivity. Qed.

(** ** Walking an ftrace record file *)

Lemma to_long_small (x : Z) : - 2 ^ 63 <= x < 2 ^ 63 -> to_long x = x.
Proof. intros H. unfold to_long. rewrite Z.mod_small; lia. Qed.

Lemma chunks_lookup (n : nat) :
  forall (l : list Z) (i : nat),
  (i < n)%nat -> chunks n l !! i = Some (take 24 (drop (24 * i) l)).
Proof.
  induction n as [|n IH]; intros l i Hi; [lia|].
  destruct i as [|i]; cbn [chunks lookup list_lookup].
  - reflexivity.
  - rewrite IH by lia. rewrite drop_drop.
    replace (24 + 24 * i)%nat with (24 * S i)%nat by lia. reflexivity.
Qed.

(** X6.  reading an ftrace record file walks the whole records of the
    buffer in order, skipping the leading partial record:
    [pstore_ftrace_seq_start] at position [pos] yields the offset of
    record number [pos] as long as [pos] is below the number of whole
    records and NULL from there on, and [pstore_ftrace_seq_next] moves to
    where [pstore_ftrace_seq_start] at [pos + 1] would start. *)
Theorem ftrace_seq_walks_records (buf : list Z) (total_size pos : Z) :
  zlen buf = total_size -> total_size < 2 ^ 63 -> 0 <= pos < 2 ^ 58 ->
  match pstore_ftrace_seq_start total_size pos with
  | Some off =>
    pos < total_size / REC_SIZE /\
    off = total_size mod REC_SIZE + REC_SIZE * pos /\
    ftrace_records buf total_size !! Z.to_nat pos
    = Some (ztake REC_SIZE (zdrop off buf)) /\
    pstore_ftrace_seq_next total_size off pos
    = (pstore_ftrace_seq_start total_size (pos + 1), pos + 1)
  | None => total_size / REC_SIZE <= pos
  end.
Proof.
  intros Hlen Hts Hpos. unfold REC_SIZE.
  assert (H0 : 0 <= total_size) by (unfold zlen in Hlen; lia).
  pose proof (Z.div_mod total_size 24 ltac:(lia)) as Hdm.
  pose proof (Z.mod_pos_bound total_size 24 ltac:(lia)) as Hm.
  assert (Hstart : forall p, 0 <= p <= 2 ^ 58 ->
            pstore_ftrace_seq_start total_size p
            = if total_size <? total_size mod 24 + 24 * p + 24 then None
              else Some (total_size mod 24 + 24 * p)).
  { intros p Hp. unfold pstore_ftrace_seq_start, REC_SIZE.
    rewrite (to_size_t_small p) by lia.
    rewrite (to_size_t_small (p * 24)) by lia.
    rewrite (to_size_t_small (total_size mod 24 + p * 24)) by lia.
    rewrite to_size_t_small by lia.
    replace (p * 24) with (24 * p) by lia. reflexivity. }
  rewrite (Hstart pos) by lia.
  destruct (Z.ltb_spec total_size (total_size mod 24 + 24 * pos + 24)) as [Hlt|Hge].
  - lia.
  - assert (Hp : pos < total_size / 24) by lia.
    split; [exact Hp|]. split; [reflexivity|]. split.
    + unfold ftrace_records, REC_SIZE.
      rewrite chunks_lookup by lia.
      unfold ztake, zdrop. rewrite drop_drop. do 3 f_equal. lia.
    + unfold pstore_ftrace_seq_next, REC_SIZE.
      rewrite to_long_small by lia.
      rewrite (Hstart (pos + 1)) by lia.
      rewrite (to_size_t_small (total_size mod 24 + 24 * pos + 24)) by lia.
      rewrite to_size_t_small by lia.
      replace (total_size mod 24 + 24 * (pos + 1))
        with (total_size mod 24 + 24 * pos + 24) by lia.
      reflexivity.
Qed.

Lemma ftrace_seq_walks_records_witness :
  pstore_ftrace_seq_start 49 1 = Some 25 /\
  ftrace_records cpu0_log 49 !! 1%nat = Some (stamped 4) /\
  pstore_ftrace_seq_next 49 25 1 = (None, 2).
Proof.
  pose proof (ftrace_seq_walks_records cpu0_log 49 1 eq_refl ltac:(lia)
                ltac:(lia)) as H.
  change (pstore_ftrace_seq_start 49 1) with (Some 25) in H.
  destruct H as (_ & _ & Hrec & Hnext).
  split; [reflexivity|]. split; [exact Hrec | exact Hnext].
Defined.

(** ** Zones across a reboot *)

Lemma new_no_ecc_eq (env : ram_env) (fuel : nat)
    (start size sig memtype flags : Z) (ei : persistent_ram_ecc_info)
    (label : string) (bytes : list Z) :
  ram_map env start size memtype = Some bytes -> ecc_size ei = 0 ->
  let prz :=
    mk_zone start size label 0 flags (found_buffer bytes)
      (to_size_t (size - sizeof_buffer)) 0 0 None 0 0 (mk_ecc_info 0 0 0 0)
      None 0 in
  let sig' := Z.lxor sig PERSISTENT_RAM_SIG in
  persistent_ram_new env fuel start size sig (Some ei) memtype flags label
  = if b_sig (found_buffer bytes) =? sig' then
      if buffer_size prz =? 0 then Some (inr prz)
      else if (prz_buffer_size prz <? buffer_size prz)
              || (buffer_size prz <? buffer_start prz)
      then Some (inr (set_size (set_start prz 0) 0))
      else
        match persistent_ram_save_old fuel prz with
        | Some z1 =>
          if negb (Z.land flags PRZ_FLAG_ZAP_OLD =? 0)
          then Some (inr (set_size (set_start z1 0) 0))
          else Some (inr z1)
        | None => None
        end
    else Some (inr (set_size (set_start (set_sig prz sig') 0) 0)).
Proof.
  intros Hmap He prz sig'.
  unfold persistent_ram_new, persistent_ram_buffer_map. rewrite Hmap.
  cbv beta iota. change (negb (0 =? 0)) with false. cbv iota.
  change (set_layout _ _ _ _) with prz.
  unfold persistent_ram_post_init, persistent_ram_init_ecc. rewrite He.
  change (0 =? 0) with true. cbv beta iota.
  change (negb true) with false. cbv iota.
  change (b_sig (prz_buffer prz)) with (b_sig (found_buffer bytes)).
  fold sig'.
  destruct (b_sig (found_buffer bytes) =? sig').
  - destruct (buffer_size prz =? 0); [reflexivity|].
    destruct ((prz_buffer_size prz <? buffer_size prz)
              || (buffer_size prz <? buffer_start prz)).
    + rewrite zap_no_ecc by reflexivity. reflexivity.
    + destruct (save_old_no_ecc fuel prz start size) as (z1 & Hs & Hp1);
        [done|done|].
      rewrite Hs. destruct Hp1 as (_ & _ & He1).
      change (prz_flags prz) with flags.
      destruct (negb (Z.land flags PRZ_FLAG_ZAP_OLD =? 0)); [|reflexivity].
      rewrite zap_no_ecc by exact He1. reflexivity.
  - rewrite zap_no_ecc by reflexivity. reflexivity.
Qed.

Lemma save_old_fresh_no_ecc (fuel : nat) z :
  ecc_size (prz_ecc_info z) = 0 -> prz_old_log z = None ->
  buffer_size z <> 0 ->
  exists log,
    persistent_ram_save_old fuel z
    = Some (set_old z (Some log) (buffer_size z)) /\
    (0 <= b_start (prz_buffer z) <= b_size (prz_buffer z) ->
     b_size (prz_buffer z) <= prz_buffer_size z <= INT_MAX ->
     prz_buffer_size z <= zlen (b_data (prz_buffer z)) ->
     log = logical_contents z).
Proof.
  intros He Hnone Hne.
  unfold persistent_ram_save_old.
  destruct (Z.eqb_spec (buffer_size z) 0); [done|].
  rewrite Hnone. unfold persistent_ram_ecc_old. rewrite He.
  change (0 =? 0) with true. cbv beta iota.
  cbn [prz_old_log set_old].
  assert (Hn : 0 <= buffer_size z)
    by (unfold buffer_size, to_size_t; apply Z.mod_pos_bound; lia).
  destruct (Z.ltb_spec (zlen (replicate (Z.to_nat (buffer_size z)) 0))
              (buffer_size z)) as [Hshort|_];
    [unfold zlen in Hshort; rewrite length_replicate in Hshort; lia|].
  clear Hn.
  eexists. split; [reflexivity|].
  intros Hst Hsz Hd. unfold INT_MAX in Hsz.
  unfold logical_contents, buffer_size, buffer_start in *.
  cbn [prz_buffer set_old].
  rewrite (to_size_t_small (b_size _)) in * by lia.
  rewrite (to_size_t_small (b_start _)) by lia.
  rewrite (to_size_t_small (_ - _)) by lia.
  unfold zlen in *.
  apply snapshot_copy; try lia.
  - rewrite length_replicate. lia.
  - unfold zdrop. rewrite length_drop. lia.
Qed.

(** X7.  with ECC off, [persistent_ram_new] checks the cursors it finds in
    RAM only when the stored size is not 0.  A header with the expected
    signature and size 0 is taken as it is, whatever its start cursor; in
    every other case the new zone has start <= size <= usable size, and a
    snapshot no longer than the usable size. *)
Theorem new_zone_cursor_validation (env : ram_env) (fuel : nat)
    (start size sig memtype flags : Z) (ei : persistent_ram_ecc_info)
    (label : string) (bytes : list Z) :
  ram_map env start size memtype = Some bytes -> ecc_size ei = 0 ->
  let found := found_buffer bytes in
  let sig' := Z.lxor sig PERSISTENT_RAM_SIG in
  exists z,
    persistent_ram_new env fuel start size sig (Some ei) memtype flags label
    = Some (inr z) /\
    prz_buffer_size z = to_size_t (size - sizeof_buffer) /\
    (b_sig found = sig' -> to_size_t (b_size found) = 0 ->
     prz_buffer z = found /\ persistent_ram_old z = None) /\
    (b_sig found <> sig' \/ to_size_t (b_size found) <> 0 ->
     buffer_start z <= buffer_size z <= prz_buffer_size z /\
     persistent_ram_old_size z <= prz_buffer_size z).
Proof.
  intros Hmap He found sig'.
  rewrite (new_no_ecc_eq env fuel start size sig memtype flags ei label bytes
             Hmap He).
  fold found. fold sig'.
  set (prz := mk_zone start size label 0 flags found
                (to_size_t (size - sizeof_buffer)) 0 0 None 0 0
                (mk_ecc_info 0 0 0 0) None 0).
  assert (Hbs0 : 0 <= to_size_t (size - sizeof_buffer))
    by (unfold to_size_t; apply Z.mod_pos_bound; lia).
  assert (Hzapped : forall z, prz_buffer_size z = to_size_t (size - sizeof_buffer) ->
            persistent_ram_old_size z <= prz_buffer_size z ->
            buffer_start (set_size (set_start z 0) 0)
            <= buffer_size (set_size (set_start z 0) 0)
            <= prz_buffer_size (set_size (set_start z 0) 0) /\
            persistent_ram_old_size (set_size (set_start z 0) 0)
            <= prz_buffer_size (set_size (set_start z 0) 0)).
  { intros z Hz Ho. unfold buffer_start, buffer_size.
    cbn [set_size set_start set_buffer prz_buffer b_start b_size
         prz_buffer_size persistent_ram_old_size prz_old_log_size].
    unfold persistent_ram_old_size in Ho.
    change (to_size_t 0) with 0. lia. }
  destruct (Z.eqb_spec (b_sig found) sig') as [Hsig|Hsig].
  - change (buffer_size prz) with (to_size_t (b_size found)).
    change (buffer_start prz) with (to_size_t (b_start found)).
    change (prz_buffer_size prz) with (to_size_t (size - sizeof_buffer)).
    destruct (Z.eqb_spec (to_size_t (b_size found)) 0) as [Hz|Hnz].
    + exists prz. split; [reflexivity|]. split; [reflexivity|].
      split; [intros _ _; split; reflexivity|].
      intros [Hc|Hc]; contradiction.
    + destruct (Z.ltb_spec (to_size_t (size - sizeof_buffer))
                  (to_size_t (b_size found))) as [Hbig|Hfit]; cbn [orb].
      * eexists. split; [reflexivity|]. split; [reflexivity|].
        split; [intros _ Hc; contradiction|]. intros _.
        apply Hzapped; [reflexivity|].
          unfold persistent_ram_old_size;
          cbn [set_old set_sig set_buffer prz prz_old_log_size prz_buffer_size]; lia.
      * destruct (Z.ltb_spec (to_size_t (b_size found))
                    (to_size_t (b_start found))) as [Hbad|Hok].
        { eexists. split; [reflexivity|]. split; [reflexivity|].
          split; [intros _ Hc; contradiction|]. intros _.
          apply Hzapped; [reflexivity|].
          unfold persistent_ram_old_size;
          cbn [set_old set_sig set_buffer prz prz_old_log_size prz_buffer_size]; lia. }
        destruct (save_old_fresh_no_ecc fuel prz) as (log & Hs & _);
          [reflexivity | reflexivity | exact Hnz |].
        rewrite Hs.
        change (buffer_size prz) with (to_size_t (b_size found)).
        destruct (negb (Z.land flags PRZ_FLAG_ZAP_OLD =? 0)).
        { eexists. split; [reflexivity|]. split; [reflexivity|].
          split; [intros _ Hc; contradiction|]. intros _.
          apply Hzapped; [reflexivity|].
          unfold persistent_ram_old_size;
          cbn [set_old set_sig set_buffer prz prz_old_log_size prz_buffer_size]; lia. }
        eexists. split; [reflexivity|]. split; [reflexivity|].
        split; [intros _ Hc; contradiction|]. intros _.
        unfold buffer_start, buffer_size, persistent_ram_old_size.
        cbn [set_old prz_buffer prz_buffer_size prz_old_log_size prz].
        lia.
  - eexists. split; [reflexivity|]. split; [reflexivity|].
    split; [intros Hc; contradiction|]. intros _.
    apply Hzapped; [reflexivity|].
          unfold persistent_ram_old_size;
          cbn [set_old set_sig set_buffer prz prz_old_log_size prz_buffer_size]; lia.
Qed.

Lemma new_zone_cursor_validation_witness :
  exists z,
    persistent_ram_new (ram_holding stale_start_bytes) 0 0 112 0
      (Some (mk_ecc_info 0 0 0 0)) 0 0 "ramoops:dmesg" = Some (inr z) /\
    prz_buffer_size z = 100 /\ buffer_start z = 5000.
Proof.
  destruct (new_zone_cursor_validation (ram_holding stale_start_bytes) 0 0 112
              0 0 0 (mk_ecc_info 0 0 0 0) "ramoops:dmesg" stale_start_bytes
              eq_refl eq_refl) as (z & Hnew & Hbs & Hkept & _).
  exists z. split; [exact Hnew|]. split; [exact Hbs|].
  destruct Hkept as [Hbuf _]; [reflexivity | reflexivity |].
  unfold buffer_start. rewrite Hbuf. reflexivity.
Defined.

Lemma of_le32_le32_app (x : Z) (l : list Z) :
  0 <= x < 2 ^ 32 -> of_le32 (le32 x ++ l) = x.
Proof.
  intros Hx. unfold le32. cbn [app of_le32].
  change (2 ^ 32) with 4294967296 in Hx.
  Z.to_euclidean_division_equations. lia.
Qed.

Lemma found_buffer_zone_image (z : persistent_ram_zone) :
  0 <= b_sig (prz_buffer z) < 2 ^ 32 ->
  0 <= b_start (prz_buffer z) < 2 ^ 31 ->
  0 <= b_size (prz_buffer z) < 2 ^ 31 ->
  found_buffer (zone_image z) = prz_buffer z.
Proof.
  intros Hsig Hst Hsz.
  unfold found_buffer, zone_image, header_bytes, header_of_bytes.
  destruct (prz_buffer z) as [sg st sz d].
  cbn [b_sig b_start b_size b_data] in *.
  assert (H1 : of_le32 (take 12 ((le32 sg ++ le32 st ++ le32 sz) ++ d)) = sg)
    by (apply (of_le32_le32_app sg (le32 st ++ le32 sz)); lia).
  assert (H2 : of_le32 (drop 4 (take 12 ((le32 sg ++ le32 st ++ le32 sz) ++ d)))
               = st)
    by (apply (of_le32_le32_app st (le32 sz)); lia).
  assert (H3 : of_le32 (drop 8 (take 12 ((le32 sg ++ le32 st ++ le32 sz) ++ d)))
               = sz)
    by (apply (of_le32_le32_app sz []); lia).
  rewrite H1, H2, H3. rewrite !to_int_small by lia. reflexivity.
Qed.

Lemma lastn_lastn {A} (n m : nat) (l : list A) :
  (n <= m)%nat -> lastn n (lastn m l) = lastn n l.
Proof.
  intros Hnm. unfold lastn. rewrite length_drop, drop_drop. f_equal. lia.
Qed.

Lemma lastn_rot_prefix {A} (s : nat) (l : list A) :
  (s <= length l)%nat -> lastn s (rot s l) = take s l.
Proof.
  intros Hs. unfold lastn, rot.
  rewrite length_app, length_drop, length_take.
  apply drop_app_length'. rewrite length_drop. lia.
Qed.

(** The logical contents of a zone that grew from empty are the last
    [size] bytes of its ring. *)
Lemma logical_contents_grown (z : persistent_ram_zone) :
  zone_wf z -> cursor_inv z -> grown_from_empty z ->
  logical_contents z = lastn (Z.to_nat (b_size (prz_buffer z))) (ring z).
Proof.
  intros Hwf Hinv Hg.
  destruct (cursor_inv_range z Hwf Hinv) as [Hst Hsz].
  pose proof Hwf as (Hbs & Hdlen & _ & _ & _). unfold INT_MAX in Hbs.
  assert (Hring : length (ring z) = Z.to_nat (prz_buffer_size z)).
  { unfold ring. rewrite length_rot. unfold ztake, zlen in *.
    rewrite length_take. lia. }
  destruct (Z.eq_dec (b_size (prz_buffer z)) (prz_buffer_size z)) as [Hfull|Hnf].
  - rewrite logical_contents_full by assumption.
    rewrite Hfull. symmetry. apply lastn_ge. lia.
  - assert (Heq : b_start (prz_buffer z) = b_size (prz_buffer z))
      by (apply Hg; lia).
    unfold logical_contents, buffer_size, buffer_start, ring.
    rewrite Heq.
    rewrite (to_size_t_small (b_size _)) by lia.
    rewrite Z.sub_diag. change (to_size_t 0) with 0.
    unfold ztake, zdrop, zlen in *. change (Z.to_nat 0) with 0%nat.
    cbn [take app].
    rewrite lastn_rot_prefix by (rewrite length_take; lia).
    rewrite take_take. rewrite Nat.min_l by lia. reflexivity.
Qed.

Lemma write_payload_exact (fuel : nat) z (p : list Z) :
  zone_wf z -> cursor_inv z -> grown_from_empty z -> zlen p <= INT_MAX ->
  (Z.to_nat (2 * prz_buffer_size z) < fuel)%nat ->
  exists z',
    persistent_ram_write fuel z p (zlen p) = Some (z', zlen p) /\
    zone_wf z' /\ cursor_inv z' /\ grown_from_empty z' /\
    prz_buffer_size z' = prz_buffer_size z /\
    b_size (prz_buffer z')
    = Z.min (b_size (prz_buffer z) + zlen p) (prz_buffer_size z) /\
    ring z' = lastn (Z.to_nat (prz_buffer_size z)) (ring z ++ p) /\
    b_sig (prz_buffer z') = b_sig (prz_buffer z) /\
    length (b_data (prz_buffer z')) = length (b_data (prz_buffer z)) /\
    prz_ecc_info z' = prz_ecc_info z.
Proof.
  intros Hwf Hinv Hg Hp Hf.
  destruct (cursor_inv_range z Hwf Hinv) as [Hst Hsz].
  pose proof Hwf as (Hbs & _). unfold INT_MAX in Hbs, Hp.
  assert (Hp0 : 0 <= zlen p) by (unfold zlen; lia).
  destruct (persistent_ram_write_payload fuel z p Hwf Hinv Hp Hf)
    as (z' & Hw & Hwf' & Hinv' & Hbs' & Hsz' & Hst' & Hring).
  destruct (persistent_ram_write_steps fuel z p (zlen p) Hwf Hinv
              ltac:(unfold INT_MAX in *; lia) Hf) as (d & Hw2 & Hd & _).
  cbv zeta in Hw2. rewrite Hw in Hw2. injection Hw2 as Hz' _.
  exists z'. split; [exact Hw|]. split; [exact Hwf'|]. split; [exact Hinv'|].
  split.
  { unfold grown_from_empty. rewrite Hbs', Hsz', Hst'. intros Hnf.
    assert (b_size (prz_buffer z) + zlen p < prz_buffer_size z) by lia.
    rewrite Hg by lia.
    rewrite !Z.min_l by lia. apply Z.mod_small. lia. }
  split; [exact Hbs'|]. split; [exact Hsz'|]. split; [exact Hring|].
  rewrite Hz'. repeat split. exact Hd.
Qed.

Lemma write_all_exact (fuel : nat) (ps : list (list Z)) :
  forall z,
  zone_wf z -> cursor_inv z -> grown_from_empty z ->
  Forall (fun p => zlen p <= INT_MAX) ps ->
  (Z.to_nat (2 * prz_buffer_size z) < fuel)%nat ->
  exists z',
    persistent_ram_write_all fuel z ps = Some z' /\
    zone_wf z' /\ cursor_inv z' /\ grown_from_empty z' /\
    prz_buffer_size z' = prz_buffer_size z /\
    b_size (prz_buffer z')
    = Z.min (b_size (prz_buffer z) + zlen (concat ps)) (prz_buffer_size z) /\
    ring z' = lastn (Z.to_nat (prz_buffer_size z)) (ring z ++ concat ps) /\
    b_sig (prz_buffer z') = b_sig (prz_buffer z) /\
    length (b_data (prz_buffer z')) = length (b_data (prz_buffer z)) /\
    prz_ecc_info z' = prz_ecc_info z.
Proof.
  induction ps as [|p ps IH]; intros z Hwf Hinv Hg Hps Hf.
  - destruct (cursor_inv_range z Hwf Hinv) as [Hst Hsz].
    pose proof Hwf as (Hbs & Hdlen & _). unfold INT_MAX in Hbs.
    exists z. cbn [persistent_ram_write_all concat].
    split; [reflexivity|]. split; [exact Hwf|]. split; [exact Hinv|].
    split; [exact Hg|]. split; [reflexivity|]. split.
    { change (zlen []) with 0. lia. }
    split; [|repeat split].
    rewrite app_nil_r. symmetry. apply lastn_ge.
    unfold ring. rewrite length_rot. unfold ztake, zlen in *.
    rewrite length_take. lia.
  - apply Forall_cons_1 in Hps as [Hp Hps].
    destruct (write_payload_exact fuel z p Hwf Hinv Hg Hp Hf)
      as (z1 & Hw & Hwf1 & Hinv1 & Hg1 & Hbs1 & Hsz1 & Hring1 & Hsig1 & Hd1
          & He1).
    destruct (IH z1 Hwf1 Hinv1 Hg1 Hps ltac:(rewrite Hbs1; exact Hf))
      as (z' & Hw' & Hwf' & Hinv' & Hg' & Hbs' & Hsz' & Hring' & Hsig' & Hd'
          & He').
    exists z'. cbn [persistent_ram_write_all concat]. rewrite Hw.
    destruct (cursor_inv_range z Hwf Hinv) as [Hst Hsz].
    pose proof Hwf as (Hbs & _). unfold INT_MAX in Hbs.
    assert (Hp0 : 0 <= zlen p) by (unfold zlen; lia).
    assert (Hps0 : 0 <= zlen (concat ps)) by (unfold zlen; lia).
    split; [exact Hw'|]. split; [exact Hwf'|]. split; [exact Hinv'|].
    split; [exact Hg'|]. split; [congruence|]. split.
    { rewrite Hsz', Hsz1, Hbs1. unfold zlen in *. rewrite length_app. lia. }
    split.
    { rewrite Hring', Hring1, Hbs1. rewrite lastn_app_lastn_l.
      rewrite app_assoc. reflexivity. }
    split; [congruence|]. split; congruence.
Qed.

Lemma logical_contents_buffer (z1 z2 : persistent_ram_zone) :
  prz_buffer z1 = prz_buffer z2 -> logical_contents z1 = logical_contents z2.
Proof.
  intros H. unfold logical_contents, buffer_size, buffer_start.
  rewrite H. reflexivity.
Qed.

Lemma lastn_min_app {A} (n : nat) (l q : list A) :
  lastn (Nat.min (length q) n) (lastn n (l ++ q)) = lastn n q.
Proof.
  rewrite lastn_lastn by lia.
  rewrite lastn_app_r by lia.
  destruct (Nat.le_ge_cases (length q) n) as [Hle|Hge].
  - rewrite Nat.min_l by lia. rewrite !lastn_ge by lia. reflexivity.
  - rewrite Nat.min_r by lia. reflexivity.
Qed.

(** X8.  what was appended to an empty zone is what the next boot finds.
    After any sequence of appends to a zone with both cursors at 0 and ECC
    off, [persistent_ram_new] on the bytes the zone left in RAM returns a
    zone whose snapshot is the last usable-size bytes of everything
    appended; with [PRZ_FLAG_ZAP_OLD] the live cursors are reset to 0,
    without it the live buffer is as it was left. *)
Theorem reboot_round_trip (env : ram_env) (fuel : nat)
    (z0 : persistent_ram_zone) (ps : list (list Z))
    (start sig memtype flags : Z) (ei : persistent_ram_ecc_info)
    (label : string) :
  zone_wf z0 -> ecc_size (prz_ecc_info z0) = 0 ->
  b_start (prz_buffer z0) = 0 -> b_size (prz_buffer z0) = 0 ->
  zlen (b_data (prz_buffer z0)) = prz_buffer_size z0 ->
  b_sig (prz_buffer z0) = Z.lxor sig PERSISTENT_RAM_SIG ->
  0 <= b_sig (prz_buffer z0) < 2 ^ 32 ->
  Forall (fun p => zlen p <= INT_MAX) ps -> 0 < zlen (concat ps) ->
  (Z.to_nat (2 * prz_buffer_size z0) < fuel)%nat ->
  ecc_size ei = 0 ->
  let bs := prz_buffer_size z0 in
  exists z1,
    persistent_ram_write_all fuel z0 ps = Some z1 /\
    (ram_map env start (bs + sizeof_buffer) memtype = Some (zone_image z1) ->
     exists z2,
       persistent_ram_new env fuel start (bs + sizeof_buffer) sig (Some ei)
         memtype flags label = Some (inr z2) /\
       persistent_ram_old z2 = Some (lastn (Z.to_nat bs) (concat ps)) /\
       persistent_ram_old_size z2 = Z.min (zlen (concat ps)) bs /\
       (Z.land flags PRZ_FLAG_ZAP_OLD <> 0 ->
        buffer_start z2 = 0 /\ buffer_size z2 = 0) /\
       (Z.land flags PRZ_FLAG_ZAP_OLD = 0 -> prz_buffer z2 = prz_buffer z1)).
Proof.
  intros Hwf He0 Hst0 Hsz0 Hdlen Hsig Hsigr Hps Htot Hf Hei bs.
  pose proof Hwf as (Hbs & _). unfold INT_MAX in Hbs.
  assert (Hinv0 : cursor_inv z0).
  { apply range_cursor_inv; unfold INT_MAX; lia. }
  assert (Hg0 : grown_from_empty z0) by (unfold grown_from_empty; lia).
  destruct (write_all_exact fuel ps z0 Hwf Hinv0 Hg0 Hps Hf)
    as (z1 & Hw & Hwf1 & Hinv1 & Hg1 & Hbs1 & Hsz1 & Hring1 & Hsig1 & Hd1 & He1).
  exists z1. split; [exact Hw|]. intros Hmap.
  destruct (cursor_inv_range z1 Hwf1 Hinv1) as [Hst1r Hsz1r].
  rewrite Hbs1 in Hst1r, Hsz1r. fold bs in Hst1r, Hsz1r, Hbs, Hsz1.
  rewrite Hsz0, Z.add_0_l in Hsz1.
  assert (Hfound : found_buffer (zone_image z1) = prz_buffer z1).
  { apply found_buffer_zone_image; [rewrite Hsig1; exact Hsigr | lia | lia]. }
  rewrite (new_no_ecc_eq env fuel start (bs + sizeof_buffer) sig memtype flags
             ei label (zone_image z1) Hmap Hei).
  rewrite Hfound. rewrite Hsig1, Hsig, Z.eqb_refl.
  set (prz := mk_zone start (bs + sizeof_buffer) label 0 flags (prz_buffer z1)
                (to_size_t (bs + sizeof_buffer - sizeof_buffer)) 0 0 None 0 0
                (mk_ecc_info 0 0 0 0) None 0).
  assert (Hpbs : prz_buffer_size prz = bs).
  { cbn [prz prz_buffer_size]. replace (bs + sizeof_buffer - sizeof_buffer)
      with bs by lia. apply to_size_t_small. lia. }
  assert (Hbsz : buffer_size prz = b_size (prz_buffer z1))
    by (unfold buffer_size; cbn [prz prz_buffer]; apply to_size_t_small; lia).
  assert (Hbst : buffer_start prz = b_start (prz_buffer z1))
    by (unfold buffer_start; cbn [prz prz_buffer]; apply to_size_t_small; lia).
  assert (Hstle : b_start (prz_buffer z1) <= b_size (prz_buffer z1)).
  { destruct (Z.eq_dec (b_size (prz_buffer z1)) bs) as [E|E]; [lia|].
    rewrite Hg1 by lia. lia. }
  rewrite Hpbs, Hbsz, Hbst.
  destruct (Z.eqb_spec (b_size (prz_buffer z1)) 0) as [E|_]; [lia|].
  destruct (Z.ltb_spec bs (b_size (prz_buffer z1))) as [E|_]; [lia|].
  destruct (Z.ltb_spec (b_size (prz_buffer z1)) (b_start (prz_buffer z1)))
    as [E|_]; [lia|].
  cbn [orb].
  destruct (save_old_fresh_no_ecc fuel prz) as (log & Hs & Hlog);
    [reflexivity | reflexivity | rewrite Hbsz; lia |].
  rewrite Hs, Hbsz.
  assert (Hlog' : log = lastn (Z.to_nat bs) (concat ps)).
  { rewrite Hlog.
    - rewrite (logical_contents_buffer prz z1) by reflexivity.
      rewrite logical_contents_grown by assumption.
      rewrite Hring1. fold bs. rewrite Hsz1.
      replace (Z.to_nat (Z.min (zlen (concat ps)) bs))
        with (Nat.min (length (concat ps)) (Z.to_nat bs))
        by (unfold zlen; lia).
      apply lastn_min_app.
    - cbn [prz prz_buffer]. lia.
    - rewrite Hpbs. cbn [prz prz_buffer]. unfold INT_MAX. lia.
    - rewrite Hpbs. cbn [prz prz_buffer]. unfold zlen in *. lia. }
  subst log.
  destruct (Z.eqb_spec (Z.land flags PRZ_FLAG_ZAP_OLD) 0) as [Hz|Hnz];
    cbn [negb].
  - eexists. split; [reflexivity|].
    split; [reflexivity|]. split; [exact Hsz1|].
    split; [intros Hc; contradiction|]. intros _. reflexivity.
  - eexists. split; [reflexivity|].
    split; [reflexivity|]. split; [exact Hsz1|].
    split; [intros _; split; reflexivity|]. intros Hc; contradiction.
Qed.

Lemma reboot_round_trip_witness :
  exists z1,
    persistent_ram_write_all 20 (empty_zone 8)
      [[1; 2; 3; 4; 5]; [6; 7; 8; 9; 10; 11]] = Some z1 /\
    exists z2,
      persistent_ram_new (ram_holding (zone_image z1)) 20 4096 20 0
        (Some (mk_ecc_info 0 0 0 0)) 0 PRZ_FLAG_ZAP_OLD "ramoops:console"
      = Some (inr z2) /\
      persistent_ram_old z2 = Some [4; 5; 6; 7; 8; 9; 10; 11] /\
      buffer_size z2 = 0.
Proof.
  destruct (reboot_round_trip (ram_holding (zone_image (empty_zone 8))) 20
              (empty_zone 8) [[1; 2; 3; 4; 5]; [6; 7; 8; 9; 10; 11]]
              4096 0 0 PRZ_FLAG_ZAP_OLD (mk_ecc_info 0 0 0 0) "ramoops:console")
    as (z1 & Hw & _);
    [apply empty_zone_wf; unfold INT_MAX; lia | reflexivity | reflexivity
    | reflexivity | reflexivity | reflexivity | vm_compute; split; congruence
    | repeat constructor; vm_compute; congruence | vm_compute; reflexivity
    | vm_compute; lia | reflexivity |].
  exists z1. split; [exact Hw|].
  destruct (reboot_round_trip (ram_holding (zone_image z1)) 20
              (empty_zone 8) [[1; 2; 3; 4; 5]; [6; 7; 8; 9; 10; 11]]
              4096 0 0 PRZ_FLAG_ZAP_OLD (mk_ecc_info 0 0 0 0) "ramoops:console")
    as (z1' & Hw' & Hboot);
    [apply empty_zone_wf; unfold INT_MAX; lia | reflexivity | reflexivity
    | reflexivity | reflexivity | reflexivity | vm_compute; split; congruence
    | repeat constructor; vm_compute; congruence | vm_compute; reflexivity
    | vm_compute; lia | reflexivity |].
  rewrite Hw in Hw'. injection Hw' as <-.
  destruct (Hboot eq_refl) as (z2 & Hnew & Hold & _ & Hzap & _).
  exists z2. split; [exact Hnew|]. split; [exact Hold|].
  apply Hzap. vm_compute. congruence.
Defined.

(** ** The layout [persistent_ram_init_ecc] chooses *)

Lemma ecc_blocks_of_spec (bs : Z) (info : persistent_ram_ecc_info) :
  0 < ecc_size info <= bs -> bs <= INT_MAX -> 0 < block_size info ->
  block_size info + ecc_size info <= INT_MAX ->
  let d := block_size info + ecc_size info in
  ecc_blocks_of bs info = (bs - ecc_size info + d - 1) / d /\
  0 <= ecc_blocks_of bs info < bs /\
  bs - ecc_size info <= ecc_blocks_of bs info * d /\
  (ecc_blocks_of bs info + 1) * ecc_size info <= bs + ecc_size info.
Proof.
  intros He Hbs Hb Hd d. unfold INT_MAX in *.
  set (e := ecc_size info) in *. set (b := block_size info) in *.
  assert (Heq : ecc_blocks_of bs info = (bs - e + d - 1) / d).
  { unfold ecc_blocks_of, DIV_ROUND_UP. fold e. fold b. fold d.
    rewrite (to_size_t_small e) by lia.
    rewrite (to_size_t_small (bs - e)) by lia.
    rewrite (to_int_small d) by (unfold d; lia).
    rewrite (to_size_t_small d) by (unfold d; lia).
    rewrite (to_size_t_small (bs - e + d)) by (unfold d; lia).
    rewrite (to_size_t_small (bs - e + d - 1)) by (unfold d; lia).
    apply to_int_small.
    assert (Hd1 : 0 < d) by (unfold d; lia).
    assert (0 <= (bs - e + d - 1) / d) by (apply Z.div_pos; lia).
    pose proof (Z.div_mod (bs - e + d - 1) d ltac:(lia)) as Hdm'.
    pose proof (Z.mod_pos_bound (bs - e + d - 1) d Hd1) as Hm'.
    assert ((bs - e + d - 1) / d < bs).
    { destruct (Z.lt_ge_cases ((bs - e + d - 1) / d) bs) as [|Hge]; [lia|].
      exfalso. unfold d in *.
      assert (bs * (b + e) <= (bs - e + (b + e) - 1) / (b + e) * (b + e))
        by (apply Z.mul_le_mono_nonneg_r; lia).
      nia. }
    lia. }
  rewrite Heq.
  assert (Hd0 : 0 < d) by (unfold d; lia).
  pose proof (Z.div_mod (bs - e + d - 1) d ltac:(lia)) as Hdm.
  pose proof (Z.mod_pos_bound (bs - e + d - 1) d Hd0) as Hm.
  set (q := (bs - e + d - 1) / d) in *.
  assert (Hq0 : 0 <= q) by (apply Z.div_pos; lia).
  assert (Hqd : bs - e <= q * d) by nia.
  assert (Hqd' : q * d <= bs - e + d - 1) by nia.
  split; [reflexivity|]. split; [|split; [exact Hqd|]].
  - split; [exact Hq0|].
    destruct (Z.lt_ge_cases q bs) as [|Hge]; [lia|].
    exfalso. unfold d in *.
    assert (bs * (b + e) <= q * (b + e))
      by (apply Z.mul_le_mono_nonneg_r; lia).
    nia.
  - unfold d in *. nia.
Qed.

Lemma ecc_total_arith (blocks e bs : Z) :
  0 <= blocks < bs -> 0 < e <= bs -> bs <= 2147483647 ->
  (blocks + 1) * e <= bs + e ->
  to_size_t (to_int (to_int (blocks + 1) * e)) < bs ->
  to_size_t (to_int (to_int (blocks + 1) * e)) = (blocks + 1) * e.
Proof.
  intros Hbl He Hbs Hup Htot.
  assert (H1 : to_int (blocks + 1) = blocks + 1)
    by (apply to_int_small; lia).
  rewrite H1 in Htot |- *.
  assert (Hp : 0 < (blocks + 1) * e) by nia.
  set (x := (blocks + 1) * e) in *. clearbody x.
  destruct (Z.lt_ge_cases x (2 ^ 31)) as [Hlt|Hge].
  - rewrite to_int_small by lia. apply to_size_t_small. lia.
  - exfalso. rewrite to_int_high in Htot by lia.
    rewrite to_size_t_neg in Htot by lia. lia.
Qed.

Lemma ecc_total_of_eq (bs : Z) (info : persistent_ram_ecc_info) :
  ecc_total_of bs info
  = to_size_t (to_int (to_int (ecc_blocks_of bs info + 1) * ecc_size info)).
Proof. unfold ecc_total_of. reflexivity. Qed.

Lemma ecc_total_of_exact (bs : Z) (info : persistent_ram_ecc_info) :
  0 < ecc_size info <= bs -> bs <= INT_MAX -> 0 < block_size info ->
  block_size info + ecc_size info <= INT_MAX ->
  ecc_total_of bs info < bs ->
  ecc_total_of bs info = (ecc_blocks_of bs info + 1) * ecc_size info.
Proof.
  intros He Hbs Hb Hd Htot.
  destruct (ecc_blocks_of_spec bs info He Hbs Hb Hd) as (_ & Hbl & _ & Hup).
  rewrite ecc_total_of_eq in Htot |- *.
  apply (ecc_total_arith (ecc_blocks_of bs info) (ecc_size info) bs);
    assumption.
Qed.

(** The zone [persistent_ram_init_ecc] returns when it accepts the
    request, before any arithmetic on the sizes. *)
Lemma init_ecc_accepts (env : ram_env) (prz : persistent_ram_zone)
    (ei : persistent_ram_ecc_info) (rs : rs_control) (info : persistent_ram_ecc_info)
    (bs total : Z) :
  info = ecc_defaults ei -> bs = prz_buffer_size prz ->
  total = ecc_total_of bs info ->
  ecc_size ei <> 0 -> total < bs ->
  init_rs env (symsize info) (poly info) 0 1 (ecc_size info) = Some rs ->
  exists prz',
    persistent_ram_init_ecc env prz (Some ei) = Some (prz', 0) /\
    prz_ecc_info prz' = info /\
    prz_buffer_size prz' = to_size_t (bs - total) /\
    prz_par_buffer prz' = to_size_t (bs - total) /\
    prz_par_header prz'
    = to_size_t (bs - total)
      + to_int (ecc_blocks_of bs info * ecc_size info) /\
    prz_rs_decoder prz' = Some rs.
Proof.
  intros Einfo Ebs Etotal He Htot Hrs.
  unfold persistent_ram_init_ecc.
  destruct (Z.eqb_spec (ecc_size ei) 0); [contradiction|].
  cbv zeta. rewrite <- Einfo.
  change (prz_buffer_size (set_ecc_info prz info)) with (prz_buffer_size prz).
  rewrite <- Ebs, <- Etotal.
  destruct (Z.leb_spec bs total); [lia|].
  rewrite Hrs.
  set (size := to_size_t (bs - total)).
  set (hdr := size + to_int (ecc_blocks_of bs info * ecc_size info)).
  clearbody size hdr.
  set (z1 := set_counters (set_rs_decoder (set_layout (set_ecc_info prz info)
                size size hdr) (Some rs)) 0 0).
  destruct (decode_is_Some z1 (header_bytes (prz_buffer z1)) sizeof_buffer
              (zdrop (prz_par_header z1) (b_data (prz_buffer z1))))
    as [[numerr fixed] Hdec]; [exists rs; reflexivity|].
  rewrite Hdec. cbv beta iota.
  destruct (0 <? numerr); [|destruct (numerr <? 0)];
    (eexists; split; [reflexivity|]; repeat split; reflexivity).
Qed.

(** X9.  when [persistent_ram_init_ecc] accepts a request, the parity area
    it cuts off the end of the zone is exactly large enough: the usable
    size shrinks by the parity of all blocks and of the header, the
    header parity ends where the zone ends, and the blocks counted cover
    the whole remaining data area.  The zone then has its decoder and
    positive block and parity sizes. *)
Theorem init_ecc_layout (env : ram_env) (prz : persistent_ram_zone)
    (ei : persistent_ram_ecc_info) (rs : rs_control) :
  let info := ecc_defaults ei in
  let bs := prz_buffer_size prz in
  let e := ecc_size info in
  let b := block_size info in
  let blocks := ecc_blocks_of bs info in
  0 < ecc_size ei <= bs -> bs <= INT_MAX -> 0 <= block_size ei ->
  b + e <= INT_MAX ->
  ecc_total_of bs info < bs ->
  init_rs env (symsize info) (poly info) 0 1 e = Some rs ->
  exists prz',
    persistent_ram_init_ecc env prz (Some ei) = Some (prz', 0) /\
    prz_ecc_info prz' = info /\
    prz_buffer_size prz' = bs - (blocks + 1) * e /\
    0 < prz_buffer_size prz' /\
    prz_par_buffer prz' = prz_buffer_size prz' /\
    prz_par_header prz' = prz_buffer_size prz' + blocks * e /\
    prz_par_header prz' + e = bs /\
    prz_buffer_size prz' <= blocks * b /\
    ecc_ok prz'.
Proof.
  intros info bs e b blocks.
  assert (Einfo : info = ecc_defaults ei) by reflexivity.
  assert (Ebs : bs = prz_buffer_size prz) by reflexivity.
  assert (Ee : e = ecc_size info) by reflexivity.
  assert (Eb : b = block_size info) by reflexivity.
  assert (Eblocks : blocks = ecc_blocks_of bs info) by reflexivity.
  clearbody blocks b e bs info.
  intros He Hbs Hb Hd Htot Hrs.
  assert (Hee : ecc_size info = ecc_size ei).
  { rewrite Einfo. unfold ecc_defaults, elvis. cbn [ecc_size].
    destruct (Z.eqb_spec (ecc_size ei) 0); [lia | reflexivity]. }
  assert (He' : 0 < ecc_size info <= bs) by (rewrite Hee; exact He).
  assert (Hb0 : 0 < block_size info).
  { rewrite Einfo. unfold ecc_defaults, elvis. cbn [block_size].
    destruct (Z.eqb_spec (block_size ei) 0); lia. }
  assert (Hd' : block_size info + ecc_size info <= INT_MAX)
    by (rewrite <- Eb, <- Ee; exact Hd).
  destruct (ecc_blocks_of_spec bs info He' Hbs Hb0 Hd')
    as (_ & Hbl & Hcover & Hup).
  pose proof (ecc_total_of_exact bs info He' Hbs Hb0 Hd' Htot) as Htotal.
  rewrite <- Eblocks in Hbl, Hcover, Hup, Htotal.
  rewrite <- Ee in Hcover, Hup, Htotal, He'.
  rewrite <- Eb in Hcover, Hb0.
  destruct (init_ecc_accepts env prz ei rs info bs (ecc_total_of bs info)
              Einfo Ebs eq_refl ltac:(lia) Htot
              ltac:(rewrite <- Ee; exact Hrs))
    as (prz' & Hinit & H1 & H2 & H3 & H4 & H5).
  rewrite Htotal in H2, H3, H4. rewrite <- Eblocks, <- Ee in H4.
  unfold INT_MAX in *.
  rewrite (to_size_t_small (bs - (blocks + 1) * e)) in H2, H3, H4 by nia.
  rewrite (to_int_small (blocks * e)) in H4 by nia.
  exists prz'. split; [exact Hinit|].
  rewrite H2, H3, H4.
  split; [exact H1|]. split; [reflexivity|]. split; [nia|].
  split; [reflexivity|]. split; [reflexivity|]. split; [lia|].
  split; [nia|].
  right. rewrite H1, H2, H3, H4, H5, <- Ee, <- Eb.
  split; [lia|]. split; [lia|]. split; [lia|]. split; [nia|]. eauto.
Qed.

Lemma init_ecc_layout_witness :
  exists prz',
    persistent_ram_init_ecc zero_env (empty_zone 100)
      (Some (mk_ecc_info 16 4 0 0)) = Some (prz', 0) /\
    prz_buffer_size prz' = 76 /\ prz_par_header prz' = 96.
Proof.
  destruct (init_ecc_layout zero_env (empty_zone 100) (mk_ecc_info 16 4 0 0)
              xor_rs)
    as (prz' & Hinit & _ & Hbs & _ & _ & Hhdr & _);
    [cbn; lia | cbn; unfold INT_MAX; lia | cbn; lia | cbn; unfold INT_MAX; lia
    | vm_compute; reflexivity | reflexivity |].
  exists prz'. split; [exact Hinit|].
  split; [rewrite Hbs | rewrite Hhdr, Hbs]; reflexivity.
Defined.

(** ** Appends from user memory *)

Lemma user_prefix_readable (s : list Z) : user_prefix (map Some s) = s.
Proof. induction s as [|b s IH]; [reflexivity|]. cbn. rewrite IH. reflexivity. Qed.

Lemma user_prefix_length (u : list (option Z)) :
  (length (user_prefix u) <= length u)%nat.
Proof.
  induction u as [|[b|] u IH]; cbn; lia.
Qed.

Lemma user_prefix_take (n : nat) (u : list (option Z)) :
  (n <= length (user_prefix u))%nat ->
  user_prefix (take n u) = take n (user_prefix u).
Proof.
  revert u. induction n as [|n IH]; intros u Hn.
  - rewrite !take_0. reflexivity.
  - destruct u as [|[b|] u]; cbn in *; try lia.
    rewrite IH by lia. reflexivity.
Qed.

Lemma user_prefix_full (u : list (option Z)) :
  length (user_prefix u) = length u -> u = map Some (user_prefix u).
Proof.
  induction u as [|[b|] u IH]; cbn; intros H.
  - reflexivity.
  - rewrite <- IH by lia. reflexivity.
  - pose proof (user_prefix_length u). cbn in H. lia.
Qed.

Lemma update_user_readable (fuel : nat) (prz : persistent_ram_zone)
    (s : list Z) (start count : Z) :
  0 <= count <= zlen s ->
  persistent_ram_update_user fuel prz (map Some s) start count
  = match persistent_ram_update fuel prz s start count with
    | Some p => Some (p, 0)
    | None => None
    end.
Proof.
  intros Hc. unfold persistent_ram_update_user, persistent_ram_update,
    copy_from_user.
  assert (Hgot : user_prefix (ztake count (map Some s)) = ztake count s).
  { unfold ztake. rewrite List.firstn_map. apply user_prefix_readable. }
  rewrite Hgot.
  assert (Hlen : zlen (ztake count s) = count).
  { unfold zlen, ztake in *. rewrite length_take. lia. }
  rewrite Hlen, Z.sub_diag. change (Z.to_nat 0) with 0%nat.
  cbn [replicate]. rewrite app_nil_r.
  assert (Hm : memcpy_at (b_data (prz_buffer prz)) start (ztake count s) count
               = memcpy_at (b_data (prz_buffer prz)) start s count).
  { unfold memcpy_at, ztake. rewrite take_take, Nat.min_id. reflexivity. }
  rewrite Hm. change (0 =? 0) with true. cbv iota. reflexivity.
Qed.

Lemma update_user_faults (fuel : nat) z (u : list (option Z)) start count :
  ecc_ok z -> 0 <= start -> 0 <= count ->
  start + count <= prz_buffer_size z <= INT_MAX ->
  (Z.to_nat (start + count) < fuel)%nat ->
  zlen (user_prefix (ztake count u)) < count ->
  exists d,
    persistent_ram_update_user fuel z u (to_uint start) (to_uint count)
    = Some (set_data z d, - EFAULT) /\
    length d = length (b_data (prz_buffer z)).
Proof.
  unfold INT_MAX. intros Hecc Hs Hc Hb Hf Hshort.
  unfold persistent_ram_update_user.
  rewrite (to_uint_small start), (to_uint_small count) by lia.
  unfold copy_from_user.
  set (d0 := memcpy_at _ _ _ _).
  destruct (update_ecc_spec fuel (set_data z d0) start count)
    as (d & Hr & Hl & Ht); try done; simpl; try lia.
  rewrite Hr.
  destruct (Z.eqb_spec (count - zlen (user_prefix (ztake count u))) 0);
    [lia|].
  exists d. split; [done|].
  simpl in Hl. rewrite Hl. apply length_memcpy_at.
Qed.

Lemma eff_src_map (bs : Z) (s : list Z) (count : Z) :
  eff_src bs (map Some s) count = map Some (eff_src bs s count).
Proof.
  unfold eff_src. destruct (bs <? to_size_t (to_int count)); [|reflexivity].
  unfold zdrop. apply List.skipn_map.
Qed.

Lemma eff_src_long {A} (bs : Z) (s : list A) (count : Z) :
  0 < bs <= INT_MAX -> 0 <= count <= INT_MAX -> count <= zlen s ->
  eff_len bs count <= zlen (eff_src bs s count).
Proof.
  unfold INT_MAX. intros Hbs Hc Hs.
  rewrite eff_len_payload by (unfold INT_MAX; lia).
  unfold eff_src. rewrite (to_int_small count) by lia.
  rewrite (to_size_t_small count) by lia.
  destruct (Z.ltb_spec bs count).
  - rewrite (to_size_t_small (count - bs)) by lia.
    unfold zlen, zdrop in *. rewrite length_drop. lia.
  - lia.
Qed.

(** On user memory that can be read, [persistent_ram_write_user] goes
    through the steps of [persistent_ram_write]. *)
Lemma write_user_readable (fuel : nat) (z : persistent_ram_zone)
    (count : Z) (s : list Z) :
  zone_wf z -> cursor_inv z -> 0 <= count <= INT_MAX ->
  (Z.to_nat (2 * prz_buffer_size z) < fuel)%nat ->
  count <= zlen s ->
  persistent_ram_write_user fuel z (map Some s) count
  = persistent_ram_write fuel z s count.
Proof.
  intros Hwf Hinv Hcount Hfuel Hs.
  destruct (cursor_inv_range z Hwf Hinv) as [Hst Hsz].
  pose proof Hwf as (Hbs & Hlen & _ & _ & Hecc).
  set (bs := prz_buffer_size z) in *.
  set (c := eff_len bs count).
  assert (Hc : 0 <= c <= bs)
    by (apply eff_len_range; unfold INT_MAX in *; lia).
  assert (Hcp : c = Z.min count bs) by (apply eff_len_payload; lia).
  unfold INT_MAX in Hbs, Hcount.
  set (st := b_start (prz_buffer z)) in *.
  set (z1 := set_size z (Z.min (b_size (prz_buffer z) + c) bs)).
  set (z2 := set_start z1 ((st + c) mod bs)).
  assert (Hsa : buffer_size_add z (to_size_t c) = z1)
    by (apply buffer_size_add_spec; unfold INT_MAX; fold bs; lia).
  assert (Hba : buffer_start_add fuel z1 (to_size_t c) = Some (z2, st))
    by (apply (buffer_start_add_spec fuel z1 c);
        unfold z1, INT_MAX; simpl; fold bs; fold st; lia).
  assert (Hecc2 : ecc_ok z2) by exact Hecc.
  pose proof (eff_src_long bs s count ltac:(unfold INT_MAX; lia)
                ltac:(unfold INT_MAX; lia) Hs) as Hlong.
  fold c in Hlong.
  unfold persistent_ram_write_user, persistent_ram_write. fold bs.
  replace (if bs <? to_size_t (to_int count)
           then (zdrop (to_size_t (to_size_t (to_int count) - bs))
                   (map Some s), to_int bs)
           else (map Some s, to_int count))
    with (map Some (eff_src bs s count), c)
    by (rewrite <- eff_src_map; unfold c, eff_len, eff_src;
        destruct (bs <? to_size_t (to_int count)); reflexivity).
  replace (if bs <? to_size_t (to_int count)
           then (zdrop (to_size_t (to_size_t (to_int count) - bs)) s,
                 to_int bs)
           else (s, to_int count))
    with (eff_src bs s count, c)
    by (unfold c, eff_len, eff_src;
        destruct (bs <? to_size_t (to_int count)); reflexivity).
  set (src := eff_src bs s count) in *.
  rewrite Hsa, Hba. cbv beta iota.
  change (prz_buffer_size z2) with bs.
  rewrite (to_size_t_small (bs - st)) by lia.
  rewrite (to_int_small (bs - st)) by lia.
  destruct (Z.ltb_spec (bs - st) c) as [Hwrap|Hfit].
  + rewrite (to_uint_small (bs - st)) by lia.
    rewrite update_user_readable by lia.
    destruct (persistent_ram_update fuel z2 src (to_uint st) (bs - st))
      as [p1|]; [|reflexivity].
    cbv beta iota. cbn [fst snd]. change (0 =? 0) with true. cbv iota.
    rewrite (to_int_small (c - (bs - st))) by lia.
    rewrite (to_uint_small (c - (bs - st))) by lia.
    replace (zdrop (bs - st) (map Some src))
      with (map Some (zdrop (bs - st) src))
      by (unfold zdrop; symmetry; apply List.skipn_map).
    rewrite update_user_readable
      by (unfold zlen, zdrop in *; rewrite length_drop; lia).
    destruct (persistent_ram_update fuel p1 (zdrop (bs - st) src)
                (to_uint 0) (c - (bs - st))) as [p2|]; [|reflexivity].
    cbv beta iota. change (0 =? 0) with true. cbv iota. reflexivity.
  + cbv beta iota. change (0 =? 0) with true. cbv iota.
    rewrite (to_uint_small c) by lia.
    rewrite update_user_readable by lia.
    destruct (persistent_ram_update fuel z2 src (to_uint st) c)
      as [p1|]; [|reflexivity].
    cbv beta iota. change (0 =? 0) with true. cbv iota. reflexivity.
Qed.

(** X10.  [persistent_ram_write_user] on user memory that can be read does
    exactly what [persistent_ram_write] does with the same bytes, and
    returns the count; when a byte it has to read cannot be read it
    returns [-EFAULT]. *)
Theorem write_user_matches_write (fuel : nat) (z : persistent_ram_zone)
    (count : Z) :
  zone_wf z -> cursor_inv z -> 0 <= count <= INT_MAX ->
  (Z.to_nat (2 * prz_buffer_size z) < fuel)%nat ->
  (forall s : list Z, count <= zlen s ->
   persistent_ram_write_user fuel z (map Some s) count
   = persistent_ram_write fuel z s count /\
   exists z', persistent_ram_write fuel z s count = Some (z', count)) /\
  (forall u : list (option Z),
   count <= prz_buffer_size z ->
   zlen (user_prefix (ztake count u)) < count ->
   exists z', persistent_ram_write_user fuel z u count = Some (z', - EFAULT)).
Proof.
  intros Hwf Hinv Hcount Hfuel.
  destruct (cursor_inv_range z Hwf Hinv) as [Hst Hsz].
  pose proof Hwf as (Hbs & Hlen & _ & _ & Hecc).
  set (bs := prz_buffer_size z) in *.
  set (c := eff_len bs count).
  assert (Hc : 0 <= c <= bs)
    by (apply eff_len_range; unfold INT_MAX in *; lia).
  assert (Hcp : c = Z.min count bs) by (apply eff_len_payload; lia).
  unfold INT_MAX in Hbs, Hcount.
  set (st := b_start (prz_buffer z)) in *.
  set (z1 := set_size z (Z.min (b_size (prz_buffer z) + c) bs)).
  set (z2 := set_start z1 ((st + c) mod bs)).
  assert (Hsa : buffer_size_add z (to_size_t c) = z1)
    by (apply buffer_size_add_spec; unfold INT_MAX; fold bs; lia).
  assert (Hba : buffer_start_add fuel z1 (to_size_t c) = Some (z2, st))
    by (apply (buffer_start_add_spec fuel z1 c);
        unfold z1, INT_MAX; simpl; fold bs; fold st; lia).
  assert (Hecc2 : ecc_ok z2) by exact Hecc.
  split.
  - intros s Hs. split.
    2:{ destruct (persistent_ram_write_steps fuel z s count Hwf Hinv
                    ltac:(lia) Hfuel) as (d & Hw & _).
        cbv zeta in Hw. rewrite to_int_small in Hw by lia. eauto. }
    apply write_user_readable; assumption.
  - intros u Hfit Hshort. fold bs in Hfit.
    assert (Hcc : c = count) by lia.
    unfold persistent_ram_write_user. fold bs.
    rewrite (to_int_small count) by lia.
    rewrite (to_size_t_small count) by lia.
    destruct (Z.ltb_spec bs count) as [|_]; [lia|].
    rewrite <- Hcc. rewrite Hsa, Hba. cbv beta iota.
    change (prz_buffer_size z2) with bs.
    rewrite (to_size_t_small (bs - st)) by lia.
    rewrite (to_int_small (bs - st)) by lia.
    assert (Hfin : forall zz dd,
               zz = set_data z2 dd ->
               length dd = length (b_data (prz_buffer z)) ->
               exists z',
                 match persistent_ram_update_header_ecc zz with
                 | Some prz => Some (prz, - EFAULT)
                 | None => None
                 end = Some (z', - EFAULT)).
    { intros zz dd -> Hdd.
      destruct (update_header_ecc_spec (set_data z2 dd))
        as (d3 & Hr3 & _); try done.
      { change (prz_buffer_size (set_data z2 dd)) with bs. lia. }
      rewrite Hr3. eauto. }
    rewrite Hcc in *.
    destruct (Z.ltb_spec (bs - st) count) as [Hwrap|Hnowrap].
    + destruct (Z.lt_ge_cases
                  (zlen (user_prefix (ztake (bs - st) u))) (bs - st))
        as [Hf1|Hok1].
      * destruct (update_user_faults fuel z2 u st (bs - st))
          as (d1 & Hr1 & Hl1); try done; try lia.
        { change (prz_buffer_size z2) with bs. unfold INT_MAX. lia. }
        rewrite Hr1. cbv beta iota. cbn [fst snd].
        change (- EFAULT =? 0) with false. cbv iota.
        apply (Hfin _ d1); [reflexivity|]. simpl in Hl1. congruence.
      * destruct (persistent_ram_update_user_spec fuel z2 u st (bs - st))
          as (d1 & r1 & Hr1 & Hl1); try done; try lia.
        { change (prz_buffer_size z2) with bs. unfold INT_MAX. lia. }
        rewrite Hr1. cbv beta iota. cbn [fst snd].
        rewrite (to_int_small (count - (bs - st))) by lia.
        assert (Hrest : zlen (user_prefix (ztake (count - (bs - st))
                                 (zdrop (bs - st) u)))
                        < count - (bs - st)).
        { pose proof (user_prefix_length (ztake (bs - st) u)) as Hpl.
          assert (Hfull : length (user_prefix (ztake (bs - st) u))
                          = length (ztake (bs - st) u)).
          { unfold zlen, ztake in *. rewrite length_take in *. lia. }
          pose proof (user_prefix_full _ Hfull) as Hmap.
          assert (Hlen1 : length (ztake (bs - st) u) = Z.to_nat (bs - st)).
          { unfold zlen, ztake in *. rewrite length_take in *. lia. }
          assert (Hsplit : ztake count u
                           = ztake (bs - st) u
                             ++ ztake (count - (bs - st)) (zdrop (bs - st) u)).
          { unfold ztake, zdrop.
            replace (Z.to_nat count)
              with (Z.to_nat (bs - st) + Z.to_nat (count - (bs - st)))%nat
              by lia.
            symmetry. apply take_take_drop. }
          rewrite Hsplit, Hmap in Hshort.
          assert (Hpre : forall (a : list Z) (b : list (option Z)),
                    user_prefix (map Some a ++ b) = a ++ user_prefix b).
          { intros a b. induction a as [|x a IH]; [reflexivity|].
            cbn. rewrite IH. reflexivity. }
          rewrite Hpre in Hshort. unfold zlen in *.
          rewrite length_app in Hshort. lia. }
        destruct (Z.eqb_spec r1 0) as [Hz|Hnz].
        { destruct (update_user_faults fuel (set_data z2 d1)
                      (zdrop (bs - st) u) 0 (count - (bs - st)))
            as (d2 & Hr2 & Hl2); try done; try lia.
          { change (prz_buffer_size (set_data z2 d1)) with bs.
            unfold INT_MAX. lia. }
          rewrite Hr2. cbv beta iota.
          apply (Hfin _ d2); [reflexivity|].
          simpl in Hl1, Hl2. congruence. }
        { unfold persistent_ram_update_user in Hr1.
          destruct (copy_from_user _ _ _ _) as [d0 unc] in Hr1.
          destruct (persistent_ram_update_ecc _ _ _ _) in Hr1; [|discriminate].
          injection Hr1 as _ Hret.
          destruct (unc =? 0); subst r1; [contradiction Hnz; reflexivity|].
          cbv beta iota.
          change (- EFAULT =? 0) with false. cbv iota.
          apply (Hfin _ d1); [reflexivity|]. simpl in Hl1. congruence. }
    + cbv beta iota. change (0 =? 0) with true. cbv iota.
      destruct (update_user_faults fuel z2 u st count)
        as (d1 & Hr1 & Hl1); try done; try lia.
      { change (prz_buffer_size z2) with bs. unfold INT_MAX. lia. }
      rewrite Hr1. cbv beta iota.
      apply (Hfin _ d1); [reflexivity|]. simpl in Hl1. congruence.
Qed.

Lemma write_user_matches_write_witness :
  persistent_ram_write_user 20 ecc_zone (map Some [1; 2; 3; 4; 5]) 5
  = persistent_ram_write 20 ecc_zone [1; 2; 3; 4; 5] 5 /\
  exists z',
    persistent_ram_write_user 20 ecc_zone [Some 1; None; Some 3] 3
    = Some (z', - EFAULT).
Proof.
  destruct (write_user_matches_write 20 ecc_zone 5 ecc_zone_wf ecc_zone_inv
              ltac:(unfold INT_MAX; lia) ltac:(vm_compute; lia)) as [Hok _].
  destruct (write_user_matches_write 20 ecc_zone 3 ecc_zone_wf ecc_zone_inv
              ltac:(unfold INT_MAX; lia) ltac:(vm_compute; lia)) as [_ Hbad].
  split.
  - apply (Hok [1; 2; 3; 4; 5]). vm_compute. congruence.
  - apply Hbad; vm_compute; [congruence | reflexivity].
Defined.

(** ** Records written through the ramoops backend *)

(** Appending to a zone that has not wrapped yet: [k] valid bytes from
    offset 0, and room for [count] more. *)
Lemma write_appends (fuel : nat) z (s : list Z) (count k : Z) :
  zone_wf z -> b_start (prz_buffer z) = k -> b_size (prz_buffer z) = k ->
  0 <= k -> 0 <= count <= zlen s -> k + count <= prz_buffer_size z ->
  k < prz_buffer_size z ->
  (Z.to_nat (2 * prz_buffer_size z) < fuel)%nat ->
  exists z',
    persistent_ram_write fuel z s count = Some (z', count) /\
    zone_wf z' /\ prz_buffer_size z' = prz_buffer_size z /\
    b_size (prz_buffer z') = k + count /\
    b_start (prz_buffer z') = (k + count) mod prz_buffer_size z /\
    logical_contents z' = logical_contents z ++ ztake count s /\
    prz_old_log z' = prz_old_log z /\
    prz_old_log_size z' = prz_old_log_size z /\
    prz_type z' = prz_type z /\ prz_ecc_info z' = prz_ecc_info z.
Proof.
  intros Hwf Hst Hsz Hk Hcount Hroom Hkbs Hfuel.
  pose proof Hwf as (Hbs & Hlen & _ & _ & Hecc). unfold INT_MAX in Hbs.
  set (bs := prz_buffer_size z) in *.
  assert (Hinv : cursor_inv z)
    by (apply range_cursor_inv; unfold INT_MAX; fold bs; lia).
  destruct (persistent_ram_write_steps fuel z s count Hwf Hinv ltac:(lia) Hfuel)
    as (d & Hw & Hd & Hdata).
  cbv zeta in Hw, Hdata. fold bs in Hw, Hdata.
  rewrite eff_len_payload in Hw, Hdata by (unfold INT_MAX; lia).
  rewrite to_int_small in Hw by lia.
  rewrite Hst, Hsz in Hw. rewrite Hst in Hdata.
  rewrite (Z.min_l count bs) in Hw, Hdata by lia.
  rewrite (Z.min_l (k + count) bs) in Hw by lia.
  assert (Hsrc : eff_src bs s count = s).
  { unfold eff_src. rewrite to_int_small, to_size_t_small by lia.
    destruct (Z.ltb_spec bs count); [lia | reflexivity]. }
  rewrite Hsrc in Hdata.
  set (z' := set_data (set_start (set_size z (k + count))
                         ((k + count) mod bs)) d) in *.
  assert (Hwf' : zone_wf z').
  { apply zone_wf_cursors; [exact Hwf | | lia | exact Hd].
    pose proof (Z.mod_pos_bound (k + count) bs ltac:(lia)). lia. }
  exists z'. split; [exact Hw|]. split; [exact Hwf'|].
  split; [reflexivity|]. split; [reflexivity|]. split; [reflexivity|].
  split; [|repeat split].
  (* the data area after the write *)
  set (l := ztake bs (b_data (prz_buffer z))) in *.
  set (q := ztake count s) in *.
  assert (Hl : length l = Z.to_nat bs)
    by (unfold l, ztake, zlen in *; rewrite length_take; lia).
  assert (Hq : length q = Z.to_nat count)
    by (unfold q, ztake, zlen in *; rewrite length_take; lia).
  assert (Hstore : ztake bs d = take (Z.to_nat k) l ++ q
                               ++ drop (Z.to_nat k + Z.to_nat count) l).
  { rewrite Hdata. unfold ring_store. rewrite Hl, Hq.
    destruct (Nat.ltb_spec (Z.to_nat bs - Z.to_nat k) (Z.to_nat count));
      [lia|].
    rewrite list_inserts_splice by lia. rewrite Hq. reflexivity. }
  assert (Hold : logical_contents z = take (Z.to_nat k) l).
  { unfold logical_contents, buffer_size, buffer_start. rewrite Hst, Hsz.
    rewrite (to_size_t_small k) by lia. rewrite Z.sub_diag.
    change (to_size_t 0) with 0.
    change (ztake 0 (zdrop k (b_data (prz_buffer z)))) with (@nil Z).
    cbn [app]. unfold l, ztake. rewrite take_take, Nat.min_l by lia. reflexivity. }
  rewrite Hold.
  assert (Hdlen : (Z.to_nat bs <= length d)%nat)
    by (unfold zlen in *; lia).
  unfold logical_contents, buffer_size, buffer_start.
  cbn [z' set_data set_start set_size set_buffer prz_buffer b_size b_start
       b_data].
  rewrite (to_size_t_small (k + count)) by lia.
  destruct (Z.eq_dec (k + count) bs) as [Hfull|Hnf].
  - rewrite Hfull, Z_mod_same_full. change (to_size_t 0) with 0.
    rewrite Z.sub_0_r, (to_size_t_small bs) by lia.
    change (zdrop 0 d) with d. change (ztake 0 d) with (@nil Z).
    rewrite app_nil_r.
    rewrite Hstore. rewrite drop_ge by lia. rewrite app_nil_r. reflexivity.
  - rewrite Z.mod_small by lia.
    rewrite (to_size_t_small (k + count)) by lia.
    rewrite Z.sub_diag. change (to_size_t 0) with 0.
    change (ztake 0 (zdrop (k + count) d)) with (@nil Z). cbn [app].
    assert (Ht : ztake (k + count) d = take (Z.to_nat (k + count)) (ztake bs d)).
    { unfold ztake. rewrite take_take, Nat.min_l by lia. reflexivity. }
    rewrite Ht, Hstore.
    rewrite app_assoc.
    rewrite take_app_length'; [reflexivity|].
    rewrite length_app, length_take, Hq. lia.
Qed.

(** The header [ramoops_write_kmsg_hdr] formats is never empty and fits
    its 36-byte array. *)
Lemma kmsg_hdr_bytes_length (record : pstore_record) :
  4 <= zlen (kmsg_hdr_bytes record) <= 35.
Proof.
  unfold kmsg_hdr_bytes, zlen. rewrite length_take.
  unfold kmsg_hdr_text, bytes_of_string. rewrite length_map.
  match goal with
  | |- context [("====" +:+ ?r)%string] =>
    change ("====" +:+ r)%string
      with (String "=" (String "=" (String "=" (String "=" r))))
  end.
  cbn [list_ascii_of_string Datatypes.length]. lia.
Qed.

Lemma logical_contents_zapped z d :
  logical_contents (set_data (set_size (set_start z 0) 0) d) = [].
Proof. reflexivity. Qed.

(** Writing the first part of a dump: the zone is emptied, then receives
    the header and as much of the payload as fits behind it. *)
Lemma ramoops_write_dmesg_spec (fuel : nat) (cpu : Z) (cxt : ramoops_context)
    (record : pstore_record) (przs : list persistent_ram_zone)
    (z : persistent_ram_zone) :
  rec_type record = PSTORE_TYPE_DMESG -> rec_part record = 1 ->
  cxt_dprzs cxt = Some przs -> 0 < cxt_max_dump_cnt cxt ->
  przs !! Z.to_nat (cxt_dump_write_cnt cxt) = Some z ->
  zone_wf z -> 35 < prz_buffer_size z ->
  0 <= rec_size record <= zlen (rec_bytes record) ->
  rec_size record < 2 ^ 63 ->
  (Z.to_nat (2 * prz_buffer_size z) < fuel)%nat ->
  exists z',
    ramoops_pstore_write fuel cpu cxt record
    = Some (set_dprzs cxt
              (Some (<[Z.to_nat (cxt_dump_write_cnt cxt) := z']> przs))
              (to_uint (cxt_dump_write_cnt cxt + 1) mod cxt_max_dump_cnt cxt),
            0) /\
    let n := Z.min (rec_size record)
               (prz_buffer_size z - zlen (kmsg_hdr_bytes record)) in
    logical_contents z'
    = kmsg_hdr_bytes record ++ ztake n (rec_bytes record) /\
    b_size (prz_buffer z') = zlen (kmsg_hdr_bytes record) + n /\
    b_start (prz_buffer z')
    = (zlen (kmsg_hdr_bytes record) + n) mod prz_buffer_size z /\
    zone_wf z' /\ prz_buffer_size z' = prz_buffer_size z /\
    prz_old_log z' = prz_old_log z /\
    prz_old_log_size z' = prz_old_log_size z /\
    prz_type z' = prz_type z /\ prz_ecc_info z' = prz_ecc_info z.
Proof.
  intros Ht Hp Hd Hmax Hz Hwf Hbig Hsize Hsize' Hfuel.
  pose proof (kmsg_hdr_bytes_length record) as Hh.
  set (hdr := kmsg_hdr_bytes record) in *.
  set (bs := prz_buffer_size z) in *.
  pose proof Hwf as (Hbs & _). unfold INT_MAX in Hbs. fold bs in Hbs.
  destruct (persistent_ram_zap_spec z Hwf) as (d0 & Hzap & Hd0 & _).
  set (z0 := set_data (set_size (set_start z 0) 0) d0) in *.
  assert (Hwf0 : zone_wf z0)
    by (apply zone_wf_cursors'; [exact Hwf | lia | lia | exact Hd0]).
  destruct (write_appends fuel z0 hdr (zlen hdr) 0 Hwf0 eq_refl eq_refl
              ltac:(lia) ltac:(lia) ltac:(change (prz_buffer_size z0) with bs; lia)
              ltac:(change (prz_buffer_size z0) with bs; lia) Hfuel)
    as (z1 & Hw1 & Hwf1 & Hbs1 & Hsz1 & Hst1 & Hlc1 & Ho1 & Hos1 & Hty1 & He1).
  change (prz_buffer_size z0) with bs in Hbs1, Hst1.
  rewrite Z.add_0_l in Hsz1, Hst1. rewrite Z.mod_small in Hst1 by lia.
  set (n := Z.min (rec_size record) (bs - zlen hdr)).
  assert (Hn : 0 <= n <= rec_size record /\ zlen hdr + n <= bs)
    by (unfold n; lia).
  destruct (write_appends fuel z1 (rec_bytes record) n (zlen hdr) Hwf1 Hst1 Hsz1
              ltac:(lia) ltac:(lia) ltac:(rewrite Hbs1; lia)
              ltac:(rewrite Hbs1; lia) ltac:(rewrite Hbs1; exact Hfuel))
    as (z2 & Hw2 & Hwf2 & Hbs2 & Hsz2 & Hst2 & Hlc2 & Ho2 & Hos2 & Hty2 & He2).
  exists z2. split.
  - unfold ramoops_pstore_write. rewrite Ht, Hp, Hd.
    change (PSTORE_TYPE_DMESG =? PSTORE_TYPE_CONSOLE) with false.
    change (PSTORE_TYPE_DMESG =? PSTORE_TYPE_FTRACE) with false.
    change (PSTORE_TYPE_DMESG =? PSTORE_TYPE_PMSG) with false.
    change (PSTORE_TYPE_DMESG =? PSTORE_TYPE_DMESG) with true.
    change (1 =? 1) with true. cbv [negb]. cbv iota zeta.
    rewrite Hz, Hzap. fold z0.
    unfold ramoops_write_kmsg_hdr. fold (kmsg_hdr_bytes record). fold hdr.
    cbv zeta. rewrite (to_uint_small (zlen hdr)) by lia. rewrite Hw1.
    cbn [fst]. destruct (Z.eqb_spec (zlen hdr) 0) as [H0|_]; [lia|].
    rewrite Hbs1.
    rewrite (to_size_t_small (rec_size record)) by lia.
    assert (Hcount :
      (if bs <? to_size_t (rec_size record + zlen hdr)
       then to_size_t (bs - zlen hdr) else rec_size record) = n).
    { unfold n.
      rewrite (to_size_t_small (rec_size record + zlen hdr)) by lia.
      rewrite (to_size_t_small (bs - zlen hdr)) by lia.
      destruct (Z.ltb_spec bs (rec_size record + zlen hdr)); lia. }
    rewrite Hcount. rewrite (to_uint_small n) by lia. rewrite Hw2.
    destruct (Z.eqb_spec (cxt_max_dump_cnt cxt) 0); [lia|].
    reflexivity.
  - cbv zeta. fold n. rewrite Hlc2, Hlc1. rewrite Hbs1 in Hst2.
    change (logical_contents z0) with (@nil Z).
    assert (Hfull : ztake (zlen hdr) hdr = hdr)
      by (unfold ztake, zlen; rewrite Nat2Z.id; apply firstn_all).
    rewrite Hfull. cbn [app].
    split; [reflexivity|]. split; [exact Hsz2|]. split; [exact Hst2|].
    split; [exact Hwf2|]. split; [rewrite Hbs2, Hbs1; reflexivity|].
    split; [rewrite Ho2, Ho1; reflexivity|].
    split; [rewrite Hos2, Hos1; reflexivity|].
    split; [rewrite Hty2, Hty1; reflexivity|].
    rewrite He2, He1; reflexivity.
Qed.

(** X11.  when the context has dmesg zones ([max_dump_cnt] is not 0),
    [ramoops_pstore_write] of the first part of a dump discards what the
    zone at the write cursor held, stores the header and behind it the
    payload, cut at its end to the room that is left, and advances the
    write cursor modulo the number of dmesg zones. *)
Theorem dmesg_record_layout (fuel : nat) (cpu : Z) (cxt : ramoops_context)
    (record : pstore_record) (przs : list persistent_ram_zone)
    (z : persistent_ram_zone) :
  rec_type record = PSTORE_TYPE_DMESG -> rec_part record = 1 ->
  cxt_dprzs cxt = Some przs -> 0 < cxt_max_dump_cnt cxt ->
  przs !! Z.to_nat (cxt_dump_write_cnt cxt) = Some z ->
  zone_wf z -> 35 < prz_buffer_size z ->
  0 <= rec_size record <= zlen (rec_bytes record) ->
  rec_size record < 2 ^ 63 ->
  (Z.to_nat (2 * prz_buffer_size z) < fuel)%nat ->
  exists z',
    ramoops_pstore_write fuel cpu cxt record
    = Some (set_dprzs cxt
              (Some (<[Z.to_nat (cxt_dump_write_cnt cxt) := z']> przs))
              (to_uint (cxt_dump_write_cnt cxt + 1) mod cxt_max_dump_cnt cxt),
            0) /\
    logical_contents z'
    = kmsg_hdr_bytes record
      ++ ztake (Z.min (rec_size record)
                  (prz_buffer_size z - zlen (kmsg_hdr_bytes record)))
           (rec_bytes record) /\
    buffer_size z'
    = zlen (kmsg_hdr_bytes record)
      + Z.min (rec_size record)
          (prz_buffer_size z - zlen (kmsg_hdr_bytes record)).
Proof.
  intros Ht Hp Hd Hmax Hz Hwf Hbig Hsize Hsize' Hfuel.
  destruct (ramoops_write_dmesg_spec fuel cpu cxt record przs z Ht Hp Hd Hmax
              Hz Hwf Hbig Hsize Hsize' Hfuel)
    as (z' & Hw & Hlc & Hsz & _).
  exists z'. split; [exact Hw|]. split; [exact Hlc|].
  unfold buffer_size. rewrite Hsz.
  pose proof (kmsg_hdr_bytes_length record) as Hh.
  destruct Hwf as (Hbs & _). unfold INT_MAX in Hbs.
  apply to_size_t_small. lia.
Qed.

(** A 30-byte dump into a 40-byte zone: the 15-byte header and the first
    25 bytes of the text. *)
Lemma dmesg_record_layout_witness :
  exists z',
    ramoops_pstore_write 100 0 (dmesg_cxt [empty_zone 40])
      (oops_record (count_up 30))
    = Some (set_dprzs (dmesg_cxt [empty_zone 40]) (Some [z']) 0, 0) /\
    logical_contents z'
    = bytes_of_string ("====0.000000-D" +:+ newline) ++ count_up 25 /\
    buffer_size z' = 40.
Proof.
  destruct (dmesg_record_layout 100 0 (dmesg_cxt [empty_zone 40])
              (oops_record (count_up 30)) [empty_zone 40] (empty_zone 40))
    as (z' & Hw & Hlc & Hsz).
  - reflexivity.
  - reflexivity.
  - reflexivity.
  - reflexivity.
  - reflexivity.
  - apply empty_zone_wf. unfold INT_MAX. lia.
  - reflexivity.
  - vm_compute. split; discriminate.
  - reflexivity.
  - vm_compute. lia.
  - exists z'. split; [exact Hw|]. split; [exact Hlc|exact Hsz].
Defined.

(** ** Records read back through the ramoops backend *)

Lemma unread_buffer_size z :
  unread_zone z -> buffer_size z = b_size (prz_buffer z).
Proof.
  intros (_ & _ & Hst & Hsz & Hbs & _). unfold INT_MAX in Hbs.
  unfold buffer_size. apply to_size_t_small. lia.
Qed.

Lemma next_prz_unread (fuel : nat) z (id : Z) (record : pstore_record) :
  unread_zone z -> prz_type z = PSTORE_TYPE_DMESG ->
  next_prz fuel z id record
  = Some (with_snapshot z, true,
          rec_set_type_id record PSTORE_TYPE_DMESG (to_size_t id)).
Proof.
  intros Hu Hty. pose proof (unread_buffer_size z Hu) as Hbsz.
  destruct Hu as (He & Hnone & Hst & Hsz & Hbs & Hd).
  destruct (save_old_fresh_no_ecc fuel z He Hnone ltac:(lia))
    as (log & Hs & Hlog).
  specialize (Hlog ltac:(lia) ltac:(lia) Hd). subst log.
  fold (with_snapshot z) in Hs.
  unfold next_prz. rewrite Hty.
  change (PSTORE_TYPE_DMESG =? PSTORE_TYPE_DMESG) with true. cbv iota.
  rewrite Hs.
  change (persistent_ram_old_size (with_snapshot z)) with (buffer_size z).
  change (prz_type (with_snapshot z)) with (prz_type z).
  rewrite Hty.
  destruct (Z.eqb_spec (buffer_size z) 0); [lia | reflexivity].
Qed.

Lemma prz_ok_snapshot z :
  unread_zone z -> prz_ok (Some (with_snapshot z)) = true.
Proof.
  intros Hu. pose proof (unread_buffer_size z Hu) as Hbsz.
  destruct Hu as (He & Hnone & Hst & Hsz & Hbs & Hd). unfold INT_MAX in Hbs.
  unfold prz_ok, persistent_ram_ecc_string.
  change (prz_ecc_info (with_snapshot z)) with (prz_ecc_info z).
  rewrite He. change (0 =? 0) with true. cbv iota. cbn [fst].
  change (persistent_ram_old_size (with_snapshot z)) with (buffer_size z).
  rewrite Hbsz, Z.add_0_r, to_size_t_small by lia.
  destruct (Z.eqb_spec (b_size (prz_buffer z)) 0); [lia | reflexivity].
Qed.

Lemma get_next_prz_unread (fuel : nat) (przs : list persistent_ram_zone)
    z (id : Z) (record : pstore_record) :
  0 <= id -> przs !! Z.to_nat id = Some z ->
  unread_zone z -> prz_type z = PSTORE_TYPE_DMESG ->
  ramoops_get_next_prz fuel (Some przs) id record
  = Some (Some (<[Z.to_nat id := with_snapshot z]> przs),
          Some (with_snapshot z),
          rec_set_type_id record PSTORE_TYPE_DMESG (to_size_t id)).
Proof.
  intros Hid Hz Hu Hty. unfold ramoops_get_next_prz, prz_at.
  destruct (Z.ltb_spec id 0); [lia|]. rewrite Hz.
  rewrite (next_prz_unread fuel z id record Hu Hty). reflexivity.
Qed.

Lemma read_dmesg_loop_found (henv : hdr_env) (fuel n : nat)
    (cxt : ramoops_context) (record : pstore_record)
    (przs : list persistent_ram_zone) z (hl0 sec usec t hl : Z) :
  cxt_dprzs cxt = Some przs ->
  0 <= cxt_dump_read_cnt cxt < cxt_max_dump_cnt cxt ->
  cxt_dump_read_cnt cxt < 2 ^ 31 ->
  przs !! Z.to_nat (cxt_dump_read_cnt cxt) = Some z ->
  unread_zone z -> prz_type z = PSTORE_TYPE_DMESG ->
  sscanf_hdr_typed henv (logical_contents z) = Some (sec, usec, t, hl) ->
  hl <> 0 ->
  read_dmesg_loop henv fuel (S n) cxt record None hl0
  = Some (set_dprzs (dump_read_advanced cxt)
            (Some (<[Z.to_nat (cxt_dump_read_cnt cxt) := with_snapshot z]>
                     przs))
            (cxt_dump_write_cnt cxt),
          rec_set_time
            (rec_set_type_id record PSTORE_TYPE_DMESG (cxt_dump_read_cnt cxt))
            sec (to_long (usec * 1000)) (t =? 67),
          Some (with_snapshot z), hl).
Proof.
  intros Hd Hi Hi' Hz Hu Hty Hscan Hhl.
  assert (Hsmall : to_size_t (cxt_dump_read_cnt cxt) = cxt_dump_read_cnt cxt)
    by (apply to_size_t_small; lia).
  assert (Hint : to_int (cxt_dump_read_cnt cxt) = cxt_dump_read_cnt cxt)
    by (apply to_int_small; lia).
  cbn [read_dmesg_loop]. cbv zeta.
  destruct (Z.ltb_spec (cxt_dump_read_cnt cxt) (cxt_max_dump_cnt cxt));
    [|lia].
  cbn [is_null andb]. fold (dump_read_advanced cxt).
  change (cxt_dprzs (dump_read_advanced cxt)) with (cxt_dprzs cxt).
  rewrite Hd, Hint.
  rewrite (get_next_prz_unread fuel przs z (cxt_dump_read_cnt cxt) record
             ltac:(lia) Hz Hu Hty).
  rewrite (prz_ok_snapshot z Hu). cbv [negb]. cbv iota.
  change (persistent_ram_old (with_snapshot z))
    with (Some (logical_contents z)).
  cbv iota beta. unfold ramoops_read_kmsg_hdr. rewrite Hscan.
  destruct (Z.eqb_spec hl 0) as [H0|_]; [contradiction|].
  rewrite Hsmall.
  destruct n as [|n]; cbn [read_dmesg_loop];
    rewrite andb_false_r; reflexivity.
Qed.

Lemma unread_contents_length z :
  unread_zone z -> zlen (logical_contents z) = b_size (prz_buffer z).
Proof.
  intros (_ & _ & Hst & Hsz & Hbs & Hd). unfold INT_MAX in Hbs.
  unfold logical_contents, buffer_size, buffer_start, zlen in *.
  rewrite (to_size_t_small (b_size _)) by lia.
  rewrite (to_size_t_small (b_start _)) by lia.
  rewrite (to_size_t_small (_ - _)) by lia.
  unfold ztake, zdrop. rewrite length_app, !length_take, length_drop. lia.
Qed.

(** The buffer [ramoops_pstore_read] returns when ECC is off: the bytes
    behind the header at the front of the block, the rest of the block as
    [kmalloc] left it. *)
Lemma read_buffer_no_ecc (src blk : list Z) (size : Z) :
  zlen src = size -> size <= zlen blk ->
  memcpy_at blk 0 src size = text_in_block src blk.
Proof.
  intros Hs Hb. unfold memcpy_at, text_in_block, ztake, zdrop, zlen in *.
  rewrite firstn_all2 by lia.
  change (Z.to_nat 0) with 0%nat.
  rewrite list_inserts_splice by lia.
  cbn [take app Nat.add]. rewrite Nat2Z.id. reflexivity.
Qed.

Lemma ramoops_read_dmesg_spec (henv : hdr_env) (fuel : nat)
    (cxt : ramoops_context) (record : pstore_record)
    (przs : list persistent_ram_zone) z (sec usec t hl : Z) (blk : list Z) :
  cxt_dprzs cxt = Some przs ->
  0 <= cxt_dump_read_cnt cxt < cxt_max_dump_cnt cxt ->
  cxt_dump_read_cnt cxt < 2 ^ 31 ->
  przs !! Z.to_nat (cxt_dump_read_cnt cxt) = Some z ->
  unread_zone z -> prz_type z = PSTORE_TYPE_DMESG ->
  sscanf_hdr_typed henv (logical_contents z) = Some (sec, usec, t, hl) ->
  0 < hl <= b_size (prz_buffer z) ->
  ram_kmalloc henv (b_size (prz_buffer z) - hl + 1) = Some blk ->
  b_size (prz_buffer z) - hl + 1 <= zlen blk ->
  (0 < fuel)%nat ->
  ramoops_pstore_read henv fuel cxt record
  = Some (set_dprzs (dump_read_advanced cxt)
            (Some (<[Z.to_nat (cxt_dump_read_cnt cxt) := with_snapshot z]>
                     przs))
            (cxt_dump_write_cnt cxt),
          b_size (prz_buffer z) - hl,
          dmesg_record_read record (cxt_dump_read_cnt cxt) sec usec t hl
            (logical_contents z) blk).
Proof.
  intros Hd Hi Hi' Hz Hu Hty Hscan Hhl Hk Hblk Hfuel.
  destruct fuel as [|n]; [lia|].
  pose proof (unread_buffer_size z Hu) as Hbsz.
  pose proof (unread_contents_length z Hu) as Hlen.
  pose proof (prz_ok_snapshot z Hu) as Hok.
  pose proof Hu as (He & Hnone & Hst & Hsz & Hbs & Hdat).
  unfold INT_MAX in Hbs.
  unfold ramoops_pstore_read.
  rewrite (read_dmesg_loop_found henv (S n) n cxt
             (rec_set_time record 0 0 false) przs z 0 sec usec t hl
             Hd Hi Hi' Hz Hu Hty Hscan ltac:(lia)).
  cbv beta iota zeta.
  repeat (rewrite Hok; cbn [negb]; cbv beta iota zeta).
  change (0 =? 0) with true. cbn [negb]. cbv beta iota.
  change (persistent_ram_old_size (with_snapshot z)) with (buffer_size z).
  change (persistent_ram_old (with_snapshot z))
    with (Some (logical_contents z)).
  assert (Hnotice : forall len,
            persistent_ram_ecc_string (with_snapshot z) len = (0, [])).
  { intros len. unfold persistent_ram_ecc_string.
    change (prz_ecc_info (with_snapshot z)) with (prz_ecc_info z).
    rewrite He. reflexivity. }
  rewrite !Hnotice. cbn [fst snd].
  rewrite Hbsz, (to_size_t_small hl) by lia.
  rewrite (to_long_small (b_size (prz_buffer z) - hl)) by lia.
  rewrite Z.add_0_r.
  rewrite (to_size_t_small (b_size (prz_buffer z) - hl + 1)) by lia.
  rewrite Hk.
  destruct (Z.ltb_spec (b_size (prz_buffer z) - hl) 0); [lia|].
  destruct (Z.ltb_spec hl 0); [lia|].
  destruct (Z.ltb_spec (zlen blk) (b_size (prz_buffer z) - hl + 1)); [lia|].
  cbn [orb first_record]. cbv beta iota.
  rewrite read_buffer_no_ecc
    by (unfold zdrop, zlen in *; rewrite ?length_drop; lia).
  unfold list_inserts at 1. cbn [foldr].
  reflexivity.
Qed.

(** X12.  a dump written by [ramoops_pstore_write] into the first dmesg zone
    is what [ramoops_pstore_read] returns after [ramoops_pstore_open], in
    the same boot and with ECC off, when [kmalloc] hands out a block [blk]
    for the record buffer.  The zone must have no snapshot pending.  The
    return value is the length of the text read back: the header and the
    stored part of the payload without the first [hl] bytes, [hl] being
    the header length [sscanf] reports for it.  The text lies at the front
    of the buffer; the byte behind it is not written (with ECC off no NUL
    is stored), so the buffer ends as [kmalloc] left it.  The time and the
    compression mark are those [sscanf] found. *)
Theorem dmesg_write_read_round_trip (henv : hdr_env) (fuel : nat) (cpu : Z)
    (cxt : ramoops_context) (record into : pstore_record)
    (przs : list persistent_ram_zone) (z : persistent_ram_zone)
    (sec usec t hl : Z) (blk : list Z) :
  rec_type record = PSTORE_TYPE_DMESG -> rec_part record = 1 ->
  cxt_dprzs cxt = Some przs -> cxt_dump_write_cnt cxt = 0 ->
  0 < cxt_max_dump_cnt cxt ->
  przs !! 0%nat = Some z ->
  zone_wf z -> 35 < prz_buffer_size z ->
  prz_type z = PSTORE_TYPE_DMESG -> ecc_size (prz_ecc_info z) = 0 ->
  prz_old_log z = None ->
  0 <= rec_size record <= zlen (rec_bytes record) ->
  rec_size record < 2 ^ 63 ->
  let stored :=
    kmsg_hdr_bytes record
    ++ ztake (Z.min (rec_size record)
                (prz_buffer_size z - zlen (kmsg_hdr_bytes record)))
         (rec_bytes record) in
  sscanf_hdr_typed henv stored = Some (sec, usec, t, hl) ->
  0 < hl <= zlen stored ->
  ram_kmalloc henv (zlen stored - hl + 1) = Some blk ->
  zlen stored - hl + 1 <= zlen blk ->
  (Z.to_nat (2 * prz_buffer_size z) < fuel)%nat ->
  exists cxt1 cxt2,
    ramoops_pstore_write fuel cpu cxt record = Some (cxt1, 0) /\
    ramoops_pstore_read henv fuel (fst (ramoops_pstore_open cxt1)) into
    = Some (cxt2, zlen stored - hl,
            dmesg_record_read into 0 sec usec t hl stored blk) /\
    rec_buf (dmesg_record_read into 0 sec usec t hl stored blk)
    = Some (zdrop hl stored ++ zdrop (zlen stored - hl) blk).
Proof.
  intros Ht Hp Hd Hw0 Hmax Hz Hwf Hbig Hty He Hnone Hsize Hsize' stored
    Hscan Hhl Hk Hblk Hfuel.
  rewrite <- (Z2Nat.inj_0) in Hz. rewrite <- Hw0 in Hz.
  destruct (ramoops_write_dmesg_spec fuel cpu cxt record przs z Ht Hp Hd Hmax
              Hz Hwf Hbig Hsize Hsize' Hfuel)
    as (z' & Hw & Hlc & Hsz & Hst & Hwf' & Hbs' & Ho' & _ & Hty' & He').
  cbv zeta in Hlc, Hsz, Hst. fold stored in Hlc.
  pose proof (kmsg_hdr_bytes_length record) as Hh.
  pose proof Hwf as (Hbs & _). unfold INT_MAX in Hbs.
  set (n := Z.min (rec_size record)
              (prz_buffer_size z - zlen (kmsg_hdr_bytes record))) in *.
  assert (Hn : 0 <= n /\ zlen (kmsg_hdr_bytes record) + n <= prz_buffer_size z)
    by (unfold n; lia).
  assert (Hstored : zlen stored = zlen (kmsg_hdr_bytes record) + n).
  { unfold stored, zlen, ztake in *. rewrite length_app, length_take. lia. }
  assert (Hu : unread_zone z').
  { pose proof Hwf' as (_ & Hd' & _).
    unfold unread_zone. rewrite He', He, Ho', Hnone, Hsz, Hst, Hbs'.
    split; [reflexivity|]. split; [reflexivity|].
    pose proof (Z.mod_pos_bound (zlen (kmsg_hdr_bytes record) + n)
                  (prz_buffer_size z) ltac:(lia)).
    pose proof (Z.mod_le (zlen (kmsg_hdr_bytes record) + n)
                  (prz_buffer_size z) ltac:(lia) ltac:(lia)).
    unfold INT_MAX. rewrite Hbs' in Hd'. lia. }
  eexists. eexists. split; [exact Hw|].
  split.
  2:{ cbn [dmesg_record_read rec_buf]. unfold text_in_block. do 3 f_equal.
      unfold zlen, zdrop in *. rewrite length_drop. lia. }
  rewrite Hw0.
  rewrite (ramoops_read_dmesg_spec henv fuel _ into (<[0%nat := z']> przs) z'
             sec usec t hl blk).
  - rewrite Hlc, Hsz, Hstored. reflexivity.
  - reflexivity.
  - cbn [ramoops_pstore_open fst set_read_cnts set_dprzs cxt_dump_read_cnt
         cxt_max_dump_cnt]. lia.
  - reflexivity.
  - change (Z.to_nat _) with 0%nat.
    apply list_lookup_insert_eq. apply lookup_lt_Some in Hz.
    rewrite Hw0 in Hz. exact Hz.
  - exact Hu.
  - rewrite Hty'. exact Hty.
  - rewrite Hlc. exact Hscan.
  - rewrite Hsz, <- Hstored. exact Hhl.
  - rewrite Hsz, <- Hstored. exact Hk.
  - rewrite Hsz, <- Hstored. exact Hblk.
  - lia.
Qed.

(** The text "Oops" written at time 0 into an empty zone of 40 bytes, and
    read back into a block of five bytes 0x6b: the fifth is still 0x6b. *)
Lemma dmesg_write_read_round_trip_witness :
  exists cxt1 cxt2,
    ramoops_pstore_write 100 0 (dmesg_cxt [empty_zone 40])
      (oops_record [79; 111; 112; 115])
    = Some (cxt1, 0) /\
    ramoops_pstore_read decimal_hdr_env 100 (fst (ramoops_pstore_open cxt1))
      blank_record
    = Some (cxt2, 4,
            mk_record PSTORE_TYPE_DMESG 0 0 0 (Some [79; 111; 112; 115; 107])
              0 0 0 0 0 false).
Proof.
  destruct (dmesg_write_read_round_trip decimal_hdr_env 100 0
              (dmesg_cxt [empty_zone 40]) (oops_record [79; 111; 112; 115])
              blank_record [empty_zone 40] (empty_zone 40) 0 0 68 15
              (replicate 5 107))
    as (cxt1 & cxt2 & Hw & Hr & _).
  - reflexivity.
  - reflexivity.
  - reflexivity.
  - reflexivity.
  - reflexivity.
  - reflexivity.
  - apply empty_zone_wf. unfold INT_MAX. lia.
  - reflexivity.
  - reflexivity.
  - reflexivity.
  - reflexivity.
  - vm_compute. split; discriminate.
  - reflexivity.
  - vm_compute. reflexivity.
  - vm_compute. split; [reflexivity | discriminate].
  - reflexivity.
  - vm_compute. discriminate.
  - vm_compute. lia.
  - exists cxt1, cxt2. split; [exact Hw | exact Hr].
Defined.

Lemma read_dmesg_loop_headerless (henv : hdr_env) (fuel n : nat)
    (cxt : ramoops_context) (record : pstore_record)
    (przs : list persistent_ram_zone) z (hl0 : Z) :
  cxt_dprzs cxt = Some przs ->
  0 <= cxt_dump_read_cnt cxt < 2 ^ 31 ->
  cxt_dump_read_cnt cxt + 1 = cxt_max_dump_cnt cxt ->
  przs !! Z.to_nat (cxt_dump_read_cnt cxt) = Some z ->
  unread_zone z -> prz_type z = PSTORE_TYPE_DMESG ->
  sscanf_hdr_typed henv (logical_contents z) = None ->
  sscanf_hdr_plain henv (logical_contents z) = None ->
  read_dmesg_loop henv fuel (S n) cxt record None hl0
  = Some (set_dprzs (dump_read_advanced cxt)
            (Some (<[Z.to_nat (cxt_dump_read_cnt cxt) := wiped z]> przs))
            (cxt_dump_write_cnt cxt),
          rec_set_time
            (rec_set_type_id record PSTORE_TYPE_DMESG (cxt_dump_read_cnt cxt))
            0 0 false,
          None, 0).
Proof.
  intros Hd Hi Hlast Hz Hu Hty Hs1 Hs2.
  assert (Hsmall : to_size_t (cxt_dump_read_cnt cxt) = cxt_dump_read_cnt cxt)
    by (apply to_size_t_small; lia).
  assert (Hint : to_int (cxt_dump_read_cnt cxt) = cxt_dump_read_cnt cxt)
    by (apply to_int_small; lia).
  assert (Hadv : to_uint (cxt_dump_read_cnt cxt + 1) = cxt_max_dump_cnt cxt)
    by (rewrite <- Hlast; apply to_uint_small; lia).
  cbn [read_dmesg_loop]. cbv zeta.
  destruct (Z.ltb_spec (cxt_dump_read_cnt cxt) (cxt_max_dump_cnt cxt));
    [|lia].
  cbn [is_null andb]. fold (dump_read_advanced cxt).
  change (cxt_dprzs (dump_read_advanced cxt)) with (cxt_dprzs cxt).
  rewrite Hd, Hint.
  rewrite (get_next_prz_unread fuel przs z (cxt_dump_read_cnt cxt) record
             ltac:(lia) Hz Hu Hty).
  rewrite (prz_ok_snapshot z Hu). cbv [negb]. cbv iota.
  change (persistent_ram_old (with_snapshot z))
    with (Some (logical_contents z)).
  cbv iota beta. unfold ramoops_read_kmsg_hdr. rewrite Hs1, Hs2.
  change (0 =? 0) with true. cbv iota.
  destruct Hu as (He & _).
  rewrite (zap_no_ecc (persistent_ram_free_old (with_snapshot z)) He).
  rewrite Hsmall.
  assert (Hins :
    set_dump_zone
      (set_dprzs (dump_read_advanced cxt)
         (Some (<[Z.to_nat (cxt_dump_read_cnt cxt) := with_snapshot z]> przs))
         (cxt_dump_write_cnt (dump_read_advanced cxt)))
      (cxt_dump_read_cnt cxt)
      (set_size (set_start (persistent_ram_free_old (with_snapshot z)) 0) 0)
    = set_dprzs (dump_read_advanced cxt)
        (Some (<[Z.to_nat (cxt_dump_read_cnt cxt) := wiped z]> przs))
        (cxt_dump_write_cnt cxt)).
  { unfold set_dump_zone.
    cbn [cxt_dprzs set_dprzs option_map cxt_dump_write_cnt dump_read_advanced
         set_read_cnts].
    rewrite list_insert_insert_eq. reflexivity. }
  rewrite Hins.
  destruct n as [|n]; cbn [read_dmesg_loop];
    change (cxt_dump_read_cnt (set_dprzs (dump_read_advanced cxt) _ _))
      with (to_uint (cxt_dump_read_cnt cxt + 1));
    change (cxt_max_dump_cnt (set_dprzs (dump_read_advanced cxt) _ _))
      with (cxt_max_dump_cnt cxt);
    rewrite Hadv, Z.ltb_irrefl; reflexivity.
Qed.

(** X13.  reading destroys a dump that has no header.  When the last dmesg
    zone holds bytes in which [sscanf] finds neither form of the header,
    [ramoops_pstore_read] returns 0 (nothing to read) and leaves that zone
    wiped: cursors at 0 and no snapshot.  This is shown for a context that
    has no console, pmsg or ftrace zone and whose read cursors for them
    are still 0. *)
Theorem headerless_dump_wiped_by_read (henv : hdr_env) (fuel : nat)
    (cxt : ramoops_context) (record : pstore_record)
    (przs : list persistent_ram_zone) (z : persistent_ram_zone) :
  cxt_dprzs cxt = Some przs ->
  0 <= cxt_dump_read_cnt cxt < 2 ^ 31 ->
  cxt_dump_read_cnt cxt + 1 = cxt_max_dump_cnt cxt ->
  przs !! Z.to_nat (cxt_dump_read_cnt cxt) = Some z ->
  unread_zone z -> prz_type z = PSTORE_TYPE_DMESG ->
  sscanf_hdr_typed henv (logical_contents z) = None ->
  sscanf_hdr_plain henv (logical_contents z) = None ->
  cxt_cprz cxt = None -> cxt_mprz cxt = None -> cxt_fprzs cxt = None ->
  cxt_console_read_cnt cxt = 0 -> cxt_pmsg_read_cnt cxt = 0 ->
  cxt_ftrace_read_cnt cxt = 0 ->
  Z.land (cxt_flags cxt) RAMOOPS_FLAG_FTRACE_PER_CPU = 0 ->
  (0 < fuel)%nat ->
  exists cxt' record',
    ramoops_pstore_read henv fuel cxt record = Some (cxt', 0, record') /\
    cxt_dprzs cxt'
    = Some (<[Z.to_nat (cxt_dump_read_cnt cxt) := wiped z]> przs) /\
    rec_buf record' = rec_buf record.
Proof.
  intros Hd Hi Hlast Hz Hu Hty Hs1 Hs2 Hc Hm Hf Hcc Hpc Hfc Hflag Hfuel.
  destruct fuel as [|n]; [lia|].
  unfold ramoops_pstore_read.
  rewrite (read_dmesg_loop_headerless henv (S n) n cxt
             (rec_set_time record 0 0 false) przs z 0
             Hd Hi Hlast Hz Hu Hty Hs1 Hs2).
  cbv beta iota zeta.
  repeat (progress
    (cbn [prz_ok negb is_null cxt_console_read_cnt cxt_pmsg_read_cnt
          cxt_ftrace_read_cnt cxt_cprz cxt_mprz cxt_fprzs cxt_flags set_dprzs
          set_cprz set_mprz set_fprzs set_read_cnts dump_read_advanced
          ramoops_get_next_single ramoops_get_next_prz];
     rewrite ?Hcc, ?Hpc, ?Hfc, ?Hc, ?Hm, ?Hf, ?Hflag;
     change (0 =? 0) with true; cbv beta iota)).
  eexists. eexists. split; [reflexivity|]. split; reflexivity.
Qed.

(** The zone [headerless_zone] as the only dmesg zone: after the read it
    is empty, and a second look finds nothing to snapshot. *)
Lemma headerless_dump_wiped_by_read_witness :
  exists cxt' record',
    ramoops_pstore_read no_hdr_env 1 (dmesg_cxt [headerless_zone])
      blank_record
    = Some (cxt', 0, record') /\
    cxt_dprzs cxt' = Some [wiped headerless_zone] /\
    rec_buf record' = None.
Proof.
  destruct (headerless_dump_wiped_by_read no_hdr_env 1
              (dmesg_cxt [headerless_zone]) blank_record [headerless_zone]
              headerless_zone)
    as (cxt' & record' & Hr & Hz & Hb).
  - reflexivity.
  - vm_compute. split; [discriminate | reflexivity].
  - reflexivity.
  - reflexivity.
  - unfold unread_zone, INT_MAX. vm_compute.
    repeat split; try reflexivity; discriminate.
  - reflexivity.
  - reflexivity.
  - reflexivity.
  - reflexivity.
  - reflexivity.
  - reflexivity.
  - reflexivity.
  - reflexivity.
  - reflexivity.
  - reflexivity.
  - lia.
  - exists cxt', record'. split; [exact Hr|]. split; [exact Hz | exact Hb].
Defined.

(** ** Erasing records *)

Lemma erase_zone_spec z :
  zone_wf z ->
  exists z',
    persistent_ram_zap (persistent_ram_free_old z) = Some z' /\
    buffer_size z' = 0 /\ buffer_start z' = 0 /\
    persistent_ram_old z' = None /\ persistent_ram_old_size z' = 0 /\
    prz_buffer_size z' = prz_buffer_size z /\
    ztake (prz_buffer_size z) (b_data (prz_buffer z'))
    = ztake (prz_buffer_size z) (b_data (prz_buffer z)) /\
    forall (fuel : nat) (id : Z) (record : pstore_record),
      next_prz fuel z' id record = Some (z', false, record).
Proof.
  intros Hwf.
  assert (Hwf' : zone_wf (persistent_ram_free_old z)) by exact Hwf.
  destruct (persistent_ram_zap_spec _ Hwf') as (d & Hzap & Hlen & Hdata).
  eexists. split; [exact Hzap|].
  split; [reflexivity|]. split; [reflexivity|]. split; [reflexivity|].
  split; [reflexivity|]. split; [reflexivity|]. split; [exact Hdata|].
  intros fuel id record. unfold next_prz.
  assert (Hsave : forall z0, buffer_size z0 = 0 ->
            persistent_ram_save_old fuel z0 = Some z0).
  { intros z0 H0. unfold persistent_ram_save_old. rewrite H0. reflexivity. }
  rewrite Hsave by reflexivity.
  match goal with
  | |- context [if ?c then Some ?a else Some ?a] =>
    replace (if c then Some a else Some a) with (Some a) by (destruct c; reflexivity)
  end.
  reflexivity.
Qed.

(** X14.  [ramoops_pstore_erase] of a dmesg record whose id is below the
    number of dmesg zones returns 0 and forgets the record: the zone's
    cursors are 0 and its snapshot is freed, so that a later
    [ramoops_get_next_prz] finds nothing in it.  The bytes of the record
    are not overwritten: the data area reads as before.  The other zones
    and the cursors of the context are as they were. *)
Theorem erase_forgets_dmesg_record (cxt : ramoops_context)
    (record : pstore_record) (przs : list persistent_ram_zone)
    (z : persistent_ram_zone) :
  rec_type record = PSTORE_TYPE_DMESG ->
  0 <= rec_id record < cxt_max_dump_cnt cxt ->
  cxt_dprzs cxt = Some przs ->
  przs !! Z.to_nat (rec_id record) = Some z -> zone_wf z ->
  exists z',
    ramoops_pstore_erase cxt record
    = Some (set_dprzs cxt (Some (<[Z.to_nat (rec_id record) := z']> przs))
              (cxt_dump_write_cnt cxt), 0) /\
    buffer_size z' = 0 /\ buffer_start z' = 0 /\
    persistent_ram_old z' = None /\
    ztake (prz_buffer_size z) (b_data (prz_buffer z'))
    = ztake (prz_buffer_size z) (b_data (prz_buffer z)) /\
    forall (fuel : nat) (r : pstore_record),
      ramoops_get_next_prz fuel
        (Some (<[Z.to_nat (rec_id record) := z']> przs)) (rec_id record) r
      = Some (Some (<[Z.to_nat (rec_id record) := z']> przs), None, r).
Proof.
  intros Hty Hid Hd Hz Hwf.
  destruct (erase_zone_spec z Hwf)
    as (z' & Hzap & Hsz & Hst & Hold & _ & _ & Hdata & Hnext).
  exists z'. split.
  - unfold ramoops_pstore_erase. rewrite Hty.
    change (PSTORE_TYPE_DMESG =? PSTORE_TYPE_DMESG) with true. cbv iota.
    destruct (Z.leb_spec (cxt_max_dump_cnt cxt) (rec_id record)); [lia|].
    rewrite Hd, Hz, Hzap. reflexivity.
  - split; [exact Hsz|]. split; [exact Hst|]. split; [exact Hold|].
    split; [exact Hdata|]. intros fuel r.
    unfold ramoops_get_next_prz, prz_at.
    destruct (Z.ltb_spec (rec_id record) 0); [lia|].
    rewrite list_lookup_insert_eq by (apply lookup_lt_Some in Hz; exact Hz).
    rewrite Hnext. rewrite list_insert_insert_eq. reflexivity.
Qed.

(** Erasing the record of a zone that holds the bytes 1, 2 and their
    snapshot: the snapshot goes, the bytes stay. *)
Lemma erase_forgets_dmesg_record_witness :
  exists z',
    ramoops_pstore_erase (dmesg_cxt [kept_snapshot_zone]) blank_record
    = Some (set_dprzs (dmesg_cxt [kept_snapshot_zone]) (Some [z']) 0, 0) /\
    buffer_size z' = 0 /\ persistent_ram_old z' = None /\
    ztake 4 (b_data (prz_buffer z')) = [1; 2; 0; 0].
Proof.
  destruct (erase_forgets_dmesg_record (dmesg_cxt [kept_snapshot_zone])
              blank_record [kept_snapshot_zone] kept_snapshot_zone)
    as (z' & He & Hsz & _ & Hold & Hdata & _).
  - reflexivity.
  - vm_compute. split; [discriminate | reflexivity].
  - reflexivity.
  - reflexivity.
  - unfold zone_wf, ecc_ok, INT_MAX. vm_compute.
    repeat split; try discriminate. left. reflexivity.
  - exists z'. split; [exact He|]. split; [exact Hsz|].
    split; [exact Hold | exact Hdata].
Defined.

(** ** Type names *)

Lemma name_to_type_from_range (names : list string) (name : string) (i : Z) :
  name_to_type_from i names name <> PSTORE_TYPE_MAX ->
  i <= name_to_type_from i names name < i + zlen names /\
  names !! Z.to_nat (name_to_type_from i names name - i) = Some name.
Proof.
  revert i. induction names as [|n rest IH]; intros i Hne.
  - contradiction Hne. reflexivity.
  - cbn [name_to_type_from] in *. unfold zlen. cbn [length].
    destruct (String.eqb_spec n name) as [->|Hn].
    + rewrite Z.sub_diag. split; [lia | reflexivity].
    + destruct (IH (i + 1) Hne) as [Hr Hl]. unfold zlen in Hr.
      split; [lia|].
      replace (Z.to_nat (name_to_type_from (i + 1) rest name - i))
        with (S (Z.to_nat (name_to_type_from (i + 1) rest name - (i + 1))))
        by lia.
      exact Hl.
Qed.

(** X15.  the two directions of the type-name table agree.  Every type below
    [PSTORE_TYPE_MAX] is found again from its name, every name that
    [pstore_name_to_type] knows is the name of the type it returns, and
    the name given to out-of-range types, "unknown", is not a type name. *)
Theorem type_name_round_trip :
  (forall type : Z, 0 <= type < PSTORE_TYPE_MAX ->
     pstore_name_to_type (pstore_type_to_name type) = type) /\
  (forall name : string, pstore_name_to_type name <> PSTORE_TYPE_MAX ->
     pstore_type_to_name (pstore_name_to_type name) = name) /\
  (forall type : Z, PSTORE_TYPE_MAX <= to_uint type ->
     pstore_name_to_type (pstore_type_to_name type) = PSTORE_TYPE_MAX).
Proof.
  split; [|split].
  - intros type Ht. unfold PSTORE_TYPE_MAX in Ht.
    assert (Hc : type = 0 \/ type = 1 \/ type = 2 \/ type = 3 \/ type = 4 \/
                 type = 5 \/ type = 6 \/ type = 7 \/ type = 8) by lia.
    destruct Hc as [->|[->|[->|[->|[->|[->|[->|[->| ->]]]]]]]];
      vm_compute; reflexivity.
  - intros name Hne. unfold pstore_name_to_type in *.
    destruct (name_to_type_from_range pstore_type_names name 0 Hne)
      as [Hr Hl].
    rewrite Z.sub_0_r in Hl. change (zlen pstore_type_names) with 9 in Hr.
    unfold pstore_type_to_name.
    rewrite to_uint_small by lia.
    destruct (Z.leb_spec PSTORE_TYPE_MAX
                (name_to_type_from 0 pstore_type_names name)) as [Hge|_].
    { unfold PSTORE_TYPE_MAX in Hge. lia. }
    rewrite Hl. reflexivity.
  - intros type Ht. unfold pstore_type_to_name.
    destruct (Z.leb_spec PSTORE_TYPE_MAX (to_uint type)); [|lia].
    vm_compute. reflexivity.
Qed.

Lemma type_name_round_trip_witness :
  pstore_name_to_type (pstore_type_to_name PSTORE_TYPE_PMSG)
  = PSTORE_TYPE_PMSG /\
  pstore_type_to_name (pstore_name_to_type "console") = "console"%string /\
  pstore_name_to_type (pstore_type_to_name 12) = PSTORE_TYPE_MAX.
Proof.
  destruct type_name_round_trip as (H1 & H2 & H3).
  split; [|split].
  - apply (H1 PSTORE_TYPE_PMSG). vm_compute. split; [discriminate|reflexivity].
  - apply (H2 "console"%string). vm_compute. discriminate.
  - apply (H3 12). vm_compute. discriminate.
Defined.

(** ** The uncompressed fallback of a dump *)

Lemma list_inserts_front (q l : list Z) :
  (length q <= length l)%nat ->
  list_inserts 0 q l = q ++ drop (length q) l.
Proof.
  intros H. rewrite list_inserts_splice by lia. reflexivity.
Qed.

(** X16.  when compression fails, [copy_kmsg_to_buffer] moves the dump from
    [big_oops_buf] to the backend's buffer.  It always keeps the whole
    header; of the text behind it, it keeps everything when header and
    text fit in [bufsize] bytes, and otherwise the newest bytes, as many as
    fit behind the header.  The bytes of the buffer behind the result are
    left as they were. *)
Theorem copy_kmsg_keeps_header_and_newest (buf big : list Z)
    (bufsize hsize len : Z) :
  0 <= hsize <= bufsize -> 0 <= len -> bufsize <= zlen buf ->
  hsize + len <= zlen big -> zlen big < 2 ^ 63 -> zlen buf < 2 ^ 63 ->
  let text := ztake len (zdrop hsize big) in
  let n := Z.min (hsize + len) bufsize in
  copy_kmsg_to_buffer buf big bufsize hsize len
  = (ztake hsize big ++ lastn (Z.to_nat (n - hsize)) text ++ zdrop n buf, n).
Proof.
  intros Hh Hl Hb Hbig Hbig' Hbuf' text n.
  assert (Htext : length text = Z.to_nat len).
  { unfold text, ztake, zdrop, zlen in *.
    rewrite length_take, length_drop. lia. }
  unfold copy_kmsg_to_buffer. cbv zeta.
  rewrite (to_size_t_small hsize) by (unfold zlen in *; lia).
  rewrite (to_size_t_small (hsize + len)) by (unfold zlen in *; lia).
  destruct (Z.ltb_spec bufsize (hsize + len)) as [Hlt|Hge].
  - assert (Hn : n = bufsize) by (unfold n; lia).
    rewrite Hn.
    rewrite (to_size_t_small (hsize + len - bufsize))
      by (unfold zlen in *; lia).
    rewrite (to_size_t_small (hsize + len - bufsize + hsize))
      by (unfold zlen in *; lia).
    rewrite (to_size_t_small (bufsize - hsize)) by (unfold zlen in *; lia).
    f_equal. unfold memcpy_at. change (Z.to_nat 0) with 0%nat.
    set (h := ztake hsize big).
    assert (Hhl : length h = Z.to_nat hsize).
    { unfold h, ztake, zlen in *. rewrite length_take. lia. }
    rewrite (list_inserts_front h buf) by (unfold zlen in *; lia).
    set (q := ztake (bufsize - hsize)
                (zdrop (hsize + len - bufsize + hsize) big)).
    assert (Hq : length q = Z.to_nat (bufsize - hsize)).
    { unfold q, ztake, zdrop, zlen in *.
      rewrite length_take, length_drop. lia. }
    rewrite list_inserts_splice
      by (rewrite length_app, length_drop, Hhl, Hq; unfold zlen in *; lia).
    rewrite take_app_length' by lia.
    rewrite drop_app_ge by lia. rewrite drop_drop.
    assert (Hlast : lastn (Z.to_nat (bufsize - hsize)) text = q).
    { unfold lastn. rewrite Htext. unfold text, q, ztake, zdrop.
      rewrite skipn_firstn_comm, drop_drop. f_equal; [lia|].
      f_equal. lia. }
    rewrite Hlast. do 2 f_equal. unfold zdrop. f_equal. lia.
  - assert (Hn : n = hsize + len) by (unfold n; lia).
    rewrite Hn. f_equal. unfold memcpy_at. change (Z.to_nat 0) with 0%nat.
    replace (hsize + len - hsize) with len by lia.
    rewrite lastn_ge by lia.
    assert (Hsplit : ztake (hsize + len) big = ztake hsize big ++ text).
    { unfold text, ztake, zdrop.
      replace (Z.to_nat (hsize + len))
        with (Z.to_nat hsize + Z.to_nat len)%nat by lia.
      rewrite take_take_drop. reflexivity. }
    rewrite Hsplit.
    rewrite list_inserts_front.
    + rewrite <- app_assoc. do 2 f_equal. unfold zdrop. f_equal.
      rewrite length_app, Htext. unfold ztake, zlen in *.
      rewrite length_take. lia.
    + rewrite length_app, Htext. unfold ztake, zlen in *.
      rewrite length_take. lia.
Qed.

(** A 6-byte buffer, a 3-byte header and 5 bytes of text: the header and
    the last 3 bytes of the text. *)
Lemma copy_kmsg_keeps_header_and_newest_witness :
  copy_kmsg_to_buffer (replicate 6 0) [72; 72; 72; 1; 2; 3; 4; 5; 0; 0] 6 3 5
  = ([72; 72; 72; 3; 4; 5], 6).
Proof.
  apply (copy_kmsg_keeps_header_and_newest (replicate 6 0)
           [72; 72; 72; 1; 2; 3; 4; 5; 0; 0] 6 3 5).
  - lia.
  - lia.
  - vm_compute. discriminate.
  - vm_compute. discriminate.
  - vm_compute. reflexivity.
  - vm_compute. reflexivity.
Defined.

(** ** The console and pmsg frontends over ramoops *)

(** X17.  console output reaches the console zone.  With the ramoops backend
    active, [pstore_console_write] of a non-empty text appends it to the
    zone [cprz]: read from the start cursor, the zone then holds the last
    [buffer_size] bytes of what it held followed by the text.  Nothing
    else of the backend or of platform.c changes. *)
Theorem console_write_reaches_zone (env : kernel_env) (fuel : nat) (cpu : Z)
    (st : pstore_state ramoops_context) (psi : pstore_info ramoops_context)
    (z : persistent_ram_zone) (s : list Z) :
  psinfo st = Some psi ->
  psi_write psi = Some (fun record c => ramoops_pstore_write fuel cpu c record) ->
  cxt_cprz (psi_data psi) = Some z ->
  zone_wf z -> cursor_inv z -> 0 < zlen s <= INT_MAX ->
  (Z.to_nat (2 * prz_buffer_size z) < fuel)%nat ->
  exists z',
    pstore_console_write env st s (zlen s)
    = Some (set_psinfo st
              (Some (psi_set_data psi (set_cprz (psi_data psi) (Some z'))))) /\
    ring z' = lastn (Z.to_nat (prz_buffer_size z)) (ring z ++ s) /\
    zone_wf z' /\ cursor_inv z'.
Proof.
  intros Hpsi Hw Hc Hwf Hinv Hs Hfuel.
  destruct (persistent_ram_write_payload fuel z s Hwf Hinv ltac:(lia) Hfuel)
    as (z' & Hwr & Hwf' & Hinv' & _ & _ & _ & Hring).
  exists z'. split; [|split; [exact Hring|split; assumption]].
  unfold pstore_console_write.
  destruct (Z.eqb_spec (zlen s) 0); [lia|].
  rewrite Hpsi, Hw. unfold ramoops_pstore_write.
  change (rec_type (console_record env s (zlen s))) with PSTORE_TYPE_CONSOLE.
  change (PSTORE_TYPE_CONSOLE =? PSTORE_TYPE_CONSOLE) with true. cbv iota.
  rewrite Hc.
  change (rec_bytes (console_record env s (zlen s))) with s.
  change (rec_size (console_record env s (zlen s))) with (zlen s).
  unfold INT_MAX in Hs. rewrite to_uint_small by lia. rewrite Hwr.
  reflexivity.
Qed.

Lemma console_write_reaches_zone_witness :
  exists z',
    pstore_console_write quiet_env (ramoops_over console_pmsg_cxt) [1; 2; 3] 3
    = Some (ramoops_over (set_cprz console_pmsg_cxt (Some z'))) /\
    ring z' = [0; 0; 0; 0; 0; 1; 2; 3].
Proof.
  destruct (console_write_reaches_zone quiet_env 64 0
              (ramoops_over console_pmsg_cxt) (ramoops_psi console_pmsg_cxt)
              (empty_zone 8) [1; 2; 3])
    as (z' & Hw & Hring & _).
  - reflexivity.
  - reflexivity.
  - reflexivity.
  - apply empty_zone_wf. unfold INT_MAX. lia.
  - apply empty_zone_inv. unfold INT_MAX. lia.
  - vm_compute. split; [reflexivity | discriminate].
  - vm_compute. lia.
  - exists z'. split; [exact Hw | exact Hring].
Defined.

(** X18.  a write to the pmsg device reaches the pmsg zone.  With the
    ramoops backend active and the user buffer readable, [write_pmsg] of
    [count > 0] bytes appends them to the zone [mprz] (the last
    [buffer_size] bytes of old contents and new text remain) and returns
    [count]; a buffer that fails [access_ok] gives [-EFAULT] and a count of
    0 gives 0, both without touching the backend. *)
Theorem pmsg_write_reaches_zone (env : kernel_env) (fuel : nat)
    (st : pstore_state ramoops_context) (psi : pstore_info ramoops_context)
    (z : persistent_ram_zone) (s : list Z) :
  psinfo st = Some psi ->
  psi_write_user psi
  = Some (fun record buf c => ramoops_pstore_write_user fuel c record buf) ->
  cxt_mprz (psi_data psi) = Some z ->
  zone_wf z -> cursor_inv z -> 0 < zlen s <= INT_MAX ->
  (Z.to_nat (2 * prz_buffer_size z) < fuel)%nat ->
  (exists z',
     write_pmsg env true st (map Some s) (zlen s)
     = Some (set_psinfo st
               (Some (psi_set_data psi (set_mprz (psi_data psi) (Some z')))),
             zlen s) /\
     ring z' = lastn (Z.to_nat (prz_buffer_size z)) (ring z ++ s) /\
     zone_wf z' /\ cursor_inv z') /\
  write_pmsg env false st (map Some s) (zlen s) = Some (st, - EFAULT) /\
  (forall ok buf, write_pmsg env ok st buf 0 = Some (st, 0)).
Proof.
  intros Hpsi Hw Hm Hwf Hinv Hs Hfuel.
  destruct (persistent_ram_write_payload fuel z s Hwf Hinv ltac:(lia) Hfuel)
    as (z' & Hwr & Hwf' & Hinv' & _ & _ & _ & Hring).
  pose proof (write_user_readable fuel z (zlen s) s Hwf Hinv ltac:(lia) Hfuel
                ltac:(lia)) as Hu.
  unfold INT_MAX in Hs.
  split; [|split].
  - exists z'. split; [|split; [exact Hring|split; assumption]].
    unfold write_pmsg.
    destruct (Z.eqb_spec (zlen s) 0); [lia|].
    cbn [negb]. rewrite Hpsi, Hw. unfold ramoops_pstore_write_user.
    change (rec_type (pmsg_record env (zlen s))) with PSTORE_TYPE_PMSG.
    change (PSTORE_TYPE_PMSG =? PSTORE_TYPE_PMSG) with true. cbv iota.
    rewrite Hm.
    change (rec_size (pmsg_record env (zlen s))) with (to_long (zlen s)).
    assert (Hl : to_long (zlen s) = zlen s).
    { unfold to_long. rewrite Z.mod_small; lia. }
    rewrite Hl, to_uint_small by lia. rewrite Hu, Hwr.
    cbn [fst snd]. rewrite to_int_small by lia.
    destruct (Z.eqb_spec (zlen s) 0); [lia|]. reflexivity.
  - unfold write_pmsg. destruct (Z.eqb_spec (zlen s) 0); [lia|]. reflexivity.
  - intros ok buf. reflexivity.
Qed.

Lemma pmsg_write_reaches_zone_witness :
  exists z',
    write_pmsg quiet_env true (ramoops_over console_pmsg_cxt)
      [Some 1; Some 2; Some 3] 3
    = Some (ramoops_over (set_mprz console_pmsg_cxt (Some z')), 3) /\
    ring z' = [0; 0; 0; 0; 0; 1; 2; 3].
Proof.
  destruct (pmsg_write_reaches_zone quiet_env 64
              (ramoops_over console_pmsg_cxt) (ramoops_psi console_pmsg_cxt)
              (empty_zone 8) [1; 2; 3])
    as ((z' & Hw & Hring & _) & _).
  - reflexivity.
  - reflexivity.
  - reflexivity.
  - apply empty_zone_wf. unfold INT_MAX. lia.
  - apply empty_zone_inv. unfold INT_MAX. lia.
  - vm_compute. split; [reflexivity | discriminate].
  - vm_compute. lia.
  - exists z'. split; [exact Hw | exact Hring].
Defined.

(** ** Unregistering a backend *)

(** Registration into a state with no backend and no backend name
    succeeds for every backend that has a frontend flag and both
    callbacks. *)
Lemma register_into_free_slot {D : Type} (env : kernel_env)
    (st : pstore_state D) (psi : pstore_info D) :
  psinfo st = None -> backend st = None ->
  psi_flags psi <> 0 -> psi_read psi <> None -> psi_write psi <> None ->
  exists st' ev p,
    pstore_register env st psi = (st', ev, 0) /\
    psinfo st' = Some p /\ psi_name p = psi_name psi /\
    backend st' = Some (psi_name psi).
Proof.
  intros Hp Hb Hf Hr Hw. unfold pstore_register. rewrite Hb.
  destruct (Z.eqb_spec (psi_flags psi) 0); [contradiction|].
  destruct (psi_read psi) as [rd|] eqn:Hrd; [|contradiction].
  destruct (psi_write psi) as [wr|] eqn:Hwr; [|contradiction].
  cbn [is_null orb]. rewrite Hp. cbv zeta.
  set (psi1 := psi_set_lock _ false).
  assert (Hname : psi_name psi1 = psi_name psi)
    by (unfold psi1; destruct (psi_write_user psi); reflexivity).
  assert (Hflags : psi_flags psi1 = psi_flags psi)
    by (unfold psi1; destruct (psi_write_user psi); reflexivity).
  assert (Halloc : forall s : pstore_state D,
            psinfo s = Some psi1 ->
            psinfo (fst (allocate_buf_for_compression env s)) = Some psi1).
  { intros s Hs. unfold allocate_buf_for_compression.
    destruct (zbackend s) as [zb|]; [|exact Hs].
    destruct (CONFIG_PSTORE_COMPRESS env); [|exact Hs].
    cbn [negb]. rewrite Hs.
    destruct (tfm s); [exact Hs|].
    destruct (crypto_has_comp env (zb_name zb)); [|exact Hs].
    cbn [negb].
    destruct (to_int (zbufsize zb (psi_bufsize psi1)) <=? 0); [exact Hs|].
    destruct (kmalloc env _); [|exact Hs].
    destruct (crypto_alloc_comp env (zb_name zb)); exact Hs. }
  rewrite Hname.
  destruct (negb (Z.land (psi_flags psi1) PSTORE_FLAGS_DMESG =? 0)).
  - pose proof (Halloc (set_psinfo st (Some psi1)) eq_refl) as Ha.
    destruct (allocate_buf_for_compression env (set_psinfo st (Some psi1)))
      as [st1 ev1].
    cbn [fst] in Ha. cbv beta iota.
    eexists. eexists. exists psi1. split; [reflexivity|].
    split; [exact Ha|]. split; [exact Hname | reflexivity].
  - cbv beta iota.
    eexists. eexists. exists psi1. split; [reflexivity|].
    split; [reflexivity|]. split; [exact Hname | reflexivity].
Qed.

(** X19.  [pstore_unregister] of the registered backend empties the slot:
    [psinfo] and the backend name are NULL and the compression buffer is
    freed, while the dump counter and [kmsg_bytes] stay.  Because the name
    is dropped as well, a backend of any name that has a frontend flag and
    both callbacks can register afterwards.  A NULL argument does nothing,
    and a pointer other than [psinfo] only warns. *)
Theorem unregister_frees_the_slot {D : Type} (env : kernel_env)
    (st : pstore_state D) (p : pstore_info D) :
  psinfo st = Some p ->
  (exists st' ev,
     pstore_unregister env st PsiRegistered = (st', ev) /\
     psinfo st' = None /\ backend st' = None /\
     big_oops_buf st' = None /\ big_oops_buf_sz st' = 0 /\
     oopscount st' = oopscount st /\ kmsg_bytes st' = kmsg_bytes st /\
     forall psi : pstore_info D,
       psi_flags psi <> 0 -> psi_read psi <> None -> psi_write psi <> None ->
       exists st'' ev',
         pstore_register env st' psi = (st'', ev', 0) /\
         backend st'' = Some (psi_name psi)) /\
  pstore_unregister env st PsiNull = (st, []) /\
  pstore_unregister env st PsiOther = (st, [UnWarn]).
Proof.
  intros Hp. split; [|split].
  - unfold pstore_unregister. rewrite Hp. cbv zeta.
    eexists. eexists. split; [reflexivity|].
    split; [reflexivity|]. split; [reflexivity|]. split; [reflexivity|].
    split; [reflexivity|]. split; [reflexivity|]. split; [reflexivity|].
    intros psi Hf Hr Hw.
    destruct (register_into_free_slot env
                (set_backend (set_psinfo (free_buf_for_compression env st) None)
                   None) psi eq_refl eq_refl Hf Hr Hw)
      as (st'' & ev' & p' & Hreg & _ & _ & Hb).
    exists st'', ev'. split; [exact Hreg | exact Hb].
  - reflexivity.
  - reflexivity.
Qed.

(** After "ramoops" has been unregistered, a backend called "efi" can
    register, which [pstore_register] refuses while "ramoops" is the
    chosen name. *)
Lemma unregister_frees_the_slot_witness :
  exists st' ev,
    pstore_unregister quiet_env ramoops_registered PsiRegistered = (st', ev) /\
    psinfo st' = None /\ backend st' = None /\
    exists st'' ev',
      pstore_register quiet_env st' (null_backend "efi" PSTORE_FLAGS_DMESG)
      = (st'', ev', 0) /\
      backend st'' = Some "efi"%string.
Proof.
  assert (Hp : exists p, psinfo ramoops_registered = Some p)
    by (vm_compute; eauto).
  destruct Hp as (p & Hp).
  destruct (unregister_frees_the_slot quiet_env ramoops_registered p Hp)
    as ((st' & ev & Hu & Hn & Hb & _ & _ & _ & _ & Hreg) & _).
  exists st', ev. split; [exact Hu|]. split; [exact Hn|]. split; [exact Hb|].
  apply (Hreg (null_backend "efi" PSTORE_FLAGS_DMESG)).
  - vm_compute. discriminate.
  - vm_compute. discriminate.
  - vm_compute. discriminate.
Defined.

(** ** The staging buffer for deflate *)

Lemma zbufsize_deflate_bounds (size : Z) :
  0 < size < 2 ^ 29 ->
  size * 100 / 60 <= zbufsize_deflate size <= size * 100 / 45 /\
  size <= zbufsize_deflate size < 2 ^ 31.
Proof.
  intros Hs. unfold zbufsize_deflate. cbv zeta.
  rewrite (to_size_t_small (size * 100)) by lia.
  set (cmpr := if (1000 <=? size) && (size <=? 2000) then 56
               else if (2001 <=? size) && (size <=? 3000) then 54
               else if (3001 <=? size) && (size <=? 3999) then 52
               else if (4000 <=? size) && (size <=? 10000) then 45
               else 60).
  assert (Hc : 45 <= cmpr <= 60).
  { unfold cmpr.
    destruct ((1000 <=? size) && (size <=? 2000)); [lia|].
    destruct ((2001 <=? size) && (size <=? 3000)); [lia|].
    destruct ((3001 <=? size) && (size <=? 3999)); [lia|].
    destruct ((4000 <=? size) && (size <=? 10000)); lia. }
  assert (Hlo : size * 100 / 60 <= size * 100 / cmpr)
    by (apply Z.div_le_compat_l; lia).
  assert (Hhi : size * 100 / cmpr <= size * 100 / 45)
    by (apply Z.div_le_compat_l; lia).
  assert (H45 : size * 100 / 45 < 2 ^ 31)
    by (apply Z.div_lt_upper_bound; lia).
  assert (H60 : size <= size * 100 / 60)
    by (apply Z.div_le_lower_bound; lia).
  rewrite to_int_small by lia. lia.
Qed.

(** X20.  with deflate selected and available, [allocate_buf_for_compression]
    asks [kmalloc] for a staging buffer of [zbufsize_deflate bufsize] bytes
    for a backend buffer of [bufsize] bytes, below 2^29.  When [kmalloc]
    hands out a block, that block becomes [big_oops_buf] with this size
    and deflate becomes the transform; when [kmalloc] returns NULL the
    state is unchanged and the failure is logged.  The size lies between
    100/60 and 100/45 of [bufsize], so it is never smaller than the
    backend's own buffer and never invalid. *)
Theorem deflate_staging_buffer {D : Type} (env : kernel_env)
    (st : pstore_state D) (psi : pstore_info D) :
  zbackend st = Some deflate_zbackend -> CONFIG_PSTORE_COMPRESS env = true ->
  psinfo st = Some psi -> tfm st = None ->
  crypto_has_comp env "deflate" = true ->
  crypto_alloc_comp env "deflate" = true ->
  0 < psi_bufsize psi < 2 ^ 29 ->
  let n := zbufsize_deflate (psi_bufsize psi) in
  (forall blk, kmalloc env n = Some blk ->
   allocate_buf_for_compression env st
   = (set_compression st (Some "deflate"%string) (Some blk) n,
      [EvInfo "Using crash dump compression: deflate"])) /\
  (kmalloc env n = None ->
   allocate_buf_for_compression env st
   = (st, [EvErr ("Failed " +:+ pretty n
                  +:+ " byte compression buffer allocation for: deflate")])) /\
  psi_bufsize psi * 100 / 60 <= n <= psi_bufsize psi * 100 / 45 /\
  psi_bufsize psi <= n.
Proof.
  intros Hz Hc Hp Ht Hhas Halloc Hb n.
  destruct (zbufsize_deflate_bounds (psi_bufsize psi) Hb) as [Hr [Hge Hlt]].
  fold n in Hr, Hge, Hlt.
  assert (Hn : to_int n = n) by (apply to_int_small; lia).
  assert (Hcall : allocate_buf_for_compression env st
                  = match kmalloc env n with
                    | Some buf =>
                      (set_compression st (Some "deflate"%string) (Some buf) n,
                       [EvInfo "Using crash dump compression: deflate"])
                    | None =>
                      (st, [EvErr ("Failed " +:+ pretty n +:+
                                   " byte compression buffer allocation for: deflate")])
                    end).
  { unfold allocate_buf_for_compression. rewrite Hz, Hc, Hp, Ht.
    cbn [negb zb_name zbufsize deflate_zbackend]. rewrite Hhas, Halloc.
    cbn [negb]. fold n.
    rewrite Hn. destruct (Z.leb_spec n 0); [lia|].
    destruct (kmalloc env n); reflexivity. }
  split; [intros blk Hk; rewrite Hcall, Hk; reflexivity|].
  split; [intros Hk; rewrite Hcall, Hk; reflexivity|].
  split; assumption.
Qed.

(** A backend buffer of 4096 bytes gets a staging buffer of 9102
    bytes, the block the allocator handed out. *)
Lemma deflate_staging_buffer_witness :
  big_oops_buf_sz (fst (allocate_buf_for_compression deflate_env deflate_state))
  = 9102 /\
  big_oops_buf (fst (allocate_buf_for_compression deflate_env deflate_state))
  = poisoned_block 9102.
Proof.
  destruct (deflate_staging_buffer deflate_env deflate_state deflate_psi)
    as (Ha & _).
  - reflexivity.
  - reflexivity.
  - reflexivity.
  - reflexivity.
  - reflexivity.
  - reflexivity.
  - vm_compute. split; reflexivity.
  - rewrite (Ha (replicate (Z.to_nat 9102) 107) eq_refl). split; reflexivity.
Defined.

(** ** Function-trace records in the ramoops zones *)

(** X21.  [ramoops_pstore_write] of an FTRACE record appends it to exactly one
    ftrace zone: the zone of the current CPU when the context has
    [RAMOOPS_FLAG_FTRACE_PER_CPU], zone 0 otherwise.  The other ftrace
    zones and the rest of the context are unchanged, and the call returns
    0. *)
Theorem ftrace_write_selects_zone (fuel : nat) (cpu : Z)
    (cxt : ramoops_context) (record : pstore_record)
    (przs : list persistent_ram_zone) (z : persistent_ram_zone) :
  rec_type record = PSTORE_TYPE_FTRACE -> cxt_fprzs cxt = Some przs ->
  let zonenum :=
    if Z.land (cxt_flags cxt) RAMOOPS_FLAG_FTRACE_PER_CPU =? 0 then 0
    else cpu in
  0 <= zonenum -> przs !! Z.to_nat zonenum = Some z ->
  zone_wf z -> cursor_inv z ->
  rec_size record = zlen (rec_bytes record) ->
  zlen (rec_bytes record) <= INT_MAX ->
  (Z.to_nat (2 * prz_buffer_size z) < fuel)%nat ->
  exists z',
    ramoops_pstore_write fuel cpu cxt record
    = Some (set_fprzs cxt (Some (<[Z.to_nat zonenum := z']> przs)), 0) /\
    ring z' = lastn (Z.to_nat (prz_buffer_size z)) (ring z ++ rec_bytes record) /\
    forall j : nat, j <> Z.to_nat zonenum ->
      (<[Z.to_nat zonenum := z']> przs) !! j = przs !! j.
Proof.
  intros Hty Hf zonenum Hz0 Hz Hwf Hinv Hsize Hlen Hfuel.
  destruct (persistent_ram_write_payload fuel z (rec_bytes record) Hwf Hinv
              Hlen Hfuel)
    as (z' & Hwr & _ & _ & _ & _ & _ & Hring).
  exists z'. split; [|split; [exact Hring|]].
  - unfold ramoops_pstore_write. rewrite Hty.
    change (PSTORE_TYPE_FTRACE =? PSTORE_TYPE_CONSOLE) with false.
    change (PSTORE_TYPE_FTRACE =? PSTORE_TYPE_FTRACE) with true.
    cbv iota. rewrite Hf. cbv zeta.
    assert (Hnum :
      (if negb (Z.land (cxt_flags cxt) RAMOOPS_FLAG_FTRACE_PER_CPU =? 0)
       then cpu else 0) = zonenum).
    { unfold zonenum.
      destruct (Z.land (cxt_flags cxt) RAMOOPS_FLAG_FTRACE_PER_CPU =? 0);
        reflexivity. }
    rewrite Hnum, Hz, Hsize.
    assert (H0 : 0 <= zlen (rec_bytes record)) by (unfold zlen; lia).
    unfold INT_MAX in Hlen. rewrite to_uint_small by lia.
    rewrite Hwr. reflexivity.
  - intros j Hj. apply list_lookup_insert_ne. congruence.
Qed.

(** A record traced on CPU 1 of two lands in zone 1; zone 0 stays
    empty. *)
Lemma ftrace_write_selects_zone_witness :
  exists z',
    ramoops_pstore_write 100 1 two_ftrace_cxt (ftrace_record (mk_frec 1 2 3))
    = Some (set_fprzs two_ftrace_cxt (Some [empty_zone 48; z']), 0) /\
    ring z'
    = replicate 24 0 ++ frec_bytes (mk_frec 1 2 3).
Proof.
  destruct (ftrace_write_selects_zone 100 1 two_ftrace_cxt
              (ftrace_record (mk_frec 1 2 3))
              [empty_zone 48; empty_zone 48] (empty_zone 48))
    as (z' & Hw & Hring & _).
  - reflexivity.
  - reflexivity.
  - vm_compute. discriminate.
  - reflexivity.
  - apply empty_zone_wf. unfold INT_MAX. lia.
  - apply empty_zone_inv. unfold INT_MAX. lia.
  - reflexivity.
  - vm_compute. discriminate.
  - vm_compute. lia.
  - exists z'. split; [exact Hw | exact Hring].
Defined.

(** ** The parts of a dump *)

Lemma dump_events_kick {D} (st : pstore_state D) (count reason part : Z) :
  dump_events_from count reason part (pstore_timer_kick st).
Proof.
  unfold pstore_timer_kick. destruct (pstore_update_ms st <? 0); exact I.
Qed.

Lemma store_dst_spec {D} (st : pstore_state D) (psi : pstore_info D)
    (dst : list Z) :
  psinfo st = Some psi ->
  psinfo (store_dst st psi dst).1 = Some (store_dst st psi dst).2 /\
  psi_write (store_dst st psi dst).2 = psi_write psi /\
  psi_buf_lock (store_dst st psi dst).2 = psi_buf_lock psi /\
  psi_data (store_dst st psi dst).2 = psi_data psi /\
  oopscount (store_dst st psi dst).1 = oopscount st /\
  kmsg_bytes (store_dst st psi dst).1 = kmsg_bytes st.
Proof.
  intros Hpsi. unfold store_dst.
  destruct (big_oops_buf st); cbn [fst snd]; repeat split; try reflexivity.
  exact Hpsi.
Qed.

Lemma dump_events_app (count reason part : Z) (r : pstore_record) (ret : Z)
    (kick ev : list pstore_event) :
  rec_type r = PSTORE_TYPE_DMESG -> rec_count r = count ->
  rec_reason r = reason -> rec_part r = part ->
  (kick = [] \/ exists ms, kick = [EvModTimer ms]) ->
  dump_events_from count reason (to_uint (part + 1)) ev ->
  dump_events_from count reason part ([EvBackendWrite r ret] ++ kick ++ ev).
Proof.
  intros Ht Hc Hr Hp Hk Hev. cbn [app dump_events_from].
  split; [exact Ht|]. split; [exact Hc|]. split; [exact Hr|].
  split; [exact Hp|].
  destruct Hk as [->|[ms ->]]; exact Hev.
Qed.

Lemma timer_kick_shape {D} (st : pstore_state D) :
  pstore_timer_kick st = [] \/ exists ms, pstore_timer_kick st = [EvModTimer ms].
Proof.
  unfold pstore_timer_kick. destruct (pstore_update_ms st <? 0); eauto.
Qed.

Lemma dump_loop_spec {D : Type} (env : kernel_env)
    (m : kmsg_iter env -> nat)
    (w : pstore_record -> D -> option (D * Z)) (inv : D -> Prop)
    (reason : Z) (why : string) :
  (forall it sys n it' chunk,
     kmsg_dump_get_buffer env it sys n = (it', true, chunk) ->
     (m it' < m it)%nat) ->
  (forall r d, inv d -> exists d' ret, w r d = Some (d', ret) /\ inv d') ->
  forall (fuel : nat) (st : pstore_state D) (iter : kmsg_iter env)
         (total part : Z) (ev : list pstore_event) (psi : pstore_info D),
    psinfo st = Some psi -> psi_write psi = Some w -> inv (psi_data psi) ->
    (m iter < fuel)%nat ->
    exists st' psi' ev2,
      dump_loop env fuel st iter reason why total part ev = Some (st', ev ++ ev2) /\
      psinfo st' = Some psi' /\ psi_write psi' = Some w /\
      inv (psi_data psi') /\
      psi_buf_lock psi' = psi_buf_lock psi /\
      oopscount st' = oopscount st /\ kmsg_bytes st' = kmsg_bytes st /\
      dump_events_from (oopscount st) reason part ev2.
Proof.
  intros Hm Hw fuel. induction fuel as [|fuel IH];
    intros st iter total part ev psi Hpsi Hwr Hinv Hfuel; [lia|].
  cbn [dump_loop].
  destruct (total <? kmsg_bytes st).
  2:{ exists st, psi, []. rewrite app_nil_r. repeat split; assumption. }
  rewrite Hpsi.
  destruct (match big_oops_buf st with
            | Some b => (b, big_oops_buf_sz st)
            | None => (psi_buf psi, psi_bufsize psi)
            end) as [dst dst_size].
  set (text := bytes_of_string (dump_header_text why (oopscount st) part)).
  set (dst1 := if dst_size =? 0 then dst
               else list_inserts 0 (ztake (dst_size - 1) text ++ [0]) dst).
  destruct (kmsg_dump_get_buffer env iter true
              (to_size_t (dst_size - to_size_t (to_int (zlen text)))))
    as [[iter' ok] chunk] eqn:Hget.
  destruct ok; cbn [negb].
  2:{ destruct (store_dst_spec st psi dst1 Hpsi)
        as (H1 & H2 & H3 & Hd & H4 & H5).
      exists (store_dst st psi dst1).1, (store_dst st psi dst1).2, [].
      rewrite app_nil_r. split; [reflexivity|]. split; [exact H1|].
      split; [congruence|]. split; [rewrite Hd; exact Hinv|].
      split; [exact H3|]. split; [exact H4|].
      split; [exact H5 | exact I]. }
  pose proof (Hm _ _ _ _ _ Hget) as Hdec.
  set (dst2 := memcpy_at dst1 (to_int (zlen text)) chunk (zlen chunk)).
  destruct (store_dst_spec st psi dst2 Hpsi) as (H1 & H2 & H3 & Hd & H4 & H5).
  destruct (store_dst st psi dst2) as [st0 psi0]. cbn [fst snd] in *.
  set (t := match big_oops_buf st0 with
            | Some big =>
              let '(zipped_len, out) :=
                pstore_compress env big
                  (to_uint (to_size_t (to_int (zlen text)) + zlen chunk))
                  (to_uint (psi_bufsize psi0)) in
              let psi := psi_set_buf psi0 (list_inserts 0 out (psi_buf psi0)) in
              if 0 <? zipped_len then (psi, zipped_len, true)
              else
                let '(buf, len) :=
                  copy_kmsg_to_buffer (psi_buf psi) big (psi_bufsize psi)
                    (to_int (zlen text)) (zlen chunk) in
                (psi_set_buf psi buf, len, false)
            | None =>
              (psi0, to_size_t (to_size_t (to_int (zlen text)) + zlen chunk),
               false)
            end).
  assert (Ht : psi_write t.1.1 = psi_write psi0 /\
               psi_buf_lock t.1.1 = psi_buf_lock psi0 /\
               psi_data t.1.1 = psi_data psi0).
  { unfold t. destruct (big_oops_buf st0) as [big|]; [|repeat split].
    destruct (pstore_compress env big _ _) as [zl out].
    destruct (0 <? zl); [repeat split|].
    destruct (copy_kmsg_to_buffer _ _ _ _ _) as [buf len].
    repeat split. }
  destruct t as [[psi2 size] compressed]. cbn [fst] in Ht.
  destruct Ht as (Hw2 & Hl2 & Hd2).
  rewrite Hw2, H2, Hwr.
  set (record := dump_record env (oopscount st0) reason part (psi_buf psi2)
                   size compressed).
  destruct (Hw record (psi_data psi2) ltac:(rewrite Hd2, Hd; exact Hinv))
    as (d & ret & Hr & Hinv'). rewrite Hr.
  set (st1 := set_psinfo st0 (Some (psi_set_data psi2 d))).
  set (st2 := if (ret =? 0) && (reason =? KMSG_DUMP_OOPS)
              then (set_new_entry st1 1, pstore_timer_kick st1)
              else (st1, [])).
  assert (Hst2 : psinfo st2.1 = Some (psi_set_data psi2 d) /\
                 oopscount st2.1 = oopscount st0 /\
                 kmsg_bytes st2.1 = kmsg_bytes st0 /\
                 (st2.2 = [] \/ exists ms, st2.2 = [EvModTimer ms])).
  { unfold st2. destruct ((ret =? 0) && (reason =? KMSG_DUMP_OOPS));
      cbn [fst snd]; repeat split; try reflexivity.
    - apply timer_kick_shape.
    - left. reflexivity. }
  destruct st2 as [st3 kick]. cbn [fst snd] in Hst2.
  destruct Hst2 as (Hp3 & Ho3 & Hk3 & Hkick).
  destruct (IH st3 iter' (to_size_t (total + size)) (to_uint (part + 1))
              (ev ++ [EvBackendWrite record ret] ++ kick)
              (psi_set_data psi2 d) Hp3 ltac:(cbn; congruence) Hinv'
              ltac:(lia))
    as (st' & psi' & ev2 & Hloop & Hp' & Hw' & Hi' & Hl' & Ho' & Hk' & Hev').
  exists st', psi', ([EvBackendWrite record ret] ++ kick ++ ev2).
  split.
  { rewrite Hloop. f_equal. f_equal. rewrite <- !app_assoc. reflexivity. }
  split; [exact Hp'|]. split; [exact Hw'|]. split; [exact Hi'|].
  split; [rewrite Hl'; cbn; congruence|].
  split; [congruence|]. split; [congruence|].
  apply dump_events_app; try reflexivity; try assumption.
  rewrite Ho3, H4 in Hev'. exact Hev'.
Qed.

(** X22.  the parts of a dump.  When [buf_lock] is free, the kernel log is
    finite and the backend's [write] gives a result on the states it
    reaches, [pstore_dump] returns.  It has then counted one more dump in
    [oopscount], handed the backend DMESG records that all carry this
    count and the reason and are numbered part 1, 2, 3, ... in the order
    written, whatever [write] returned for them, and released [buf_lock];
    [kmsg_bytes] is unchanged.  The log is finite in the sense that a
    measure [m] of the log position decreases with every successful
    [kmsg_dump_get_buffer]; [inv] is an invariant of the backend data
    under which [write] gives a result. *)
Theorem dump_parts_numbered {D : Type} (env : kernel_env)
    (m : kmsg_iter env -> nat) (inv : D -> Prop) (fuel : nat)
    (st : pstore_state D) (psi : pstore_info D)
    (w : pstore_record -> D -> option (D * Z)) (reason : Z) :
  (forall it sys n it' chunk,
     kmsg_dump_get_buffer env it sys n = (it', true, chunk) ->
     (m it' < m it)%nat) ->
  (forall r d, inv d -> exists d' ret, w r d = Some (d', ret) /\ inv d') ->
  psinfo st = Some psi -> psi_write psi = Some w -> inv (psi_data psi) ->
  psi_buf_lock psi = false ->
  (m (kmsg_dump_rewind env) < fuel)%nat ->
  exists st' psi' ev,
    pstore_dump env fuel st reason = Some (DumpReturned st' ev) /\
    oopscount st' = to_int (oopscount st + 1) /\
    dump_events_from (oopscount st') reason 1 ev /\
    psinfo st' = Some psi' /\ psi_buf_lock psi' = false /\
    inv (psi_data psi') /\ kmsg_bytes st' = kmsg_bytes st.
Proof.
  intros Hm Hw Hpsi Hwr Hinv Hlock Hfuel.
  set (s1 := set_psinfo st (Some (psi_set_lock psi true))).
  set (st0 := set_oopscount s1 (to_int (oopscount s1 + 1))).
  destruct (dump_loop_spec env m w inv reason
              (kmsg_dump_reason_str env reason)
              Hm Hw fuel st0 (kmsg_dump_rewind env) 0 1 []
              (psi_set_lock psi true) eq_refl Hwr Hinv Hfuel)
    as (st' & psi' & ev & Hloop & Hp' & Hw' & Hi' & Hl' & Ho' & Hk' & Hev').
  exists (set_psinfo st' (Some (psi_set_lock psi' false))),
    (psi_set_lock psi' false), ev.
  split.
  - unfold pstore_dump. rewrite Hpsi, Hlock.
    assert (Hd : dump_locked env fuel st psi reason
                 = Some (DumpReturned
                           (set_psinfo st' (Some (psi_set_lock psi' false)))
                           ev)).
    { unfold dump_locked. cbv zeta. fold s1. fold st0. rewrite Hloop, Hp'.
      reflexivity. }
    destruct (pstore_cannot_block_path env reason); exact Hd.
  - split; [exact Ho'|]. split.
    + change (oopscount (set_psinfo st' (Some (psi_set_lock psi' false))))
        with (oopscount st').
      rewrite Ho'. exact Hev'.
    + split; [reflexivity|]. split; [reflexivity|].
      split; [exact Hi' | exact Hk'].
Qed.

(** The log of [log_env] holds two chunks: the dump into a backend that
    accepts every record has the parts 1 and 2 of dump number 1. *)
Lemma dump_parts_numbered_witness :
  exists st' psi' ev,
    pstore_dump log_env 5 ramoops_registered KMSG_DUMP_OOPS
    = Some (DumpReturned st' ev) /\
    oopscount st' = 1 /\
    dump_events_from 1 KMSG_DUMP_OOPS 1 ev /\
    psinfo st' = Some psi' /\ psi_buf_lock psi' = false.
Proof.
  assert (Hp : exists psi,
             psinfo ramoops_registered = Some psi /\
             psi_write psi = Some (fun _ d => Some (d, 0)) /\
             psi_buf_lock psi = false)
    by (vm_compute; eauto).
  destruct Hp as (psi & Hp & Hw & Hl).
  destruct (dump_parts_numbered log_env (fun n : nat => n) (fun _ => True) 5
              ramoops_registered psi (fun _ d => Some (d, 0)) KMSG_DUMP_OOPS)
    as (st' & psi' & ev & Hd & Ho & Hev & Hp' & Hl' & _).
  - intros it sys n it' chunk. cbn [kmsg_dump_get_buffer log_env].
    destruct it as [|k]; intros H; inversion H. lia.
  - intros r d _. exists d, 0. split; [reflexivity | exact I].
  - exact Hp.
  - exact Hw.
  - exact I.
  - exact Hl.
  - cbn. lia.
  - exists st', psi', ev. split; [exact Hd|]. split; [exact Ho|].
    rewrite Ho in Hev.
    split; [exact Hev|]. split; [exact Hp' | exact Hl'].
Defined.

(** ** The pmsg device over a backend without [write_user] *)

(** X23.  [pstore_write_user_compat], which [pstore_register] installs for a
    backend that has no [write_user], makes a pmsg write reach the
    backend's [write].  For a readable user buffer of [count] bytes,
    [write_pmsg] calls [write] once with a PMSG record that carries
    exactly those bytes and returns [count] unless [write] returned a
    negative value, which it passes on.  If one of the bytes cannot be
    read, [write] is not called and the result is [-EFAULT]. *)
Theorem pmsg_through_compat {D : Type} (env : kernel_env)
    (st : pstore_state D) (psi : pstore_info D)
    (w : pstore_record -> D -> option (D * Z)) (count : Z) :
  psinfo st = Some psi ->
  psi_write_user psi = Some (pstore_write_user_compat (Some w)) ->
  0 < count < 2 ^ 31 ->
  (forall (s : list Z) (d' : D) (ret : Z),
     zlen s = count ->
     let record :=
       mk_record PSTORE_TYPE_PMSG 0
         (ktime_get_real_fast_ns env / 1000000000)
         (ktime_get_real_fast_ns env mod 1000000000) (Some s) count 0 0 0 0
         false in
     w record (psi_data psi) = Some (d', ret) ->
     write_pmsg env true st (map Some s) count
     = Some (set_psinfo st (Some (psi_set_data psi d')),
             if to_int ret <? 0 then to_int ret else count)) /\
  (forall u : list (option Z),
     zlen (user_prefix (ztake count u)) < count ->
     write_pmsg env true st u count
     = Some (set_psinfo st (Some (psi_set_data psi (psi_data psi))),
             - EFAULT)).
Proof.
  intros Hpsi Hwu Hcount.
  assert (Hl : to_long count = count) by (apply to_long_small; lia).
  split.
  - intros s d' ret Hs record Hw.
    unfold write_pmsg. destruct (Z.eqb_spec count 0); [lia|].
    cbn [negb]. rewrite Hpsi, Hwu.
    unfold pstore_write_user_compat.
    change (rec_buf (pmsg_record env count)) with (@None (list Z)).
    cbv iota.
    change (rec_size (pmsg_record env count)) with (to_long count).
    rewrite Hl.
    assert (Hgot : user_prefix (ztake count (map Some s)) = s).
    { unfold ztake, zlen in *. rewrite firstn_all2
        by (rewrite length_map; lia).
      apply user_prefix_readable. }
    rewrite Hgot, Hs, Z.eqb_refl. cbn [negb].
    change (mk_record (rec_type (pmsg_record env count))
              (rec_id (pmsg_record env count))
              (rec_time_sec (pmsg_record env count))
              (rec_time_nsec (pmsg_record env count)) (Some s) count
              (rec_ecc_notice_size (pmsg_record env count))
              (rec_count (pmsg_record env count))
              (rec_reason (pmsg_record env count))
              (rec_part (pmsg_record env count))
              (rec_compressed (pmsg_record env count)))
      with record.
    rewrite Hw. cbn [fst snd].
    destruct (Z.ltb_spec (to_int ret) 0) as [Hneg|Hpos].
    + destruct (Z.eqb_spec (to_int ret) 0); [lia|]. reflexivity.
    + rewrite (to_int_small count) by lia.
      destruct (Z.eqb_spec count 0); [lia|]. reflexivity.
  - intros u Hshort.
    unfold write_pmsg. destruct (Z.eqb_spec count 0); [lia|].
    cbn [negb]. rewrite Hpsi, Hwu.
    unfold pstore_write_user_compat.
    change (rec_buf (pmsg_record env count)) with (@None (list Z)).
    cbv iota.
    change (rec_size (pmsg_record env count)) with (to_long count).
    rewrite Hl.
    destruct (Z.eqb_spec (zlen (user_prefix (ztake count u))) count); [lia|].
    cbn [negb fst snd]. reflexivity.
Qed.

(** The backend of [ramoops_registered] has no [write_user] of its own:
    three bytes written to the pmsg device are accepted. *)
Lemma pmsg_through_compat_witness :
  exists st',
    write_pmsg quiet_env true ramoops_registered [Some 1; Some 2; Some 3] 3
    = Some (st', 3).
Proof.
  assert (Hp : exists psi,
             psinfo ramoops_registered = Some psi /\
             psi_write_user psi
             = Some (pstore_write_user_compat (Some (fun _ d => Some (d, 0)))))
    by (vm_compute; eauto).
  destruct Hp as (psi & Hp & Hwu).
  destruct (pmsg_through_compat quiet_env ramoops_registered psi
              (fun _ d => Some (d, 0)) 3 Hp Hwu) as (H & _).
  - lia.
  - eexists. apply (H [1; 2; 3] (psi_data psi) 0); reflexivity.
Defined.

(** ** Reading the per-CPU ftrace zones *)

Lemma merge_records_length (a b : list (list Z)) :
  length (merge_records a b) = (length a + length b)%nat.
Proof. rewrite merge_records_perm, length_app. reflexivity. Qed.

Lemma merged_from_length (zs : list persistent_ram_zone) :
  forall M,
    (length M
     <= length (foldl (fun M z => merge_records M (zone_records z)) M zs))%nat.
Proof.
  induction zs as [|z zs IH]; intros M; cbn [foldl]; [lia|].
  specialize (IH (merge_records M (zone_records z))).
  rewrite merge_records_length in IH. lia.
Qed.

Lemma rec_set_type_id_same (r : pstore_record) :
  r = rec_set_type_id r (rec_type r) (rec_id r).
Proof. destruct r. reflexivity. Qed.

Lemma zone_records_spec z :
  ftrace_zone z ->
  whole (zone_records z) /\
  zlen (zone_records z) = prz_old_log_size z / 24 /\
  0 <= prz_old_log_size z.
Proof.
  intros (_ & _ & Hlen & _).
  destruct (ftrace_records_spec _ _ Hlen) as (_ & Hw & Hn).
  split; [exact Hw|]. split; [exact Hn|]. unfold zlen in Hlen. lia.
Qed.

Lemma read_ftrace_loop_spec (fuel : nat) (zs : list persistent_ram_zone) :
  Forall ftrace_zone zs -> zlen zs < 2 ^ 31 ->
  forall (n : nat) (cxt : ramoops_context) (record : pstore_record)
         (tmp : persistent_ram_zone) (M : list (list Z)),
    cxt_fprzs cxt = Some zs -> cxt_max_ftrace_cnt cxt = zlen zs ->
    0 <= cxt_ftrace_read_cnt cxt <= zlen zs ->
    (length zs - Z.to_nat (cxt_ftrace_read_cnt cxt) <= n)%nat ->
    holds_records M tmp ->
    24 * zlen M <= cxt_ftrace_read_cnt cxt * INT_MAX ->
    (M <> [] -> rec_type record = PSTORE_TYPE_FTRACE) ->
    let M' :=
      foldl (fun M z => merge_records M (zone_records z)) M
        (drop (Z.to_nat (cxt_ftrace_read_cnt cxt)) zs) in
    (length M' < fuel)%nat ->
    exists cxt' t id tmp',
      read_ftrace_loop fuel n cxt record tmp
      = Some (cxt', rec_set_type_id record t id, tmp', 0) /\
      holds_records M' tmp' /\
      (M' <> [] -> t = PSTORE_TYPE_FTRACE) /\
      cxt_fprzs cxt' = Some zs /\ cxt_ftrace_read_cnt cxt' = zlen zs /\
      24 * zlen M' <= zlen zs * INT_MAX.
Proof.
  intros Hzs Hlen n.
  induction n as [|n IH];
    intros cxt record tmp M Hf Hmax Hcnt Hn Hold Hbytes Hrec M' Hfuel.
  - (* no iteration left: the cursor is at the end *)
    assert (Hend : cxt_ftrace_read_cnt cxt = zlen zs)
      by (unfold zlen in *; lia).
    cbn [read_ftrace_loop]. rewrite Hmax, Hend, Z.ltb_irrefl.
    assert (HM' : M' = M).
    { unfold M'. rewrite Hend. unfold zlen. rewrite Nat2Z.id, drop_all.
      reflexivity. }
    exists cxt, (rec_type record), (rec_id record), tmp.
    rewrite <- rec_set_type_id_same, HM'.
    split; [reflexivity|]. split; [exact Hold|]. split; [exact Hrec|].
    split; [exact Hf|]. split; [exact Hend|]. rewrite <- Hend. exact Hbytes.
  - cbn [read_ftrace_loop]. rewrite Hmax.
    destruct (Z.ltb_spec (cxt_ftrace_read_cnt cxt) (zlen zs)) as [Hlt|Hge].
    2:{ assert (Hend : cxt_ftrace_read_cnt cxt = zlen zs) by lia.
        assert (HM' : M' = M).
        { unfold M'. rewrite Hend. unfold zlen. rewrite Nat2Z.id, drop_all.
          reflexivity. }
        exists cxt, (rec_type record), (rec_id record), tmp.
        rewrite <- rec_set_type_id_same, HM'.
        split; [reflexivity|]. split; [exact Hold|]. split; [exact Hrec|].
        split; [exact Hf|]. split; [exact Hend|].
        rewrite <- Hend. exact Hbytes. }
    set (i := cxt_ftrace_read_cnt cxt) in *.
    cbv zeta.
    set (cxt1 := set_read_cnts cxt (cxt_dump_read_cnt cxt)
                   (cxt_console_read_cnt cxt) (to_uint (i + 1))
                   (cxt_pmsg_read_cnt cxt)).
    change (cxt_fprzs cxt1) with (cxt_fprzs cxt). rewrite Hf.
    rewrite (to_int_small i) by lia.
    destruct (lookup_lt_is_Some_2 zs (Z.to_nat i)
                ltac:(unfold zlen in *; lia)) as [z Hz].
    pose proof (proj1 (Forall_lookup _ _) Hzs _ _ Hz) as Hfz.
    destruct (zone_records_spec z Hfz) as (HwB & HnB & Hs0).
    pose proof Hfz as (Hty & He & Hzl & Hzmax).
    assert (Hrest : drop (Z.to_nat i) zs = z :: drop (S (Z.to_nat i)) zs)
      by (apply drop_S; exact Hz).
    assert (HM'eq : M' = foldl (fun M z => merge_records M (zone_records z))
                           (merge_records M (zone_records z))
                           (drop (S (Z.to_nat i)) zs)).
    { unfold M'. rewrite Hrest. reflexivity. }
    assert (Hcnt1 : to_uint (i + 1) = i + 1) by (apply to_uint_small; lia).
    assert (Hdrop1 : S (Z.to_nat i) = Z.to_nat (i + 1)) by lia.
    unfold ramoops_get_next_prz, prz_at.
    destruct (Z.ltb_spec i 0); [lia|]. rewrite Hz.
    unfold next_prz. rewrite Hty.
    change (PSTORE_TYPE_FTRACE =? PSTORE_TYPE_DMESG) with false. cbv iota.
    pose (cxt2 := set_fprzs cxt1 (Some zs)).
    destruct (Z.eqb_spec (persistent_ram_old_size z) 0) as [H0|Hne].
    + (* an empty zone is skipped *)
      cbv beta iota. rewrite list_insert_id by exact Hz. fold cxt2.
      cbn [prz_ok negb].
      assert (HB : zone_records z = []).
      { unfold zone_records. unfold persistent_ram_old_size in H0.
        rewrite H0. reflexivity. }
      rewrite HB, merge_records_nil_r in HM'eq.
      destruct (IH cxt2 record tmp M eq_refl Hmax
                  ltac:(cbn; rewrite Hcnt1; lia)
                  ltac:(cbn; rewrite Hcnt1; unfold zlen in *; lia)
                  Hold
                  ltac:(cbn; rewrite Hcnt1; unfold INT_MAX in *; lia) Hrec)
        as (cxt' & t & id & tmp' & Hloop & Hh & Ht & Hf' & Hc' & Hb').
      { cbn [cxt2 cxt1 cxt_ftrace_read_cnt set_fprzs set_read_cnts].
        rewrite Hcnt1, <- Hdrop1, <- HM'eq. exact Hfuel. }
      cbn [cxt2 cxt1 cxt_ftrace_read_cnt set_fprzs set_read_cnts]
        in Hh, Ht, Hb'.
      rewrite Hcnt1, <- Hdrop1, <- HM'eq in Hh, Ht, Hb'.
      exists cxt', t, id, tmp'. split; [exact Hloop|].
      split; [exact Hh|]. split; [exact Ht|]. split; [exact Hf'|].
      split; [exact Hc' | exact Hb'].
    + (* a zone with an old log is merged in *)
      cbv beta iota. rewrite list_insert_id by exact Hz. fold cxt2.
      unfold persistent_ram_old_size in Hne.
      assert (Hok : prz_ok (Some z) = true).
      { unfold prz_ok, persistent_ram_ecc_string, persistent_ram_old_size.
        rewrite He. change (0 =? 0) with true. cbv iota. cbn [fst].
        rewrite Z.add_0_r, to_size_t_small by (unfold INT_MAX in *; lia).
        destruct (Z.eqb_spec (prz_old_log_size z) 0); [lia | reflexivity]. }
      rewrite Hok. cbn [negb]. cbv iota.
      set (tmp1 := set_counters (set_ecc_info tmp (prz_ecc_info z)) _ _).
      destruct Hold as (Hsz & Hlog & HwM & Hetmp).
      assert (Hd : zlen (default [] (prz_old_log tmp1)) = 24 * zlen M).
      { change (prz_old_log tmp1) with (prz_old_log tmp). rewrite Hlog.
        unfold zlen. rewrite length_concat_whole by exact HwM. lia. }
      assert (HlenM' : (length M + length (zone_records z) <= length M')%nat).
      { rewrite HM'eq. rewrite <- merge_records_length.
        apply merged_from_length. }
      assert (Hdiv : 24 * zlen M / REC_SIZE = zlen M).
      { unfold REC_SIZE. rewrite Z.mul_comm, Z.div_mul by lia. reflexivity. }
      destruct (combine_log_spec fuel (prz_old_log tmp1) (prz_old_log z)
                  (24 * zlen M) (prz_old_log_size z) Hd Hzl)
        as (Hcomb & _).
      { unfold zlen, INT_MAX in *. lia. }
      { rewrite Hdiv. unfold REC_SIZE. rewrite <- HnB. unfold zlen. lia. }
      change (prz_old_log_size tmp1) with (prz_old_log_size tmp).
      rewrite Hsz, Hcomb. cbv beta iota.
      change (0 =? 0) with true. cbn [negb]. cbv iota.
      change (prz_old_log tmp1) with (prz_old_log tmp). rewrite Hlog.
      rewrite ftrace_records_concat by exact HwM.
      fold (zone_records z).
      set (M2 := merge_records M (zone_records z)) in *.
      set (tmp2 := set_old tmp1 (Some (concat M2)) _).
      assert (Hold2 : holds_records M2 tmp2).
      { unfold holds_records.
        change (prz_old_log_size tmp2)
          with (REC_SIZE * (24 * zlen M / REC_SIZE
                            + prz_old_log_size z / REC_SIZE)).
        rewrite Hdiv. unfold REC_SIZE. rewrite <- HnB.
        split.
        { unfold M2, zlen. rewrite merge_records_length. lia. }
        split; [reflexivity|]. split.
        { apply merge_records_whole; assumption. }
        exact He. }
      set (record2 := rec_set_type_id record (prz_type z) (to_size_t i)).
      destruct (IH cxt2 record2 tmp2 M2 eq_refl Hmax
                  ltac:(cbn; rewrite Hcnt1; lia)
                  ltac:(cbn; rewrite Hcnt1; unfold zlen in *; lia)
                  Hold2)
        as (cxt' & t & id & tmp' & Hloop & Hh & Ht & Hf' & Hc' & Hb').
      { cbn [cxt2 cxt1 cxt_ftrace_read_cnt set_fprzs set_read_cnts].
        rewrite Hcnt1. unfold M2, zlen in *. rewrite merge_records_length.
        unfold INT_MAX in *.
        pose proof (Z.mul_div_le (prz_old_log_size z) 24 ltac:(lia)) as Hmd.
        rewrite Nat2Z.inj_add. rewrite HnB.
        clearbody i. clear -Hbytes Hmd Hzmax Hs0. lia. }
      { intros _. exact Hty. }
      { cbn [cxt2 cxt1 cxt_ftrace_read_cnt set_fprzs set_read_cnts].
        rewrite Hcnt1, <- Hdrop1, <- HM'eq. exact Hfuel. }
      cbn [cxt2 cxt1 cxt_ftrace_read_cnt set_fprzs set_read_cnts]
        in Hh, Ht, Hb'.
      rewrite Hcnt1, <- Hdrop1, <- HM'eq in Hh, Ht, Hb'.
      exists cxt', t, id, tmp'. split; [exact Hloop|].
      split; [exact Hh|]. split; [exact Ht|]. split; [exact Hf'|].
      split; [exact Hc' | exact Hb'].
Qed.

Lemma merged_from_perm (zs : list persistent_ram_zone) :
  forall M,
    foldl (fun M z => merge_records M (zone_records z)) M zs
    ≡ₚ M ++ concat (map zone_records zs).
Proof.
  induction zs as [|z zs IH]; intros M; cbn [foldl map concat].
  - rewrite app_nil_r. reflexivity.
  - rewrite IH, merge_records_perm, <- app_assoc. reflexivity.
Qed.

Lemma merged_from_sorted (zs : list persistent_ram_zone) :
  forall M,
    stamps_sorted M -> Forall (fun z => stamps_sorted (zone_records z)) zs ->
    stamps_sorted (foldl (fun M z => merge_records M (zone_records z)) M zs).
Proof.
  induction zs as [|z zs IH]; intros M HM Hzs; cbn [foldl]; [exact HM|].
  inversion Hzs as [|? ? Hz Hrest]; subst.
  apply IH; [|exact Hrest]. apply merge_records_sorted; assumption.
Qed.

Lemma holds_records_log (M : list (list Z)) (tmp : persistent_ram_zone) :
  holds_records M tmp -> M <> [] -> prz_old_log tmp = Some (concat M).
Proof.
  intros (_ & Hlog & Hw & _) Hne.
  destruct (prz_old_log tmp) as [l|]; cbn in Hlog; [congruence|].
  destruct M as [|c M]; [contradiction|].
  inversion Hw as [|? ? Hc _]; subst.
  destruct c; [discriminate Hc | discriminate Hlog].
Qed.

Lemma read_dmesg_loop_done (henv : hdr_env) (fuel n : nat)
    (cxt : ramoops_context) (record : pstore_record)
    (prz : option persistent_ram_zone) (hl : Z) :
  cxt_max_dump_cnt cxt <= cxt_dump_read_cnt cxt ->
  read_dmesg_loop henv fuel n cxt record prz hl = Some (cxt, record, prz, hl).
Proof.
  intros Hd.
  destruct n; cbn [read_dmesg_loop];
    destruct (Z.ltb_spec (cxt_dump_read_cnt cxt) (cxt_max_dump_cnt cxt));
    try lia; reflexivity.
Qed.

(** X24.  with [RAMOOPS_FLAG_FTRACE_PER_CPU], once the dmesg zones have been
    read and in a context without console and pmsg zones,
    [ramoops_pstore_read] returns one FTRACE record with id 0 for all the
    per-CPU ftrace zones together, when [kmalloc] hands out a block [blk]
    for the record buffer.  Its text is every whole record of the old logs
    of all zones, merged zone after zone by time stamp; the value returned
    is the size of that text.  The text lies at the front of the buffer;
    the byte behind it is not written (ECC is off, so no NUL is stored)
    and the buffer ends as [kmalloc] left it.  So the record is a
    rearrangement of the records of all zones, and it is in time-stamp
    order when the log of every zone is. *)
Theorem read_merges_cpu_traces (henv : hdr_env) (fuel : nat)
    (cxt : ramoops_context) (record : pstore_record)
    (zs : list persistent_ram_zone) (blk : list Z) :
  Z.land (cxt_flags cxt) RAMOOPS_FLAG_FTRACE_PER_CPU <> 0 ->
  cxt_fprzs cxt = Some zs -> Forall ftrace_zone zs ->
  cxt_max_ftrace_cnt cxt = zlen zs -> zlen zs < 2 ^ 31 ->
  cxt_ftrace_read_cnt cxt = 0 ->
  cxt_max_dump_cnt cxt <= cxt_dump_read_cnt cxt ->
  cxt_cprz cxt = None -> cxt_mprz cxt = None ->
  merged_records zs <> [] ->
  ram_kmalloc henv (24 * zlen (merged_records zs) + 1) = Some blk ->
  24 * zlen (merged_records zs) + 1 <= zlen blk ->
  (length zs + length (merged_records zs) < fuel)%nat ->
  exists cxt' record',
    ramoops_pstore_read henv fuel cxt record
    = Some (cxt', 24 * zlen (merged_records zs), record') /\
    rec_buf record'
    = Some (concat (merged_records zs)
            ++ zdrop (24 * zlen (merged_records zs)) blk) /\
    rec_type record' = PSTORE_TYPE_FTRACE /\ rec_id record' = 0 /\
    cxt_ftrace_read_cnt cxt' = zlen zs /\
    merged_records zs ≡ₚ concat (map zone_records zs) /\
    (Forall (fun z => stamps_sorted (zone_records z)) zs ->
     stamps_sorted (merged_records zs)).
Proof.
  intros Hflag Hf Hzs Hmax Hlen Hcnt Hdump Hc Hm Hne Hk Hblk Hfuel.
  assert (Hflag' :
    (Z.land (cxt_flags cxt) RAMOOPS_FLAG_FTRACE_PER_CPU =? 0) = false)
    by (apply Z.eqb_neq; exact Hflag).
  assert (Hperm : merged_records zs ≡ₚ concat (map zone_records zs))
    by (unfold merged_records; rewrite merged_from_perm; reflexivity).
  assert (Hsorted : Forall (fun z => stamps_sorted (zone_records z)) zs ->
                    stamps_sorted (merged_records zs)).
  { intros H. apply merged_from_sorted; [|exact H]. constructor. }
  assert (Hempty : holds_records [] zeroed_zone).
  { split; [reflexivity|]. split; [reflexivity|].
    split; [constructor | reflexivity]. }
  assert (Hloop : forall c r,
            cxt_fprzs c = Some zs -> cxt_max_ftrace_cnt c = zlen zs ->
            cxt_ftrace_read_cnt c = 0 ->
            exists cxt' t id tmp',
              read_ftrace_loop fuel fuel c r zeroed_zone
              = Some (cxt', rec_set_type_id r t id, tmp', 0) /\
              holds_records (merged_records zs) tmp' /\
              t = PSTORE_TYPE_FTRACE /\
              cxt_ftrace_read_cnt cxt' = zlen zs /\
              24 * zlen (merged_records zs) <= zlen zs * INT_MAX).
  { intros c r Hcf Hcm Hcc.
    destruct (read_ftrace_loop_spec fuel zs Hzs Hlen fuel c r zeroed_zone []
                Hcf Hcm ltac:(rewrite Hcc; unfold zlen; lia)
                ltac:(rewrite Hcc; lia) Hempty
                ltac:(rewrite Hcc; unfold zlen, INT_MAX; cbn [length]; lia)
                ltac:(intros H; contradiction H; reflexivity))
      as (cxt' & t & id & tmp' & Hl & Hh & Ht & _ & Hc' & Hb').
    { rewrite Hcc. change (Z.to_nat 0) with 0%nat. rewrite drop_0.
      fold (merged_records zs). lia. }
    rewrite Hcc in Hh, Ht, Hb'. change (Z.to_nat 0) with 0%nat in Hh, Ht, Hb'.
    rewrite drop_0 in Hh, Ht, Hb'. fold (merged_records zs) in Hh, Ht, Hb'.
    exists cxt', t, id, tmp'. split; [exact Hl|]. split; [exact Hh|].
    split; [exact (Ht Hne)|]. split; [exact Hc' | exact Hb']. }
  unfold ramoops_pstore_read.
  rewrite read_dmesg_loop_done by exact Hdump.
  cbv beta iota zeta. cbn [prz_ok negb].
  destruct (cxt_console_read_cnt cxt =? 0);
    repeat (progress
      (cbn [prz_ok negb is_null cxt_console_read_cnt cxt_pmsg_read_cnt
            cxt_ftrace_read_cnt cxt_cprz cxt_mprz cxt_fprzs cxt_flags
            set_dprzs set_cprz set_mprz set_fprzs set_read_cnts
            ramoops_get_next_single];
       rewrite ?Hc, ?Hm, ?Hflag'; cbv beta iota));
    destruct (cxt_pmsg_read_cnt cxt =? 0);
    repeat (progress
      (cbn [prz_ok negb is_null cxt_console_read_cnt cxt_pmsg_read_cnt
            cxt_ftrace_read_cnt cxt_cprz cxt_mprz cxt_fprzs cxt_flags
            set_dprzs set_cprz set_mprz set_fprzs set_read_cnts
            ramoops_get_next_single];
       rewrite ?Hc, ?Hm, ?Hflag'; cbv beta iota)).
  all: match goal with
       | |- context [read_ftrace_loop _ _ ?c ?r zeroed_zone] =>
         destruct (Hloop c r Hf Hmax Hcnt)
           as (cxt' & t & id & tmp' & Hl & Hh & Ht & Hc' & Hb')
       end.
  all: rewrite Hl; cbv beta iota; change (0 =? 0) with true;
       cbn [negb]; cbv beta iota.
  all: subst t; destruct Hh as (Hsz & Hlog & Hw & He).
  all: pose proof (holds_records_log _ _
                     (conj Hsz (conj Hlog (conj Hw He))) Hne) as Hsome.
  all: assert (Hnotice : forall len,
                 persistent_ram_ecc_string tmp' len = (0, []))
         by (intros len; unfold persistent_ram_ecc_string; rewrite He;
             reflexivity).
  all: assert (Hpos : 0 < zlen (merged_records zs))
         by (destruct (merged_records zs);
             [contradiction | unfold zlen; cbn [length]; lia]).
  all: assert (Hbound : 24 * zlen (merged_records zs) < 2 ^ 62)
         by (unfold INT_MAX in Hb'; nia).
  all: assert (Hbytes : zlen (concat (merged_records zs))
                        = 24 * zlen (merged_records zs))
         by (unfold zlen; rewrite length_concat_whole by exact Hw; lia).
  all: unfold prz_ok, persistent_ram_old_size, persistent_ram_old;
       rewrite !Hnotice, Hsz, Hsome; cbn [fst snd];
       change (to_size_t 0) with 0; rewrite !Z.add_0_r, Z.sub_0_r;
       rewrite (to_size_t_small (24 * zlen (merged_records zs))) by lia;
       rewrite (to_long_small (24 * zlen (merged_records zs))) by lia;
       rewrite (to_size_t_small (24 * zlen (merged_records zs) + 1)) by lia.
  all: destruct (Z.eqb_spec (24 * zlen (merged_records zs)) 0); [lia|];
       cbn [negb]; cbv iota.
  all: rewrite Hk;
       destruct (Z.ltb_spec (24 * zlen (merged_records zs)) 0); [lia|];
       destruct (Z.ltb_spec (zlen blk)
                   (24 * zlen (merged_records zs) + 1)); [lia|];
       change (0 <? 0) with false; cbn [orb first_record]; cbv beta iota.
  all: change (zdrop 0 (concat (merged_records zs)))
         with (concat (merged_records zs));
       rewrite read_buffer_no_ecc by (first [exact Hbytes | lia]);
       unfold list_inserts at 1; cbn [foldr].
  all: eexists; eexists; split; [reflexivity|];
       split; [cbn [rec_set_buf rec_buf]; unfold text_in_block;
               rewrite Hbytes; reflexivity|];
       split; [reflexivity|]; split; [reflexivity|];
       split; [exact Hc'|]; split; [exact Hperm | exact Hsorted].
Qed.

(** The logs [cpu0_log] (stamps 1 and 4 behind one stray byte) and
    [cpu1_log] (stamps 2 and 3) are read as one record of 96 bytes with
    the stamps 1, 2, 3, 4; the 97th byte of the block is still 0x6b. *)
Lemma read_merges_cpu_traces_witness :
  exists cxt' record',
    ramoops_pstore_read no_hdr_env 10 two_cpu_traces blank_record
    = Some (cxt', 96, record') /\
    rec_buf record'
    = Some (stamped 1 ++ stamped 2 ++ stamped 3 ++ stamped 4 ++ [107]).
Proof.
  destruct (read_merges_cpu_traces no_hdr_env 10 two_cpu_traces blank_record
              [ftrace_zone_with cpu0_log; ftrace_zone_with cpu1_log]
              (replicate 97 107))
    as (cxt' & record' & Hr & Hb & _).
  - vm_compute. discriminate.
  - reflexivity.
  - repeat constructor; vm_compute; discriminate.
  - reflexivity.
  - vm_compute. reflexivity.
  - reflexivity.
  - vm_compute. discriminate.
  - reflexivity.
  - reflexivity.
  - vm_compute. discriminate.
  - reflexivity.
  - vm_compute. discriminate.
  - vm_compute. lia.
  - exists cxt', record'. split; [exact Hr | exact Hb].
Defined.

(** ** The console record and the ECC notice *)

Lemma ecc_string_measure z :
  (persistent_ram_ecc_string z 0).1 = zlen (ecc_notice z).
Proof.
  unfold persistent_ram_ecc_string, ecc_notice.
  destruct (ecc_size (prz_ecc_info z) =? 0); reflexivity.
Qed.

Lemma drop_zlen_all (l blk : list Z) :
  zlen blk <= zlen l -> zdrop (zlen l) blk = [].
Proof.
  intros H. unfold zdrop, zlen in *. apply drop_ge. lia.
Qed.

Lemma ecc_string_fill z :
  zlen (ecc_notice z) < 2 ^ 62 ->
  (persistent_ram_ecc_string z (to_size_t (zlen (ecc_notice z) + 1))).2
  = notice_stored z.
Proof.
  intros Hn. unfold persistent_ram_ecc_string, notice_stored, ecc_notice in *.
  destruct (ecc_size (prz_ecc_info z) =? 0); [reflexivity|].
  cbn [snd]. unfold snprintf_out.
  set (text := bytes_of_string (ecc_notice_text z)) in *.
  assert (H0 : 0 <= zlen text) by (unfold zlen; lia).
  rewrite to_size_t_small by lia.
  destruct (Z.eqb_spec (zlen text + 1) 0); [lia|].
  replace (zlen text + 1 - 1) with (zlen text) by lia.
  unfold ztake, zlen. rewrite Nat2Z.id, firstn_all. reflexivity.
Qed.

Lemma notice_stored_length z :
  zlen (notice_stored z) <= zlen (ecc_notice z) + 1.
Proof.
  unfold notice_stored, zlen.
  destruct (ecc_size (prz_ecc_info z) =? 0); cbn [length];
    rewrite ?length_app; cbn [length]; lia.
Qed.

(** The buffer [ramoops_pstore_read] returns: the text and what
    [persistent_ram_ecc_string] stored behind it at the front of the
    block, the rest of the block as [kmalloc] left it. *)
Lemma read_buffer_with_notice (src out blk : list Z) (size : Z) :
  zlen src = size -> size + zlen out <= zlen blk ->
  list_inserts (Z.to_nat size) out (memcpy_at blk 0 src size)
  = text_in_block (src ++ out) blk.
Proof.
  intros Hs Hb.
  rewrite (read_buffer_no_ecc src blk size Hs) by (unfold zlen in *; lia).
  unfold text_in_block, zdrop, zlen in *.
  replace (Z.to_nat size) with (length src + 0)%nat by lia.
  rewrite list_inserts_app_r.
  rewrite list_inserts_splice by (rewrite length_drop; lia).
  cbn [take app Nat.add]. rewrite drop_drop, !Nat2Z.id, length_app.
  rewrite <- app_assoc. reflexivity.
Qed.

(** X25.  the console record and its ECC notice.  Once the dmesg zones have
    been read, the first [ramoops_pstore_read] returns the old log of the
    console zone as a CONSOLE record with id 0, when [kmalloc] hands out a
    block [blk] for the record buffer.  The value returned is the size of
    the log and [ecc_notice_size] is the length of the notice of
    [persistent_ram_ecc_string].  With ECC on the buffer holds the log,
    the notice and one NUL; with ECC off it holds the log and nothing is
    stored behind it, so the byte after the log is as [kmalloc] left it.
    The console read cursor is advanced to 1 and the zone itself is left
    as it was. *)
Theorem read_console_with_ecc_notice (henv : hdr_env) (fuel : nat)
    (cxt : ramoops_context) (record : pstore_record)
    (z : persistent_ram_zone) (log blk : list Z) :
  cxt_max_dump_cnt cxt <= cxt_dump_read_cnt cxt ->
  cxt_console_read_cnt cxt = 0 -> cxt_cprz cxt = Some z ->
  prz_type z = PSTORE_TYPE_CONSOLE ->
  prz_old_log z = Some log -> zlen log = prz_old_log_size z ->
  0 < prz_old_log_size z <= INT_MAX -> zlen (ecc_notice z) <= INT_MAX ->
  ram_kmalloc henv (prz_old_log_size z + zlen (ecc_notice z) + 1) = Some blk ->
  zlen blk = prz_old_log_size z + zlen (ecc_notice z) + 1 ->
  exists cxt' record',
    ramoops_pstore_read henv fuel cxt record
    = Some (cxt', prz_old_log_size z, record') /\
    (ecc_size (prz_ecc_info z) <> 0 ->
     rec_buf record' = Some (log ++ ecc_notice z ++ [0])) /\
    (ecc_size (prz_ecc_info z) = 0 ->
     rec_buf record' = Some (log ++ zdrop (zlen log) blk)) /\
    rec_ecc_notice_size record' = zlen (ecc_notice z) /\
    rec_type record' = PSTORE_TYPE_CONSOLE /\ rec_id record' = 0 /\
    cxt_console_read_cnt cxt' = 1 /\ cxt_cprz cxt' = Some z.
Proof.
  intros Hdump Hcc Hc Hty Hlog Hlen Hsize Hnotice Hk Hblk.
  unfold INT_MAX in *.
  assert (Hn0 : 0 <= zlen (ecc_notice z)) by (unfold zlen; lia).
  assert (Hok : prz_ok (Some z) = true).
  { unfold prz_ok, persistent_ram_old_size. rewrite ecc_string_measure.
    rewrite to_size_t_small by lia.
    destruct (Z.eqb_spec (prz_old_log_size z + zlen (ecc_notice z)) 0);
      [lia | reflexivity]. }
  assert (Hnext : forall r,
            ramoops_get_next_single fuel (Some z) r
            = Some (Some z, Some z,
                    rec_set_type_id r PSTORE_TYPE_CONSOLE 0)).
  { intros r. unfold ramoops_get_next_single, next_prz. rewrite Hty.
    change (PSTORE_TYPE_CONSOLE =? PSTORE_TYPE_DMESG) with false. cbv iota.
    unfold persistent_ram_old_size.
    destruct (Z.eqb_spec (prz_old_log_size z) 0); [lia|].
    rewrite Hty. reflexivity. }
  pose proof (notice_stored_length z) as Hout.
  unfold ramoops_pstore_read.
  rewrite read_dmesg_loop_done by exact Hdump.
  cbv beta iota zeta. cbn [prz_ok negb].
  rewrite Hcc. change (0 =? 0) with true. cbv iota.
  change (cxt_cprz (set_read_cnts cxt (cxt_dump_read_cnt cxt) (to_uint (0 + 1))
                      (cxt_ftrace_read_cnt cxt) (cxt_pmsg_read_cnt cxt)))
    with (cxt_cprz cxt).
  rewrite Hc, Hnext. cbv beta iota.
  repeat (rewrite Hok; cbn [negb]; cbv beta iota).
  change (0 =? 0) with true. cbn [negb]. cbv iota.
  unfold persistent_ram_old_size, persistent_ram_old.
  rewrite !ecc_string_measure, Hlog.
  change (to_size_t 0) with 0. rewrite Z.sub_0_r.
  rewrite (to_long_small (prz_old_log_size z)) by lia.
  rewrite (to_size_t_small (prz_old_log_size z + zlen (ecc_notice z) + 1))
    by lia.
  rewrite Hk.
  destruct (Z.ltb_spec (prz_old_log_size z) 0); [lia|].
  destruct (Z.ltb_spec (zlen blk)
              (prz_old_log_size z + zlen (ecc_notice z) + 1)); [lia|].
  change (0 <? 0) with false. cbn [orb first_record]. cbv beta iota.
  change (zdrop 0 log) with log.
  rewrite (ecc_string_fill z ltac:(lia)).
  rewrite (read_buffer_with_notice log (notice_stored z) blk
             (prz_old_log_size z) Hlen ltac:(lia)).
  eexists. eexists. split; [reflexivity|].
  cbn [rec_set_buf rec_buf rec_ecc_notice_size rec_type rec_id
       rec_set_type_id rec_set_time].
  split; [|split].
  - intros Hon. apply Z.eqb_neq in Hon.
    unfold text_in_block, notice_stored in *. rewrite Hon in *.
    rewrite drop_zlen_all, app_nil_r; [reflexivity|].
    unfold zlen in *. rewrite !length_app in *. cbn [length] in *. lia.
  - intros Hoff. apply Z.eqb_eq in Hoff.
    unfold text_in_block, notice_stored. rewrite Hoff, app_nil_r.
    reflexivity.
  - repeat split; reflexivity.
Qed.

(** The zone [console_zone_ecc]: its two bytes come back followed by the
    notice of three corrected bytes. *)
Lemma read_console_with_ecc_notice_witness :
  exists cxt' record',
    ramoops_pstore_read no_hdr_env 1 console_ecc_cxt blank_record
    = Some (cxt', 2, record') /\
    rec_buf record'
    = Some ([104; 105]
            ++ bytes_of_string
                 (newline +:+ "ECC: 3 Corrected bytes, 0 unrecoverable blocks"
                  +:+ newline)
            ++ [0]) /\
    rec_ecc_notice_size record' = 48.
Proof.
  destruct (read_console_with_ecc_notice no_hdr_env 1 console_ecc_cxt
              blank_record console_zone_ecc [104; 105] (replicate 51 107))
    as (cxt' & record' & Hr & Hb & _ & Hn & _).
  - vm_compute. discriminate.
  - reflexivity.
  - reflexivity.
  - reflexivity.
  - reflexivity.
  - reflexivity.
  - vm_compute. split; [reflexivity | discriminate].
  - vm_compute. discriminate.
  - reflexivity.
  - reflexivity.
  - exists cxt', record'. split; [exact Hr|].
    split; [apply Hb; vm_compute; discriminate | exact Hn].
Defined.
